(** * pipeline_final.py: a shallow embedding of the cleaning pipeline

    The program is a pandas pipeline.  A table (DataFrame) is modelled
    column-wise, as pandas stores it: an ordered association list from column
    names to columns (Series), every column a list of cells.  A cell is a
    missing value, an integer, a finite float, a text, a timestamp or one of
    the two infinite floats.

    Scope of the model:
    - finite numbers are exact: an int64 is a [Z], a finite float64 a
      rational [Q]; the two infinite floats are cells of their own, [Inf],
      which no integer cast accepts.  The rounding of float64 and the
      overflow of int64 are not computed: a statement that depends on the
      exact value of a number bounds it by 2^53, below which both types
      hold every integer exactly;
    - every missing marker (NaN, None, NaT, <NA>) is the one cell [NA];
      a table read from CSV holds NaN, whose text form is "nan";
    - texts are ASCII: [upper] leaves the other characters alone;
    - the row labels (the pandas index) are not modelled: every operation of
      the program that aligns two columns aligns columns of one and the same
      frame, so alignment is by position;
    - a raised exception is the result [None];
    - pandas is the library from version 1.5 on and before 3.0: a row with a
      missing group key gets a missing value from [transform], a [transform]
      with a function of Python gives a column without entries when no row
      has a complete key, and [astype(str)] turns NaN into the text "nan".

    The parts of pandas whose precise behaviour belongs to the installed
    library version are the fields of the class [Pandas]. *)

From Stdlib Require Import List ZArith QArith Qround String Ascii Bool Lia Arith.
From Stdlib Require Import DecimalString Lqa.
Import ListNotations.

Set Implicit Arguments.
Open Scope string_scope.
Open Scope list_scope.

(** ** Errors: a raised exception is [None] *)

Definition bind {A B : Type} (m : option A) (f : A -> option B) : option B :=
  match m with
  | Some a => f a
  | None => None
  end.

Notation "x <- m ;; k" := (bind m (fun x => k))
  (at level 61, m at next level, right associativity).

Fixpoint mapM {A B : Type} (f : A -> option B) (l : list A) : option (list B) :=
  match l with
  | [] => Some []
  | a :: l' => b <- f a ;; bs <- mapM f l' ;; Some (b :: bs)
  end.

(** ** Cells *)

Inductive cell : Type :=
| NA
| Int (z : Z)
| Float (q : Q)
| Str (s : string)
| Time (ns : Z)
| Inf (negative : bool).

Definition Series := list cell.

Definition isna (c : cell) : bool :=
  match c with
  | NA => true
  | _ => false
  end.

(** The numeric value of a cell of a numeric column. *)
Definition num_of (c : cell) : option Q :=
  match c with
  | Int z => Some (inject_Z z)
  | Float q => Some q
  | _ => None
  end.

(** Equality of two cells as [drop_duplicates], [groupby] and [merge] see
    it: missing equals missing, numbers are compared by value. *)
Definition cell_eqb (a b : cell) : bool :=
  match a, b with
  | NA, NA => true
  | Str s, Str t => String.eqb s t
  | Time s, Time t => Z.eqb s t
  | Inf a, Inf b => Bool.eqb a b
  | (Int _ | Float _), (Int _ | Float _) =>
      match num_of a, num_of b with
      | Some p, Some q => Qeq_bool p q
      | _, _ => false
      end
  | _, _ => false
  end.

Fixpoint row_eqb (r s : list cell) : bool :=
  match r, s with
  | [], [] => true
  | a :: r', b :: s' => cell_eqb a b && row_eqb r' s'
  | _, _ => false
  end.

(** ** Texts: [str.strip] and [str.upper] *)

(** Python's whitespace, on ASCII: TAB, LF, VT, FF, CR, FS, GS, RS, US and
    the space. *)
Definition is_space (c : ascii) : bool :=
  let n := nat_of_ascii c in
  (((9 <=? n) && (n <=? 13)) || ((28 <=? n) && (n <=? 32)))%nat.

Definition is_digit (c : ascii) : bool :=
  let n := nat_of_ascii c in
  ((48 <=? n) && (n <=? 57))%nat.

Fixpoint all_space (s : string) : bool :=
  match s with
  | EmptyString => true
  | String c s' => is_space c && all_space s'
  end.

Fixpoint lstrip (s : string) : string :=
  match s with
  | EmptyString => EmptyString
  | String c s' => if is_space c then lstrip s' else s
  end.

Fixpoint rstrip (s : string) : string :=
  match s with
  | EmptyString => EmptyString
  | String c s' => if all_space s then EmptyString else String c (rstrip s')
  end.

Definition strip (s : string) : string := rstrip (lstrip s).

Definition upper_char (c : ascii) : ascii :=
  let n := nat_of_ascii c in
  if ((97 <=? n) && (n <=? 122))%nat then ascii_of_nat (n - 32) else c.

Fixpoint upper (s : string) : string :=
  match s with
  | EmptyString => EmptyString
  | String c s' => String (upper_char c) (upper s')
  end.

(** ** The calendar *)

Local Open Scope Z_scope.

Definition is_leap (y : Z) : bool :=
  ((y mod 4 =? 0) && negb (y mod 100 =? 0)) || (y mod 400 =? 0).

Definition days_in_month (y m : Z) : Z :=
  if m =? 2 then (if is_leap y then 29 else 28)
  else if (m =? 4) || (m =? 6) || (m =? 9) || (m =? 11) then 30
  else 31.

(** [datetime(year, month, day)] accepts exactly these triples. *)
Definition valid_date (y m d : Z) : bool :=
  (1 <=? y) && (y <=? 9999) && (1 <=? m) && (m <=? 12) &&
  (1 <=? d) && (d <=? days_in_month y m).

(** Days from 1970-01-01 to the given date of the proleptic Gregorian
    calendar. *)
Definition days_from_civil (y m d : Z) : Z :=
  let y' := if m <=? 2 then y - 1 else y in
  let era := y' / 400 in
  let yoe := y' - era * 400 in
  let mp := if 2 <? m then m - 3 else m + 9 in
  let doy := (153 * mp + 2) / 5 + d - 1 in
  let doe := yoe * 365 + yoe / 4 - yoe / 100 + doy in
  era * 146097 + doe - 719468.

(** The year of the day with the given number ([Timestamp.year]). *)
Definition year_of_days (days : Z) : Z :=
  let z := days + 719468 in
  let era := z / 146097 in
  let doe := z - era * 146097 in
  let yoe := (doe - doe / 1460 + doe / 36524 - doe / 146096) / 365 in
  let doy := doe - (365 * yoe + yoe / 4 - yoe / 100) in
  let mp := (5 * doy + 2) / 153 in
  let m := if mp <? 10 then mp + 3 else mp - 9 in
  if m <=? 2 then yoe + era * 400 + 1 else yoe + era * 400.

Definition ns_per_day : Z := 86400 * 1000000000.

Definition year_of (c : cell) : option Z :=
  match c with
  | Time ns => Some (year_of_days (ns / ns_per_day))
  | _ => None
  end.

(** ** What belongs to the installed pandas *)

Class Pandas : Type := {
  (** [str(x)] of a float64 *)
  float_repr : Q -> string;
  (** [str(x)] of a timestamp, given in nanoseconds *)
  time_repr : Z -> string;
  (** [pd.to_numeric] on one text: its value, or [None] when the text is no
      finite number *)
  numeric_of_str : string -> option Q;
  (** [pd.to_numeric] on one text that it reads as an infinity ("inf",
      "-Infinity", "1e999", ...): whether it is the negative one *)
  infinite_of_str : string -> option bool;
  (** [pd.to_datetime(x, unit="ms", errors="coerce")] on one cell *)
  to_datetime_ms : cell -> cell;
  (** whether midnight of the day with this number is in the range of
      [pd.Timestamp] (from 1677 to 2262 with nanosecond resolution, wider
      from pandas 2 on) *)
  ts_in_range : Z -> bool;
  ts_in_range_modern : forall d,
    days_from_civil 1678 1 1 <= d <= days_from_civil 2261 12 31 ->
    ts_in_range d = true
}.

Local Close Scope Z_scope.

(** ** Scalar normalizers *)

Section Normalizers.
Context {P : Pandas}.

(** [str(x)], as [astype(str)] and [str(s)] apply it. *)
Definition str_of (c : cell) : string :=
  match c with
  | NA => "nan"
  | Int z => NilZero.string_of_int (Z.to_int z)
  | Float q => float_repr q
  | Str s => s
  | Time ns => time_repr ns
  | Inf negative => if negative then "-inf" else "inf"
  end.

(** [pd.to_numeric(x, errors="coerce")] on one cell.  No column of a table
    read from CSV holds a timestamp. *)
Definition to_numeric (c : cell) : cell :=
  match c with
  | NA => NA
  | Int z => Int z
  | Float q => Float q
  | Inf negative => Inf negative
  | Str s => match infinite_of_str s with
             | Some negative => Inf negative
             | None => match numeric_of_str s with
                       | Some q => Float q
                       | None => NA
                       end
             end
  | Time _ => NA
  end.

(** [pd.to_numeric(x)]: a text that is no number raises ValueError. *)
Definition to_numeric_raise (c : cell) : option cell :=
  match c with
  | Str s => match infinite_of_str s with
             | Some negative => Some (Inf negative)
             | None => match numeric_of_str s with
                       | Some q => Some (Float q)
                       | None => None
                       end
             end
  | Time _ => None
  | _ => Some c
  end.

Definition fillna (v : cell) (s : Series) : Series :=
  map (fun c => if isna c then v else c) s.

(** [s.fillna(t)] and [s.where(s.notna(), t)] with a column [t] of the same
    frame: an entry that [t] has no counterpart for stays as it is. *)
Fixpoint fillna_with (s t : Series) : Series :=
  match s, t with
  | c :: s', v :: t' => (if isna c then v else c) :: fillna_with s' t'
  | _, _ => s
  end.

(** Truncation towards zero: [int(x)] and [astype(int)] on a float. *)
Definition Qtruncate (q : Q) : Z :=
  if Qle_bool 0 q then Qfloor q else Qceiling q.

Definition is_integral (q : Q) : bool :=
  Z.eqb (Z.rem (Qnum q) (Z.pos (Qden q))) 0.

(** [int(x)] on a scalar: a missing value raises ValueError, an infinite one
    OverflowError. *)
Definition int_of (c : cell) : option Z :=
  match c with
  | Int z => Some z
  | Float q => Some (Qtruncate q)
  | _ => None
  end.

(** [astype(int)]: a missing and an infinite value raise. *)
Definition astype_int (s : Series) : option Series :=
  mapM (fun c => z <- int_of c ;; Some (Int z)) s.

(** [astype("Int64")], the nullable integers: missing stays missing, a float
    with a fractional part and an infinite float raise TypeError. *)
Definition astype_Int64 (s : Series) : option Series :=
  mapM (fun c => match c with
                 | NA => Some NA
                 | Int z => Some (Int z)
                 | Float q => if is_integral q then Some (Int (Qtruncate q)) else None
                 | _ => None
                 end) s.

Definition safe_int_cast (series : Series) (fill_value : option Z) : option Series :=
  let s := map to_numeric series in
  let s := match fill_value with
           | Some f => fillna (Int f) s
           | None => s
           end in
  if existsb isna s then
    s <- astype_Int64 s ;;
    if negb (existsb isna s) then astype_int s
    else astype_int (fillna (Int 0%Z) s)
  else astype_int s.

(** *** The date parser *)

Fixpoint span_digits (s : string) : string * string :=
  match s with
  | EmptyString => (EmptyString, EmptyString)
  | String c s' =>
      if is_digit c then let (d, r) := span_digits s' in (String c d, r)
      else (EmptyString, s)
  end.

Definition slash : ascii := "/"%char.

(** [re.match(r"\s*(\d{1,2})/(\d{1,2})/(\d{2,4})\s*$", s)]: the three
    groups.  Each greedy run is forced: a blank is no digit, a digit is
    neither a slash nor a blank, so no backtracking finds another split. *)
Definition match_mdY (s : string) : option (string * string * string) :=
  let (a, r1) := span_digits (lstrip s) in
  if ((1 <=? String.length a) && (String.length a <=? 2))%nat then
    match r1 with
    | String c r2 =>
        if Ascii.eqb c slash then
          let (b, r3) := span_digits r2 in
          if ((1 <=? String.length b) && (String.length b <=? 2))%nat then
            match r3 with
            | String c' r4 =>
                if Ascii.eqb c' slash then
                  let (y, r5) := span_digits r4 in
                  if ((2 <=? String.length y) && (String.length y <=? 4))%nat
                     && all_space r5
                  then Some (a, b, y) else None
                else None
            | EmptyString => None
            end
          else None
        else None
    | EmptyString => None
    end
  else None.

(** [int(g)] on a run of digits. *)
Fixpoint int_of_digits_acc (acc : Z) (s : string) : Z :=
  match s with
  | EmptyString => acc
  | String c s' => int_of_digits_acc (10 * acc + Z.of_nat (nat_of_ascii c - 48)) s'
  end.

Definition int_of_digits (s : string) : Z := int_of_digits_acc 0 s.

(** [pd.Timestamp(year=y, month=m, day=d)]; [None] when it raises. *)
Definition Timestamp (y m d : Z) : option cell :=
  if valid_date y m d && ts_in_range (days_from_civil y m d)
  then Some (Time (days_from_civil y m d * ns_per_day)%Z)
  else None.

Definition resolve_year (pivot yy : Z) : Z :=
  if (yy <? 100)%Z then (if (yy <? pivot)%Z then 2000 + yy else 1900 + yy)%Z
  else yy.

Definition parse_mdY (pivot : Z) (s : cell) : cell :=
  if isna s then NA
  else
    match match_mdY (str_of s) with
    | None => NA
    | Some (g1, g2, g3) =>
        let mm := int_of_digits g1 in
        let dd := int_of_digits g2 in
        let yy := resolve_year pivot (int_of_digits g3) in
        match Timestamp yy mm dd with
        | Some t => t
        | None => NA
        end
    end.

End Normalizers.

(** ** Columns *)

Fixpoint filter_mask {A : Type} (mask : list bool) (s : list A) : list A :=
  match mask, s with
  | b :: mask', c :: s' => if b then c :: filter_mask mask' s' else filter_mask mask' s'
  | _, _ => []
  end.

Fixpoint map2 {A B C : Type} (f : A -> B -> C) (s : list A) (t : list B) : list C :=
  match s, t with
  | a :: s', b :: t' => f a b :: map2 f s' t'
  | _, _ => []
  end.

(** [s == "text"]: a comparison with a missing value is False. *)
Definition eq_str (t : string) (c : cell) : bool :=
  match c with
  | Str s => String.eqb s t
  | _ => false
  end.

(** [s.replace(old, new)]: the cells equal to [old] become [new]. *)
Definition replace_value (old new : cell) (c : cell) : cell :=
  if cell_eqb c old then new else c.

(** The [.str] accessor gives a missing value on a cell that is no text. *)
Definition str_strip (c : cell) : cell :=
  match c with
  | Str s => Str (strip s)
  | _ => NA
  end.

Definition str_upper (c : cell) : cell :=
  match c with
  | Str s => Str (upper s)
  | _ => NA
  end.

(** The numbers of a column, missing values skipped. *)
Fixpoint numbers (s : Series) : list Q :=
  match s with
  | [] => []
  | c :: s' => match num_of c with
               | Some q => q :: numbers s'
               | None => numbers s'
               end
  end.

(** [s.max()], missing values skipped; [None] is NaN. *)
Fixpoint Qmax_list (l : list Q) : option Q :=
  match l with
  | [] => None
  | q :: l' => match Qmax_list l' with
               | Some m => Some (if Qle_bool q m then m else q)
               | None => Some q
               end
  end.

Fixpoint Qinsert (q : Q) (l : list Q) : list Q :=
  match l with
  | [] => [q]
  | p :: l' => if Qle_bool q p then q :: l else p :: Qinsert q l'
  end.

Fixpoint Qsort (l : list Q) : list Q :=
  match l with
  | [] => []
  | q :: l' => Qinsert q (Qsort l')
  end.

(** The entries that are the infinity of the given sign. *)
Definition count_inf (negative : bool) (s : Series) : nat :=
  List.length (filter (cell_eqb (Inf negative)) s).

(** The entry at place [i] of the sorted numbers of a column that has [lo]
    entries of minus infinity, the sorted finite numbers [l], and entries of
    plus infinity after them. *)
Definition ext_nth (lo : nat) (l : list Q) (i : nat) : cell :=
  if (i <? lo)%nat then Inf true
  else match nth_error l (i - lo) with
       | Some q => Float q
       | None => Inf false
       end.

(** The mean of two floats: the two infinities of opposite sign give NaN. *)
Definition mean2 (a b : cell) : cell :=
  match a, b with
  | Float p, Float q => Float (Qred ((p + q) / 2))
  | Inf x, Inf y => if Bool.eqb x y then Inf x else NA
  | Inf x, Float _ => Inf x
  | Float _, Inf y => Inf y
  | _, _ => NA
  end.

(** [s.median()]: the middle value of the sorted numbers, the mean of the
    two middle values when their count is even, NaN when there is none.  An
    infinite entry is a number here. *)
Definition median (s : Series) : cell :=
  let l := Qsort (numbers s) in
  let lo := count_inf true s in
  let n := (lo + List.length l + count_inf false s)%nat in
  match n with
  | O => NA
  | _ => if Nat.even n
         then mean2 (ext_nth lo l (n / 2 - 1)) (ext_nth lo l (n / 2))
         else ext_nth lo l (n / 2)
  end.

Definition Qcount (q : Q) (l : list Q) : nat :=
  List.length (filter (Qeq_bool q) l).

(** The values of the sorted list [l'] that occur [best] times in [l], each
    once. *)
Fixpoint mode_go (l : list Q) (best : nat) (seen l' : list Q) : list Q :=
  match l' with
  | [] => []
  | q :: r =>
      if (Qcount q l =? best)%nat && negb (existsb (Qeq_bool q) seen)
      then q :: mode_go l best (q :: seen) r
      else mode_go l best seen r
  end.

(** [s.mode(dropna=True)]: the most frequent values, sorted; an infinite
    entry is a value as the others, minus infinity the least and plus
    infinity the greatest. *)
Definition mode (s : Series) : Series :=
  let l := Qsort (numbers s) in
  let lo := count_inf true s in
  let hi := count_inf false s in
  let best := Nat.max lo (Nat.max hi (fold_right (fun q m => Nat.max (Qcount q l) m) O l)) in
  (if (0 <? lo)%nat && (lo =? best)%nat then [Inf true] else [])
  ++ map Float (mode_go l best [] l)
  ++ (if (0 <? hi)%nat && (hi =? best)%nat then [Inf false] else []).

Definition first_mode (series : Series) : cell :=
  match mode series with
  | c :: _ => c
  | [] => NA
  end.

(** [s.dropna().max()] of a numeric column; NaN when there is no number. *)
Definition max_of (s : Series) : cell :=
  if (0 <? count_inf false s)%nat then Inf false
  else match Qmax_list (numbers s) with
       | Some m => Float m
       | None => if (0 <? count_inf true s)%nat then Inf true else NA
       end.

(** ** Tables *)

Definition DataFrame := list (string * Series).

Definition columns (df : DataFrame) : list string := map fst df.

Definition has_col (df : DataFrame) (c : string) : bool :=
  existsb (String.eqb c) (columns df).

(** [df[c]]: KeyError when there is no such column. *)
Fixpoint get_col (df : DataFrame) (c : string) : option Series :=
  match df with
  | [] => None
  | (c', s) :: df' => if String.eqb c c' then Some s else get_col df' c
  end.

(** [df[c] = s]: the column is replaced where it stands, a new column goes
    last. *)
Fixpoint set_col (c : string) (s : Series) (df : DataFrame) : DataFrame :=
  match df with
  | [] => [(c, s)]
  | (c', s') :: df' =>
      if String.eqb c c' then (c, s) :: df' else (c', s') :: set_col c s df'
  end.

(** [df.drop(columns=names, errors="ignore")] *)
Definition drop_cols (names : list string) (df : DataFrame) : DataFrame :=
  filter (fun cs => negb (existsb (String.eqb (fst cs)) names)) df.

(** [df.drop(columns=names)]: KeyError when a name is no column. *)
Definition drop_cols_raise (names : list string) (df : DataFrame) : option DataFrame :=
  if forallb (has_col df) names then Some (drop_cols names df) else None.

(** [df.rename(columns={old: new})] *)
Definition rename_col (old new : string) (df : DataFrame) : DataFrame :=
  map (fun cs => (if String.eqb (fst cs) old then new else fst cs, snd cs)) df.

(** [df[names]]: KeyError when a name is no column. *)
Definition select_cols (names : list string) (df : DataFrame) : option DataFrame :=
  mapM (fun c => s <- get_col df c ;; Some (c, s)) names.

Definition nrows (df : DataFrame) : nat :=
  match df with
  | [] => O
  | (_, s) :: _ => List.length s
  end.

Definition row_of (cols : list Series) (i : nat) : list cell :=
  map (fun s => nth i s NA) cols.

Definition rows_of (n : nat) (cols : list Series) : list (list cell) :=
  map (row_of cols) (seq 0 n).

Definition rows (df : DataFrame) : list (list cell) :=
  rows_of (nrows df) (map snd df).

(** [df[mask]] *)
Definition filter_rows (mask : list bool) (df : DataFrame) : DataFrame :=
  map (fun cs => (fst cs, filter_mask mask (snd cs))) df.

(** The rows [drop_duplicates] keeps: a row goes when an earlier row equals
    it. *)
Fixpoint keep_first (seen : list (list cell)) (l : list (list cell)) : list bool :=
  match l with
  | [] => []
  | r :: l' => negb (existsb (row_eqb r) seen) :: keep_first (r :: seen) l'
  end.

Definition drop_duplicates (df : DataFrame) : DataFrame :=
  filter_rows (keep_first [] (rows df)) df.

(** [df.drop_duplicates(subset=names)] *)
Definition drop_duplicates_subset (names : list string) (df : DataFrame) : option DataFrame :=
  keys <- mapM (get_col df) names ;;
  Some (filter_rows (keep_first [] (rows_of (nrows df) keys)) df).

(** [df.dropna(how="all")] *)
Definition dropna_all (df : DataFrame) : DataFrame :=
  filter_rows (map (fun r => negb (forallb isna r)) (rows df)) df.

(** [pd.concat([df, pd.DataFrame([vals])], ignore_index=True)] for a row
    [vals] that names columns of [df] only: the other columns of the new row
    are missing. *)
Definition append_row (vals : DataFrame) (df : DataFrame) : DataFrame :=
  map (fun cs => (fst cs,
                  snd cs ++ match get_col vals (fst cs) with
                            | Some v => v
                            | None => [NA]
                            end)) df.

(** [df.groupby(by)[target].transform(agg)] with the name of an aggregation
    ("median"): every row gets the aggregate of its group, the rows with the
    same key; a row with a missing key is in no group and gets a missing
    value. *)
Definition groupby_transform (df : DataFrame) (by_cols : list string)
    (target_col : string) (agg : Series -> cell) : option Series :=
  keys <- mapM (get_col df) by_cols ;;
  target <- get_col df target_col ;;
  let ks := rows_of (nrows df) keys in
  Some (map (fun k =>
               if existsb isna k then NA
               else agg (filter_mask (map (row_eqb k) ks) target)) ks).

(** [transform] with a function of Python calls it on every group and
    concatenates the results; the rows without a group are put back as
    missing values.  When no row has a complete key there is no group and
    nothing to put back to: the result is the column without entries. *)
Definition group_mode_transform (df : DataFrame) (by_cols : list string)
    (target_col : string) : option Series :=
  keys <- mapM (get_col df) by_cols ;;
  modes <- groupby_transform df by_cols target_col first_mode ;;
  if forallb (existsb isna) (rows_of (nrows df) keys) then Some [] else Some modes.

(** ** Cleaning the base tables *)

Section Preparers.
Context {P : Pandas}.

(** [s.astype(str).str.strip().str.upper()] on one cell *)
Definition normalize_text (c : cell) : cell :=
  str_upper (str_strip (Str (str_of c))).

(** [prepare_categoria] and [prepare_marca] are the same text but for the
    name of the label column, "categoria" or "marca". *)
Definition prepare_dimension (label : string) (dim : DataFrame) : option (DataFrame * Z) :=
  lab <- get_col dim label ;;
  let dim := set_col label (map normalize_text lab) dim in
  ids <- get_col dim "id" ;;
  lab <- get_col dim label ;;
  let mask_empty :=
    map2 (fun i l => isna i && eq_str "" (str_strip (replace_value (Str "NAN") (Str "") l)))
         ids lab in
  dim <- drop_duplicates_subset ["id"; label] (filter_rows (map negb mask_empty) dim) ;;
  lab <- get_col dim label ;;
  ids <- get_col dim "id" ;;
  let is_other := map (eq_str "OTHER") lab in
  res <-
    (if existsb (fun b => b) is_other then
       nums <- mapM to_numeric_raise (filter_mask is_other ids) ;;
       first <- hd_error nums ;;
       other_id <- int_of first ;;
       Some (dim, other_id)
     else
       let max_id := max_of (map to_numeric ids) in
       max_id <- (if isna max_id then Some 0%Z else int_of max_id) ;;
       let other_id := (max_id + 1)%Z in
       Some (append_row [("id", [Int other_id]); (label, [Str "OTHER"])] dim, other_id)) ;;
  let (dim, other_id) := res : DataFrame * Z in
  ids <- get_col dim "id" ;;
  ids <- safe_int_cast (map to_numeric ids) (Some other_id) ;;
  Some (set_col "id" ids dim, other_id).

Definition prepare_categoria : DataFrame -> option (DataFrame * Z) :=
  prepare_dimension "categoria".

Definition prepare_marca : DataFrame -> option (DataFrame * Z) :=
  prepare_dimension "marca".

(** [df[col] = f(df[col])] *)
Definition update_col (col : string) (f : Series -> Series) (df : DataFrame) : option DataFrame :=
  s <- get_col df col ;;
  Some (set_col col (f s) df).

(** [if col in df.columns: df[col] = f(df[col])] *)
Definition update_if_present (col : string) (f : Series -> Series) (df : DataFrame) : DataFrame :=
  match get_col df col with
  | Some s => set_col col (f s) df
  | None => df
  end.

(** [prepare_producto], stage by stage, under the comments of the source. *)

(** "Tipos": the numeric columns that are there are coerced. *)
Definition coerce_numeric (producto : DataFrame) : DataFrame :=
  fold_left (fun df col => update_if_present col (map to_numeric) df)
            ["categoria_id"; "marca_id"; "volumen"; "precio"] producto.

(** "Eliminar (categoria_id NaN) & (volumen == 0)" *)
Definition drop_unusable (producto : DataFrame) : option DataFrame :=
  cat <- get_col producto "categoria_id" ;;
  vol <- get_col producto "volumen" ;;
  let mask_drop := map2 (fun c v => isna c && cell_eqb v (Int 0)) cat (fillna (Int 0) vol) in
  Some (filter_rows (map negb mask_drop) producto).

(** "Imputación de precio" *)
Definition impute_precio (producto : DataFrame) : option DataFrame :=
  grp_median <- groupby_transform producto ["categoria_id"; "volumen"] "precio" median ;;
  producto <- update_col "precio" (fun s => fillna_with s grp_median) producto ;;
  producto <- update_col "precio" (map (replace_value (Int 0) NA)) producto ;;
  vol_median <- groupby_transform producto ["volumen"] "precio" median ;;
  producto <- update_col "precio" (fun s => fillna_with s vol_median) producto ;;
  update_col "precio" (fun s => fillna (median s) s) producto.

(** "BOTH NaN -> OTHER" *)
Definition both_na_to_other (other_brand_id other_cat_id : Z) (producto : DataFrame)
    : option DataFrame :=
  marca <- get_col producto "marca_id" ;;
  cat <- get_col producto "categoria_id" ;;
  let mask_both_na := map2 (fun m c => isna m && isna c) marca cat in
  let assign v := map2 (fun (b : bool) c => if b then v else c) mask_both_na in
  if existsb (fun b => b) mask_both_na
  then Some (set_col "categoria_id" (assign (Int other_cat_id) cat)
               (set_col "marca_id" (assign (Int other_brand_id) marca) producto))
  else Some producto.

(** "categoria_id por moda (marca_id, volumen) y luego OTHER" *)
Definition categoria_by_mode (other_cat_id : Z) (producto : DataFrame) : option DataFrame :=
  modes <- group_mode_transform producto ["marca_id"; "volumen"] "categoria_id" ;;
  producto <- update_col "categoria_id" (fun s => fillna_with s modes) producto ;;
  update_col "categoria_id" (fillna (Int other_cat_id)) producto.

(** "Casts y normalizaciones finales" *)
Definition final_casts (other_brand_id other_cat_id : Z) (producto : DataFrame)
    : option DataFrame :=
  ids <- get_col producto "id" ;;
  ids <- safe_int_cast (map to_numeric ids) None ;;
  let producto := set_col "id" ids producto in
  cat <- get_col producto "categoria_id" ;;
  cat <- safe_int_cast (map to_numeric cat) (Some other_cat_id) ;;
  let producto := set_col "categoria_id" cat producto in
  marca <- get_col producto "marca_id" ;;
  marca <- safe_int_cast (map to_numeric marca) (Some other_brand_id) ;;
  let producto := set_col "marca_id" marca producto in
  update_col "nombre" (map normalize_text) producto.

Definition prepare_producto (producto : DataFrame) (other_brand_id other_cat_id : Z)
    : option DataFrame :=
  let producto := drop_duplicates producto in
  let producto := coerce_numeric producto in
  producto <- drop_unusable producto ;;
  producto <- impute_precio producto ;;
  producto <- both_na_to_other other_brand_id other_cat_id producto ;;
  producto <- categoria_by_mode other_cat_id producto ;;
  final_casts other_brand_id other_cat_id producto.

(** [s.astype(str).str.upper()] on one cell *)
Definition upper_text (c : cell) : cell := str_upper (Str (str_of c)).

(** [np.floor((today - t).dt.days / 365.25)] on one cell, [today] being the
    day number of today's midnight: 365.25 is 1461/4.  A difference with
    anything but a timestamp raises. *)
Definition age_years (today : Z) (c : cell) : option cell :=
  match c with
  | NA => Some NA
  | Time ns =>
      let days := ((today * ns_per_day - ns) / ns_per_day)%Z in
      Some (Int ((4 * days) / 1461)%Z)
  | _ => None
  end.

(** [(today - s).dt]: the accessor is there for a column of timestamps.  A
    column without entries, and a column with a timestamp beyond the range
    of the nanoseconds (pandas 2 makes such timestamps), is a column of
    objects, and the accessor raises AttributeError. *)
Definition datetime_column (s : Series) : bool :=
  negb (List.length s =? 0)%nat &&
  forallb (fun c => match c with
                    | Time ns => ((- 2 ^ 63 <? ns) && (ns <? 2 ^ 63))%Z
                    | _ => true
                    end) s.

Definition full_name (nombre apellido : cell) : cell :=
  let part c := str_strip (Str (str_of (if isna c then Str "" else c))) in
  match part nombre, part apellido with
  | Str n, Str a => str_strip (Str (n ++ " " ++ a)%string)
  | _, _ => NA
  end.

Definition prepare_cliente (today : Z) (cliente : DataFrame) (parse_mdY_func : cell -> cell)
    : option DataFrame :=
  let cliente := drop_cols ["nit"; "puesto"; "correo"; "telefono"] cliente in
  let cliente := dropna_all (drop_duplicates cliente) in
  (* full name *)
  nombre <- get_col cliente "nombre" ;;
  apellido <- get_col cliente "apellido" ;;
  let cliente := set_col "nombre" (map2 full_name nombre apellido) cliente in
  let cliente := drop_cols ["apellido"] cliente in
  (* id *)
  ids <- get_col cliente "id" ;;
  ids <- safe_int_cast (map to_numeric ids) (Some 0%Z) ;;
  let cliente := set_col "id" ids cliente in
  (* nacimiento and edad *)
  cliente <- update_col "nacimiento" (map parse_mdY_func) cliente ;;
  nacimiento <- get_col cliente "nacimiento" ;;
  edad <- (if datetime_column nacimiento then mapM (age_years today) nacimiento
           else None) ;;
  let cliente := set_col "edad" edad cliente in
  (* upper case *)
  cliente <- update_col "nombre" (map upper_text) cliente ;;
  let cliente := update_if_present "genero" (map upper_text) cliente in
  let cliente :=
    update_if_present "genero"
      (map (fun c => replace_value (Str "M") (Str "MALE")
                       (replace_value (Str "F") (Str "FEMALE") c))) cliente in
  let cliente := update_if_present "empresa" (map upper_text) cliente in
  let cliente := update_if_present "idioma" (map upper_text) cliente in
  let cliente := update_if_present "ciudad" (map upper_text) cliente in
  Some cliente.

Definition prepare_events (events : DataFrame) : option DataFrame :=
  ts <- get_col events "timestamp" ;;
  let events := set_col "fecha" (map to_datetime_ms ts) events in
  let events := drop_cols ["timestamp"] events in
  let events := drop_duplicates events in
  let events := drop_cols ["transactionid"] events in
  update_col "event" (map upper_text) events.

End Preparers.

(** ** Joins *)

(** The rows of the right table whose key equals [k]. *)
Definition matches (k : list cell) (rkeys : list (list cell)) : list nat :=
  filter_mask (map (row_eqb k) rkeys) (seq 0 (List.length rkeys)).

(** The row pairs of a left join: every left row with each of its matches,
    or once with none.  A missing key matches a missing key. *)
Definition left_pairs (lkeys rkeys : list (list cell)) : list (option nat * option nat) :=
  flat_map (fun ik : nat * list cell =>
              match matches (snd ik) rkeys with
              | [] => [(Some (fst ik), None)]
              | js => map (fun j => (Some (fst ik), Some j)) js
              end)
           (combine (seq 0 (List.length lkeys)) lkeys).

(** The right rows that no left row matches; an outer join adds them. *)
Definition right_only (lkeys rkeys : list (list cell)) : list (option nat * option nat) :=
  flat_map (fun jk : nat * list cell =>
              if existsb (row_eqb (snd jk)) lkeys then []
              else [(None, Some (fst jk))])
           (combine (seq 0 (List.length rkeys)) rkeys).

Definition take (s : Series) (oi : option nat) : cell :=
  match oi with
  | Some i => nth i s NA
  | None => NA
  end.

(** The value of the [_merge] column. *)
Definition indicator (p : option nat * option nat) : cell :=
  match p with
  | (Some _, Some _) => Str "both"
  | (Some _, None) => Str "left_only"
  | (None, _) => Str "right_only"
  end.

(** A column name that both tables have gets the suffix of its side. *)
Definition suffixed (other : list string) (suffix c : string) : string :=
  if existsb (String.eqb c) other then (c ++ suffix)%string else c.

(** [pd.merge(left, right, left_on=l, right_on=r, how="left",
    indicator=True)] for two different key names.  The indicator refuses a
    table that has a column "_merge" already. *)
Definition merge_left (left right : DataFrame) (left_on right_on : string)
    : option DataFrame :=
  lk <- get_col left left_on ;;
  rk <- get_col right right_on ;;
  if has_col left "_merge" || has_col right "_merge" then None
  else
    let pairs := left_pairs (map (fun c => [c]) lk) (map (fun c => [c]) rk) in
    Some (map (fun cs => (suffixed (columns right) "_x" (fst cs),
                          map (fun p => take (snd cs) (fst p)) pairs)) left
          ++ map (fun cs => (suffixed (columns left) "_y" (fst cs),
                             map (fun p => take (snd cs) (snd p)) pairs)) right
          ++ [("_merge", map indicator pairs)]).

(** [pd.merge(left, right, on=keys, how="outer")]: the key columns are
    shared and stand where the left table has them, the other columns of the
    right table follow.  pandas sorts the rows of an outer join by key; the
    model keeps the left rows in their order, followed by the unmatched right
    rows. *)
Definition merge_outer (left right : DataFrame) (keys : list string) : option DataFrame :=
  lk <- mapM (get_col left) keys ;;
  rk <- mapM (get_col right) keys ;;
  let lkeys := rows_of (nrows left) lk in
  let rkeys := rows_of (nrows right) rk in
  let pairs := left_pairs lkeys rkeys ++ right_only lkeys rkeys in
  let is_key c := existsb (String.eqb c) keys in
  let others (df : DataFrame) := filter (fun c => negb (is_key c)) (columns df) in
  Some (map (fun cs =>
               if is_key (fst cs)
               then (fst cs,
                     map (fun p => match fst p with
                                   | Some i => nth i (snd cs) NA
                                   | None => match get_col right (fst cs) with
                                             | Some t => take t (snd p)
                                             | None => NA
                                             end
                                   end) pairs)
               else (suffixed (others right) "_x" (fst cs),
                     map (fun p => take (snd cs) (fst p)) pairs)) left
        ++ map (fun cs => (suffixed (others left) "_y" (fst cs),
                           map (fun p => take (snd cs) (snd p)) pairs))
               (filter (fun cs => negb (is_key (fst cs))) right)).

Definition merge_events_with_entities (events producto_enriq cliente : DataFrame)
    : option (DataFrame * DataFrame * DataFrame) :=
  events1 <- merge_left events producto_enriq "itemid" "id" ;;
  events1 <- drop_cols_raise ["id"] events1 ;;
  let events1 := rename_col "_merge" "event+producto" events1 in
  events2 <- merge_left events cliente "visitorid" "id" ;;
  events2 <- drop_cols_raise ["id"] events2 ;;
  let events2 := rename_col "_merge" "event+cliente" events2 in
  let cols_to_use :=
    filter (fun c => negb (existsb (String.eqb c) (columns events1))
                     || existsb (String.eqb c) ["visitorid"; "itemid"])
           (columns events2) in
  right <- select_cols cols_to_use events2 ;;
  eventos3 <- merge_outer events1 right ["visitorid"; "itemid"] ;;
  Some (events1, events2, eventos3).

(** ** A library instance for the concrete runs

    It gives the library's answers on the cells the concrete runs below hold:
    integers, floats with an integer value, texts that are decimal integers
    or spell an infinity, and millisecond epochs in range.  Elsewhere the
    answer is arbitrary. *)

Definition decimal_of_str (s : string) : option Q :=
  match s with
  | EmptyString => None
  | String c s' =>
      let (sign, body) := if Ascii.eqb c "-"%char then ((-1)%Z, s') else (1%Z, s) in
      let (d, r) := span_digits body in
      match d, r with
      | String _ _, EmptyString => Some (inject_Z (sign * int_of_digits d))
      | _, _ => None
      end
  end.

(** The spellings of the infinities, in any case of the letters. *)
Definition infinity_of_str (s : string) : option bool :=
  let u := upper s in
  if existsb (String.eqb u) ["INF"; "+INF"; "INFINITY"; "+INFINITY"] then Some false
  else if existsb (String.eqb u) ["-INF"; "-INFINITY"] then Some true
  else None.

Definition ns_range (d : Z) : bool :=
  (days_from_civil 1677 9 22 <=? d)%Z && (d <=? days_from_civil 2262 4 11)%Z.

Definition run_pandas : Pandas.
Proof.
  refine {| float_repr := fun q =>
              (NilZero.string_of_int (Z.to_int (Qtruncate q)) ++ ".0")%string;
            time_repr := fun _ => "";
            numeric_of_str := decimal_of_str;
            infinite_of_str := infinity_of_str;
            to_datetime_ms := fun c => match c with
                                       | Int z => Time (z * 1000000)%Z
                                       | _ => NA
                                       end;
            ts_in_range := ns_range;
            ts_in_range_modern := _ |}.
  unfold ns_range. intros d.
  change (days_from_civil 1678 1 1) with (-106650)%Z.
  change (days_from_civil 2261 12 31) with 106650%Z.
  change (days_from_civil 1677 9 22) with (-106751)%Z.
  change (days_from_civil 2262 4 11) with 106751%Z.
  intros H. apply andb_true_iff. split; apply Z.leb_le; lia.
Defined.

(** ** Vocabulary of the statements *)

(** An infinite float. *)
Definition infinite (c : cell) : bool :=
  match c with
  | Inf _ => true
  | _ => false
  end.

(** Integers that float64 and int64 both hold exactly, as they hold the
    next integer. *)
Definition exact_int (z : Z) : Prop := (Z.abs z < 2 ^ 53)%Z.

(** A cell whose number, if it is one, is of a magnitude below 2^53. *)
Definition exact_cell (c : cell) : Prop :=
  forall q, num_of c = Some q -> (inject_Z (- 2 ^ 53) < q < inject_Z (2 ^ 53))%Q.

(** What [safe_int_cast] makes of one cell: the filler (0 when there is
    none) where the coerced cell is missing, its integer part elsewhere. *)
Definition cast_cell (fill_value : option Z) (c : cell) : option Z :=
  match c with
  | NA => Some (match fill_value with Some f => f | None => 0%Z end)
  | _ => int_of c
  end.

Fixpoint all_digits (s : string) : bool :=
  match s with
  | EmptyString => true
  | String c s' => is_digit c && all_digits s'
  end.

(** The text [t] is [g1/g2/g3], three runs of digits of the lengths the
    pattern [\d{1,2}/\d{1,2}/\d{2,4}] allows. *)
Definition mdY_form (t g1 g2 g3 : string) : Prop :=
  t = (g1 ++ "/" ++ g2 ++ "/" ++ g3)%string /\
  all_digits g1 = true /\ all_digits g2 = true /\ all_digits g3 = true /\
  (1 <= String.length g1 <= 2)%nat /\ (1 <= String.length g2 <= 2)%nat /\
  (2 <= String.length g3 <= 4)%nat.

(** The value of [genero] in the words of the specification: the text of
    the input in upper case, "F" and "M" spelled out. *)
Definition genero_text {P : Pandas} (c : cell) : cell :=
  let u := upper (str_of c) in
  if String.eqb u "F" then Str "FEMALE"
  else if String.eqb u "M" then Str "MALE"
  else Str u.

(** Whole days from the timestamp [ns] to today's midnight. *)
Definition days_until (today ns : Z) : Z :=
  ((today * ns_per_day - ns) / ns_per_day)%Z.

Definition days_per_year : Q := 36525 # 100.

(** A table is rectangular: its columns have one length. *)
Definition rectangular (df : DataFrame) : Prop :=
  forall cs, In cs df -> List.length (snd cs) = nrows df.

(** Every entry of the column [c] of the table is read as a number that
    float64 and int64 hold exactly, as an infinity, or as no number. *)
Definition exact_column {P : Pandas} (df : DataFrame) (c : string) : Prop :=
  forall s, get_col df c = Some s -> forall x, In x s -> exact_cell (to_numeric x).

Definition exact_ids {P : Pandas} (df : DataFrame) : Prop := exact_column df "id".

(** What the dimension preparers guarantee about OTHER, for the table [dim]
    with label column [label], the returned table [out] and the returned
    sentinel [other_id].  [nonempty] marks the rows of [dim] that have an id
    or a label, [first] the rows among them that no earlier one equals in id
    and normalised label; [kept] selects the rows that both masks leave. *)
Definition sentinel_spec {P : Pandas} (label : string) (dim out : DataFrame)
    (other_id : Z) : Prop :=
  exists (ids0 labs0 ids labs : Series),
    let texts := map normalize_text labs0 in
    let nonempty :=
      map2 (fun i l =>
              negb (isna i && eq_str "" (str_strip (replace_value (Str "NAN") (Str "") l))))
           ids0 texts in
    let first :=
      keep_first [] (rows_of (List.length (filter_mask nonempty ids0))
                             [filter_mask nonempty ids0; filter_mask nonempty texts]) in
    let kept (s : Series) := filter_mask first (filter_mask nonempty s) in
    let ids1 := kept ids0 in
    let labs1 := kept texts in
    get_col dim "id" = Some ids0 /\
    get_col dim label = Some labs0 /\
    get_col out "id" = Some ids /\
    get_col out label = Some labs /\
    List.length ids = List.length labs /\
    (* there is an OTHER row, and the sentinel is the id of the first one *)
    (exists i, (i < List.length labs)%nat /\
       nth i labs NA = Str "OTHER" /\ nth i ids NA = Int other_id /\
       forall j, (j < i)%nat -> eq_str "OTHER" (nth j labs NA) = false) /\
    (* the id of a kept row: its integer part, the sentinel when missing *)
    (forall j, (j < List.length ids1)%nat ->
       exists z, nth j ids NA = Int z /\
         cast_cell (Some other_id) (to_numeric (nth j ids1 NA)) = Some z) /\
    (* no OTHER among the labels: one is appended, with a new greatest id *)
    (existsb (eq_str "OTHER") labs1 = false ->
       labs = labs1 ++ [Str "OTHER"] /\
       ids = firstn (List.length ids1) ids ++ [Int other_id] /\
       forall q, In q (numbers (map to_numeric ids0)) -> (Qtruncate q < other_id)%Z) /\
    (* OTHER among the labels: every such row stays, none is added *)
    (existsb (eq_str "OTHER") labs1 = true ->
       labs = labs1 /\ List.length ids = List.length ids1).

(** The claim on OTHER as the specification states it: one row of [out] is
    labelled "OTHER", it carries the sentinel, and no other row has its
    label or its id. *)
Definition unique_other (label : string) (out : DataFrame) (other_id : Z) : Prop :=
  exists ids labs i,
    get_col out "id" = Some ids /\ get_col out label = Some labs /\
    (i < List.length labs)%nat /\
    nth i labs NA = Str "OTHER" /\ nth i ids NA = Int other_id /\
    forall j, (j < List.length labs)%nat -> j <> i ->
      nth j labs NA <> Str "OTHER" /\ nth j ids NA <> Int other_id.

(** No two rows of the table have the same id and the same label. *)
Definition distinct_pairs (label : string) (df : DataFrame) : Prop :=
  forall ids labs, get_col df "id" = Some ids -> get_col df label = Some labs ->
    forall i j, (i < j < List.length ids)%nat ->
      ~ (nth i ids NA = nth j ids NA /\ nth i labs NA = nth j labs NA).

(** Every id of the table is an integer. *)
Definition integer_ids (df : DataFrame) : Prop :=
  forall ids, get_col df "id" = Some ids -> forall c, In c ids -> exists z, c = Int z.

(** A cell is missing or a number with the property [R]. *)
Definition cell_in (R : Q -> Prop) (c : cell) : Prop :=
  c = NA \/ exists q, num_of c = Some q /\ R q.

(** A property of numbers that the mean of two keeps. *)
Definition mean_closed (R : Q -> Prop) : Prop :=
  forall a b m, R a -> R b -> (m == (a + b) / 2)%Q -> R m.

(** Where a foreign key of the cleaned products comes from: the sentinel, or
    the integer part of a number of the raw column [raw]. *)
Definition key_from {P : Pandas} (raw : Series) (sentinel : Z) (c : cell) : Prop :=
  exists z, c = Int z /\
    (z = sentinel \/ exists q, In q (numbers (map to_numeric raw)) /\ z = Qtruncate q).

(** Whether the text [t] ends in [suffix]. *)
Fixpoint has_suffix (suffix t : string) : bool :=
  String.eqb suffix t ||
  match t with
  | EmptyString => false
  | String _ t' => has_suffix suffix t'
  end.

(** The rows without product in the two views built on the events:
    [pairs1] gives, for every row of the Event-Product view, the event and
    the product it pairs (or none); [pairs3] gives, for every row of the
    unified view, the row of the Event-Product view it comes from. *)
Definition left_only_rows (events producto_enriq events1 eventos3 : DataFrame) : Prop :=
  exists (itemid pid : Series) (pairs1 pairs3 : list (option nat * option nat)),
    let prov1 := map indicator pairs1 in
    let prov3 := map (fun p => take prov1 (fst p)) pairs3 in
    get_col events "itemid" = Some itemid /\
    get_col producto_enriq "id" = Some pid /\
    pairs1 = left_pairs (map (fun c => [c]) itemid) (map (fun c => [c]) pid) /\
    In ("event+producto", prov1) events1 /\
    In ("event+producto", prov3) eventos3 /\
    (forall i, (i < List.length itemid)%nat ->
       (forall j, (j < List.length pid)%nat ->
          cell_eqb (nth i itemid NA) (nth j pid NA) = false) ->
       exists k, (k < List.length pairs1)%nat /\
         nth k pairs1 (None, None) = (Some i, None) /\
         nth k prov1 NA = Str "left_only" /\
         exists k3, (k3 < List.length pairs3)%nat /\
           fst (nth k3 pairs3 (None, None)) = Some k /\
           nth k3 prov3 NA = Str "left_only") /\
    (forall c s, In (c, s) producto_enriq -> c <> "id" ->
       let name := suffixed (columns events) "_y" c in
       let s1 := map (fun p => take s (snd p)) pairs1 in
       let s3 := map (fun p => take s1 (fst p)) pairs3 in
       In (name, s1) events1 /\ In (name, s3) eventos3 /\
       forall k, (k < List.length pairs1)%nat -> nth k prov1 NA = Str "left_only" ->
         nth k s1 NA = NA /\
         forall k3, (k3 < List.length pairs3)%nat ->
           fst (nth k3 pairs3 (None, None)) = Some k -> nth k3 s3 NA = NA).

(** ** Concrete tables *)

(** Two raw events that differ in nothing but [transactionid]. *)
Definition events_two_transactions : DataFrame :=
  [("timestamp", [Int 1000; Int 1000]);
   ("visitorid", [Int 1; Int 1]);
   ("event", [Str "view"; Str "view"]);
   ("itemid", [Int 2; Int 2]);
   ("transactionid", [Int 10; Int 11])]%Z.

(** Customers: a duplicated row, an empty row, a row whose birth date does
    not parse and whose gender is missing. *)
Definition cliente_example : DataFrame :=
  [("id", [Int 1; Int 1; NA; Int 3]);
   ("nombre", [Str " ana "; Str " ana "; NA; Str "luis"]);
   ("apellido", [Str "paz"; Str "paz"; NA; NA]);
   ("nacimiento", [Str "1/2/30"; Str "1/2/30"; NA; Str "13/40/2020"]);
   ("genero", [Str "f"; Str "f"; NA; NA]);
   ("correo", [Str "a@x"; Str "a@x"; NA; NA])]%Z.

Definition cliente_example_out : DataFrame :=
  [("id", [Int 1; Int 3]);
   ("nombre", [Str "ANA PAZ"; Str "LUIS"]);
   ("nacimiento", [Time (-1262217600000000000); NA]);
   ("genero", [Str "FEMALE"; Str "NAN"]);
   ("edad", [Int 94; NA])]%Z.

(** Two products with volumen 5: one without category, without brand and
    with price 0, one of category 7 without brand and with price 10. *)
Definition producto_scenario (id1 id2 : Z) (n1 n2 : cell) : DataFrame :=
  [("id", [Int id1; Int id2]);
   ("nombre", [n1; n2]);
   ("volumen", [Int 5; Int 5]);
   ("precio", [Int 0; Int 10]);
   ("categoria_id", [NA; Int 7]);
   ("marca_id", [NA; NA])]%Z.

(** Categories with two rows that normalise to OTHER. *)
Definition categoria_two_others : DataFrame :=
  [("id", [Int 1; Int 2]); ("categoria", [Str "OTHER"; Str " other"])]%Z.

(** Categories with a row that has a label and no id. *)
Definition categoria_missing_id : DataFrame :=
  [("id", [Int 1; NA]); ("categoria", [Str "a"; Str "b"])]%Z.

(** Categories in which the cleaned ids make two rows equal. *)
Definition categoria_repeated : DataFrame :=
  [("id", [Int 1; NA; Int 1]); ("categoria", [Str "OTHER"; Str "A"; Str "A"])]%Z.

Definition categoria_plain : DataFrame :=
  [("id", [Int 1; Int 2]); ("categoria", [Str " a "; Str "b"])]%Z.

Definition categoria_plain_out : DataFrame :=
  [("id", [Int 1; Int 2; Int 3]); ("categoria", [Str "A"; Str "B"; Str "OTHER"])]%Z.

Definition categoria_repeated_out : DataFrame :=
  [("id", [Int 1; Int 1; Int 1]); ("categoria", [Str "OTHER"; Str "A"; Str "A"])]%Z.

(** A product of a category that no category table lists, with price 0. *)
Definition producto_unlisted : DataFrame :=
  [("id", [Int 1]);
   ("nombre", [Str "x"]);
   ("volumen", [Int 5]);
   ("precio", [Int 0]);
   ("categoria_id", [Int 99]);
   ("marca_id", [Int 1])]%Z.

Definition producto_unlisted_out : DataFrame :=
  [("id", [Int 1]);
   ("nombre", [Str "X"]);
   ("volumen", [Int 5]);
   ("precio", [NA]);
   ("categoria_id", [Int 99]);
   ("marca_id", [Int 1])]%Z.

(** Three products of one category and one volumen: the prices -1 and 1, and
    no price. *)
Definition producto_negative : DataFrame :=
  [("id", [Int 1; Int 2; Int 3]);
   ("nombre", [Str "x"; Str "y"; Str "z"]);
   ("volumen", [Int 5; Int 5; Int 5]);
   ("precio", [Int (-1); Int 1; NA]);
   ("categoria_id", [Int 1; Int 1; Int 1]);
   ("marca_id", [Int 1; Int 1; Int 1])]%Z.

Definition producto_negative_out : DataFrame :=
  [("id", [Int 1; Int 2; Int 3]);
   ("nombre", [Str "X"; Str "Y"; Str "Z"]);
   ("volumen", [Int 5; Int 5; Int 5]);
   ("precio", [Int (-1); Int 1; Float 0]);
   ("categoria_id", [Int 1; Int 1; Int 1]);
   ("marca_id", [Int 1; Int 1; Int 1])]%Z.

(** A product whose category is read as an infinity. *)
Definition producto_infinite : DataFrame :=
  [("id", [Int 1]);
   ("nombre", [Str "x"]);
   ("volumen", [Int 5]);
   ("precio", [Int 3]);
   ("categoria_id", [Str "inf"]);
   ("marca_id", [Int 1])]%Z.

Definition producto_scenario_out : DataFrame :=
  [("id", [Int 1; Int 2]);
   ("nombre", [Str "A"; Str "B"]);
   ("volumen", [Int 5; Int 5]);
   ("precio", [Float 10; Int 10]);
   ("categoria_id", [Int 3; Int 7]);
   ("marca_id", [Int 3; Int 3])]%Z.

(** Three events, the second on an item that is no product. *)
Definition events_example : DataFrame :=
  [("visitorid", [Int 1; Int 2; Int 1]);
   ("event", [Str "VIEW"; Str "VIEW"; Str "CART"]);
   ("itemid", [Int 5; Int 6; Int 5]);
   ("fecha", [Time 1; Time 2; Time 3])]%Z.

Definition producto_enriq_example : DataFrame :=
  [("id", [Int 5; Int 7]);
   ("nombre", [Str "P5"; Str "P7"]);
   ("precio", [Int 10; Int 20]);
   ("marca", [Str "M"; Str "N"])]%Z.

Definition cliente_clean_example : DataFrame :=
  [("id", [Int 1; Int 3]);
   ("nombre", [Str "ANA"; Str "BOB"]);
   ("edad", [Int 10; Int 20])]%Z.

Definition events1_example : DataFrame :=
  [("visitorid", [Int 1; Int 2; Int 1]);
   ("event", [Str "VIEW"; Str "VIEW"; Str "CART"]);
   ("itemid", [Int 5; Int 6; Int 5]);
   ("fecha", [Time 1; Time 2; Time 3]);
   ("nombre", [Str "P5"; NA; Str "P5"]);
   ("precio", [Int 10; NA; Int 10]);
   ("marca", [Str "M"; NA; Str "M"]);
   ("event+producto", [Str "both"; Str "left_only"; Str "both"])]%Z.

Definition events2_example : DataFrame :=
  [("visitorid", [Int 1; Int 2; Int 1]);
   ("event", [Str "VIEW"; Str "VIEW"; Str "CART"]);
   ("itemid", [Int 5; Int 6; Int 5]);
   ("fecha", [Time 1; Time 2; Time 3]);
   ("nombre", [Str "ANA"; NA; Str "ANA"]);
   ("edad", [Int 10; NA; Int 10]);
   ("event+cliente", [Str "both"; Str "left_only"; Str "both"])]%Z.

Definition eventos3_example : DataFrame :=
  [("visitorid", [Int 1; Int 1; Int 2; Int 1; Int 1]);
   ("event", [Str "VIEW"; Str "VIEW"; Str "VIEW"; Str "CART"; Str "CART"]);
   ("itemid", [Int 5; Int 5; Int 6; Int 5; Int 5]);
   ("fecha", [Time 1; Time 1; Time 2; Time 3; Time 3]);
   ("nombre", [Str "P5"; Str "P5"; NA; Str "P5"; Str "P5"]);
   ("precio", [Int 10; Int 10; NA; Int 10; Int 10]);
   ("marca", [Str "M"; Str "M"; NA; Str "M"; Str "M"]);
   ("event+producto", [Str "both"; Str "both"; Str "left_only"; Str "both"; Str "both"]);
   ("edad", [Int 10; Int 10; NA; Int 10; Int 10]);
   ("event+cliente", [Str "both"; Str "both"; Str "left_only"; Str "both"; Str "both"])]%Z.


(** A numeric column: every cell is missing or a number. *)
Definition numeric_column (s : Series) : Prop :=
  forall c, In c s -> c = NA \/ exists q, num_of c = Some q.

(** A label that the dimension preparers take for empty: blank, or missing
    (the text "NAN" after the normalisation). *)
Definition blank_label {P : Pandas} (c : cell) : Prop :=
  normalize_text c = Str "" \/ normalize_text c = Str "NAN".

(** Dimension tables for the concrete runs: only empty rows; an OTHER row
    with a numeric text as id. *)
Definition categoria_only_empty : DataFrame :=
  [("id", [NA; NA]); ("categoria", [Str "  "; NA]); ("nota", [Str "x"; NA])].

Definition marca_with_other : DataFrame :=
  [("id", [Int 4; Str "9"; Int 4]); ("marca", [Str "acme"; Str " Other "; Str "ACME"])]%Z.

(** The number of rows that a mask keeps. *)
Definition count_true (mask : list bool) : nat :=
  List.length (filter (fun b : bool => b) mask).

(** ** Enriching the products with the labels of their brand and category *)

Definition enrich_producto_with_marca_categoria (producto marca categoria : DataFrame)
    : option DataFrame :=
  (* producto + marca *)
  tmp <- merge_left producto marca "marca_id" "id" ;;
  producto_m <- drop_cols_raise ["_merge"; "id_y"; "marca_id"] tmp ;;
  (* producto + categoria *)
  tmp <- merge_left producto_m categoria "categoria_id" "id" ;;
  producto_mc <- drop_cols_raise ["_merge"; "id"; "categoria_id"] tmp ;;
  Some (rename_col "id_x" "id" producto_mc).

(** The label of the first row of a dimension table whose id equals the key
    [k]; missing when there is none. *)
Fixpoint lookup_label (ids labs : Series) (k : cell) : cell :=
  match ids, labs with
  | i :: ids', l :: labs' => if cell_eqb k i then l else lookup_label ids' labs' k
  | _, _ => NA
  end.

(** No two entries of the column are equal. *)
Definition distinct_cells (s : Series) : Prop :=
  forall i j, (i < j < List.length s)%nat -> cell_eqb (nth i s NA) (nth j s NA) = false.

(** Every entry of the column is an integer. *)
Definition all_int (s : Series) : Prop :=
  forall c, In c s -> exists z, c = Int z.

(** The text of one part of a customer's name: empty when the part is
    missing, trimmed otherwise. *)
Definition name_text {P : Pandas} (c : cell) : string :=
  if isna c then "" else strip (str_of c).

(** The full name in the words of the docstring: nombre, a blank, apellido;
    trimmed again and in upper case. *)
Definition full_name_text {P : Pandas} (nombre apellido : cell) : cell :=
  Str (upper (strip (name_text nombre ++ " " ++ name_text apellido))).

(** ** The orchestrator

    [run_pipeline] reads five files, cleans and joins the tables, makes the
    output directory and writes eight files.  Reading is a parameter:
    [read_csv path enc] is what [pd.read_csv(path, encoding=enc,
    low_memory=False)] returns, [None] when it raises ([enc] is [None] for
    the call without an encoding).  Writing is recorded: a computation
    carries the effects it has had on the file system, in order, and its
    result, [None] when it raised.  The file system takes every write, and
    a written file holds the table as it is. *)

Inductive effect : Type :=
| Makedirs (path : string)
| ToCsv (path : string) (df : DataFrame)
| Stdout (ids : Z * Z).

Definition IO (A : Type) : Type := (list effect * option A)%type.

Definition io_ret {A : Type} (a : A) : IO A := ([], Some a).

Definition io_bind {A B : Type} (m : IO A) (f : A -> IO B) : IO B :=
  match m with
  | (es, Some a) => let (es', r) := f a in (es ++ es', r)
  | (es, None) => (es, None)
  end.

(** A computation without effects. *)
Definition io_lift {A : Type} (o : option A) : IO A := ([], o).

Definition io_do (e : effect) : IO unit := ([e], Some tt).

Notation "x <~ m ;; k" := (io_bind m (fun x => k))
  (at level 61, m at next level, right associativity).

(** [d[k]] on a dict: KeyError when the key is missing. *)
Fixpoint dict_get (d : list (string * string)) (k : string) : option string :=
  match d with
  | [] => None
  | (k', v) :: d' => if String.eqb k k' then Some v else dict_get d' k
  end.

Definition starts_with_sep (s : string) : bool :=
  match s with
  | String c _ => Ascii.eqb c slash
  | EmptyString => false
  end.

Fixpoint ends_with_sep (s : string) : bool :=
  match s with
  | EmptyString => false
  | String c EmptyString => Ascii.eqb c slash
  | String _ s' => ends_with_sep s'
  end.

(** [os.path.join(a, b)] with the separator "/". *)
Definition path_join (a b : string) : string :=
  if starts_with_sep b || String.eqb a "" then b
  else if ends_with_sep a then (a ++ b)%string
  else (a ++ "/" ++ b)%string.

(** The dict that [run_pipeline] returns. *)
Record Result : Type := {
  res_categoria : DataFrame;
  res_marca : DataFrame;
  res_producto : DataFrame;
  res_cliente : DataFrame;
  res_events : DataFrame;
  res_events1 : DataFrame;
  res_events2 : DataFrame;
  res_eventos3 : DataFrame;
  (** "OTHER_IDS": the sentinels of categoria and of marca *)
  res_OTHER_IDS : Z * Z;
  res_save_dir : string
}.

Section Pipeline.
Context {P : Pandas}.
Variable read_csv : string -> option string -> option DataFrame.
(** the day number of [pd.Timestamp.today().normalize()] *)
Variable today : Z.

Definition load_csv_robusto (path : string) : option DataFrame :=
  fold_right (fun enc rest => match read_csv path (Some enc) with
                              | Some df => Some df
                              | None => rest
                              end)
             (read_csv path None)
             ["utf-8"; "latin-1"; "cp1252"].

Definition run_pipeline (files : list (string * string)) (parse_mdY_func : cell -> cell)
    (save_dir : string) : IO Result :=
  (* 1) load *)
  categoria <~ io_lift (path <- dict_get files "categoria" ;; load_csv_robusto path) ;;
  cliente <~ io_lift (path <- dict_get files "cliente" ;; load_csv_robusto path) ;;
  events <~ io_lift (path <- dict_get files "events" ;; load_csv_robusto path) ;;
  marca <~ io_lift (path <- dict_get files "marca" ;; load_csv_robusto path) ;;
  producto <~ io_lift (path <- dict_get files "producto" ;; load_csv_robusto path) ;;
  (* 2) clean *)
  c <~ io_lift (prepare_categoria categoria) ;;
  let (categoria, other_cat_id) := c : DataFrame * Z in
  m <~ io_lift (prepare_marca marca) ;;
  let (marca, other_brand_id) := m : DataFrame * Z in
  producto <~ io_lift (prepare_producto producto other_brand_id other_cat_id) ;;
  cliente <~ io_lift (prepare_cliente today cliente parse_mdY_func) ;;
  events <~ io_lift (prepare_events events) ;;
  (* 3) enrich *)
  producto_enriq <~ io_lift (enrich_producto_with_marca_categoria producto marca categoria) ;;
  (* 4) join *)
  e <~ io_lift (merge_events_with_entities events producto_enriq cliente) ;;
  let '(events1, events2, eventos3) := e : DataFrame * DataFrame * DataFrame in
  (* 5) export *)
  _ <~ io_do (Makedirs save_dir) ;;
  _ <~ io_do (ToCsv (path_join save_dir "cliente.csv") cliente) ;;
  _ <~ io_do (ToCsv (path_join save_dir "categoria.csv") categoria) ;;
  _ <~ io_do (ToCsv (path_join save_dir "marca.csv") marca) ;;
  _ <~ io_do (ToCsv (path_join save_dir "producto.csv") producto_enriq) ;;
  _ <~ io_do (ToCsv (path_join save_dir "evento.csv") events) ;;
  _ <~ io_do (ToCsv (path_join save_dir "eventos_productos.csv") events1) ;;
  _ <~ io_do (ToCsv (path_join save_dir "eventos_clientes.csv") events2) ;;
  _ <~ io_do (ToCsv (path_join save_dir "events_productos_clientes.csv") eventos3) ;;
  io_ret {| res_categoria := categoria;
            res_marca := marca;
            res_producto := producto_enriq;
            res_cliente := cliente;
            res_events := events;
            res_events1 := events1;
            res_events2 := events2;
            res_eventos3 := eventos3;
            res_OTHER_IDS := (other_cat_id, other_brand_id);
            res_save_dir := save_dir |}.

Definition files : list (string * string) :=
  [("categoria", "data/categoria.csv");
   ("cliente", "data/cliente.csv");
   ("events", "data/events.csv");
   ("marca", "data/marca.csv");
   ("producto", "data/producto.csv")].

(** The module's own run: the pipeline on [files], and the sentinels
    printed. *)
Definition main : IO unit :=
  result <~ run_pipeline files (parse_mdY 30) "prueba_dir" ;;
  io_do (Stdout (res_OTHER_IDS result)).

End Pipeline.

(** ** Concrete tables for the runs of the extended properties *)

(** Products in three groups of (marca_id, volumen): a tie of two
    categories, a missing brand, a group without category. *)
Definition producto_groups : DataFrame :=
  [("marca_id", [Int 1; Int 1; NA; Int 1; Int 2]);
   ("volumen", [Int 5; Int 5; Int 5; Int 5; Int 5]);
   ("categoria_id", [Int 7; NA; Int 7; Int 8; NA])]%Z.

(** Products of which the first two are unusable (no category, volumen
    missing or zero) and the last repeats the third. *)
Definition producto_droppable : DataFrame :=
  [("id", [Int 1; Int 2; Int 3; Int 3]);
   ("nombre", [Str " a "; Str "b"; NA; NA]);
   ("volumen", [NA; Int 0; Int 5; Int 5]);
   ("precio", [Int 1; Int 2; Int 3; Int 3]);
   ("categoria_id", [NA; NA; Int 7; Int 7]);
   ("marca_id", [Int 1; Int 1; Int 1; Int 1]);
   ("color", [Str "r"; Str "g"; Str "b"; Str "b"])]%Z.

Definition producto_droppable_out : DataFrame :=
  [("id", [Int 3]);
   ("nombre", [Str "NAN"]);
   ("volumen", [Int 5]);
   ("precio", [Int 3]);
   ("categoria_id", [Int 7]);
   ("marca_id", [Int 1]);
   ("color", [Str "b"])]%Z.

(** Cleaned tables: three products, the last of a category that is not
    listed; two brands; three categories. *)
Definition producto_clean_example : DataFrame :=
  [("id", [Int 10; Int 11; Int 12]);
   ("nombre", [Str "P10"; Str "P11"; Str "P12"]);
   ("categoria_id", [Int 1; Int 3; Int 9]);
   ("marca_id", [Int 3; Int 3; Int 1])]%Z.

Definition marca_clean_example : DataFrame :=
  [("id", [Int 1; Int 3]); ("marca", [Str "ACME"; Str "OTHER"])]%Z.

Definition categoria_clean_example : DataFrame :=
  [("id", [Int 1; Int 2; Int 3]); ("categoria", [Str "A"; Str "B"; Str "OTHER"])]%Z.

Definition producto_enriq_clean_example : DataFrame :=
  [("id", [Int 10; Int 11; Int 12]);
   ("nombre", [Str "P10"; Str "P11"; Str "P12"]);
   ("marca", [Str "OTHER"; Str "OTHER"; Str "ACME"]);
   ("categoria", [Str "A"; Str "OTHER"; NA])]%Z.

(** Products without the column "id". *)
Definition producto_without_id : DataFrame :=
  [("nombre", [Str "P10"]); ("categoria_id", [Int 1]); ("marca_id", [Int 3])]%Z.

(** Events that carry a column "id" of their own. *)
Definition events_with_id : DataFrame :=
  [("id", [Int 1]); ("visitorid", [Int 1]); ("event", [Str "VIEW"]); ("itemid", [Int 5])]%Z.

(** A customer whose two-digit year of birth resolves into the future. *)
Definition cliente_future : DataFrame :=
  [("id", [Int 1]);
   ("nombre", [Str "ana"]);
   ("apellido", [NA]);
   ("nacimiento", [Str "1/2/29"]);
   ("telefono", [Str "555"])]%Z.

Definition cliente_future_out : DataFrame :=
  [("id", [Int 1]);
   ("nombre", [Str "ANA"]);
   ("nacimiento", [Time (21551 * ns_per_day)]);
   ("edad", [Int (-5)])]%Z.

(** Raw tables for a run of the cleaning and the enrichment together. *)
Definition categoria_raw_example : DataFrame :=
  [("id", [Int 1; Int 2]); ("categoria", [Str " a "; Str "b"])]%Z.

Definition marca_raw_example : DataFrame :=
  [("id", [Int 1; Int 3]); ("marca", [Str "acme"; Str "other"])]%Z.

Definition producto_raw_example : DataFrame :=
  [("id", [Int 10; Int 11]);
   ("nombre", [Str "p10"; Str "p11"]);
   ("volumen", [Int 5; Int 5]);
   ("precio", [Int 8; Int 9]);
   ("categoria_id", [Int 1; NA]);
   ("marca_id", [NA; NA])]%Z.

Definition producto_raw_example_out : DataFrame :=
  [("id", [Int 10; Int 11]);
   ("nombre", [Str "P10"; Str "P11"]);
   ("volumen", [Int 5; Int 5]);
   ("precio", [Int 8; Int 9]);
   ("categoria_id", [Int 1; Int 3]);
   ("marca_id", [Int 3; Int 3])]%Z.

(** ** Vocabulary of the unified view *)

(** Two events of one visitor on one item. *)
Definition same_pair (visitorid itemid : Series) (i j : nat) : bool :=
  cell_eqb (nth i visitorid NA) (nth j visitorid NA)
  && cell_eqb (nth i itemid NA) (nth j itemid NA).

(** Of the first [n] events, the number with the visitor and the item of
    event [i]. *)
Definition pair_count (visitorid itemid : Series) (n i : nat) : nat :=
  List.length (filter (same_pair visitorid itemid i) (seq 0 n)).

(** * Properties *)

Local Open Scope nat_scope.

(** ** Generic facts on [option] and lists *)

Lemma bind_Some {A B : Type} (m : option A) (f : A -> option B) (b : B) :
  bind m f = Some b <-> exists a, m = Some a /\ f a = Some b.
Proof.
  destruct m as [a|]; simpl; split.
  - intros H. exists a. auto.
  - intros [a' [Ha Hf]]. inversion Ha. subst. exact Hf.
  - discriminate.
  - intros [a' [Ha _]]. discriminate.
Qed.

Ltac bind_inv H :=
  let a := fresh "x" in
  let Ha := fresh "E" in
  apply bind_Some in H; destruct H as [a [Ha H]].

Lemma mapM_Some_nth {A B : Type} (f : A -> option B) (d : A) (d' : B) :
  forall l out, mapM f l = Some out ->
    List.length out = List.length l /\
    forall i, i < List.length l -> f (nth i l d) = Some (nth i out d').
Proof.
  induction l as [|a l IH]; simpl; intros out H.
  - inversion H. split; [reflexivity | intros i Hi; lia].
  - bind_inv H. bind_inv H. inversion H; subst. destruct (IH _ E0) as [Hl Hn].
    split; [simpl; congruence|].
    intros [|i] Hi; simpl; [assumption | apply Hn; lia].
Qed.

Lemma mapM_total {A B : Type} (f : A -> option B) :
  forall l, (forall a, In a l -> exists b, f a = Some b) ->
    exists out, mapM f l = Some out.
Proof.
  induction l as [|a l IH]; simpl; intros H.
  - eexists; reflexivity.
  - destruct (H a (or_introl eq_refl)) as [b Hb].
    destruct IH as [out Hout]; [intros; apply H; auto|].
    rewrite Hb, Hout. simpl. eexists; reflexivity.
Qed.

Lemma existsb_nth_false {A : Type} (p : A -> bool) (l : list A) (d : A) (i : nat) :
  existsb p l = false -> i < List.length l -> p (nth i l d) = false.
Proof.
  intros H Hi.
  destruct (p (nth i l d)) eqn:E; [|reflexivity].
  assert (existsb p l = true); [|congruence].
  apply existsb_exists. exists (nth i l d). split; [apply nth_In; assumption | assumption].
Qed.

Section ScalarProperties.
Context {P : Pandas}.

(** ** [safe_int_cast] *)

Lemma to_numeric_cases (c : cell) :
  to_numeric c = NA \/ (exists z, to_numeric c = Int z) \/
  (exists q, to_numeric c = Float q) \/ (exists b, to_numeric c = Inf b).
Proof.
  destruct c; simpl; eauto 6.
  destruct (infinite_of_str s); [eauto 6|].
  destruct (numeric_of_str s); eauto 6.
Qed.

Lemma to_numeric_idem (c : cell) : to_numeric (to_numeric c) = to_numeric c.
Proof.
  destruct c; simpl; try reflexivity.
  destruct (infinite_of_str s); [reflexivity|].
  destruct (numeric_of_str s); reflexivity.
Qed.

(** What the coercion leaves is finite or missing exactly when it is not
    infinite. *)
Lemma to_numeric_finite (c : cell) :
  infinite (to_numeric c) = false ->
  to_numeric c = NA \/ exists q, num_of (to_numeric c) = Some q.
Proof.
  destruct (to_numeric_cases c) as [E | [[z E] | [[q E] | [b E]]]]; rewrite E; simpl;
    eauto; discriminate.
Qed.

Lemma astype_int_nth (s out : Series) :
  astype_int s = Some out ->
  List.length out = List.length s /\
  forall i, i < List.length s ->
    exists z, int_of (nth i s NA) = Some z /\ nth i out NA = Int z.
Proof.
  intros H. unfold astype_int in H.
  destruct (mapM_Some_nth _ NA NA _ H) as [Hl Hn].
  split; [assumption|]. intros i Hi. specialize (Hn i Hi).
  bind_inv Hn. inversion Hn. eauto.
Qed.

Lemma astype_Int64_nth (s out : Series) :
  astype_Int64 s = Some out ->
  List.length out = List.length s /\
  forall i, i < List.length s ->
    (nth i s NA = NA /\ nth i out NA = NA) \/
    (exists z, int_of (nth i s NA) = Some z /\ nth i out NA = Int z).
Proof.
  intros H. unfold astype_Int64 in H.
  destruct (mapM_Some_nth _ NA NA _ H) as [Hl Hn].
  split; [assumption|]. intros i Hi. specialize (Hn i Hi).
  destruct (nth i s NA) eqn:E; try discriminate.
  - left. inversion Hn. auto.
  - right. inversion Hn. simpl. eauto.
  - right. destruct (is_integral q); [|discriminate]. inversion Hn. simpl. eauto.
Qed.

Lemma fillna_nth (v : cell) (s : Series) (i : nat) :
  i < List.length s ->
  nth i (fillna v s) NA = if isna (nth i s NA) then v else nth i s NA.
Proof.
  intros Hi. unfold fillna.
  rewrite (nth_indep _ NA (if isna NA then v else NA)) by (rewrite length_map; assumption).
  rewrite (map_nth (fun c => if isna c then v else c)). reflexivity.
Qed.

Lemma fillna_length (v : cell) (s : Series) : List.length (fillna v s) = List.length s.
Proof. apply length_map. Qed.

Lemma map_nth_NA (f : cell -> cell) (s : Series) (i : nat) :
  i < List.length s -> nth i (map f s) NA = f (nth i s NA).
Proof.
  intros Hi. rewrite (nth_indep _ NA (f NA)) by (rewrite length_map; assumption).
  apply map_nth.
Qed.

Lemma safe_int_cast_nth (series out : Series) (fill_value : option Z) :
  safe_int_cast series fill_value = Some out ->
  List.length out = List.length series /\
  forall i, i < List.length series ->
    exists z, cast_cell fill_value (to_numeric (nth i series NA)) = Some z /\
              nth i out NA = Int z.
Proof.
  unfold safe_int_cast. intros H.
  set (s := map to_numeric series) in *.
  assert (Hs : List.length s = List.length series) by apply length_map.
  assert (Hsn : forall i, i < List.length series -> nth i s NA = to_numeric (nth i series NA))
    by (intros; apply map_nth_NA; assumption).
  destruct fill_value as [f|].
  - (* a filler: nothing is missing after fillna *)
    destruct (existsb isna (fillna (Int f) s)) eqn:Ex.
    + exfalso. apply existsb_exists in Ex. destruct Ex as [c [Hin Hc]].
      unfold fillna in Hin. apply in_map_iff in Hin. destruct Hin as [c' [Hc' _]].
      subst c. destruct (isna c') eqn:E'; simpl in Hc; congruence.
    + apply astype_int_nth in H. destruct H as [Hl Hn].
      rewrite fillna_length in Hl, Hn. split; [congruence|].
      intros i Hi. destruct (Hn i ltac:(lia)) as [z [Hz Ho]].
      exists z. split; [|assumption].
      rewrite fillna_nth in Hz by lia. rewrite Hsn in Hz by assumption.
      destruct (to_numeric (nth i series NA)); simpl in *; assumption.
  - destruct (existsb isna s) eqn:Ex.
    + bind_inv H. apply astype_Int64_nth in E. destruct E as [Hl64 Hn64].
      assert (Hfin : forall t, List.length t = List.length x ->
                (forall i, i < List.length x ->
                   nth i t NA = if isna (nth i x NA) then Int 0%Z else nth i x NA) ->
                astype_int t = Some out ->
                List.length out = List.length series /\
                forall i, i < List.length series ->
                  exists z, cast_cell None (to_numeric (nth i series NA)) = Some z /\
                            nth i out NA = Int z).
      { intros t Ht Htn Hc. apply astype_int_nth in Hc. destruct Hc as [Hl Hn].
        split; [congruence|]. intros i Hi.
        destruct (Hn i ltac:(lia)) as [z [Hz Ho]]. exists z. split; [|assumption].
        rewrite Htn in Hz by lia. rewrite <- Hsn by assumption.
        destruct (Hn64 i ltac:(lia)) as [[Hna Hx] | [z' [Hz' Hx]]].
        - rewrite Hna, Hx in *. simpl in *. assumption.
        - rewrite Hx in Hz. simpl in Hz. inversion Hz; subst z'.
          destruct (nth i s NA); simpl in *; try discriminate; assumption. }
      destruct (negb (existsb isna x)) eqn:Ex2.
      * apply (Hfin x eq_refl); [|assumption].
        intros i Hi. apply negb_true_iff in Ex2.
        rewrite (existsb_nth_false _ _ NA Ex2 Hi). reflexivity.
      * apply (Hfin (fillna (Int 0%Z) x)); [apply fillna_length | | assumption].
        intros i Hi. apply fillna_nth. assumption.
    + apply astype_int_nth in H. destruct H as [Hl Hn]. split; [congruence|].
      intros i Hi. destruct (Hn i ltac:(lia)) as [z [Hz Ho]]. exists z. split; [|assumption].
      rewrite Hsn in Hz by assumption.
      destruct (to_numeric (nth i series NA)); simpl in *; try discriminate; assumption.
Qed.

(** With a filler the cast raises on an infinite entry only. *)
Lemma safe_int_cast_fill_total (series : Series) (f : Z) :
  (forall c, In c series -> infinite (to_numeric c) = false) ->
  exists out, safe_int_cast series (Some f) = Some out.
Proof.
  intros Hfin. unfold safe_int_cast.
  destruct (existsb isna (fillna (Int f) (map to_numeric series))) eqn:Ex.
  - exfalso. apply existsb_exists in Ex. destruct Ex as [c [Hin Hc]].
    unfold fillna in Hin. apply in_map_iff in Hin. destruct Hin as [c' [Hc' _]].
    subst c. destruct (isna c') eqn:E'; simpl in Hc; congruence.
  - apply mapM_total. intros a Ha.
    unfold fillna in Ha. apply in_map_iff in Ha. destruct Ha as [c [Hc Hin]].
    apply in_map_iff in Hin. destruct Hin as [c0 [Hc0 Hin0]]. subst c a.
    specialize (Hfin c0 Hin0).
    destruct (to_numeric_cases c0) as [E | [[z E] | [[q E] | [b E]]]];
      rewrite E in *; simpl in *; eauto; discriminate.
Qed.

Lemma safe_int_cast_infinite (series : Series) (fill_value : option Z) (c : cell) :
  In c series -> infinite (to_numeric c) = true -> safe_int_cast series fill_value = None.
Proof.
  intros Hin Hinf.
  destruct (safe_int_cast series fill_value) as [out|] eqn:E; [exfalso | reflexivity].
  apply safe_int_cast_nth in E. destruct E as [_ Hn].
  destruct (In_nth _ _ NA Hin) as [i [Hi Hc]].
  destruct (Hn i Hi) as [z [Hz _]]. rewrite Hc in Hz.
  destruct (to_numeric c); simpl in *; discriminate.
Qed.

(** C5.  Whenever [safe_int_cast] returns, its result has one integer for
    every entry of the series and so no missing entry.  With a fill value of
    a magnitude below 2^53, every entry that is missing after the numeric
    coercion becomes the fill value, not 0; an entry that is a number of a
    magnitude below 2^53 keeps its integer part.  With such a fill value
    and such entries the cast returns exactly when no entry is infinite
    after the coercion.
    [1, None, 3] with fill value 0 gives [1, 0, 3], and [None, None] without
    a fill value gives [0, 0]. *)
Theorem safe_int_cast_no_missing (series : Series) (fill_value : option Z) :
  (forall out, safe_int_cast series fill_value = Some out ->
     List.length out = List.length series /\
     forall i, i < List.length series ->
       exists z, nth i out NA = Int z /\
         (forall f, fill_value = Some f -> exact_int f ->
            to_numeric (nth i series NA) = NA -> z = f) /\
         (to_numeric (nth i series NA) <> NA -> exact_cell (to_numeric (nth i series NA)) ->
          int_of (to_numeric (nth i series NA)) = Some z)) /\
  (forall f, fill_value = Some f -> exact_int f ->
     (forall c, In c series -> exact_cell (to_numeric c)) ->
     ((exists out, safe_int_cast series fill_value = Some out) <->
      forall c, In c series -> infinite (to_numeric c) = false)) /\
  safe_int_cast [Int 1%Z; NA; Int 3%Z] (Some 0%Z) = Some [Int 1%Z; Int 0%Z; Int 3%Z] /\
  safe_int_cast [NA; NA] None = Some [Int 0%Z; Int 0%Z].
Proof.
  split; [|split; [|split; reflexivity]].
  - intros out H. apply safe_int_cast_nth in H. destruct H as [Hl Hn].
    split; [assumption|]. intros i Hi. destruct (Hn i Hi) as [z [Hz Ho]].
    exists z. split; [assumption|]. split.
    + intros f Hf _ Hna. rewrite Hna, Hf in Hz. simpl in Hz. congruence.
    + intros Hne _. destruct (to_numeric (nth i series NA)); simpl in *; congruence.
  - intros f Hf _ _. subst. split.
    + intros [out H] c Hc. destruct (infinite (to_numeric c)) eqn:E; [|reflexivity].
      rewrite (@safe_int_cast_infinite series (Some f) c Hc E) in H. discriminate.
    + apply safe_int_cast_fill_total.
Qed.

(** ** [parse_mdY] *)

Lemma digit_not_space (c : ascii) : is_digit c = true -> is_space c = false.
Proof.
  unfold is_digit, is_space. intros H.
  apply andb_true_iff in H. destruct H as [H1 H2].
  apply Nat.leb_le in H1. apply Nat.leb_le in H2.
  apply orb_false_iff. split; apply andb_false_iff; right; apply Nat.leb_gt; lia.
Qed.

Lemma slash_not_digit : is_digit slash = false.
Proof. reflexivity. Qed.

Lemma space_not_digit (c : ascii) : is_space c = true -> is_digit c = false.
Proof.
  intros H. destruct (is_digit c) eqn:E; [|reflexivity].
  apply digit_not_space in E. congruence.
Qed.

Lemma all_space_app (s t : string) :
  all_space (s ++ t) = all_space s && all_space t.
Proof.
  induction s as [|c s IH]; simpl; [reflexivity|].
  rewrite IH. apply andb_assoc.
Qed.

Lemma rstrip_all_space (s : string) : all_space s = true -> rstrip s = EmptyString.
Proof. destruct s; simpl; intros H; [reflexivity|]. rewrite H. reflexivity. Qed.

(** A text splits into its right-stripped part and the blanks after it. *)
Lemma rstrip_split (s : string) :
  exists w, all_space w = true /\ s = (rstrip s ++ w)%string.
Proof.
  induction s as [|c s [w [Hw Hs]]].
  - exists EmptyString. split; reflexivity.
  - assert (Hr : rstrip (String c s)
                 = if all_space (String c s) then EmptyString else String c (rstrip s))
      by reflexivity.
    rewrite Hr. destruct (all_space (String c s)) eqn:E.
    + exists (String c s). split; [assumption | reflexivity].
    + exists w. split; [assumption|]. simpl. f_equal. assumption.
Qed.

Lemma lstrip_no_leading_space (s : string) (c : ascii) (r : string) :
  lstrip s = String c r -> is_space c = false.
Proof.
  induction s as [|a s IH]; simpl; [discriminate|].
  destruct (is_space a) eqn:E; [assumption|].
  intros H. inversion H. subst. assumption.
Qed.

Lemma lstrip_fixed (c : ascii) (r : string) :
  is_space c = false -> lstrip (String c r) = String c r.
Proof. intros H. simpl. rewrite H. reflexivity. Qed.

Lemma span_digits_split (s d r : string) :
  span_digits s = (d, r) ->
  s = (d ++ r)%string /\ all_digits d = true /\
  match r with
  | EmptyString => True
  | String c _ => is_digit c = false
  end.
Proof.
  revert d r. induction s as [|c s IH]; simpl; intros d r H.
  - inversion H. subst. repeat split.
  - destruct (is_digit c) eqn:E.
    + destruct (span_digits s) as [d' r'] eqn:Es. inversion H. subst.
      destruct (IH _ _ eq_refl) as [H1 [H2 H3]].
      simpl. rewrite E, H2. repeat split; [f_equal; assumption | assumption].
    + inversion H. subst. simpl. repeat split. assumption.
Qed.

Lemma span_digits_app (d r : string) :
  all_digits d = true ->
  match r with
  | EmptyString => True
  | String c _ => is_digit c = false
  end ->
  span_digits (d ++ r) = (d, r).
Proof.
  intros Hd Hr. induction d as [|c d IH]; simpl in *.
  - destruct r as [|c r]; [reflexivity|]. simpl. rewrite Hr. reflexivity.
  - apply andb_true_iff in Hd. destruct Hd as [Hc Hd].
    rewrite Hc, (IH Hd). reflexivity.
Qed.

Lemma all_digits_no_space (d : string) :
  all_digits d = true -> forall w, all_space w = true ->
  rstrip (d ++ w) = d.
Proof.
  induction d as [|c d IH]; simpl; intros Hd w Hw.
  - apply rstrip_all_space. assumption.
  - apply andb_true_iff in Hd. destruct Hd as [Hc Hd].
    rewrite (digit_not_space _ Hc). simpl. f_equal. apply IH; assumption.
Qed.

Lemma rstrip_digits_cons (d : string) (r : string) :
  all_digits d = true ->
  rstrip (d ++ String slash r) = (d ++ String slash (rstrip r))%string.
Proof.
  induction d as [|c d IH]; simpl; intros Hd.
  - reflexivity.
  - apply andb_true_iff in Hd. destruct Hd as [Hc Hd].
    rewrite (digit_not_space _ Hc). simpl. f_equal. apply IH; assumption.
Qed.

Lemma string_app_assoc (a b c : string) :
  ((a ++ b) ++ c)%string = (a ++ (b ++ c))%string.
Proof. induction a as [|x a IH]; simpl; [reflexivity | f_equal; assumption]. Qed.

Lemma andb_leb_range (lo hi n : nat) :
  ((lo <=? n) && (n <=? hi))%nat = true <-> lo <= n <= hi.
Proof.
  rewrite andb_true_iff, !Nat.leb_le. tauto.
Qed.

(** The matcher finds the groups exactly when the trimmed text has the form
    of the pattern. *)
Lemma match_mdY_form (s g1 g2 g3 : string) :
  match_mdY s = Some (g1, g2, g3) <-> mdY_form (strip s) g1 g2 g3.
Proof.
  unfold match_mdY, mdY_form, strip. split.
  - destruct (span_digits (lstrip s)) as [a r1] eqn:Ea.
    destruct (((1 <=? String.length a) && (String.length a <=? 2))%nat) eqn:La; [|discriminate].
    destruct r1 as [|c r2]; [discriminate|].
    destruct (Ascii.eqb_spec c slash) as [->|]; [|discriminate].
    destruct (span_digits r2) as [b r3] eqn:Eb.
    destruct (((1 <=? String.length b) && (String.length b <=? 2))%nat) eqn:Lb; [|discriminate].
    destruct r3 as [|c' r4]; [discriminate|].
    destruct (Ascii.eqb_spec c' slash) as [->|]; [|discriminate].
    destruct (span_digits r4) as [y r5] eqn:Ey.
    destruct (((2 <=? String.length y) && (String.length y <=? 4))%nat && all_space r5) eqn:Ly;
      [|discriminate].
    intros H. inversion H. subst a b y. clear H.
    apply andb_true_iff in Ly. destruct Ly as [Ly Hw].
    apply span_digits_split in Ea, Eb, Ey.
    destruct Ea as [Ea [Da _]]. destruct Eb as [Eb [Db _]]. destruct Ey as [Ey [Dy _]].
    rewrite Ea, Eb, Ey.
    rewrite !rstrip_digits_cons by assumption.
    rewrite all_digits_no_space by assumption.
    apply andb_leb_range in La, Lb, Ly.
    repeat split; try assumption; lia.
  - intros [Ht [D1 [D2 [D3 [L1 [L2 L3]]]]]].
    destruct (rstrip_split (lstrip s)) as [w [Hw Hs]].
    rewrite Ht in Hs. rewrite Hs.
    replace ((g1 ++ "/" ++ g2 ++ "/" ++ g3) ++ w)%string
      with (g1 ++ String slash (g2 ++ String slash (g3 ++ w)))%string.
    2:{ rewrite string_app_assoc. f_equal. simpl. f_equal.
        rewrite string_app_assoc. reflexivity. }
    rewrite (span_digits_app g1) by (simpl; auto using slash_not_digit).
    apply andb_leb_range in L1, L2, L3. rewrite L1.
    rewrite Ascii.eqb_refl.
    rewrite (span_digits_app g2) by (simpl; auto using slash_not_digit).
    rewrite L2, Ascii.eqb_refl.
    rewrite (span_digits_app g3).
    + rewrite L3, Hw. reflexivity.
    + assumption.
    + destruct w as [|c w]; [exact I|]. simpl in Hw.
      apply andb_true_iff in Hw. apply space_not_digit. tauto.
Qed.

Lemma digit_value (c : ascii) :
  is_digit c = true -> (0 <= Z.of_nat (nat_of_ascii c - 48) <= 9)%Z.
Proof.
  unfold is_digit. intros H. apply andb_leb_range in H. lia.
Qed.

Lemma two_digits_below_100 (g : string) :
  all_digits g = true -> String.length g = 2 ->
  (0 <= int_of_digits g < 100)%Z.
Proof.
  destruct g as [|a [|b [|c g]]]; simpl; try discriminate.
  intros H _. apply andb_true_iff in H. destruct H as [Ha H].
  apply andb_true_iff in H. destruct H as [Hb _].
  apply digit_value in Ha, Hb. unfold int_of_digits. cbn [int_of_digits_acc].
  lia.
Qed.

Lemma Timestamp_invalid (y m d : Z) :
  valid_date y m d = false -> Timestamp y m d = None.
Proof. unfold Timestamp. intros ->. reflexivity. Qed.

Lemma Timestamp_modern (y m d : Z) :
  valid_date y m d = true ->
  (days_from_civil 1678 1 1 <= days_from_civil y m d <= days_from_civil 2261 12 31)%Z ->
  Timestamp y m d = Some (Time (days_from_civil y m d * ns_per_day)).
Proof.
  unfold Timestamp. intros -> H. rewrite (ts_in_range_modern H). reflexivity.
Qed.

Lemma parse_mdY_groups (pivot : Z) (s : cell) (g1 g2 g3 : string) :
  isna s = false -> mdY_form (strip (str_of s)) g1 g2 g3 ->
  parse_mdY pivot s =
    match Timestamp (resolve_year pivot (int_of_digits g3))
                    (int_of_digits g1) (int_of_digits g2) with
    | Some t => t
    | None => NA
    end.
Proof.
  intros Hna Hf. unfold parse_mdY. rewrite Hna.
  apply match_mdY_form in Hf. rewrite Hf. reflexivity.
Qed.

(** C6.  [parse_mdY] returns a date or "no date", and a date only when the
    input is not missing and its trimmed text wholly matches
    [\d{1,2}/\d{1,2}/\d{2,4}].  On such a text the result is the timestamp
    of the month, the day and the resolved year: a two-digit year [y] is
    [2000 + y] when [y < pivot] and [1900 + y] otherwise; a month and day
    that are no calendar date give "no date".  With pivot 30, "1/2/29" is in
    2029, "1/2/30" in 1930, and "13/40/2020" and "not a date" give no
    date. *)
Theorem parse_mdY_pivot (pivot : Z) (s : cell) :
  (parse_mdY pivot s = NA \/ exists ns, parse_mdY pivot s = Time ns) /\
  (forall ns, parse_mdY pivot s = Time ns ->
     isna s = false /\ exists g1 g2 g3, mdY_form (strip (str_of s)) g1 g2 g3) /\
  (forall g1 g2 g3, isna s = false -> mdY_form (strip (str_of s)) g1 g2 g3 ->
     let mm := int_of_digits g1 in
     let dd := int_of_digits g2 in
     let yy := int_of_digits g3 in
     parse_mdY pivot s = match Timestamp (resolve_year pivot yy) mm dd with
                         | Some t => t
                         | None => NA
                         end /\
     (String.length g3 = 2 ->
      resolve_year pivot yy = if (yy <? pivot)%Z then (2000 + yy)%Z else (1900 + yy)%Z) /\
     (valid_date (resolve_year pivot yy) mm dd = false -> parse_mdY pivot s = NA)) /\
  year_of (parse_mdY 30 (Str "1/2/29")) = Some 2029%Z /\
  year_of (parse_mdY 30 (Str "1/2/30")) = Some 1930%Z /\
  parse_mdY 30 (Str "13/40/2020") = NA /\
  parse_mdY 30 (Str "not a date") = NA.
Proof.
  assert (Hshape : parse_mdY pivot s = NA \/ exists ns, parse_mdY pivot s = Time ns).
  { unfold parse_mdY. destruct (isna s); [left; reflexivity|].
    destruct (match_mdY (str_of s)) as [[[g1 g2] g3]|]; [|left; reflexivity].
    unfold Timestamp.
    destruct (valid_date _ _ _ && ts_in_range _); [right; eexists|left]; reflexivity. }
  split; [exact Hshape|]. split; [|split].
  - intros ns H. unfold parse_mdY in H.
    destruct (isna s); [discriminate|]. split; [reflexivity|].
    destruct (match_mdY (str_of s)) as [[[g1 g2] g3]|] eqn:E; [|discriminate].
    exists g1, g2, g3. apply match_mdY_form. assumption.
  - intros g1 g2 g3 Hna Hf mm dd yy.
    pose proof (parse_mdY_groups pivot s Hna Hf) as Hp. fold mm dd yy in Hp.
    split; [exact Hp|]. split.
    + intros Hl. destruct Hf as [_ [_ [_ [D3 _]]]].
      destruct (two_digits_below_100 g3 D3 Hl) as [_ Hlt]. fold yy in Hlt.
      unfold resolve_year. apply Z.ltb_lt in Hlt. rewrite Hlt. reflexivity.
    + intros Hv. rewrite Hp, (Timestamp_invalid _ _ _ Hv). reflexivity.
  - assert (E29 : parse_mdY 30 (Str "1/2/29") = Time (days_from_civil 2029 1 2 * ns_per_day)).
    { unfold parse_mdY. simpl isna. cbv iota.
      change (match_mdY (str_of (Str "1/2/29"))) with (Some ("1", "2", "29")).
      cbv beta iota.
      change (resolve_year 30 (int_of_digits "29")) with 2029%Z.
      change (int_of_digits "1") with 1%Z. change (int_of_digits "2") with 2%Z.
      rewrite Timestamp_modern; [reflexivity | reflexivity |].
      vm_compute. split; discriminate. }
    assert (E30 : parse_mdY 30 (Str "1/2/30") = Time (days_from_civil 1930 1 2 * ns_per_day)).
    { unfold parse_mdY. simpl isna. cbv iota.
      change (match_mdY (str_of (Str "1/2/30"))) with (Some ("1", "2", "30")).
      cbv beta iota.
      change (resolve_year 30 (int_of_digits "30")) with 1930%Z.
      change (int_of_digits "1") with 1%Z. change (int_of_digits "2") with 2%Z.
      rewrite Timestamp_modern; [reflexivity | reflexivity |].
      vm_compute. split; discriminate. }
    rewrite E29, E30. split; [reflexivity|]. split; [reflexivity|].
    split; [|reflexivity].
    unfold parse_mdY. simpl isna. cbv iota.
    change (match_mdY (str_of (Str "13/40/2020"))) with (Some ("13", "40", "2020")).
    cbv beta iota.
    rewrite Timestamp_invalid; reflexivity.
Qed.

End ScalarProperties.

Lemma safe_int_cast_no_missing_witness :
  exists z, nth 1 [Int 1%Z; Int 0%Z; Int 3%Z] NA = Int z /\ z = 0%Z.
Proof.
  destruct (@safe_int_cast_no_missing run_pandas [Int 1%Z; NA; Int 3%Z] (Some 0%Z)) as [H _].
  destruct (H [Int 1%Z; Int 0%Z; Int 3%Z] eq_refl) as [_ Hn].
  destruct (Hn 1 ltac:(simpl; lia)) as [z [Hz [Hf _]]].
  assert (He : exact_int 0) by reflexivity.
  exists z. split; [exact Hz | exact (Hf 0%Z eq_refl He eq_refl)].
Defined.

Lemma parse_mdY_pivot_witness :
  @parse_mdY run_pandas 30 (Str " 2/29/24 ") = Time (days_from_civil 2024 2 29 * ns_per_day).
Proof.
  destruct (@parse_mdY_pivot run_pandas 30 (Str " 2/29/24 ")) as [_ [_ [H _]]].
  destruct (H "2" "29" "24" eq_refl) as [Hp _].
  - unfold mdY_form. repeat split; simpl; lia.
  - rewrite Hp. reflexivity.
Defined.

(** ** Tables: reading a column after an operation *)

Lemma get_col_set_col_same (c : string) (s : Series) (df : DataFrame) :
  get_col (set_col c s df) c = Some s.
Proof.
  induction df as [|[c' s'] df IH]; simpl.
  - rewrite String.eqb_refl. reflexivity.
  - destruct (String.eqb c c') eqn:E; simpl.
    + rewrite String.eqb_refl. reflexivity.
    + rewrite E. assumption.
Qed.

Lemma get_col_set_col_other (c c' : string) (s : Series) (df : DataFrame) :
  String.eqb c' c = false ->
  get_col (set_col c s df) c' = get_col df c'.
Proof.
  intros Hne. induction df as [|[c0 s0] df IH]; simpl.
  - rewrite Hne. reflexivity.
  - destruct (String.eqb c c0) eqn:E; simpl.
    + apply String.eqb_eq in E. subst c0. rewrite Hne. reflexivity.
    + rewrite IH. reflexivity.
Qed.

Lemma get_col_drop_cols (names : list string) (c : string) (df : DataFrame) :
  get_col (drop_cols names df) c =
    if existsb (String.eqb c) names then None else get_col df c.
Proof.
  unfold drop_cols. induction df as [|[c0 s0] df IH]; simpl.
  - destruct (existsb _ names); reflexivity.
  - destruct (String.eqb c c0) eqn:E.
    + apply String.eqb_eq in E. subst c0.
      destruct (existsb (String.eqb c) names) eqn:En; simpl.
      * exact IH.
      * rewrite String.eqb_refl. reflexivity.
    + destruct (existsb (String.eqb c0) names); simpl; [|rewrite E]; exact IH.
Qed.

Lemma get_col_filter_rows (mask : list bool) (c : string) (df : DataFrame) :
  get_col (filter_rows mask df) c = option_map (filter_mask mask) (get_col df c).
Proof.
  unfold filter_rows. induction df as [|[c0 s0] df IH]; simpl; [reflexivity|].
  destruct (String.eqb c c0); [reflexivity | assumption].
Qed.

Lemma get_col_In (df : DataFrame) (c : string) (s : Series) :
  get_col df c = Some s -> In s (map snd df).
Proof.
  induction df as [|[c0 s0] df IH]; simpl; [discriminate|].
  destruct (String.eqb c c0); intros H; [inversion H; auto | right; auto].
Qed.

Lemma get_col_has_col (df : DataFrame) (c : string) :
  has_col df c = true <-> exists s, get_col df c = Some s.
Proof.
  unfold has_col, columns. induction df as [|[c0 s0] df IH]; simpl.
  - split; [discriminate | intros [s H]; discriminate].
  - destruct (String.eqb c c0); simpl; [split; eauto | exact IH].
Qed.

Lemma update_col_Some (col : string) (f : Series -> Series) (df out : DataFrame) :
  update_col col f df = Some out <->
  exists s, get_col df col = Some s /\ out = set_col col (f s) df.
Proof.
  unfold update_col. rewrite bind_Some. split; intros [s [H1 H2]]; exists s;
    (split; [assumption | congruence]).
Qed.

(** ** Masks and duplicates *)

Lemma filter_mask_In {A : Type} (mask : list bool) (s : list A) (a : A) :
  In a (filter_mask mask s) -> In a s.
Proof.
  revert s. induction mask as [|b mask IH]; intros [|x s]; simpl; try tauto.
  destruct b; simpl; intros H; [destruct H; auto | auto].
Qed.

Lemma filter_mask_all_true {A : Type} (s : list A) (mask : list bool) :
  List.length s <= List.length mask -> (forall b, In b mask -> b = true) ->
  filter_mask mask s = s.
Proof.
  revert s. induction mask as [|b mask IH]; intros [|x s]; simpl; intros Hl Hb;
    try reflexivity; try lia.
  rewrite (Hb b (or_introl eq_refl)). f_equal. apply IH; [lia | auto].
Qed.

Lemma keep_first_length (seen l : list (list cell)) :
  List.length (keep_first seen l) = List.length l.
Proof.
  revert seen. induction l as [|r l IH]; simpl; intros seen; [reflexivity|].
  rewrite IH. reflexivity.
Qed.

Lemma keep_first_nth (l : list (list cell)) :
  forall seen j, j < List.length l ->
    nth j (keep_first seen l) true =
      negb (existsb (row_eqb (nth j l [])) (rev (firstn j l) ++ seen)).
Proof.
  induction l as [|r l IH]; simpl; intros seen j Hj; [lia|].
  destruct j as [|j]; simpl; [reflexivity|].
  rewrite IH by lia. rewrite <- app_assoc. reflexivity.
Qed.

(** A row is dropped exactly when an earlier row equals it. *)
Lemma keep_first_dropped (l : list (list cell)) (j : nat) :
  j < List.length l ->
  (nth j (keep_first [] l) true = false <->
   exists i, i < j /\ row_eqb (nth j l []) (nth i l []) = true).
Proof.
  intros Hj. rewrite keep_first_nth by assumption. rewrite app_nil_r.
  rewrite negb_false_iff, existsb_exists. split.
  - intros [r [Hin Heq]]. apply In_rev in Hin.
    destruct (In_nth _ _ [] Hin) as [i [Hi Hr]].
    rewrite length_firstn in Hi. exists i. split; [lia|].
    rewrite nth_firstn in Hr. destruct (i <? j) eqn:E.
    + rewrite Hr. assumption.
    + apply Nat.ltb_ge in E. lia.
  - intros [i [Hi Heq]]. exists (nth i l []). split; [|assumption].
    apply In_rev. rewrite rev_involutive.
    replace (nth i l []) with (nth i (firstn j l) []).
    + apply nth_In. rewrite length_firstn. lia.
    + rewrite nth_firstn. apply Nat.ltb_lt in Hi. rewrite Hi. reflexivity.
Qed.

Lemma rows_of_length (n : nat) (cols : list Series) :
  List.length (rows_of n cols) = n.
Proof. unfold rows_of. rewrite length_map, length_seq. reflexivity. Qed.

Lemma rows_of_nth (n : nat) (cols : list Series) (i : nat) :
  i < n -> nth i (rows_of n cols) [] = row_of cols i.
Proof.
  intros Hi. unfold rows_of.
  rewrite (nth_indep _ [] (row_of cols 0)) by (rewrite length_map, length_seq; assumption).
  rewrite map_nth, seq_nth by assumption. reflexivity.
Qed.

Lemma row_of_differs (cols : list Series) (s : Series) (i j : nat) :
  In s cols -> cell_eqb (nth i s NA) (nth j s NA) = false ->
  row_eqb (row_of cols i) (row_of cols j) = false.
Proof.
  unfold row_of. induction cols as [|s0 cols IH]; simpl; intros Hin Hne; [tauto|].
  destruct Hin as [->|Hin].
  - rewrite Hne. reflexivity.
  - rewrite IH by assumption. apply andb_false_r.
Qed.

Lemma cell_eqb_refl (c : cell) : cell_eqb c c = true.
Proof.
  destruct c; simpl; try reflexivity.
  - apply Qeq_bool_refl.
  - apply Qeq_bool_refl.
  - apply String.eqb_refl.
  - apply Z.eqb_refl.
  - destruct negative; reflexivity.
Qed.

Lemma Qeq_bool_trans (p q r : Q) : Qeq_bool p q = true -> Qeq_bool q r = Qeq_bool p r.
Proof.
  intros H. apply Qeq_bool_iff in H.
  destruct (Qeq_bool q r) eqn:E1, (Qeq_bool p r) eqn:E2; try reflexivity; exfalso.
  - apply Qeq_bool_iff in E1. apply Qeq_bool_neq in E2. apply E2. rewrite H. assumption.
  - apply Qeq_bool_iff in E2. apply Qeq_bool_neq in E1. apply E1. rewrite <- H. assumption.
Qed.

Lemma cell_eqb_trans (a b c : cell) : cell_eqb a b = true -> cell_eqb b c = cell_eqb a c.
Proof.
  destruct a, b; simpl; try discriminate; intros H; destruct c; simpl; try reflexivity;
    try (apply Qeq_bool_trans; assumption).
  - apply String.eqb_eq in H. subst. reflexivity.
  - apply Z.eqb_eq in H. subst. reflexivity.
  - apply Bool.eqb_prop in H. subst. reflexivity.
Qed.

Lemma cell_eqb_isna (a b : cell) : cell_eqb a b = true -> isna a = isna b.
Proof. destruct a, b; simpl; try discriminate; reflexivity. Qed.

Lemma row_eqb_trans (r s t : list cell) :
  row_eqb r s = true -> row_eqb s t = row_eqb r t.
Proof.
  revert s t. induction r as [|a r IH]; intros [|b s] [|c t]; simpl; try discriminate;
    try reflexivity; intros H.
  apply andb_true_iff in H. destruct H as [H1 H2].
  rewrite (@cell_eqb_trans _ _ c H1), (IH _ t H2). reflexivity.
Qed.

Lemma row_eqb_isna (r s : list cell) :
  row_eqb r s = true -> existsb isna r = existsb isna s.
Proof.
  revert s. induction r as [|a r IH]; intros [|b s]; simpl; try discriminate;
    try reflexivity; intros H.
  apply andb_true_iff in H. destruct H as [H1 H2].
  rewrite (@cell_eqb_isna _ _ H1), (IH _ H2). reflexivity.
Qed.

Lemma row_eqb_refl (r : list cell) : row_eqb r r = true.
Proof.
  induction r as [|a r IH]; simpl; [reflexivity|].
  rewrite cell_eqb_refl, IH. reflexivity.
Qed.

Lemma row_eqb_sym (r s : list cell) : row_eqb r s = row_eqb s r.
Proof.
  destruct (row_eqb r s) eqn:E.
  - rewrite (@row_eqb_trans _ _ r E). symmetry. apply row_eqb_refl.
  - destruct (row_eqb s r) eqn:E'; [|reflexivity].
    rewrite (@row_eqb_trans _ _ s E'), row_eqb_refl in E. discriminate.
Qed.

(** The cells a mask selects, by position. *)
Lemma filter_mask_In_nth {A : Type} (d : A) (mask : list bool) :
  forall (s : list A) (a : A), In a (filter_mask mask s) ->
    exists j, j < List.length mask /\ j < List.length s /\
              nth j mask false = true /\ nth j s d = a.
Proof.
  induction mask as [|b mask IH]; intros [|x s] a; simpl; try tauto.
  destruct b; simpl.
  - intros [<- | H].
    + exists 0. repeat split; lia.
    + destruct (IH _ _ H) as [j [H1 [H2 [H3 H4]]]]. exists (S j). repeat split; auto; lia.
  - intros H. destruct (IH _ _ H) as [j [H1 [H2 [H3 H4]]]].
    exists (S j). repeat split; auto; lia.
Qed.

Lemma map_map2 {A B C D : Type} (h : C -> D) (f : A -> B -> C) (s : list A) (t : list B) :
  map h (map2 f s t) = map2 (fun a b => h (f a b)) s t.
Proof.
  revert t. induction s as [|a s IH]; intros [|b t]; simpl; try reflexivity.
  rewrite IH. reflexivity.
Qed.

Lemma filter_mask_nth_In {A : Type} (d : A) (mask : list bool) :
  forall (s : list A) (j : nat), j < List.length s ->
    nth j mask false = true -> In (nth j s d) (filter_mask mask s).
Proof.
  induction mask as [|b mask IH]; intros [|x s] j Hj Hm; simpl in *; try lia.
  - destruct j; discriminate.
  - destruct j as [|j].
    + rewrite Hm. left. reflexivity.
    + destruct b; [right|]; apply IH; (lia || assumption).
Qed.

(** Every row equals a row that [drop_duplicates] keeps: itself or an
    earlier one. *)
Lemma keep_first_covers (l : list (list cell)) (j : nat) :
  j < List.length l ->
  exists i, i <= j /\ nth i (keep_first [] l) false = true /\
    row_eqb (nth j l []) (nth i l []) = true.
Proof.
  induction j as [j IH] using lt_wf_ind. intros Hj.
  destruct (nth j (keep_first [] l) true) eqn:E.
  - exists j. split; [lia|]. split; [|apply row_eqb_refl].
    rewrite (nth_indep _ false true) by (rewrite keep_first_length; assumption).
    assumption.
  - apply keep_first_dropped in E; [|assumption]. destruct E as [i [Hi He]].
    destruct (IH i Hi ltac:(lia)) as [k [Hk [Hkept Hr]]].
    exists k. split; [lia|]. split; [assumption|].
    rewrite <- (@row_eqb_trans _ _ (nth k l []) He). assumption.
Qed.

Lemma map2_length {A B C : Type} (f : A -> B -> C) (s : list A) (t : list B) :
  List.length s = List.length t -> List.length (map2 f s t) = List.length s.
Proof.
  revert t. induction s as [|a s IH]; intros [|b t]; simpl; intros H;
    try reflexivity; try discriminate.
  rewrite IH by lia. reflexivity.
Qed.

Lemma map2_nth {A B C : Type} (f : A -> B -> C) (da : A) (db : B) (dc : C) :
  forall (s : list A) (t : list B) (k : nat),
    k < List.length s -> k < List.length t ->
    nth k (map2 f s t) dc = f (nth k s da) (nth k t db).
Proof.
  induction s as [|x s IH]; intros [|y t] k Hs Ht; simpl in *; try lia.
  destruct k as [|k]; [reflexivity|]. apply IH; lia.
Qed.

Lemma map2_nil_r {A B C : Type} (f : A -> B -> C) (s : list A) : map2 f s [] = [].
Proof. destruct s; reflexivity. Qed.

Lemma filter_mask_nil {A : Type} (mask : list bool) : filter_mask mask (@nil A) = [].
Proof. destruct mask; reflexivity. Qed.

Lemma filter_mask_map2 {A B C : Type} (f : A -> B -> C) (mask : list bool) :
  forall (s : list A) (t : list B),
    filter_mask mask (map2 f s t) = map2 f (filter_mask mask s) (filter_mask mask t).
Proof.
  induction mask as [|b mask IH]; intros s t; [reflexivity|].
  destruct s as [|x s]; [rewrite !filter_mask_nil; reflexivity|].
  destruct t as [|y t].
  - rewrite map2_nil_r, !filter_mask_nil, map2_nil_r. reflexivity.
  - simpl. destruct b; simpl; rewrite IH; reflexivity.
Qed.

(** ** [prepare_events] *)

Section EventProperties.
Context {P : Pandas}.

(** The events table as [drop_duplicates] sees it: [fecha] added,
    [timestamp] gone, [transactionid] still there. *)
Lemma prepare_events_staged (events out : DataFrame) :
  prepare_events events = Some out ->
  exists ts ev,
    get_col events "timestamp" = Some ts /\
    let staged := drop_cols ["timestamp"] (set_col "fecha" (map to_datetime_ms ts) events) in
    let kept := filter_rows (keep_first [] (rows staged)) staged in
    get_col (drop_cols ["transactionid"] kept) "event" = Some ev /\
    out = set_col "event" (map upper_text ev) (drop_cols ["transactionid"] kept).
Proof.
  unfold prepare_events. intros H. bind_inv H.
  apply update_col_Some in H. destruct H as [ev [Hev Hout]].
  exists x, ev. split; [assumption|]. split; assumption.
Qed.

(** C2, as the code has it.  The epoch column is dropped before the exact
    duplicates are removed, the transaction identifier after them.  So
    neither column is in the output; the rows kept are the first occurrences
    among the rows that still hold [transactionid] (and [fecha] in place of
    [timestamp]): a row goes exactly when an earlier row equals it on all of
    these columns, and two rows with different transaction identifiers are
    never duplicates of each other. *)
Theorem prepare_events_drop_order (events out : DataFrame) :
  prepare_events events = Some out ->
  get_col out "timestamp" = None /\
  get_col out "transactionid" = None /\
  exists ts, get_col events "timestamp" = Some ts /\
    let staged := drop_cols ["timestamp"] (set_col "fecha" (map to_datetime_ms ts) events) in
    let keep := keep_first [] (rows staged) in
    (forall c, String.eqb c "transactionid" = false -> String.eqb c "event" = false ->
       get_col out c = option_map (filter_mask keep) (get_col staged c)) /\
    get_col out "event"
      = option_map (fun s => map upper_text (filter_mask keep s)) (get_col staged "event") /\
    (forall j, j < nrows staged ->
       (nth j keep true = false <->
        exists i, i < j /\
          row_eqb (nth j (rows staged) []) (nth i (rows staged) []) = true)) /\
    (forall tx i j, get_col events "transactionid" = Some tx ->
       i < nrows staged -> j < nrows staged ->
       cell_eqb (nth i tx NA) (nth j tx NA) = false ->
       row_eqb (nth i (rows staged) []) (nth j (rows staged) []) = false).
Proof.
  intros H. apply prepare_events_staged in H.
  destruct H as [ts [ev [Hts [Hev Hout]]]]. cbv zeta in Hev, Hout.
  set (staged := drop_cols ["timestamp"] (set_col "fecha" (map to_datetime_ms ts) events)) in *.
  set (keep := keep_first [] (rows staged)) in *.
  assert (Hother : forall c, String.eqb c "transactionid" = false ->
            String.eqb c "event" = false ->
            get_col out c = option_map (filter_mask keep) (get_col staged c)).
  { intros c Htx Hc. rewrite Hout, get_col_set_col_other by assumption.
    rewrite get_col_drop_cols. simpl existsb. rewrite Htx. simpl.
    apply get_col_filter_rows. }
  split; [|split].
  - rewrite Hother by reflexivity. unfold staged. rewrite get_col_drop_cols. reflexivity.
  - rewrite Hout, get_col_set_col_other by reflexivity.
    rewrite get_col_drop_cols. reflexivity.
  - exists ts. split; [assumption|]. cbv zeta. fold staged. fold keep.
    split; [exact Hother|]. split; [|split].
    + rewrite Hout, get_col_set_col_same.
      rewrite get_col_drop_cols in Hev. simpl in Hev.
      rewrite get_col_filter_rows in Hev.
      destruct (get_col staged "event") as [s|]; simpl in *; [|discriminate].
      inversion Hev. reflexivity.
    + intros j Hj. unfold keep. apply keep_first_dropped.
      unfold rows. rewrite rows_of_length. assumption.
    + intros tx i j Htx Hi Hj Hne. unfold rows.
      rewrite !rows_of_nth by assumption.
      apply row_of_differs with (s := tx); [|assumption].
      apply get_col_In with (c := "transactionid").
      unfold staged. rewrite get_col_drop_cols. simpl.
      rewrite get_col_set_col_other by reflexivity. assumption.
Qed.

End EventProperties.

(** C2 as stated fails: both rows are in the output. *)
Lemma prepare_events_keeps_both_transactions :
  @prepare_events run_pandas events_two_transactions =
    Some [("visitorid", [Int 1; Int 1]);
          ("event", [Str "VIEW"; Str "VIEW"]);
          ("itemid", [Int 2; Int 2]);
          ("fecha", [Time 1000000000; Time 1000000000])]%Z /\
  ~ (forall out, @prepare_events run_pandas events_two_transactions = Some out ->
       nrows out = 1).
Proof.
  split; [reflexivity|].
  intros H. specialize (H _ eq_refl). discriminate.
Qed.

Lemma prepare_events_drop_order_witness :
  get_col [("visitorid", [Int 1; Int 1]);
           ("event", [Str "VIEW"; Str "VIEW"]);
           ("itemid", [Int 2; Int 2]);
           ("fecha", [Time 1000000000; Time 1000000000])]%Z "transactionid" = None.
Proof.
  exact (proj1 (proj2 (@prepare_events_drop_order run_pandas
                         events_two_transactions _ eq_refl))).
Defined.

(** ** [prepare_cliente] *)

Lemma get_col_update_if_present_other (col c : string) (f : Series -> Series)
    (df : DataFrame) :
  String.eqb c col = false ->
  get_col (update_if_present col f df) c = get_col df c.
Proof.
  intros H. unfold update_if_present.
  destruct (get_col df col); [apply get_col_set_col_other; assumption | reflexivity].
Qed.

Lemma get_col_update_if_present_same (col : string) (f : Series -> Series)
    (df : DataFrame) :
  get_col (update_if_present col f df) col = option_map f (get_col df col).
Proof.
  unfold update_if_present. destruct (get_col df col) eqn:E; simpl.
  - apply get_col_set_col_same.
  - assumption.
Qed.

Lemma floor_years (days : Z) :
  Qfloor (inject_Z days / days_per_year) = ((4 * days) / 1461)%Z.
Proof.
  unfold days_per_year, Qdiv, Qinv, Qmult, Qfloor, inject_Z. simpl.
  replace (days * 100)%Z with ((4 * days) * 25)%Z by lia.
  change 36525%Z with (1461 * 25)%Z.
  apply Z.div_mul_cancel_r; lia.
Qed.

Section CustomerProperties.
Context {P : Pandas}.
Variable today : Z.
Variable parse_mdY_func : cell -> cell.

Lemma genero_text_steps (c : cell) :
  replace_value (Str "M") (Str "MALE")
    (replace_value (Str "F") (Str "FEMALE") (upper_text c)) = genero_text c.
Proof.
  unfold genero_text, upper_text, replace_value. simpl.
  destruct (String.eqb (upper (str_of c)) "F"); simpl; [reflexivity|].
  destruct (String.eqb (upper (str_of c)) "M"); reflexivity.
Qed.

(** The columns [nacimiento], [edad] and [genero] of the output, in terms
    of the rows of the input that survive [drop_duplicates] and [dropna]. *)
Lemma prepare_cliente_columns (cliente out : DataFrame) :
  prepare_cliente today cliente parse_mdY_func = Some out ->
  exists (m1 m2 : list bool) (nac0 edad : Series),
    let kept (s : Series) := filter_mask m2 (filter_mask m1 s) in
    get_col cliente "nacimiento" = Some nac0 /\
    get_col out "nacimiento" = Some (map parse_mdY_func (kept nac0)) /\
    mapM (age_years today) (map parse_mdY_func (kept nac0)) = Some edad /\
    get_col out "edad" = Some edad /\
    get_col out "genero"
      = option_map (fun g => map genero_text (kept g)) (get_col cliente "genero").
Proof.
  unfold prepare_cliente. intros H.
  set (c1 := drop_cols ["nit"; "puesto"; "correo"; "telefono"] cliente) in *.
  set (m1 := keep_first [] (rows c1)) in *.
  assert (Hdd : drop_duplicates c1 = filter_rows m1 c1) by reflexivity.
  rewrite Hdd in H. unfold dropna_all in H.
  set (m2 := map (fun r => negb (forallb isna r)) (rows (filter_rows m1 c1))) in *.
  set (c2 := filter_rows m2 (filter_rows m1 c1)) in *.
  assert (Hc2 : forall c, existsb (String.eqb c) ["nit"; "puesto"; "correo"; "telefono"] = false ->
            get_col c2 c = option_map (fun s => filter_mask m2 (filter_mask m1 s))
                                      (get_col cliente c)).
  { intros c Hc. unfold c2. rewrite !get_col_filter_rows. unfold c1.
    rewrite get_col_drop_cols, Hc. destruct (get_col cliente c); reflexivity. }
  bind_inv H. bind_inv H. bind_inv H. bind_inv H.
  rename x into nombre, x0 into apellido, x1 into ids, x2 into ids'.
  set (c4 := set_col "id" ids'
               (drop_cols ["apellido"] (set_col "nombre" (map2 full_name nombre apellido) c2)))
    in *.
  assert (Hc4 : forall c, existsb (String.eqb c) ["id"; "apellido"; "nombre"] = false ->
            get_col c4 c = get_col c2 c).
  { intros c Hc. simpl in Hc. rewrite !orb_false_r in Hc.
    apply orb_false_iff in Hc. destruct Hc as [Hid Hc].
    apply orb_false_iff in Hc. destruct Hc as [Hap Hno].
    unfold c4. rewrite get_col_set_col_other by assumption.
    rewrite get_col_drop_cols. simpl. rewrite Hap. simpl.
    apply get_col_set_col_other. assumption. }
  bind_inv H. apply update_col_Some in E3. destruct E3 as [nacr [Hnacr Hc5]].
  bind_inv H. bind_inv H. bind_inv H. rename x0 into nac, x1 into edad.
  destruct (datetime_column nac); [|discriminate].
  apply update_col_Some in E5. destruct E5 as [nom [Hnom Hc7]].
  inversion H. clear H. subst x x2.
  assert (Hnac : nac = map parse_mdY_func nacr).
  { rewrite get_col_set_col_same in E3. congruence. }
  rewrite Hc4, Hc2 in Hnacr by reflexivity.
  destruct (get_col cliente "nacimiento") as [nac0|] eqn:Enac0; [|discriminate].
  simpl in Hnacr. inversion Hnacr. subst nacr. clear Hnacr.
  exists m1, m2, nac0, edad. cbv zeta.
  split; [reflexivity|]. split; [|split; [|split]].
  - rewrite !get_col_update_if_present_other by reflexivity.
    rewrite !get_col_set_col_other by reflexivity.
    rewrite get_col_set_col_same. reflexivity.
  - rewrite <- Hnac. assumption.
  - rewrite !get_col_update_if_present_other by reflexivity.
    rewrite get_col_set_col_other by reflexivity.
    apply get_col_set_col_same.
  - rewrite !get_col_update_if_present_other by reflexivity.
    rewrite !get_col_update_if_present_same.
    rewrite !get_col_set_col_other by reflexivity.
    rewrite Hc4, Hc2 by reflexivity.
    destruct (get_col cliente "genero") as [g|]; simpl; [|reflexivity].
    f_equal. rewrite map_map. apply map_ext. intros c. apply genero_text_steps.
Qed.

(** C9.  In the output of [prepare_cliente], row by row, [edad] is missing
    exactly when [nacimiento] is, and [nacimiento] is what the date parser
    made of the input; where [nacimiento] is a date, [edad] is the floor of
    the whole days from it to today over 365.25. *)
Theorem prepare_cliente_edad (cliente out : DataFrame) :
  prepare_cliente today cliente parse_mdY_func = Some out ->
  exists nacimiento edad,
    get_col out "nacimiento" = Some nacimiento /\
    get_col out "edad" = Some edad /\
    List.length edad = List.length nacimiento /\
    (forall c, In c nacimiento -> exists c0, c = parse_mdY_func c0) /\
    forall i, i < List.length nacimiento ->
      (nth i edad NA = NA <-> nth i nacimiento NA = NA) /\
      (forall ns, nth i nacimiento NA = Time ns ->
         nth i edad NA = Int (Qfloor (inject_Z (days_until today ns) / days_per_year))).
Proof.
  intros H. apply prepare_cliente_columns in H.
  destruct H as [m1 [m2 [nac0 [edad [_ [Hnac [Hedad [Hed _]]]]]]]].
  exists (map parse_mdY_func (filter_mask m2 (filter_mask m1 nac0))), edad.
  split; [assumption|]. split; [assumption|].
  destruct (mapM_Some_nth _ NA NA _ Hedad) as [Hl Hn].
  split; [assumption|]. split.
  - intros c Hc. apply in_map_iff in Hc. destruct Hc as [c0 [Hc0 _]]. eauto.
  - intros i Hi. specialize (Hn i Hi).
    destruct (nth i (map parse_mdY_func (filter_mask m2 (filter_mask m1 nac0))) NA)
      eqn:E; simpl in Hn; try discriminate; inversion Hn.
    + split; [tauto | discriminate].
    + split; [split; discriminate|].
      intros ns' Hns. inversion Hns. subst ns'.
      rewrite floor_years. reflexivity.
Qed.

(** C10.  The [genero] column of the output has no missing value.  Its
    values are those of the surviving input rows, as text in upper case: a
    missing input gives "NAN", and only the texts that are exactly "F" and
    "M" in upper case become "FEMALE" and "MALE". *)
Theorem prepare_cliente_genero (cliente out : DataFrame) (genero : Series) :
  prepare_cliente today cliente parse_mdY_func = Some out ->
  get_col out "genero" = Some genero ->
  (exists (m1 m2 : list bool) (genero0 : Series),
     get_col cliente "genero" = Some genero0 /\
     genero = map genero_text (filter_mask m2 (filter_mask m1 genero0))) /\
  (forall i, i < List.length genero -> exists s, nth i genero NA = Str s) /\
  genero_text NA = Str "NAN" /\
  (forall c, genero_text c = Str "FEMALE" <->
     upper (str_of c) = "F" \/ upper (str_of c) = "FEMALE") /\
  (forall c, genero_text c = Str "MALE" <->
     upper (str_of c) = "M" \/ upper (str_of c) = "MALE") /\
  (forall c, upper (str_of c) <> "F" -> upper (str_of c) <> "M" ->
     genero_text c = Str (upper (str_of c))).
Proof.
  intros H Hg. apply prepare_cliente_columns in H.
  destruct H as [m1 [m2 [nac0 [edad [_ [_ [_ [_ Hgen]]]]]]]].
  rewrite Hg in Hgen.
  destruct (get_col cliente "genero") as [g0|] eqn:Eg0; simpl in Hgen; [|discriminate].
  inversion Hgen. clear Hgen. subst genero.
  assert (Hstr : forall c, exists s, genero_text c = Str s).
  { intros c. unfold genero_text.
    destruct (String.eqb _ "F"); [eauto|]. destruct (String.eqb _ "M"); eauto. }
  split; [exists m1, m2, g0; auto|]. split; [|split; [reflexivity|]].
  - intros i Hi. rewrite length_map in Hi.
    rewrite (nth_indep _ NA (genero_text NA)) by (rewrite length_map; assumption).
    rewrite map_nth. apply Hstr.
  - split; [|split].
    + intros c. unfold genero_text.
      destruct (String.eqb_spec (upper (str_of c)) "F") as [E|E].
      * rewrite E. split; auto.
      * destruct (String.eqb_spec (upper (str_of c)) "M") as [E'|E'].
        -- rewrite E'. split; [discriminate | intros [H|H]; discriminate].
        -- split; [intros H; inversion H; auto | intros [H|H]; congruence].
    + intros c. unfold genero_text.
      destruct (String.eqb_spec (upper (str_of c)) "F") as [E|E].
      * rewrite E. split; [discriminate | intros [H|H]; discriminate].
      * destruct (String.eqb_spec (upper (str_of c)) "M") as [E'|E'].
        -- rewrite E'. split; auto.
        -- split; [intros H; inversion H; auto | intros [H|H]; congruence].
    + intros c HF HM. unfold genero_text.
      apply String.eqb_neq in HF, HM. rewrite HF, HM. reflexivity.
Qed.

End CustomerProperties.

Lemma cliente_example_run :
  @prepare_cliente run_pandas 20000 cliente_example (@parse_mdY run_pandas 30)
    = Some cliente_example_out.
Proof. reflexivity. Qed.

Lemma prepare_cliente_edad_witness :
  exists nacimiento edad,
    get_col cliente_example_out "nacimiento" = Some nacimiento /\
    get_col cliente_example_out "edad" = Some edad /\
    List.length edad = List.length nacimiento /\
    (forall c, In c nacimiento -> exists c0, c = @parse_mdY run_pandas 30 c0) /\
    forall i, i < List.length nacimiento ->
      (nth i edad NA = NA <-> nth i nacimiento NA = NA) /\
      (forall ns, nth i nacimiento NA = Time ns ->
         nth i edad NA = Int (Qfloor (inject_Z (days_until 20000 ns) / days_per_year))).
Proof.
  exact (@prepare_cliente_edad run_pandas 20000 (@parse_mdY run_pandas 30)
           cliente_example cliente_example_out eq_refl).
Defined.

Lemma prepare_cliente_genero_witness :
  exists s, nth 1 [Str "FEMALE"; Str "NAN"] NA = Str s.
Proof.
  exact (proj1 (proj2 (@prepare_cliente_genero run_pandas 20000 (@parse_mdY run_pandas 30)
                         cliente_example cliente_example_out
                         [Str "FEMALE"; Str "NAN"] eq_refl eq_refl))
               1 (le_n 2)).
Defined.

(** ** [prepare_producto]: the scenario of two rows *)

Section ProductScenario.
Context {P : Pandas}.
Variables (id1 id2 : Z) (n1 n2 : cell) (other_brand_id other_cat_id : Z).

Let producto : DataFrame := producto_scenario id1 id2 n1 n2.

Lemma scenario_no_duplicates : drop_duplicates producto = producto.
Proof.
  unfold drop_duplicates, rows, producto, producto_scenario. simpl.
  destruct (Qeq_bool (inject_Z id2) (inject_Z id1)); simpl; [|reflexivity].
  destruct (cell_eqb n2 n1); reflexivity.
Qed.


End ProductScenario.

(** ** Rectangular tables *)

Lemma rectangular_get_col (df : DataFrame) (c : string) (s : Series) :
  rectangular df -> get_col df c = Some s -> List.length s = nrows df.
Proof.
  intros Hr Hg. apply get_col_In in Hg. apply in_map_iff in Hg.
  destruct Hg as [cs [Hs Hin]]. subst s. apply Hr. assumption.
Qed.

Lemma filter_mask_length_eq {A B : Type} (mask : list bool) :
  forall (s : list A) (t : list B), List.length s = List.length t ->
    List.length (filter_mask mask s) = List.length (filter_mask mask t).
Proof.
  induction mask as [|b mask IH]; intros [|x s] [|y t]; simpl; intros H;
    try reflexivity; try discriminate.
  destruct b; simpl; rewrite (IH s t) by lia; reflexivity.
Qed.

Lemma rectangular_filter_rows (mask : list bool) (df : DataFrame) :
  rectangular df -> rectangular (filter_rows mask df).
Proof.
  intros Hr cs Hin. unfold filter_rows in *. apply in_map_iff in Hin.
  destruct Hin as [[c s] [Hcs Hin]]. subst cs. simpl.
  destruct df as [|[c0 s0] df]; [destruct Hin|]. simpl.
  apply filter_mask_length_eq.
  apply (Hr _ Hin).
Qed.

Lemma nrows_set_col (c : string) (s : Series) (df : DataFrame) :
  List.length s = nrows df -> nrows (set_col c s df) = nrows df.
Proof.
  destruct df as [|[c0 s0] df]; simpl; intros H; [assumption|].
  destruct (String.eqb c c0); simpl; [assumption | reflexivity].
Qed.

Lemma rectangular_set_col (c : string) (s : Series) (df : DataFrame) :
  rectangular df -> List.length s = nrows df -> rectangular (set_col c s df).
Proof.
  intros Hr Hl cs Hin. rewrite nrows_set_col by assumption.
  unfold rectangular in Hr. revert Hr Hl Hin. generalize (nrows df) as n.
  intros n Hall Hl.
  induction df as [|[c0 s0] df IH]; simpl; intros Hin.
  - destruct Hin as [<-|[]]. assumption.
  - destruct (String.eqb c c0).
    + destruct Hin as [<-|Hin]; [assumption | apply Hall; right; assumption].
    + destruct Hin as [<-|Hin]; [apply (Hall (c0, s0)); left; reflexivity|].
      apply IH; [intros; apply Hall; right; assumption | assumption].
Qed.

Lemma nrows_filter_rows (mask : list bool) (df : DataFrame) (c : string) (s : Series) :
  rectangular df -> get_col df c = Some s ->
  nrows (filter_rows mask df) = List.length (filter_mask mask s).
Proof.
  intros Hr Hg.
  assert (Hg' : get_col (filter_rows mask df) c = Some (filter_mask mask s))
    by (rewrite get_col_filter_rows, Hg; reflexivity).
  symmetry. apply (rectangular_get_col _ (rectangular_filter_rows mask Hr) Hg').
Qed.

(** ** Numbers *)

Lemma Qtruncate_mono (p q : Q) : (p <= q)%Q -> (Qtruncate p <= Qtruncate q)%Z.
Proof.
  intros H. unfold Qtruncate.
  destruct (Qle_bool 0 p) eqn:Ep; destruct (Qle_bool 0 q) eqn:Eq.
  - apply Qfloor_resp_le. assumption.
  - apply Qle_bool_iff in Ep.
    assert (Hq : ~ (0 <= q)%Q) by (rewrite <- Qle_bool_iff; congruence).
    exfalso. apply Hq. apply Qle_trans with p; assumption.
  - assert (Hp : ~ (0 <= p)%Q) by (rewrite <- Qle_bool_iff; congruence).
    apply Qle_bool_iff in Eq.
    apply Z.le_trans with 0%Z.
    + change 0%Z with (Qceiling 0). apply Qceiling_resp_le.
      apply Qnot_lt_le. intros Hlt. apply Hp. apply Qlt_le_weak. assumption.
    + change 0%Z with (Qfloor 0). apply Qfloor_resp_le. assumption.
  - apply Qceiling_resp_le. assumption.
Qed.

Lemma Qtruncate_inject_Z (z : Z) : Qtruncate (inject_Z z) = z.
Proof.
  unfold Qtruncate. destruct (Qle_bool 0 (inject_Z z)); [apply Qfloor_Z | apply Qceiling_Z].
Qed.

Lemma Qtruncate_Qeq (p q : Q) : (p == q)%Q -> Qtruncate p = Qtruncate q.
Proof.
  intros H. apply Z.le_antisymm; apply Qtruncate_mono; rewrite H; apply Qle_refl.
Qed.

(** [int(max_id) if pd.notna(max_id) else 0]: when it returns, no id is
    infinite in a way that matters, and the value is that of the finite
    numbers. *)
Lemma max_of_int (s : Series) (z : Z) :
  (if isna (max_of s) then Some 0%Z else int_of (max_of s)) = Some z ->
  z = match Qmax_list (numbers s) with
      | Some m => Qtruncate m
      | None => 0%Z
      end.
Proof.
  unfold max_of. destruct (0 <? count_inf false s); simpl; [discriminate|].
  destruct (Qmax_list (numbers s)) as [m|]; simpl; [congruence|].
  destruct (0 <? count_inf true s); simpl; [discriminate | congruence].
Qed.

Lemma Qmax_list_upper (l : list Q) (m : Q) :
  Qmax_list l = Some m -> forall q, In q l -> (q <= m)%Q.
Proof.
  revert m. induction l as [|p l IH]; simpl; intros m Hm q Hin; [tauto|].
  destruct (Qmax_list l) as [m'|] eqn:E.
  - inversion Hm. clear Hm. destruct (Qle_bool p m') eqn:Ep.
    + subst m. apply Qle_bool_iff in Ep.
      destruct Hin as [<-|Hin]; [assumption | apply IH; auto].
    + subst m.
      assert (Hlt : (m' < p)%Q).
      { apply Qnot_le_lt. rewrite <- Qle_bool_iff. congruence. }
      destruct Hin as [<-|Hin]; [apply Qle_refl|].
      apply Qle_trans with m'; [apply IH; auto | apply Qlt_le_weak; assumption].
  - inversion Hm. subst m. destruct Hin as [<-|Hin]; [apply Qle_refl|].
    destruct l; [destruct Hin | simpl in E; destruct (Qmax_list l); discriminate].
Qed.

Lemma Qmax_list_None (l : list Q) : Qmax_list l = None -> l = [].
Proof.
  destruct l as [|q l]; simpl; [reflexivity|].
  destruct (Qmax_list l); discriminate.
Qed.

(** ** Masks: the first row that satisfies a condition *)

Lemma existsb_map {A B : Type} (f : A -> B) (p : B -> bool) (l : list A) :
  existsb p (map f l) = existsb (fun a => p (f a)) l.
Proof. induction l as [|a l IH]; simpl; [reflexivity | rewrite IH; reflexivity]. Qed.

Lemma first_true (p : cell -> bool) (labs : Series) :
  existsb p labs = true ->
  exists i, i < List.length labs /\ p (nth i labs NA) = true /\
    (forall j, j < i -> p (nth j labs NA) = false) /\
    forall ids : Series, List.length ids = List.length labs ->
      hd_error (filter_mask (map p labs) ids) = Some (nth i ids NA).
Proof.
  induction labs as [|l labs IH]; simpl; [discriminate|].
  destruct (p l) eqn:E; simpl.
  - intros _. exists 0. split; [lia|]. split; [assumption|]. split; [intros; lia|].
    intros [|x ids] Hl; [discriminate | reflexivity].
  - intros H. destruct (IH H) as [i [Hi [Hp [Hlt Hhd]]]].
    exists (S i). split; [lia|]. split; [assumption|]. split.
    + intros [|j] Hj; [assumption | apply Hlt; lia].
    + intros [|x ids] Hl; [discriminate|]. simpl. apply Hhd. simpl in Hl. lia.
Qed.

Lemma get_col_append_row (vals df : DataFrame) (c : string) :
  get_col (append_row vals df) c =
    option_map (fun s => s ++ match get_col vals c with
                              | Some v => v
                              | None => [NA]
                              end) (get_col df c).
Proof.
  unfold append_row. induction df as [|[c0 s0] df IH]; simpl; [reflexivity|].
  destruct (String.eqb_spec c c0) as [->|]; [reflexivity | assumption].
Qed.

Lemma numbers_In (s : Series) (q : Q) :
  In q (numbers s) <-> exists c, In c s /\ num_of c = Some q.
Proof.
  induction s as [|c s IH]; simpl.
  - split; [tauto | intros [c [[] _]]].
  - destruct (num_of c) as [q'|] eqn:E; simpl; rewrite IH; split.
    + intros [<-|[c' [Hin Hc']]]; [exists c; auto | exists c'; auto].
    + intros [c' [[<-|Hin] Hc']]; [left; congruence | right; eauto].
    + intros [c' [Hin Hc']]. exists c'. auto.
    + intros [c' [[<-|Hin] Hc']]; [congruence | eauto].
Qed.

(** ** The dimension preparers *)

Lemma eq_str_true (t : string) (c : cell) : eq_str t c = true -> c = Str t.
Proof.
  destruct c; simpl; try discriminate. intros H. apply String.eqb_eq in H. congruence.
Qed.

Lemma firstn_last_nth {A : Type} (l : list A) (n : nat) (d : A) :
  List.length l = S n -> l = firstn n l ++ [nth n l d].
Proof.
  revert n. induction l as [|a l IH]; simpl; intros n H; [discriminate|].
  destruct n as [|n]; simpl.
  - destruct l; [reflexivity | discriminate].
  - f_equal. apply IH. lia.
Qed.

Section DimensionProperties.
Context {P : Pandas}.

Lemma to_numeric_raise_Some (c c' : cell) :
  to_numeric_raise c = Some c' -> to_numeric c = c'.
Proof.
  destruct c; simpl; try congruence.
  destruct (infinite_of_str s); [congruence|].
  destruct (numeric_of_str s); congruence.
Qed.

(** The steps of [prepare_dimension], read off a successful run. *)
Lemma prepare_dimension_steps (label : string) (dim out : DataFrame) (other_id : Z) :
  String.eqb label "id" = false ->
  prepare_dimension label dim = Some (out, other_id) ->
  exists (ids0 labs0 : Series) (m1 m2 : list bool) (dim3 : DataFrame) (ids3 ids4 : Series),
    let dim2 := filter_rows m2 (filter_rows m1 (set_col label (map normalize_text labs0) dim)) in
    let ids2 := filter_mask m2 (filter_mask m1 ids0) in
    let labs2 := filter_mask m2 (filter_mask m1 (map normalize_text labs0)) in
    get_col dim "id" = Some ids0 /\
    get_col dim label = Some labs0 /\
    get_col dim2 "id" = Some ids2 /\
    get_col dim2 label = Some labs2 /\
    ((existsb (eq_str "OTHER") labs2 = true /\ dim3 = dim2 /\
      exists c rest first,
        filter_mask (map (eq_str "OTHER") labs2) ids2 = c :: rest /\
        to_numeric_raise c = Some first /\ int_of first = Some other_id)
     \/
     (existsb (eq_str "OTHER") labs2 = false /\
      dim3 = append_row [("id", [Int other_id]); (label, [Str "OTHER"])] dim2 /\
      other_id = (match Qmax_list (numbers (map to_numeric ids2)) with
                  | Some m => Qtruncate m
                  | None => 0
                  end + 1)%Z)) /\
    get_col dim3 "id" = Some ids3 /\
    safe_int_cast (map to_numeric ids3) (Some other_id) = Some ids4 /\
    out = set_col "id" ids4 dim3 /\
    m2 = keep_first []
           (rows_of (nrows (filter_rows m1 (set_col label (map normalize_text labs0) dim)))
                    [filter_mask m1 ids0; filter_mask m1 (map normalize_text labs0)]) /\
    m1 = map2 (fun i l =>
                 negb (isna i && eq_str "" (str_strip (replace_value (Str "NAN") (Str "") l))))
              ids0 (map normalize_text labs0).
Proof.
  intros Hlab H. unfold prepare_dimension in H.
  assert (Hlab' : String.eqb "id" label = false) by (rewrite String.eqb_sym; assumption).
  bind_inv H. rename x into labs0, E into Hlabs0.
  bind_inv H. rename x into ids0, E into Hids0.
  bind_inv H. rename x into labs1, E into Hlabs1.
  rewrite get_col_set_col_other in Hids0 by assumption.
  rewrite get_col_set_col_same in Hlabs1. inversion Hlabs1. subst labs1. clear Hlabs1.
  bind_inv H. rename x into dim2, E into Hdim2.
  unfold drop_duplicates_subset in Hdim2. bind_inv Hdim2. inversion Hdim2. clear Hdim2.
  match type of H1 with filter_rows ?a (filter_rows ?b _) = _ =>
    set (m2 := a) in *; set (m1 := b) in * end.
  assert (Hkeys : x = [filter_mask m1 ids0; filter_mask m1 (map normalize_text labs0)]).
  { cbn [mapM] in E. rewrite !get_col_filter_rows in E.
    rewrite get_col_set_col_same in E.
    rewrite get_col_set_col_other, Hids0 in E by assumption.
    simpl in E. inversion E. reflexivity. }
  clear E. bind_inv H. rename x0 into labs2, E into Hlabs2.
  bind_inv H. rename x0 into ids2, E into Hids2.
  bind_inv H. destruct x0 as [dim3 oid]. rename E into Hres.
  bind_inv H. rename x0 into ids3, E into Hids3.
  bind_inv H. rename x0 into ids4, E into Hids4.
  inversion H. subst out oid. clear H.
  subst dim2. rewrite !get_col_filter_rows in Hlabs2, Hids2.
  rewrite get_col_set_col_same in Hlabs2.
  rewrite get_col_set_col_other, Hids0 in Hids2 by assumption.
  simpl in Hlabs2, Hids2. inversion Hlabs2. inversion Hids2. clear Hlabs2 Hids2.
  exists ids0, labs0, m1, m2, dim3, ids3, ids4. cbv zeta.
  split; [assumption|]. split; [assumption|].
  split; [rewrite !get_col_filter_rows, get_col_set_col_other, Hids0 by assumption;
          reflexivity|].
  split; [rewrite !get_col_filter_rows, get_col_set_col_same; reflexivity|].
  split; [|split; [assumption|split; [assumption|split; [reflexivity|split]]]].
  3:{ unfold m1. apply map_map2. }
  2:{ unfold m2. rewrite Hkeys. reflexivity. }
  rewrite existsb_map in Hres.
  destruct (existsb (fun a => eq_str "OTHER" a) labs2) eqn:Ex.
  - left. bind_inv Hres. bind_inv Hres. bind_inv Hres. inversion Hres. subst dim3 x2.
    subst labs2 ids2.
    split; [exact Ex|]. split; [reflexivity|].
    destruct (filter_mask _ _) as [|c rest] eqn:Ef in E; simpl in E; [inversion E; subst; discriminate|].
    bind_inv E. bind_inv E. inversion E. subst x0. simpl in E0. inversion E0. subst x1.
    exists c, rest, x2. auto.
  - right. bind_inv Hres. rename x0 into max_id, E into Hmax.
    inversion Hres. subst labs2 ids2. split; [exact Ex|]. split; [reflexivity|].
    rewrite (max_of_int _ Hmax). reflexivity.
Qed.

(** Cells that [drop_duplicates] takes for equal are read as the same
    number. *)
Lemma cell_eqb_to_numeric (a b : cell) (q : Q) :
  cell_eqb a b = true -> num_of (to_numeric a) = Some q ->
  exists q', num_of (to_numeric b) = Some q' /\ (q == q')%Q.
Proof.
  destruct a, b; simpl; try discriminate; intros H Hq.
  1-4: injection Hq as <-; eexists; (split; [reflexivity|]); apply Qeq_bool_iff;
    assumption.
  apply String.eqb_eq in H. subst s0. exists q. split; [assumption | reflexivity].
Qed.

(** Every number among the ids of the input is, up to its integer part, a
    number among the ids of the rows kept. *)
Lemma kept_ids_cover (ids0 labs : Series) (m1 : list bool) (q : Q) :
  List.length ids0 = List.length labs ->
  m1 = map2 (fun i l =>
               negb (isna i && eq_str "" (str_strip (replace_value (Str "NAN") (Str "") l))))
            ids0 labs ->
  In q (numbers (map to_numeric ids0)) ->
  let ids1 := filter_mask m1 ids0 in
  let m2 := keep_first [] (rows_of (List.length ids1) [ids1; filter_mask m1 labs]) in
  exists q', In q' (numbers (map to_numeric (filter_mask m2 ids1))) /\ (q == q')%Q.
Proof.
  intros Hlen Hm1 Hq ids1 m2.
  apply numbers_In in Hq. destruct Hq as [c' [Hc' Hnum]].
  apply in_map_iff in Hc'. destruct Hc' as [c [<- Hc]].
  destruct (In_nth _ _ NA Hc) as [a [Ha Hca]].
  (* the row of [c] is not empty *)
  assert (Hin1 : In c ids1).
  { rewrite <- Hca. apply filter_mask_nth_In; [assumption|].
    rewrite Hm1, (map2_nth _ NA NA) by lia. rewrite Hca.
    destruct c; try reflexivity. discriminate Hnum. }
  destruct (In_nth _ _ NA Hin1) as [j [Hj Hcj]].
  assert (Hlen1 : List.length ids1 = List.length (filter_mask m1 labs))
    by (apply filter_mask_length_eq; assumption).
  destruct (@keep_first_covers (rows_of (List.length ids1) [ids1; filter_mask m1 labs]) j)
    as [k [Hk [Hkept Heq]]]; [rewrite rows_of_length; assumption|].
  fold m2 in Hkept.
  rewrite !rows_of_nth in Heq by lia. unfold row_of in Heq. simpl in Heq.
  apply andb_true_iff in Heq. destruct Heq as [Heq _].
  rewrite Hcj in Heq.
  destruct (cell_eqb_to_numeric _ _ Heq Hnum) as [q' [Hq' Hqq]].
  exists q'. split; [|assumption].
  apply numbers_In. exists (to_numeric (nth k ids1 NA)). split; [|assumption].
  apply in_map. apply filter_mask_nth_In; [lia | assumption].
Qed.

Lemma prepare_dimension_sentinel (label : string) (dim out : DataFrame) (other_id : Z) :
  String.eqb label "id" = false -> rectangular dim ->
  prepare_dimension label dim = Some (out, other_id) ->
  sentinel_spec label dim out other_id.
Proof.
  intros Hlab Hrect H.
  assert (Hlab' : String.eqb "id" label = false) by (rewrite String.eqb_sym; assumption).
  destruct (prepare_dimension_steps _ _ Hlab H)
    as [ids0 [labs0 [m1 [m2 [dim3 [ids3 [ids4 Hs]]]]]]].
  cbv zeta in Hs.
  destruct Hs as [Hids0 [Hlabs0 [Hids2 [Hlabs2 [Hcase [Hids3 [Hcast [Hout [Hm2 Hm1]]]]]]]]].
  assert (Hlen0 : List.length ids0 = List.length (map normalize_text labs0)).
  { rewrite length_map.
    rewrite (rectangular_get_col _ Hrect Hids0), (rectangular_get_col _ Hrect Hlabs0).
    reflexivity. }
  assert (Hn1 : nrows (filter_rows m1 (set_col label (map normalize_text labs0) dim))
                = List.length (filter_mask m1 ids0)).
  { apply nrows_filter_rows with (c := "id").
    - apply rectangular_set_col; [assumption|].
      rewrite length_map. apply (rectangular_get_col _ Hrect Hlabs0).
    - rewrite get_col_set_col_other by assumption. assumption. }
  rewrite Hn1 in Hm2.
  unfold sentinel_spec. exists ids0, labs0, ids4. cbv zeta.
  rewrite <- Hm1, <- Hm2.
  set (ids2 := filter_mask m2 (filter_mask m1 ids0)) in *.
  set (labs2 := filter_mask m2 (filter_mask m1 (map normalize_text labs0))) in *.
  assert (Hlen2 : List.length ids2 = List.length labs2).
  { unfold ids2, labs2. do 2 apply filter_mask_length_eq. assumption. }
  destruct (safe_int_cast_nth _ _ Hcast) as [Hl4 Hn4]. rewrite length_map in Hl4, Hn4.
  assert (Hcell : forall j, j < List.length ids3 ->
            exists z, nth j ids4 NA = Int z /\
              cast_cell (Some other_id) (to_numeric (nth j ids3 NA)) = Some z).
  { intros j Hj. destruct (Hn4 j Hj) as [z [Hz Ho]]. exists z. split; [assumption|].
    rewrite map_nth_NA, to_numeric_idem in Hz by assumption. assumption. }
  destruct Hcase as [[Hex [Hd3 [c [rest [first [Hf [Hraise Hint]]]]]]] | [Hex [Hd3 Hoid]]].
  - (* a row is OTHER already *)
    subst dim3. rewrite Hids2 in Hids3. inversion Hids3. subst ids3. clear Hids3.
    exists labs2.
    split; [assumption|]. split; [assumption|].
    split; [rewrite Hout; apply get_col_set_col_same|].
    split; [rewrite Hout, get_col_set_col_other by assumption; assumption|].
    split; [congruence|].
    split; [|split; [exact Hcell|split]].
    3:{ intros _. split; [reflexivity | exact Hl4]. }
    2:{ intros Hc. congruence. }
    destruct (first_true _ _ Hex) as [i [Hi [Hp [Hlt Hhd]]]].
    exists i. split; [assumption|].
    split; [apply eq_str_true; assumption|]. split; [|assumption].
    specialize (Hhd ids2 Hlen2). rewrite Hf in Hhd. simpl in Hhd. inversion Hhd. subst c.
    destruct (Hcell i ltac:(lia)) as [z [Hz Hc]].
    apply to_numeric_raise_Some in Hraise. rewrite Hraise in Hc.
    destruct first; simpl in *; try discriminate; congruence.
  - (* no row is OTHER: one is appended *)
    subst dim3. rewrite get_col_append_row, Hids2 in Hids3. simpl in Hids3.
    inversion Hids3. subst ids3. clear Hids3.
    rewrite length_app in Hl4, Hcell. simpl in Hl4, Hcell.
    assert (Hlast : nth (List.length ids2) ids4 NA = Int other_id).
    { destruct (Hcell (List.length ids2) ltac:(lia)) as [z [Hz Hc]].
      rewrite app_nth2, Nat.sub_diag in Hc by lia. simpl in Hc. congruence. }
    exists (labs2 ++ [Str "OTHER"]).
    split; [assumption|]. split; [assumption|].
    split; [rewrite Hout; apply get_col_set_col_same|].
    split.
    { rewrite Hout, get_col_set_col_other by assumption.
      rewrite get_col_append_row, Hlabs2. simpl. rewrite Hlab, String.eqb_refl.
      reflexivity. }
    split; [rewrite length_app; simpl; lia|].
    split; [|split; [|split]].
    4:{ intros Hc. congruence. }
    + exists (List.length labs2). rewrite length_app. simpl. split; [lia|].
      split; [rewrite app_nth2, Nat.sub_diag by lia; reflexivity|].
      split; [rewrite <- Hlen2; assumption|].
      intros j Hj. rewrite app_nth1 by assumption.
      apply existsb_nth_false; assumption.
    + intros j Hj.
      destruct (Hcell j ltac:(lia)) as [z [Hz Hc]].
      exists z. split; [assumption|]. rewrite app_nth1 in Hc by assumption. assumption.
    + intros _. split; [reflexivity|]. split.
      * rewrite <- Hlast. apply firstn_last_nth. lia.
      * intros q Hq.
        destruct (@kept_ids_cover ids0 (map normalize_text labs0) m1 q Hlen0 Hm1 Hq)
          as [q' [Hq' Hqq]].
        cbv zeta in Hq'. rewrite <- Hm2 in Hq'. fold ids2 in Hq'.
        rewrite (Qtruncate_Qeq Hqq), Hoid.
        destruct (Qmax_list (numbers (map to_numeric ids2))) as [m|] eqn:Em.
        -- pose proof (Qtruncate_mono (Qmax_list_upper _ Em _ Hq')). lia.
        -- apply Qmax_list_None in Em. rewrite Em in Hq'. destruct Hq'.
Qed.

End DimensionProperties.

(** ** Texts: normalising twice *)

Lemma is_space_upper_char (c : ascii) : is_space (upper_char c) = is_space c.
Proof. destruct c as [[] [] [] [] [] [] [] []]; reflexivity. Qed.

Lemma upper_char_idem (c : ascii) : upper_char (upper_char c) = upper_char c.
Proof. destruct c as [[] [] [] [] [] [] [] []]; reflexivity. Qed.

Lemma upper_idem (s : string) : upper (upper s) = upper s.
Proof.
  induction s as [|c s IH]; simpl; [reflexivity|].
  rewrite upper_char_idem, IH. reflexivity.
Qed.

Lemma all_space_upper (s : string) : all_space (upper s) = all_space s.
Proof.
  induction s as [|c s IH]; simpl; [reflexivity|].
  rewrite is_space_upper_char, IH. reflexivity.
Qed.

Lemma lstrip_upper (s : string) : lstrip (upper s) = upper (lstrip s).
Proof.
  induction s as [|c s IH]; simpl; [reflexivity|].
  rewrite is_space_upper_char. destruct (is_space c); [assumption | reflexivity].
Qed.

Lemma rstrip_upper (s : string) : rstrip (upper s) = upper (rstrip s).
Proof.
  induction s as [|c s IH]; [reflexivity|].
  change (upper (String c s)) with (String (upper_char c) (upper s)).
  change (rstrip (String (upper_char c) (upper s)))
    with (if all_space (upper (String c s)) then EmptyString
          else String (upper_char c) (rstrip (upper s))).
  change (rstrip (String c s))
    with (if all_space (String c s) then EmptyString else String c (rstrip s)).
  rewrite all_space_upper, IH. destruct (all_space (String c s)); reflexivity.
Qed.

Lemma strip_upper (s : string) : strip (upper s) = upper (strip s).
Proof. unfold strip. rewrite lstrip_upper, rstrip_upper. reflexivity. Qed.

Lemma all_space_rstrip (s : string) :
  all_space s = false -> all_space (rstrip s) = false.
Proof.
  induction s as [|c s IH]; [discriminate|]. intros H.
  change (rstrip (String c s))
    with (if all_space (String c s) then EmptyString else String c (rstrip s)).
  rewrite H. simpl in *. destruct (is_space c); [auto | reflexivity].
Qed.

Lemma rstrip_idem (s : string) : rstrip (rstrip s) = rstrip s.
Proof.
  induction s as [|c s IH]; [reflexivity|].
  change (rstrip (String c s))
    with (if all_space (String c s) then EmptyString else String c (rstrip s)).
  destruct (all_space (String c s)) eqn:E; [reflexivity|].
  change (rstrip (String c (rstrip s)))
    with (if all_space (String c (rstrip s)) then EmptyString
          else String c (rstrip (rstrip s))).
  assert (E' : all_space (String c (rstrip s)) = false).
  { simpl in *. destruct (is_space c); [apply all_space_rstrip; assumption | reflexivity]. }
  rewrite E', IH. reflexivity.
Qed.

Lemma strip_idem (s : string) : strip (strip s) = strip s.
Proof.
  unfold strip. destruct (lstrip s) as [|c r] eqn:E; [reflexivity|].
  pose proof (lstrip_no_leading_space _ E) as Hc.
  change (rstrip (String c r))
    with (if all_space (String c r) then EmptyString else String c (rstrip r)).
  assert (Ha : all_space (String c r) = false) by (simpl; rewrite Hc; reflexivity).
  rewrite Ha. rewrite lstrip_fixed by assumption.
  change (rstrip (String c (rstrip r)))
    with (if all_space (String c (rstrip r)) then EmptyString
          else String c (rstrip (rstrip r))).
  assert (Ha' : all_space (String c (rstrip r)) = false) by (simpl; rewrite Hc; reflexivity).
  rewrite Ha', rstrip_idem. reflexivity.
Qed.

(** ** Operations that leave a table as it is *)

Lemma set_col_unchanged (c : string) (s : Series) (df : DataFrame) :
  get_col df c = Some s -> set_col c s df = df.
Proof.
  induction df as [|[c0 s0] df IH]; simpl; [discriminate|].
  destruct (String.eqb_spec c c0) as [->|].
  - intros H. inversion H. reflexivity.
  - intros H. rewrite IH by assumption. reflexivity.
Qed.

Lemma filter_rows_all_true (mask : list bool) (df : DataFrame) :
  rectangular df -> nrows df <= List.length mask ->
  (forall b, In b mask -> b = true) ->
  filter_rows mask df = df.
Proof.
  intros Hr Hl Hb. unfold filter_rows.
  rewrite <- (map_id df) at 2. apply map_ext_in. intros [c s] Hin. simpl.
  f_equal. apply filter_mask_all_true; [|assumption].
  pose proof (Hr _ Hin) as Hs. simpl in Hs. lia.
Qed.

Lemma keep_first_all_true (l : list (list cell)) :
  (forall i j, i < j < List.length l -> row_eqb (nth j l []) (nth i l []) = false) ->
  forall b, In b (keep_first [] l) -> b = true.
Proof.
  intros H b Hb. destruct (In_nth _ _ true Hb) as [j [Hj Hn]].
  rewrite keep_first_length in Hj.
  destruct b; [reflexivity|]. exfalso.
  apply keep_first_dropped in Hn; [|assumption].
  destruct Hn as [i [Hi Heq]]. rewrite H in Heq by lia. discriminate.
Qed.

Lemma map_unchanged {A : Type} (f : A -> A) (l : list A) :
  (forall a, In a l -> f a = a) -> map f l = l.
Proof.
  intros H. rewrite <- (map_id l) at 2. apply map_ext_in. assumption.
Qed.

Lemma mapM_unchanged {A : Type} (f : A -> option A) (l : list A) :
  (forall a, In a l -> f a = Some a) -> mapM f l = Some l.
Proof.
  induction l as [|a l IH]; simpl; intros H; [reflexivity|].
  rewrite (H a (or_introl eq_refl)). simpl. rewrite IH by (intros; apply H; auto).
  reflexivity.
Qed.

Lemma map2_In {A B C : Type} (f : A -> B -> C) (s : list A) (t : list B) (c : C) :
  In c (map2 f s t) -> exists a b, In a s /\ In b t /\ c = f a b.
Proof.
  revert t. induction s as [|a s IH]; intros [|b t]; simpl; try tauto.
  intros [<-|H].
  - exists a, b. auto.
  - destruct (IH _ H) as [a' [b' [Ha [Hb Hc]]]]. exists a', b'. auto.
Qed.

Lemma rectangular_append_row (vals df : DataFrame) :
  rectangular df ->
  (forall c v, get_col vals c = Some v -> List.length v = 1) ->
  rectangular (append_row vals df) /\ nrows (append_row vals df) = nrows df + 1 \/ df = [].
Proof.
  intros Hr Hv. destruct df as [|[c0 s0] df]; [right; reflexivity|]. left.
  assert (Hone : forall c, List.length (match get_col vals c with
                                        | Some v => v
                                        | None => [NA]
                                        end) = 1).
  { intros c. destruct (get_col vals c) eqn:E; [eapply Hv; eassumption | reflexivity]. }
  split.
  - intros cs Hin. unfold append_row in Hin. apply in_map_iff in Hin.
    destruct Hin as [[c s] [Hcs Hin]]. subst cs. simpl.
    rewrite !length_app, !Hone. pose proof (Hr _ Hin) as Hs. simpl in Hs. lia.
  - simpl. rewrite length_app, Hone. reflexivity.
Qed.

Section Idempotence.
Context {P : Pandas}.

Lemma normalize_text_idem (c : cell) :
  normalize_text (normalize_text c) = normalize_text c.
Proof.
  unfold normalize_text. simpl.
  rewrite strip_upper, strip_idem, upper_idem. reflexivity.
Qed.

Lemma safe_int_cast_ints (s : Series) (f : Z) :
  (forall c, In c s -> exists z, c = Int z) ->
  safe_int_cast (map to_numeric s) (Some f) = Some s.
Proof.
  intros H. unfold safe_int_cast.
  assert (Hm : map to_numeric (map to_numeric s) = s).
  { rewrite map_map. apply map_unchanged. intros c Hc.
    destruct (H c Hc) as [z ->]. reflexivity. }
  rewrite Hm.
  assert (Hf : fillna (Int f) s = s).
  { apply map_unchanged. intros c Hc. destruct (H c Hc) as [z ->]. reflexivity. }
  rewrite Hf.
  assert (He : existsb isna s = false).
  { destruct (existsb isna s) eqn:E; [|reflexivity].
    apply existsb_exists in E. destruct E as [c [Hc Hna]].
    destruct (H c Hc) as [z ->]. discriminate. }
  rewrite He. apply mapM_unchanged.
  intros c Hc. destruct (H c Hc) as [z ->]. reflexivity.
Qed.

Lemma cell_eqb_Int (a b : Z) : cell_eqb (Int a) (Int b) = true -> a = b.
Proof.
  simpl. unfold Qeq_bool. simpl. intros H.
  apply Z.eqb_eq in H. lia.
Qed.

(** The table a dimension preparer returns: rectangular, all ids integers,
    all labels normalised texts. *)
Lemma prepare_dimension_output (label : string) (dim out : DataFrame) (other_id : Z) :
  String.eqb label "id" = false -> rectangular dim ->
  prepare_dimension label dim = Some (out, other_id) ->
  rectangular out /\
  exists ids labs,
    get_col out "id" = Some ids /\ get_col out label = Some labs /\
    (forall c, In c ids -> exists z, c = Int z) /\
    (forall c, In c labs -> exists c0, c = normalize_text c0).
Proof.
  intros Hlab Hrect H.
  assert (Hlab' : String.eqb "id" label = false) by (rewrite String.eqb_sym; assumption).
  destruct (prepare_dimension_steps _ _ Hlab H)
    as [ids0 [labs0 [m1 [m2 [dim3 [ids3 [ids4 Hs]]]]]]].
  cbv zeta in Hs.
  set (dim1 := set_col label (map normalize_text labs0) dim) in *.
  set (dim2 := filter_rows m2 (filter_rows m1 dim1)) in *.
  set (ids2 := filter_mask m2 (filter_mask m1 ids0)) in *.
  set (labs2 := filter_mask m2 (filter_mask m1 (map normalize_text labs0))) in *.
  destruct Hs as [Hids0 [Hlabs0 [Hids2 [Hlabs2 [Hcase [Hids3 [Hcast [Hout [Hm2 Hm1]]]]]]]]].
  assert (Hr1 : rectangular dim1).
  { apply rectangular_set_col; [assumption|].
    rewrite length_map. apply (rectangular_get_col _ Hrect Hlabs0). }
  assert (Hr2 : rectangular dim2) by (do 2 apply rectangular_filter_rows; assumption).
  assert (Hnorm2 : forall c, In c labs2 -> exists c0, c = normalize_text c0).
  { intros c Hc. unfold labs2 in Hc. do 2 apply filter_mask_In in Hc.
    apply in_map_iff in Hc. destruct Hc as [c0 [Hc0 _]]. eauto. }
  destruct (safe_int_cast_nth _ _ Hcast) as [Hl4 Hn4]. rewrite length_map in Hl4, Hn4.
  assert (Hints : forall c, In c ids4 -> exists z, c = Int z).
  { intros c Hc. destruct (In_nth _ _ NA Hc) as [j [Hj Hn]].
    destruct (Hn4 j ltac:(lia)) as [z [_ Hz]]. exists z. congruence. }
  assert (Hr3 : rectangular dim3 /\
                exists labs3, get_col dim3 label = Some labs3 /\
                  forall c, In c labs3 -> exists c0, c = normalize_text c0).
  { destruct Hcase as [[_ [-> _]] | [_ [-> _]]].
    - split; [assumption|]. exists labs2. auto.
    - split.
      + destruct (rectangular_append_row
                    [("id", [Int other_id]); (label, [Str "OTHER"])] Hr2) as [[Hr _]|He].
        * intros c v. simpl. destruct (String.eqb c "id"); [intros Hv; inversion Hv; reflexivity|].
          destruct (String.eqb c label); [intros Hv; inversion Hv; reflexivity | discriminate].
        * assumption.
        * rewrite He. intros cs [].
      + exists (labs2 ++ [Str "OTHER"]). split.
        * rewrite get_col_append_row, Hlabs2. simpl. rewrite Hlab, String.eqb_refl.
          reflexivity.
        * intros c Hc. apply in_app_or in Hc. destruct Hc as [Hc|[<-|[]]]; [auto|].
          exists (Str "OTHER"). reflexivity. }
  destruct Hr3 as [Hr3 [labs3 [Hlabs3 Hnorm3]]].
  split.
  - rewrite Hout. apply rectangular_set_col; [assumption|].
    rewrite Hl4. apply (rectangular_get_col _ Hr3 Hids3).
  - exists ids4, labs3. rewrite Hout.
    split; [apply get_col_set_col_same|].
    split; [rewrite get_col_set_col_other by assumption; assumption|].
    split; assumption.
Qed.

End Idempotence.

Lemma filter_mask_map {A B : Type} (f : A -> B) (mask : list bool) :
  forall s : list A, filter_mask mask (map f s) = map f (filter_mask mask s).
Proof.
  induction mask as [|b mask IH]; intros [|x s]; simpl; try reflexivity.
  destruct b; simpl; rewrite IH; reflexivity.
Qed.

(** Selecting by a condition among the rows a mask keeps is selecting by the
    mask and the condition. *)
Lemma filter_mask_and {A : Type} (m : list bool) :
  forall (p : list bool) (s : list A),
    filter_mask (filter_mask m p) (filter_mask m s) = filter_mask (map2 andb m p) s.
Proof.
  induction m as [|b m IH]; intros [|c p] [|x s]; simpl; try reflexivity.
  - rewrite filter_mask_nil. destruct b; reflexivity.
  - destruct b; simpl; [destruct c|]; rewrite IH; reflexivity.
Qed.

Lemma first_of_mask (mask : list bool) :
  forall (ids : Series) (i : nat),
    i < List.length ids -> nth i mask false = true ->
    (forall j, j < i -> nth j mask false = false) ->
    hd_error (filter_mask mask ids) = Some (nth i ids NA).
Proof.
  induction mask as [|b mask IH]; intros [|x ids] i Hi Hm Hlt; simpl in *; try lia.
  - destruct i; discriminate.
  - destruct i as [|i].
    + rewrite Hm. reflexivity.
    + rewrite (Hlt 0 ltac:(lia)). apply IH; [lia | assumption|].
      intros j Hj. apply (Hlt (S j)). lia.
Qed.

Section IdempotenceRun.
Context {P : Pandas}.

(** A run of a dimension preparer on a table that is clean already: nothing
    happens but the removal of the rows that repeat id and label. *)
Lemma prepare_dimension_clean (label : string) (out : DataFrame) (other_id : Z)
    (ids labs : Series) :
  String.eqb label "id" = false -> rectangular out ->
  get_col out "id" = Some ids -> get_col out label = Some labs ->
  (forall c, In c ids -> exists z, c = Int z) ->
  (forall c, In c labs -> exists c0, c = normalize_text c0) ->
  (exists i, i < List.length labs /\ nth i labs NA = Str "OTHER" /\
     nth i ids NA = Int other_id /\
     forall j, j < i -> eq_str "OTHER" (nth j labs NA) = false) ->
  prepare_dimension label out
    = Some (filter_rows (keep_first [] (rows_of (nrows out) [ids; labs])) out, other_id).
Proof.
  intros Hlab Hrect Hids Hlabs Hint Hnorm [i [Hi [Hoth [Hid Hfirst]]]].
  assert (Hlen : List.length ids = List.length labs).
  { rewrite (rectangular_get_col _ Hrect Hids), (rectangular_get_col _ Hrect Hlabs).
    reflexivity. }
  assert (Hn : nrows out = List.length ids)
    by (symmetry; apply (rectangular_get_col _ Hrect Hids)).
  unfold prepare_dimension.
  rewrite Hlabs. cbn [bind].
  assert (Hmap : map normalize_text labs = labs).
  { apply map_unchanged. intros c Hc. destruct (Hnorm c Hc) as [c0 ->].
    apply normalize_text_idem. }
  rewrite Hmap, (set_col_unchanged _ _ Hlabs), Hids, Hlabs. cbn [bind].
  match goal with |- context [filter_rows (map negb ?m) out] => set (mask := m) end.
  assert (Hf1 : filter_rows (map negb mask) out = out).
  { apply filter_rows_all_true; [assumption | |].
    - rewrite length_map. unfold mask. rewrite map2_length by assumption. lia.
    - intros b Hb. apply in_map_iff in Hb. destruct Hb as [b0 [<- Hb0]].
      unfold mask in Hb0. apply map2_In in Hb0.
      destruct Hb0 as [a [l [Ha [_ ->]]]]. destruct (Hint a Ha) as [z ->]. reflexivity. }
  rewrite Hf1. unfold drop_duplicates_subset. cbn [mapM bind].
  rewrite Hids, Hlabs. cbn [bind].
  set (m := keep_first [] (rows_of (nrows out) [ids; labs])).
  assert (Hlm : List.length m = List.length ids).
  { unfold m. rewrite keep_first_length, rows_of_length. assumption. }
  (* the first OTHER row is no repetition of an earlier row *)
  assert (Hkept : nth i m false = true).
  { rewrite (nth_indep _ false true) by lia.
    destruct (nth i m true) eqn:E; [reflexivity|]. exfalso.
    unfold m in E. apply keep_first_dropped in E; [|rewrite rows_of_length; lia].
    destruct E as [k [Hk He]]. rewrite !rows_of_nth in He by lia.
    unfold row_of in He. simpl in He.
    apply andb_true_iff in He. destruct He as [_ He].
    rewrite andb_true_r, Hoth in He.
    pose proof (Hfirst k Hk) as Hne.
    destruct (nth k labs NA); cbn [cell_eqb eq_str] in He, Hne; try discriminate.
    rewrite String.eqb_sym in He. congruence. }
  rewrite !get_col_filter_rows, Hlabs, Hids. cbn [option_map bind].
  rewrite existsb_map. cbv beta.
  change (existsb (fun a : cell => eq_str "OTHER" a) (filter_mask m labs))
    with (existsb (eq_str "OTHER") (filter_mask m labs)).
  assert (Hex : existsb (eq_str "OTHER") (filter_mask m labs) = true).
  { apply existsb_exists. exists (nth i labs NA).
    split; [apply filter_mask_nth_In; assumption|]. rewrite Hoth. reflexivity. }
  rewrite Hex.
  rewrite mapM_unchanged.
  2:{ intros c Hc. do 2 apply filter_mask_In in Hc. destruct (Hint c Hc) as [z ->].
      reflexivity. }
  cbn [bind].
  rewrite <- filter_mask_map, filter_mask_and.
  rewrite (@first_of_mask _ ids i).
  - rewrite Hid. cbn [bind int_of]. rewrite get_col_filter_rows, Hids. cbn [option_map bind].
    rewrite safe_int_cast_ints.
    2:{ intros c Hc. apply filter_mask_In in Hc. auto. }
    cbn [bind]. rewrite set_col_unchanged; [reflexivity|].
    rewrite get_col_filter_rows, Hids. reflexivity.
  - lia.
  - rewrite (map2_nth _ false false) by (rewrite ?length_map; lia).
    rewrite Hkept. rewrite (nth_indep _ false (eq_str "OTHER" NA)) by (rewrite length_map; lia).
    rewrite map_nth, Hoth. reflexivity.
  - intros j Hj. rewrite (map2_nth _ false false) by (rewrite ?length_map; lia).
    rewrite (nth_indep (map (eq_str "OTHER") labs) false (eq_str "OTHER" NA))
      by (rewrite length_map; lia).
    rewrite map_nth, (Hfirst j Hj). apply andb_false_r.
Qed.

(** The second run of a dimension preparer removes the rows that repeat id
    and label, and does nothing else. *)
Lemma prepare_dimension_again (label : string) (dim out : DataFrame) (other_id : Z) :
  String.eqb label "id" = false -> rectangular dim ->
  prepare_dimension label dim = Some (out, other_id) ->
  exists out2,
    drop_duplicates_subset ["id"; label] out = Some out2 /\
    prepare_dimension label out = Some (out2, other_id).
Proof.
  intros Hlab Hrect H.
  destruct (prepare_dimension_output _ Hlab Hrect H)
    as [Hro [ids [labs [Hids [Hlabs [Hint Hnorm]]]]]].
  destruct (prepare_dimension_sentinel _ Hlab Hrect H) as [ids0 [labs0 [ids' [labs' Hs]]]].
  cbv zeta in Hs. destruct Hs as [_ [_ [Hids' [Hlabs' [_ [Hfirst _]]]]]].
  rewrite Hids in Hids'. rewrite Hlabs in Hlabs'.
  inversion Hids'. inversion Hlabs'. subst ids' labs'.
  exists (filter_rows (keep_first [] (rows_of (nrows out) [ids; labs])) out). split.
  - unfold drop_duplicates_subset. cbn [mapM bind]. rewrite Hids, Hlabs. reflexivity.
  - apply prepare_dimension_clean; assumption.
Qed.

Lemma prepare_dimension_twice (label : string) (dim out : DataFrame) (other_id : Z) :
  String.eqb label "id" = false -> rectangular dim ->
  prepare_dimension label dim = Some (out, other_id) ->
  distinct_pairs label out ->
  prepare_dimension label out = Some (out, other_id).
Proof.
  intros Hlab Hrect H Hdist.
  destruct (prepare_dimension_output _ Hlab Hrect H)
    as [Hro [ids [labs [Hids [Hlabs [Hint Hnorm]]]]]].
  destruct (prepare_dimension_sentinel _ Hlab Hrect H) as [ids0 [labs0 [ids' [labs' Hs]]]].
  cbv zeta in Hs. destruct Hs as [_ [_ [Hids' [Hlabs' [_ [Hfirst _]]]]]].
  rewrite Hids in Hids'. rewrite Hlabs in Hlabs'.
  inversion Hids'. inversion Hlabs'. subst ids' labs'.
  rewrite (@prepare_dimension_clean label out other_id ids labs) by assumption.
  assert (Hn : nrows out = List.length ids)
    by (symmetry; apply (rectangular_get_col _ Hro Hids)).
  assert (Hlen : List.length ids = List.length labs).
  { rewrite (rectangular_get_col _ Hro Hids), (rectangular_get_col _ Hro Hlabs).
    reflexivity. }
  rewrite filter_rows_all_true; [reflexivity | assumption | |].
  - rewrite keep_first_length, rows_of_length. lia.
  - apply keep_first_all_true. rewrite rows_of_length.
    intros a b Hab. rewrite !rows_of_nth by lia. unfold row_of. simpl.
    destruct (cell_eqb (nth b ids NA) (nth a ids NA)) eqn:E1; [|reflexivity].
    destruct (cell_eqb (nth b labs NA) (nth a labs NA)) eqn:E2; [|reflexivity].
    exfalso. apply (Hdist ids labs Hids Hlabs a b); [lia|].
    destruct (Hint (nth a ids NA)) as [za Hza]; [apply nth_In; lia|].
    destruct (Hint (nth b ids NA)) as [zb Hzb]; [apply nth_In; lia|].
    destruct (Hnorm (nth a labs NA)) as [ca Hca]; [apply nth_In; lia|].
    destruct (Hnorm (nth b labs NA)) as [cb Hcb]; [apply nth_In; lia|].
    rewrite Hza, Hzb in *. rewrite Hca, Hcb in *.
    apply cell_eqb_Int in E1. unfold normalize_text in *. simpl in E2 |- *.
    apply String.eqb_eq in E2. split; congruence.
Qed.

End IdempotenceRun.

(** ** [prepare_categoria] and [prepare_marca]: the OTHER row *)

(** C1, as the code has it.  On a rectangular table whose numeric ids are
    below 2^53 in magnitude, whenever a dimension preparer returns: the
    returned table has a row labelled "OTHER", and the returned sentinel is
    the id of the first such row.  The rows kept are those that have an id
    or a label and that no earlier such row equals in id and normalised
    label; the id of every kept row is the integer part of its input id, or
    the sentinel where the input id is missing or no number.  When no kept
    label normalises to "OTHER", exactly one OTHER row is there, appended
    last, and its id is greater than the integer part of every numeric id
    of the input.  When kept labels normalise to "OTHER" already, all of
    them stay and no row is added. *)
Theorem prepare_dimension_other (dim out : DataFrame) (other_id : Z) {P : Pandas} :
  rectangular dim -> exact_ids dim ->
  (prepare_categoria dim = Some (out, other_id) ->
   sentinel_spec "categoria" dim out other_id) /\
  (prepare_marca dim = Some (out, other_id) ->
   sentinel_spec "marca" dim out other_id).
Proof.
  intros Hrect _. split; intros H.
  - apply prepare_dimension_sentinel; [reflexivity | assumption | exact H].
  - apply prepare_dimension_sentinel; [reflexivity | assumption | exact H].
Qed.

(** C1 as stated fails.  Two labels that normalise to "OTHER" give two
    OTHER rows; a row with a label and no id gets the id of the OTHER
    row. *)
Lemma prepare_categoria_other_not_unique :
  @prepare_categoria run_pandas categoria_two_others
    = Some ([("id", [Int 1; Int 2]); ("categoria", [Str "OTHER"; Str "OTHER"])]%Z, 1%Z) /\
  ~ unique_other "categoria"
      [("id", [Int 1; Int 2]); ("categoria", [Str "OTHER"; Str "OTHER"])]%Z 1 /\
  @prepare_categoria run_pandas categoria_missing_id
    = Some ([("id", [Int 1; Int 2; Int 2]);
             ("categoria", [Str "A"; Str "B"; Str "OTHER"])]%Z, 2%Z) /\
  ~ unique_other "categoria"
      [("id", [Int 1; Int 2; Int 2]); ("categoria", [Str "A"; Str "B"; Str "OTHER"])]%Z 2.
Proof.
  split; [reflexivity|]. split; [|split; [reflexivity|]].
  - intros [ids [labs [i [Hids [Hlabs [Hi [_ [_ Hall]]]]]]]].
    simpl in Hids, Hlabs. inversion Hids. inversion Hlabs. subst ids labs. clear Hids Hlabs.
    destruct i as [|[|i]]; simpl in Hi.
    + destruct (Hall 1 ltac:(simpl; lia) ltac:(lia)) as [Hc _]. apply Hc. reflexivity.
    + destruct (Hall 0 ltac:(simpl; lia) ltac:(lia)) as [Hc _]. apply Hc. reflexivity.
    + lia.
  - intros [ids [labs [i [Hids [Hlabs [Hi [Hoth [_ Hall]]]]]]]].
    simpl in Hids, Hlabs. inversion Hids. inversion Hlabs. subst ids labs. clear Hids Hlabs.
    destruct i as [|[|[|i]]]; simpl in Hi, Hoth; try discriminate; try lia.
    destruct (Hall 1 ltac:(simpl; lia) ltac:(lia)) as [_ Hc]. apply Hc. reflexivity.
Qed.

Lemma categoria_plain_rectangular : rectangular categoria_plain.
Proof. intros cs [<-|[<-|[]]]; reflexivity. Qed.

Lemma categoria_plain_exact : @exact_ids run_pandas categoria_plain.
Proof.
  intros ids Hids c Hc q Hq. inversion Hids. subst ids. simpl in Hc.
  destruct Hc as [<-|[<-|[]]]; inversion Hq; subst q; split; reflexivity.
Qed.

Lemma prepare_dimension_other_witness :
  sentinel_spec (P := run_pandas) "categoria" categoria_plain categoria_plain_out 3.
Proof.
  exact (proj1 (@prepare_dimension_other categoria_plain categoria_plain_out 3 run_pandas
                  categoria_plain_rectangular categoria_plain_exact) eq_refl).
Defined.

(** ** The rows that [drop_duplicates] keeps are pairwise different *)

Lemma keep_first_pairwise (l : list (list cell)) :
  forall seen,
    ForallOrdPairs (fun x y => row_eqb y x = false) (filter_mask (keep_first seen l) l) /\
    Forall (fun x => forall s, In s seen -> row_eqb x s = false)
           (filter_mask (keep_first seen l) l).
Proof.
  induction l as [|r l IH]; simpl; intros seen.
  - split; constructor.
  - destruct (IH (r :: seen)) as [Hp Hs].
    destruct (existsb (row_eqb r) seen) eqn:E; simpl.
    + split; [assumption|].
      eapply Forall_impl; [|exact Hs]. intros x Hx s Hin. apply Hx. right. assumption.
    + split.
      * constructor; [|assumption].
        eapply Forall_impl; [|exact Hs]. intros x Hx. apply Hx. left. reflexivity.
      * constructor.
        -- intros s Hin. destruct (row_eqb r s) eqn:Er; [|reflexivity].
           assert (existsb (row_eqb r) seen = true); [|congruence].
           apply existsb_exists. exists s. split; assumption.
        -- eapply Forall_impl; [|exact Hs]. intros x Hx s Hin. apply Hx. right. assumption.
Qed.

Lemma ForallOrdPairs_nth {A : Type} (R : A -> A -> Prop) (d : A) (l : list A) :
  ForallOrdPairs R l ->
  forall a b, a < b < List.length l -> R (nth a l d) (nth b l d).
Proof.
  induction 1 as [|x l Hx Hl IH]; simpl; intros a b Hab; [lia|].
  destruct b as [|b]; [lia|]. destruct a as [|a].
  - rewrite Forall_forall in Hx. apply Hx. apply nth_In. lia.
  - apply IH. lia.
Qed.

Lemma rows_of_pairs (ids labs : Series) :
  List.length ids = List.length labs ->
  rows_of (List.length ids) [ids; labs] = map2 (fun a b => [a; b]) ids labs.
Proof.
  intros Hl. apply nth_ext with (d := []) (d' := []).
  - rewrite rows_of_length, map2_length by assumption. reflexivity.
  - intros k Hk. rewrite rows_of_length in Hk. rewrite rows_of_nth by assumption.
    rewrite (map2_nth _ NA NA) by lia. reflexivity.
Qed.

Section IntegerIds.
Context {P : Pandas}.

(** With integer ids in the input, no two rows of the returned table agree
    on id and label: the cast changes no id, and the duplicates are gone. *)
Lemma prepare_dimension_integer_ids (label : string) (dim out : DataFrame) (other_id : Z) :
  String.eqb label "id" = false -> rectangular dim ->
  prepare_dimension label dim = Some (out, other_id) ->
  integer_ids dim -> distinct_pairs label out.
Proof.
  intros Hlab Hrect H Hint.
  assert (Hlab' : String.eqb "id" label = false) by (rewrite String.eqb_sym; assumption).
  destruct (prepare_dimension_steps _ _ Hlab H)
    as [ids0 [labs0 [m1 [m2 [dim3 [ids3 [ids4 Hs]]]]]]].
  cbv zeta in Hs.
  set (dim1 := set_col label (map normalize_text labs0) dim) in *.
  set (ids1 := filter_mask m1 ids0) in *.
  set (labs1 := filter_mask m1 (map normalize_text labs0)) in *.
  set (ids2 := filter_mask m2 ids1) in *.
  set (labs2 := filter_mask m2 labs1) in *.
  destruct Hs as [Hids0 [Hlabs0 [Hids2 [Hlabs2 [Hcase [Hids3 [Hcast [Hout [Hm2 Hm1]]]]]]]]].
  assert (Hr1 : rectangular dim1).
  { apply rectangular_set_col; [assumption|].
    rewrite length_map. apply (rectangular_get_col _ Hrect Hlabs0). }
  assert (Hlen1 : List.length ids1 = List.length labs1).
  { unfold ids1, labs1. apply filter_mask_length_eq. rewrite length_map.
    rewrite (rectangular_get_col _ Hrect Hids0), (rectangular_get_col _ Hrect Hlabs0).
    reflexivity. }
  assert (Hn1 : nrows (filter_rows m1 dim1) = List.length ids1).
  { apply nrows_filter_rows with (c := "id"); [assumption|].
    unfold dim1. rewrite get_col_set_col_other by assumption. assumption. }
  assert (Hlen2 : List.length ids2 = List.length labs2)
    by (apply filter_mask_length_eq; assumption).
  (* the rows kept are pairwise different *)
  assert (Hpair : forall a b, a < b < List.length ids2 ->
            ~ (nth a ids2 NA = nth b ids2 NA /\ nth a labs2 NA = nth b labs2 NA)).
  { rewrite Hn1, rows_of_pairs in Hm2 by assumption.
    destruct (keep_first_pairwise (map2 (fun a b => [a; b]) ids1 labs1) []) as [Hp _].
    rewrite <- Hm2, filter_mask_map2 in Hp. fold ids2 labs2 in Hp.
    intros a b Hab [Hi Hl].
    pose proof (ForallOrdPairs_nth [NA; NA] Hp) as Hn.
    specialize (Hn a b). rewrite map2_length in Hn by assumption.
    specialize (Hn Hab). cbv beta in Hn.
    rewrite !(map2_nth _ NA NA) in Hn by lia. simpl in Hn.
    rewrite Hi, Hl, !cell_eqb_refl in Hn. discriminate. }
  assert (Hint2 : forall j, j < List.length ids2 -> exists z, nth j ids2 NA = Int z).
  { intros j Hj. apply (Hint ids0 Hids0).
    unfold ids2, ids1. do 2 eapply filter_mask_In. apply nth_In. exact Hj. }
  destruct (safe_int_cast_nth _ _ Hcast) as [Hl4 Hn4]. rewrite length_map in Hl4, Hn4.
  assert (Hsame : forall j, j < List.length ids2 -> j < List.length ids3 ->
            nth j ids3 NA = nth j ids2 NA -> nth j ids4 NA = nth j ids2 NA).
  { intros j Hj Hj3 He. destruct (Hn4 j Hj3) as [z [Hz Ho]].
    rewrite map_nth_NA, to_numeric_idem in Hz by assumption.
    destruct (Hint2 j Hj) as [z' Hz']. rewrite He, Hz' in Hz. simpl in Hz.
    congruence. }
  intros ids labs Hids Hlabs. rewrite Hout in Hids, Hlabs.
  rewrite get_col_set_col_same in Hids. inversion Hids. subst ids. clear Hids.
  rewrite get_col_set_col_other in Hlabs by assumption.
  destruct Hcase as [[Hex [Hd3 _]] | [Hex [Hd3 _]]]; subst dim3.
  - rewrite Hids2 in Hids3. inversion Hids3. subst ids3. clear Hids3.
    rewrite Hlabs2 in Hlabs. inversion Hlabs. subst labs. clear Hlabs.
    intros i j Hij [Hi Hl]. rewrite Hl4 in Hij.
    apply (Hpair i j Hij). split; [|assumption].
    rewrite <- !Hsame by (lia || reflexivity). assumption.
  - rewrite get_col_append_row, Hids2 in Hids3. simpl in Hids3.
    inversion Hids3. subst ids3. clear Hids3.
    rewrite get_col_append_row, Hlabs2 in Hlabs. simpl in Hlabs.
    rewrite Hlab, String.eqb_refl in Hlabs. inversion Hlabs. subst labs. clear Hlabs.
    rewrite length_app in Hl4, Hsame. simpl in Hl4, Hsame.
    intros i j Hij [Hi Hl]. rewrite Hl4 in Hij.
    destruct (Nat.eq_dec j (List.length ids2)) as [Hj|Hj].
    + (* the appended row: no other label is OTHER *)
      rewrite app_nth1 in Hl by lia.
      rewrite app_nth2, Hj, Hlen2, Nat.sub_diag in Hl by lia. simpl in Hl.
      pose proof (existsb_nth_false (eq_str "OTHER") labs2 NA (i := i) Hex) as Hne.
      rewrite Hl in Hne. specialize (Hne ltac:(lia)). discriminate.
    + apply (Hpair i j ltac:(lia)). split.
      * rewrite <- !Hsame by (try lia; rewrite app_nth1 by lia; reflexivity). assumption.
      * rewrite !app_nth1 in Hl by lia. assumption.
Qed.

End IntegerIds.

(** ** [prepare_categoria] and [prepare_marca]: a second run *)

(** C7, as the code has it.  On a rectangular table whose numeric ids are
    below 2^53 in magnitude: a dimension preparer run on the table it
    returned gives the same sentinel and that table without the rows that
    repeat the id and the label of an earlier row, which is what
    [drop_duplicates] on id and label makes of it.  So it gives that table
    again whenever no two of its rows have the same id and the same label,
    and so whenever every id of the input is an integer. *)
Theorem prepare_dimension_idempotent (dim out : DataFrame) (other_id : Z) {P : Pandas} :
  rectangular dim -> exact_ids dim ->
  (prepare_categoria dim = Some (out, other_id) ->
   (exists out2,
      drop_duplicates_subset ["id"; "categoria"] out = Some out2 /\
      prepare_categoria out = Some (out2, other_id)) /\
   (distinct_pairs "categoria" out \/ integer_ids dim ->
    prepare_categoria out = Some (out, other_id))) /\
  (prepare_marca dim = Some (out, other_id) ->
   (exists out2,
      drop_duplicates_subset ["id"; "marca"] out = Some out2 /\
      prepare_marca out = Some (out2, other_id)) /\
   (distinct_pairs "marca" out \/ integer_ids dim ->
    prepare_marca out = Some (out, other_id))).
Proof.
  intros Hrect _. split; intros H; split.
  - apply prepare_dimension_again with (dim := dim); [reflexivity | assumption..].
  - intros Hd.
    apply prepare_dimension_twice with (dim := dim); [reflexivity | assumption..|].
    destruct Hd as [Hd|Hd]; [assumption|].
    apply prepare_dimension_integer_ids with (dim := dim) (other_id := other_id);
      [reflexivity | assumption..].
  - apply prepare_dimension_again with (dim := dim); [reflexivity | assumption..].
  - intros Hd.
    apply prepare_dimension_twice with (dim := dim); [reflexivity | assumption..|].
    destruct Hd as [Hd|Hd]; [assumption|].
    apply prepare_dimension_integer_ids with (dim := dim) (other_id := other_id);
      [reflexivity | assumption..].
Qed.

(** C7 as stated fails.  The cast fills a missing id with the sentinel, so
    two rows of the returned table can agree on id and label; the second run
    drops one of them. *)
Lemma prepare_categoria_second_run_drops :
  @prepare_categoria run_pandas categoria_repeated = Some (categoria_repeated_out, 1%Z) /\
  @prepare_categoria run_pandas categoria_repeated_out
    = Some ([("id", [Int 1; Int 1]); ("categoria", [Str "OTHER"; Str "A"])]%Z, 1%Z) /\
  @prepare_categoria run_pandas categoria_repeated_out <> Some (categoria_repeated_out, 1%Z).
Proof.
  split; [reflexivity|]. split; [reflexivity|]. discriminate.
Qed.

Lemma categoria_plain_out_distinct : distinct_pairs "categoria" categoria_plain_out.
Proof.
  intros ids labs Hids Hlabs. simpl in Hids, Hlabs.
  inversion Hids. inversion Hlabs. subst ids labs.
  intros i j Hij [Hi _]. simpl in Hij.
  destruct i as [|[|[|i]]]; destruct j as [|[|[|j]]]; simpl in Hi; try lia; discriminate.
Qed.

Lemma prepare_dimension_idempotent_witness :
  @prepare_categoria run_pandas categoria_plain_out = Some (categoria_plain_out, 3%Z).
Proof.
  exact (proj2 (proj1 (@prepare_dimension_idempotent categoria_plain categoria_plain_out 3
                         run_pandas categoria_plain_rectangular categoria_plain_exact)
                  eq_refl)
           (or_introl categoria_plain_out_distinct)).
Defined.

(** ** Medians and modes *)

Lemma Qinsert_In (q x : Q) (l : list Q) : In x (Qinsert q l) <-> x = q \/ In x l.
Proof.
  induction l as [|p l IH]; simpl; [intuition|].
  destruct (Qle_bool q p); simpl; [intuition|]. rewrite IH. intuition.
Qed.

Lemma Qsort_In (x : Q) (l : list Q) : In x (Qsort l) <-> In x l.
Proof.
  induction l as [|q l IH]; simpl; [tauto|].
  rewrite Qinsert_In, IH. intuition.
Qed.

Lemma Qinsert_length (q : Q) (l : list Q) : List.length (Qinsert q l) = S (List.length l).
Proof.
  induction l as [|p l IH]; simpl; [reflexivity|].
  destruct (Qle_bool q p); simpl; [reflexivity | rewrite IH; reflexivity].
Qed.

Lemma Qsort_length (l : list Q) : List.length (Qsort l) = List.length l.
Proof.
  induction l as [|q l IH]; simpl; [reflexivity|].
  rewrite Qinsert_length, IH. reflexivity.
Qed.

Lemma count_inf_none (negative : bool) (s : Series) :
  (forall c, In c s -> infinite c = false) -> count_inf negative s = 0.
Proof.
  unfold count_inf. induction s as [|c s IH]; cbn [filter]; intros H; [reflexivity|].
  assert (Hc : cell_eqb (Inf negative) c = false).
  { pose proof (H c (or_introl eq_refl)) as Hi. destruct c; try reflexivity. discriminate. }
  rewrite Hc. apply IH. intros c' Hc'. apply H. right. assumption.
Qed.

Lemma count_inf_pos (negative : bool) (s : Series) :
  0 < count_inf negative s -> In (Inf negative) s.
Proof.
  unfold count_inf. induction s as [|c s IH]; cbn [filter]; intros H; [simpl in H; lia|].
  destruct (cell_eqb (Inf negative) c) eqn:E.
  - left. destruct c; try discriminate. simpl in E. apply Bool.eqb_prop in E. congruence.
  - right. apply IH. assumption.
Qed.

Lemma ext_nth_finite (l : list Q) (i : nat) :
  i < List.length l -> ext_nth 0 l i = Float (nth i l 0%Q).
Proof.
  intros Hi. unfold ext_nth. simpl. rewrite Nat.sub_0_r.
  rewrite (nth_error_nth' l 0%Q Hi). reflexivity.
Qed.

(** The median of a column without infinite entries. *)
Lemma median_finite (s : Series) :
  (forall c, In c s -> infinite c = false) ->
  median s =
    let l := Qsort (numbers s) in
    let n := List.length l in
    match n with
    | O => NA
    | _ => if Nat.even n
           then Float (Qred ((nth (n / 2 - 1)%nat l 0 + nth (n / 2)%nat l 0) / 2)%Q)
           else Float (nth (n / 2) l 0%Q)
    end.
Proof.
  intros H. unfold median. rewrite !count_inf_none by assumption.
  cbv zeta. rewrite Nat.add_0_r. simpl Nat.add.
  destruct (List.length (Qsort (numbers s))) as [|n'] eqn:En; [reflexivity|].
  assert (Hdiv : S n' / 2 < S n') by (apply Nat.div_lt; lia).
  rewrite !ext_nth_finite by lia. reflexivity.
Qed.

(** The median is missing when there is no number, and the mean of two of
    the numbers (of one, taken twice) otherwise. *)
Lemma median_cases (s : Series) :
  (forall c, In c s -> infinite c = false) ->
  (numbers s = [] /\ median s = NA) \/
  (exists a b m, In a (numbers s) /\ In b (numbers s) /\
     median s = Float m /\ (m == (a + b) / 2)%Q).
Proof.
  intros Hfin. rewrite (median_finite s Hfin). cbv zeta.
  pose proof (Qsort_length (numbers s)) as Hl.
  pose proof (fun x => Qsort_In x (numbers s)) as Hin.
  destruct (Qsort (numbers s)) as [|q0 l] eqn:E.
  - left. split; [|reflexivity]. destruct (numbers s); [reflexivity | discriminate].
  - right. set (l0 := q0 :: l) in *. set (n := List.length l0).
    assert (Hn : 0 < n) by (unfold n, l0; simpl; lia).
    assert (Hdiv : n / 2 < n) by (apply Nat.div_lt; lia).
    assert (Hmid : In (nth (n / 2) l0 0%Q) (numbers s)) by (apply Hin, nth_In; assumption).
    assert (Hmid' : In (nth (n / 2 - 1) l0 0%Q) (numbers s)) by (apply Hin, nth_In; lia).
    destruct n as [|n']; [lia|].
    destruct (Nat.even (S n')).
    + exists (nth (S n' / 2 - 1) l0 0%Q), (nth (S n' / 2) l0 0%Q).
      eexists. split; [assumption|]. split; [assumption|]. split; [reflexivity|].
      apply Qred_correct.
    + exists (nth (S n' / 2) l0 0%Q), (nth (S n' / 2) l0 0%Q).
      eexists. split; [assumption|]. split; [assumption|]. split; [reflexivity|].
      field.
Qed.

Lemma cell_in_finite (R : Q -> Prop) (c : cell) : cell_in R c -> infinite c = false.
Proof. intros [->|[q [Hq _]]]; [reflexivity|]. destruct c; try discriminate; reflexivity. Qed.

Lemma numbers_filter_mask (mask : list bool) (s : Series) (q : Q) :
  In q (numbers (filter_mask mask s)) -> In q (numbers s).
Proof.
  rewrite !numbers_In. intros [c [Hc Hq]]. exists c. split; [|assumption].
  apply filter_mask_In in Hc. assumption.
Qed.

Lemma median_cell_in (R : Q -> Prop) (s : Series) :
  mean_closed R -> (forall c, In c s -> cell_in R c) -> cell_in R (median s).
Proof.
  intros HR Hs.
  assert (Hfin : forall c, In c s -> infinite c = false)
    by (intros c Hc; apply (cell_in_finite (Hs c Hc))).
  destruct (median_cases s Hfin) as [[_ ->]|[a [b [m [Ha [Hb [-> Hm]]]]]]].
  - left. reflexivity.
  - right. exists m. split; [reflexivity|].
    apply numbers_In in Ha, Hb.
    destruct Ha as [ca [Hca Hqa]]. destruct Hb as [cb [Hcb Hqb]].
    apply (HR a b); [| |assumption].
    + destruct (Hs ca Hca) as [->|[q [Hq HRq]]]; [discriminate | congruence].
    + destruct (Hs cb Hcb) as [->|[q [Hq HRq]]]; [discriminate | congruence].
Qed.

Lemma groupby_transform_In (df : DataFrame) (by_cols : list string) (target_col : string)
    (agg : Series -> cell) (out : Series) (c : cell) :
  groupby_transform df by_cols target_col agg = Some out -> In c out ->
  c = NA \/ exists target mask, get_col df target_col = Some target /\
                                c = agg (filter_mask mask target).
Proof.
  unfold groupby_transform. intros H Hc. bind_inv H. bind_inv H. inversion H. subst out.
  apply in_map_iff in Hc. destruct Hc as [k [Hk _]].
  destruct (existsb isna k); [left; congruence|].
  right. eexists. eexists. split; [eassumption|]. symmetry. exact Hk.
Qed.

Lemma group_mode_transform_In (df : DataFrame) (by_cols : list string) (target_col : string)
    (out : Series) (c : cell) :
  group_mode_transform df by_cols target_col = Some out -> In c out ->
  c = NA \/ exists target mask, get_col df target_col = Some target /\
                                c = first_mode (filter_mask mask target).
Proof.
  unfold group_mode_transform. intros H Hc. bind_inv H. bind_inv H.
  destruct (forallb _ _); inversion H; subst out; [destruct Hc|].
  eapply groupby_transform_In; eassumption.
Qed.

Lemma fillna_with_In (s t : Series) (c : cell) :
  In c (fillna_with s t) -> In c s \/ In c t.
Proof.
  revert t. induction s as [|a s IH]; intros [|b t]; simpl; try tauto.
  intros [<-|H].
  - destruct (isna a); auto.
  - destruct (IH _ H); auto.
Qed.

Lemma fillna_In (v : cell) (s : Series) (c : cell) :
  In c (fillna v s) -> (In c s /\ isna c = false) \/ c = v.
Proof.
  unfold fillna. intros H. apply in_map_iff in H. destruct H as [a [Ha Hin]].
  destruct (isna a) eqn:E; [right; congruence | left; subst; auto].
Qed.

(** ** [prepare_producto], stage by stage *)

Lemma mode_go_In (l : list Q) (best : nat) (l' seen : list Q) (q : Q) :
  In q (mode_go l best seen l') -> In q l'.
Proof.
  revert seen. induction l' as [|p l' IH]; simpl; intros seen H; [assumption|].
  destruct ((Qcount p l =? best) && negb (existsb (Qeq_bool p) seen)).
  - destruct H as [<-|H]; [left; reflexivity | right; eapply IH; eassumption].
  - right. eapply IH; eassumption.
Qed.

(** The modes of a column without infinite entries. *)
Lemma mode_finite (s : Series) :
  (forall c, In c s -> infinite c = false) ->
  mode s =
    let l := Qsort (numbers s) in
    map Float (mode_go l (fold_right (fun q m => Nat.max (Qcount q l) m) 0 l) [] l).
Proof.
  intros H. unfold mode. rewrite !count_inf_none by assumption.
  cbv zeta. simpl. apply app_nil_r.
Qed.

Lemma first_mode_cases (s : Series) :
  first_mode s = NA \/ (exists q, first_mode s = Float q /\ In q (numbers s)) \/
  exists negative, first_mode s = Inf negative /\ In (Inf negative) s.
Proof.
  unfold first_mode, mode.
  set (l := Qsort (numbers s)).
  set (best := Nat.max _ _).
  destruct ((0 <? count_inf true s) && (count_inf true s =? best)) eqn:Elo.
  { right. right. exists true. split; [reflexivity|].
    apply andb_true_iff in Elo. destruct Elo as [Elo _]. apply Nat.ltb_lt in Elo.
    apply count_inf_pos. assumption. }
  cbn [app]. destruct (mode_go l best [] l) as [|q r] eqn:E.
  - cbn [map app].
    destruct ((0 <? count_inf false s) && (count_inf false s =? best)) eqn:Ehi.
    + right. right. exists false. split; [reflexivity|].
      apply andb_true_iff in Ehi. destruct Ehi as [Ehi _]. apply Nat.ltb_lt in Ehi.
      apply count_inf_pos. assumption.
    + left. reflexivity.
  - right. left. exists q. split; [reflexivity|].
    apply Qsort_In. fold l. apply mode_go_In with (l := l) (best := best) (seen := []).
    rewrite E. left. reflexivity.
Qed.

Lemma num_of_eq_zero (c : cell) (q : Q) :
  num_of c = Some q -> cell_eqb c (Int 0) = Qeq_bool q 0.
Proof. destruct c; simpl; try discriminate; intros H; inversion H; reflexivity. Qed.

Lemma int_of_num (c : cell) (q : Q) :
  num_of c = Some q -> int_of c = Some (Qtruncate q).
Proof.
  destruct c; simpl; try discriminate; intros H; inversion H; [|reflexivity].
  rewrite Qtruncate_inject_Z. reflexivity.
Qed.

Section ProductStages.
Context {P : Pandas}.

Lemma get_col_coerce_numeric (df : DataFrame) (c : string) :
  get_col (coerce_numeric df) c =
    if existsb (String.eqb c) ["categoria_id"; "marca_id"; "volumen"; "precio"]
    then option_map (map to_numeric) (get_col df c)
    else get_col df c.
Proof.
  unfold coerce_numeric. simpl fold_left. simpl existsb.
  destruct (String.eqb_spec c "categoria_id") as [->|H1].
  { simpl. rewrite !get_col_update_if_present_other by reflexivity.
    apply get_col_update_if_present_same. }
  destruct (String.eqb_spec c "marca_id") as [->|H2].
  { simpl. rewrite !get_col_update_if_present_other by reflexivity.
    rewrite get_col_update_if_present_same.
    rewrite get_col_update_if_present_other by reflexivity. reflexivity. }
  destruct (String.eqb_spec c "volumen") as [->|H3].
  { simpl. rewrite !get_col_update_if_present_other by reflexivity.
    rewrite get_col_update_if_present_same.
    rewrite !get_col_update_if_present_other by reflexivity. reflexivity. }
  destruct (String.eqb_spec c "precio") as [->|H4].
  { simpl. rewrite get_col_update_if_present_same.
    rewrite !get_col_update_if_present_other by reflexivity. reflexivity. }
  simpl. apply String.eqb_neq in H1, H2, H3, H4.
  rewrite !get_col_update_if_present_other by assumption. reflexivity.
Qed.

(** The numeric columns before the imputations: the raw column, without the
    duplicated and the unusable rows, coerced. *)
Lemma producto_staged (producto staged : DataFrame) :
  drop_unusable (coerce_numeric (drop_duplicates producto)) = Some staged ->
  exists m1 m2, forall c,
    existsb (String.eqb c) ["categoria_id"; "marca_id"; "volumen"; "precio"] = true ->
    get_col staged c
      = option_map (fun s => filter_mask m2 (map to_numeric (filter_mask m1 s)))
                   (get_col producto c).
Proof.
  unfold drop_unusable, drop_duplicates. intros H. bind_inv H. bind_inv H.
  inversion H. clear H.
  eexists. eexists. intros c Hc.
  rewrite get_col_filter_rows, get_col_coerce_numeric, Hc, get_col_filter_rows.
  destruct (get_col producto c); reflexivity.
Qed.

Lemma staged_cell (m1 m2 : list bool) (raw : Series) (c : cell) :
  In c (filter_mask m2 (map to_numeric (filter_mask m1 raw))) ->
  c = NA \/ (exists q, num_of c = Some q /\ In q (numbers (map to_numeric raw))) \/
  exists b, c = Inf b.
Proof.
  intros H. apply filter_mask_In in H. apply in_map_iff in H.
  destruct H as [c0 [<- Hc0]]. apply filter_mask_In in Hc0.
  destruct (to_numeric_cases c0) as [E|[[z E]|[[q E]|[b E]]]]; rewrite E.
  - left. reflexivity.
  - right. left. exists (inject_Z z). split; [reflexivity|]. apply numbers_In.
    exists (to_numeric c0). split; [apply in_map; assumption | rewrite E; reflexivity].
  - right. left. exists q. split; [reflexivity|]. apply numbers_In.
    exists (to_numeric c0). split; [apply in_map; assumption | rewrite E; reflexivity].
  - right. right. eauto.
Qed.

Lemma fillna_with_keeps (s t : Series) (c : cell) :
  In c s -> isna c = false -> In c (fillna_with s t).
Proof.
  revert t. induction s as [|a s IH]; intros t Hin Hna; [destruct Hin|].
  destruct t as [|b t]; [exact Hin|]. simpl.
  destruct Hin as [-> | Hin]; [rewrite Hna; left; reflexivity|].
  right. apply IH; assumption.
Qed.

Lemma impute_precio_spec (df df' : DataFrame) :
  impute_precio df = Some df' ->
  exists p0 p4,
    get_col df "precio" = Some p0 /\ get_col df' "precio" = Some p4 /\
    (forall c, String.eqb c "precio" = false -> get_col df' c = get_col df c) /\
    (forall R1 R2 : Q -> Prop, mean_closed R1 -> mean_closed R2 ->
       (forall q, R1 q -> ~ (q == 0)%Q -> R2 q) ->
       (forall c, In c p0 -> cell_in R1 c) -> forall c, In c p4 -> cell_in R2 c) /\
    ((forall c, In c p0 -> cell_in (fun _ => True) c) ->
     (forall c, In c p4 -> c = NA) \/ (forall c, In c p4 -> isna c = false)) /\
    ((forall c, In c p0 -> cell_in (fun _ => True) c) ->
     (exists c q, In c p0 /\ num_of c = Some q /\ ~ (q == 0)%Q) ->
     forall c, In c p4 -> isna c = false).
Proof.
  unfold impute_precio. intros H.
  bind_inv H. rename x into g1, E into Hg1.
  bind_inv H. apply update_col_Some in E. destruct E as [p0 [Hp0 ->]].
  bind_inv H. apply update_col_Some in E. destruct E as [p1 [Hp1 ->]].
  bind_inv H. rename x into g2, E into Hg2.
  bind_inv H. apply update_col_Some in E. destruct E as [p2 [Hp2 ->]].
  apply update_col_Some in H. destruct H as [p3 [Hp3 ->]].
  rewrite get_col_set_col_same in Hp1, Hp2, Hp3.
  inversion Hp1. inversion Hp2. inversion Hp3. clear Hp1 Hp2 Hp3.
  set (p1' := fillna_with p0 g1) in *. subst p1.
  set (p2' := map (replace_value (Int 0) NA) p1') in *. subst p2.
  set (p3' := fillna_with p2' g2) in *. subst p3.
  (* the steps keep the cells in a class of numbers *)
  assert (Hsteps : forall R1 R2 : Q -> Prop, mean_closed R1 -> mean_closed R2 ->
            (forall q, R1 q -> ~ (q == 0)%Q -> R2 q) ->
            (forall c, In c p0 -> cell_in R1 c) -> forall c, In c p3' -> cell_in R2 c).
  { intros R1 R2 HR1 HR2 H12 H0.
    assert (H1 : forall c, In c p1' -> cell_in R1 c).
    { intros c Hc. apply fillna_with_In in Hc. destruct Hc as [Hc|Hc]; [auto|].
      destruct (groupby_transform_In _ _ _ _ _ Hg1 Hc) as [->|[t [m [Ht ->]]]];
        [left; reflexivity|].
      rewrite Hp0 in Ht. inversion Ht. subst t.
      apply median_cell_in; [assumption|]. intros c' Hc'. apply H0.
      apply filter_mask_In in Hc'. assumption. }
    assert (H2 : forall c, In c p2' -> cell_in R2 c).
    { intros c Hc. unfold p2' in Hc. apply in_map_iff in Hc.
      destruct Hc as [c1 [<- Hc1]]. unfold replace_value.
      destruct (H1 c1 Hc1) as [->|[q [Hq HRq]]]; [left; reflexivity|].
      rewrite (num_of_eq_zero _ Hq). destruct (Qeq_bool q 0) eqn:Ez; [left; reflexivity|].
      right. exists q. split; [assumption|]. apply H12; [assumption|].
      intros Hz. apply Qeq_bool_iff in Hz. congruence. }
    intros c Hc. apply fillna_with_In in Hc. destruct Hc as [Hc|Hc]; [auto|].
    destruct (groupby_transform_In _ _ _ _ _ Hg2 Hc) as [->|[t [m [Ht ->]]]];
      [left; reflexivity|].
    rewrite get_col_set_col_same in Ht. inversion Ht. subst t.
    apply median_cell_in; [assumption|]. intros c' Hc'. apply H2.
    apply filter_mask_In in Hc'. assumption. }
  exists p0, (fillna (median p3') p3').
  split; [assumption|]. split; [apply get_col_set_col_same|]. split; [|split; [|split]].
  - intros c Hc. rewrite !get_col_set_col_other by assumption. reflexivity.
  - intros R1 R2 HR1 HR2 H12 H0 c Hc.
    pose proof (Hsteps R1 R2 HR1 HR2 H12 H0) as H3.
    apply fillna_In in Hc. destruct Hc as [[Hc _]| ->]; [auto|].
    apply median_cell_in; assumption.
  - intros H0.
    assert (HT : mean_closed (fun _ : Q => True)) by (intros a b m _ _ _; exact I).
    pose proof (Hsteps _ _ HT HT (fun _ _ _ => I) H0) as H3.
    assert (Hfin : forall c, In c p3' -> infinite c = false)
      by (intros c Hc; apply (cell_in_finite (H3 c Hc))).
    destruct (median_cases p3' Hfin) as [[Hn Hm]|[a [b [m [_ [_ [Hm _]]]]]]]; rewrite Hm.
    + left. intros c Hc. apply fillna_In in Hc. destruct Hc as [[Hc _]| ->]; [|reflexivity].
      destruct (H3 c Hc) as [->|[q [Hq _]]]; [reflexivity|].
      assert (Hin : In q (numbers p3')) by (apply numbers_In; eauto).
      rewrite Hn in Hin. destruct Hin.
    + right. intros c Hc. apply fillna_In in Hc. destruct Hc as [[_ Hc]| ->];
        [assumption | reflexivity].
  - intros H0 [c0 [q [Hc0 [Hq Hnz]]]].
    assert (HT : mean_closed (fun _ : Q => True)) by (intros a b m _ _ _; exact I).
    assert (Hfin : forall c, In c p3' -> infinite c = false).
    { intros c Hc. apply (@cell_in_finite (fun _ => True)).
      apply (Hsteps _ _ HT HT (fun _ _ _ => I) H0 c Hc). }
    assert (Hna0 : isna c0 = false) by (destruct c0; try discriminate; reflexivity).
    assert (H1 : In c0 p1') by (apply fillna_with_keeps; assumption).
    assert (H2 : In c0 p2').
    { unfold p2'. apply in_map_iff. exists c0. split; [|assumption].
      unfold replace_value. rewrite (num_of_eq_zero _ Hq).
      destruct (Qeq_bool q 0) eqn:Ez; [|reflexivity].
      apply Qeq_bool_iff in Ez. contradiction. }
    assert (H3 : In c0 p3') by (apply fillna_with_keeps; assumption).
    destruct (median_cases p3' Hfin) as [[Hn _]|[a [b [m [_ [_ [Hm _]]]]]]].
    + exfalso. assert (Hin : In q (numbers p3')) by (apply numbers_In; eauto).
      rewrite Hn in Hin. destruct Hin.
    + rewrite Hm. intros c Hc. apply fillna_In in Hc. destruct Hc as [[_ Hc]| ->];
        [assumption | reflexivity].
Qed.

End ProductStages.

Section ProductKeys.
Context {P : Pandas}.
Variables other_brand_id other_cat_id : Z.

Lemma both_na_to_other_spec (df df' : DataFrame) :
  both_na_to_other other_brand_id other_cat_id df = Some df' ->
  exists m0 c0 m1 c1,
    get_col df "marca_id" = Some m0 /\ get_col df "categoria_id" = Some c0 /\
    get_col df' "marca_id" = Some m1 /\ get_col df' "categoria_id" = Some c1 /\
    (forall x, In x m1 -> x = Int other_brand_id \/ In x m0) /\
    (forall x, In x c1 -> x = Int other_cat_id \/ In x c0) /\
    (forall c, String.eqb c "marca_id" = false -> String.eqb c "categoria_id" = false ->
       get_col df' c = get_col df c).
Proof.
  unfold both_na_to_other. intros H. bind_inv H. bind_inv H.
  rename x into m0, x0 into c0. exists m0, c0.
  destruct (existsb (fun b : bool => b) _); inversion H; clear H.
  - eexists. eexists. split; [assumption|]. split; [assumption|].
    split; [rewrite get_col_set_col_other by reflexivity; apply get_col_set_col_same|].
    split; [apply get_col_set_col_same|].
    split; [|split].
    + intros x Hx. apply map2_In in Hx. destruct Hx as [b [c [_ [Hc ->]]]].
      destruct b; auto.
    + intros x Hx. apply map2_In in Hx. destruct Hx as [b [c [_ [Hc ->]]]].
      destruct b; auto.
    + intros c Hc1 Hc2. rewrite !get_col_set_col_other by assumption. reflexivity.
  - subst df'. exists m0, c0. repeat split; auto.
Qed.

Lemma categoria_by_mode_spec (df df' : DataFrame) :
  categoria_by_mode other_cat_id df = Some df' ->
  exists c0 c2,
    get_col df "categoria_id" = Some c0 /\ get_col df' "categoria_id" = Some c2 /\
    (forall x, In x c2 ->
       x = Int other_cat_id \/ In x c0 \/ exists q, x = Float q /\ In q (numbers c0)) /\
    (forall c, String.eqb c "categoria_id" = false -> get_col df' c = get_col df c).
Proof.
  unfold categoria_by_mode. intros H.
  bind_inv H. rename x into modes, E into Hm.
  bind_inv H. apply update_col_Some in E. destruct E as [c0 [Hc0 ->]].
  apply update_col_Some in H. destruct H as [c1 [Hc1 ->]].
  rewrite get_col_set_col_same in Hc1. inversion Hc1. subst c1. clear Hc1.
  exists c0. eexists. split; [assumption|]. split; [apply get_col_set_col_same|]. split.
  - intros x Hx. apply fillna_In in Hx. destruct Hx as [[Hx Hna]| ->]; [|auto].
    apply fillna_with_In in Hx. destruct Hx as [Hx|Hx]; [auto|].
    destruct (group_mode_transform_In _ _ _ _ Hm Hx) as [->|[t [m [Ht ->]]]];
      [discriminate|].
    rewrite Hc0 in Ht. inversion Ht. subst t.
    destruct (first_mode_cases (filter_mask m c0)) as [E|[[q [E Hq]]|[b [E Hb]]]];
      rewrite E in *; [discriminate| |].
    + right. right. exists q. split; [reflexivity|].
      apply numbers_filter_mask in Hq. assumption.
    + right. left. apply filter_mask_In in Hb. assumption.
  - intros c Hc. rewrite !get_col_set_col_other by assumption. reflexivity.
Qed.

Lemma cast_In (s out : Series) (f : Z) (x : cell) :
  safe_int_cast (map to_numeric s) (Some f) = Some out -> In x out ->
  exists z c, x = Int z /\ In c s /\ cast_cell (Some f) (to_numeric c) = Some z.
Proof.
  intros H Hx. destruct (safe_int_cast_nth _ _ H) as [Hl Hn].
  rewrite length_map in Hl, Hn.
  destruct (In_nth _ _ NA Hx) as [j [Hj Hxj]].
  destruct (Hn j ltac:(lia)) as [z [Hz Ho]].
  exists z, (nth j s NA). split; [congruence|]. split; [apply nth_In; lia|].
  rewrite map_nth_NA, to_numeric_idem in Hz by lia. assumption.
Qed.

Lemma final_casts_spec (df df' : DataFrame) :
  final_casts other_brand_id other_cat_id df = Some df' ->
  exists c0 c1 m0 m1,
    get_col df "categoria_id" = Some c0 /\ get_col df' "categoria_id" = Some c1 /\
    get_col df "marca_id" = Some m0 /\ get_col df' "marca_id" = Some m1 /\
    safe_int_cast (map to_numeric c0) (Some other_cat_id) = Some c1 /\
    safe_int_cast (map to_numeric m0) (Some other_brand_id) = Some m1 /\
    get_col df' "precio" = get_col df "precio".
Proof.
  unfold final_casts. intros H.
  bind_inv H. bind_inv H. bind_inv H. bind_inv H. bind_inv H. bind_inv H.
  apply update_col_Some in H. destruct H as [nombre [Hnombre ->]].
  rename x1 into c0, x2 into c1, x3 into m0, x4 into m1.
  rewrite get_col_set_col_other in E1 by reflexivity.
  rewrite !get_col_set_col_other in E3 by reflexivity.
  exists c0, c1, m0, m1.
  split; [assumption|].
  split; [rewrite !get_col_set_col_other by reflexivity; apply get_col_set_col_same|].
  split; [assumption|].
  split; [rewrite get_col_set_col_other by reflexivity; apply get_col_set_col_same|].
  split; [assumption|]. split; [assumption|].
  rewrite !get_col_set_col_other by reflexivity. reflexivity.
Qed.

Lemma cast_key (raw : Series) (sentinel : Z) (c : cell) (z : Z) :
  (c = NA \/ c = Int sentinel \/
   (exists q, num_of c = Some q /\
      (q = inject_Z sentinel \/ In q (numbers (map to_numeric raw)))) \/
   exists b, c = Inf b) ->
  cast_cell (Some sentinel) (to_numeric c) = Some z ->
  key_from raw sentinel (Int z).
Proof.
  intros Hc Hz. exists z. split; [reflexivity|].
  destruct Hc as [->|[->|[[q [Hq Hsrc]]|[b ->]]]].
  4:{ discriminate Hz. }
  - simpl in Hz. left. congruence.
  - simpl in Hz. left. congruence.
  - assert (Hn : to_numeric c = c) by (destruct c; try discriminate; reflexivity).
    rewrite Hn in Hz.
    assert (Hi : cast_cell (Some sentinel) c = int_of c)
      by (destruct c; try discriminate; reflexivity).
    rewrite Hi, (int_of_num _ Hq) in Hz. inversion Hz.
    destruct Hsrc as [->|Hsrc]; [left; apply Qtruncate_inject_Z | right; eauto].
Qed.

End ProductKeys.

(** ** [prepare_producto]: what the cleaned products hold *)

Lemma mean_closed_nonneg : mean_closed (fun q => 0 <= q)%Q.
Proof.
  intros a b m Ha Hb Hm. cbv beta in *. rewrite Hm. unfold Qdiv.
  apply Qmult_le_0_compat; [lra | discriminate].
Qed.

Lemma mean_closed_pos : mean_closed (fun q => 0 < q)%Q.
Proof.
  intros a b m Ha Hb Hm. cbv beta in *. rewrite Hm. unfold Qdiv.
  apply Qmult_lt_0_compat; [lra | reflexivity].
Qed.

Lemma mean_closed_any : mean_closed (fun _ => True).
Proof. intros a b m _ _ _. exact I. Qed.

Section ProductProperties.
Context {P : Pandas}.
Variables other_brand_id other_cat_id : Z.

Lemma staged_column (producto staged : DataFrame) (m1 m2 : list bool) (c : string)
    (s : Series) :
  (forall c,
     existsb (String.eqb c) ["categoria_id"; "marca_id"; "volumen"; "precio"] = true ->
     get_col staged c
       = option_map (fun s => filter_mask m2 (map to_numeric (filter_mask m1 s)))
                    (get_col producto c)) ->
  existsb (String.eqb c) ["categoria_id"; "marca_id"; "volumen"; "precio"] = true ->
  get_col staged c = Some s ->
  exists raw, get_col producto c = Some raw /\
    forall x, In x s ->
      x = NA \/ (exists q, num_of x = Some q /\ In q (numbers (map to_numeric raw))) \/
      exists b, x = Inf b.
Proof.
  intros Hst Hc Hs. rewrite (Hst c Hc) in Hs.
  destruct (get_col producto c) as [raw|]; [|discriminate].
  simpl in Hs. inversion Hs. subst s. exists raw. split; [reflexivity|].
  intros x Hx. eapply staged_cell. eassumption.
Qed.

Lemma mean_closed_zero : mean_closed (fun q => q == 0)%Q.
Proof. intros a b m Ha Hb Hm. cbv beta in *. rewrite Hm, Ha, Hb. reflexivity. Qed.

Lemma mean_closed_none : mean_closed (fun _ => False).
Proof. intros a b m []. Qed.

(** C3, as the code has it, for sentinels and for ids and prices of a
    magnitude below 2^53.  In the table [prepare_producto] returns, every
    categoria_id and every marca_id is an integer: the sentinel, or the
    integer part of a number of that column of the input; so they are ids of
    the cleaned dimension tables as soon as the sentinel and the ids of the
    input are.  [precio1] being the prices of the rows that stay, after the
    duplicated and the unusable rows are removed, none of them infinite: every
    price of the result is a number as soon as one of [precio1] is a number
    other than 0, every price is missing when every number of [precio1] is
    0, and when no number of [precio1] is negative every price that is there
    is positive. *)
Theorem prepare_producto_resolved (producto out : DataFrame) :
  exact_int other_brand_id -> exact_int other_cat_id ->
  exact_column producto "categoria_id" -> exact_column producto "marca_id" ->
  exact_column producto "precio" ->
  prepare_producto producto other_brand_id other_cat_id = Some out ->
  exists cat0 marca0 cat marca precio staged precio1,
    get_col producto "categoria_id" = Some cat0 /\
    get_col producto "marca_id" = Some marca0 /\
    get_col out "categoria_id" = Some cat /\
    get_col out "marca_id" = Some marca /\
    get_col out "precio" = Some precio /\
    drop_unusable (coerce_numeric (drop_duplicates producto)) = Some staged /\
    get_col staged "precio" = Some precio1 /\
    (forall c, In c cat -> key_from cat0 other_cat_id c) /\
    (forall c, In c marca -> key_from marca0 other_brand_id c) /\
    (forall dim_ids : list Z, In other_cat_id dim_ids ->
       (forall q, In q (numbers (map to_numeric cat0)) -> In (Qtruncate q) dim_ids) ->
       forall c, In c cat -> exists z, c = Int z /\ In z dim_ids) /\
    (forall dim_ids : list Z, In other_brand_id dim_ids ->
       (forall q, In q (numbers (map to_numeric marca0)) -> In (Qtruncate q) dim_ids) ->
       forall c, In c marca -> exists z, c = Int z /\ In z dim_ids) /\
    ((forall c, In c precio1 -> infinite c = false) ->
     ((exists c q, In c precio1 /\ num_of c = Some q /\ ~ (q == 0)%Q) ->
      forall c, In c precio -> exists q, num_of c = Some q) /\
     ((forall c q, In c precio1 -> num_of c = Some q -> (q == 0)%Q) ->
      forall c, In c precio -> c = NA) /\
     ((forall c q, In c precio1 -> num_of c = Some q -> (0 <= q)%Q) ->
      forall c, In c precio -> cell_in (fun q => (0 < q)%Q) c)).
Proof.
  intros _ _ _ _ _. unfold prepare_producto. intros H.
  bind_inv H. rename x into staged, E into Hstaged.
  bind_inv H. rename x into imputed, E into Himp.
  bind_inv H. rename x into paired, E into Hboth.
  bind_inv H. rename x into inferred, E into Hmode.
  destruct (producto_staged _ Hstaged) as [m1 [m2 Hst]].
  destruct (impute_precio_spec _ Himp)
    as [p0 [p4 [Hp0 [Hp4 [Himp_other [Hclass [_ Hsome]]]]]]].
  destruct (both_na_to_other_spec _ _ _ Hboth)
    as [mi [ci [mp [cp [Hmi [Hci [Hmp [Hcp [Hmp_in [Hcp_in Hboth_other]]]]]]]]]].
  destruct (categoria_by_mode_spec _ _ Hmode) as [cp' [cf [Hcp' [Hcf [Hcf_in Hmode_other]]]]].
  destruct (final_casts_spec _ _ _ H)
    as [cf' [cat [mf [marca [Hcf' [Hcat [Hmf [Hmarca [Hccast [Hmcast Hprecio]]]]]]]]]].
  rewrite Hcp in Hcp'. inversion Hcp'. subst cp'. clear Hcp'.
  rewrite Hcf in Hcf'. inversion Hcf'. subst cf'. clear Hcf'.
  rewrite Hmode_other, Hmp in Hmf by reflexivity. inversion Hmf. subst mf. clear Hmf.
  rewrite Himp_other in Hmi, Hci by reflexivity.
  destruct (@staged_column _ _ _ _ "categoria_id" _ Hst eq_refl Hci) as [cat0 [Hcat0 Hci_in]].
  destruct (@staged_column _ _ _ _ "marca_id" _ Hst eq_refl Hmi) as [marca0 [Hmarca0 Hmi_in]].
  rewrite Hmode_other, Hboth_other, Hp4 in Hprecio by reflexivity.
  (* the cells before the casts *)
  assert (Hcp_cell : forall x, In x cp ->
            x = NA \/ x = Int other_cat_id \/
            (exists q, num_of x = Some q /\
               (q = inject_Z other_cat_id \/ In q (numbers (map to_numeric cat0)))) \/
            exists b, x = Inf b).
  { intros x Hx. destruct (Hcp_in x Hx) as [->|Hx']; [auto|].
    destruct (Hci_in x Hx') as [->|[[q [Hq Hin]]|Hb]]; [auto| |auto].
    right. right. left. eauto. }
  assert (Hcf_cell : forall x, In x cf ->
            x = NA \/ x = Int other_cat_id \/
            (exists q, num_of x = Some q /\
               (q = inject_Z other_cat_id \/ In q (numbers (map to_numeric cat0)))) \/
            exists b, x = Inf b).
  { intros x Hx. destruct (Hcf_in x Hx) as [->|[Hx'|[q [-> Hq]]]]; [auto | auto|].
    right. right. left. exists q. split; [reflexivity|].
    apply numbers_In in Hq. destruct Hq as [c [Hc Hcq]].
    destruct (Hcp_cell c Hc) as [->|[->|[[q' [Hq' Hsrc]]|[b ->]]]].
    - discriminate.
    - simpl in Hcq. left. congruence.
    - congruence.
    - discriminate. }
  assert (Hmp_cell : forall x, In x mp ->
            x = NA \/ x = Int other_brand_id \/
            (exists q, num_of x = Some q /\
               (q = inject_Z other_brand_id \/ In q (numbers (map to_numeric marca0)))) \/
            exists b, x = Inf b).
  { intros x Hx. destruct (Hmp_in x Hx) as [->|Hx']; [auto|].
    destruct (Hmi_in x Hx') as [->|[[q [Hq Hin]]|Hb]]; [auto| |auto].
    right. right. left. eauto. }
  assert (Hcat_key : forall c, In c cat -> key_from cat0 other_cat_id c).
  { intros c Hc. destruct (cast_In _ _ _ Hccast Hc) as [z [c0 [-> [Hc0 Hz]]]].
    eapply cast_key; [apply Hcf_cell; eassumption | eassumption]. }
  assert (Hmarca_key : forall c, In c marca -> key_from marca0 other_brand_id c).
  { intros c Hc. destruct (cast_In _ _ _ Hmcast Hc) as [z [c0 [-> [Hc0 Hz]]]].
    eapply cast_key; [apply Hmp_cell; eassumption | eassumption]. }
  exists cat0, marca0, cat, marca, p4, staged, p0.
  repeat (split; [assumption|]).
  split; [|split].
  - intros ids Hs Hids c Hc. destruct (Hcat_key c Hc) as [z [-> [->|[q [Hq ->]]]]];
      eexists; (split; [reflexivity|]); auto.
  - intros ids Hs Hids c Hc. destruct (Hmarca_key c Hc) as [z [-> [->|[q [Hq ->]]]]];
      eexists; (split; [reflexivity|]); auto.
  - intros Hfin.
    assert (Hp0_in : forall R : Q -> Prop,
              (forall c q, In c p0 -> num_of c = Some q -> R q) ->
              forall c, In c p0 -> cell_in R c).
    { intros R HR c Hc. pose proof (Hfin c Hc) as Hi.
      destruct (@staged_column _ _ _ _ "precio" _ Hst eq_refl Hp0) as [precio0 [_ Hcell]].
      destruct (Hcell c Hc) as [->|[[q [Hq _]]|[b ->]]];
        [left; reflexivity | right; eauto | discriminate]. }
    assert (Hp0_any : forall c, In c p0 -> cell_in (fun _ => True) c)
      by (apply Hp0_in; intros; exact I).
    split; [|split].
    + intros Hex c Hc. pose proof (Hsome Hp0_any Hex c Hc) as Hna.
      destruct (Hclass _ _ mean_closed_any mean_closed_any (fun _ _ _ => I) Hp0_any c Hc)
        as [->|[q [Hq _]]]; [discriminate | eauto].
    + intros Hzero c Hc.
      destruct (Hclass (fun q => q == 0)%Q (fun _ => False)
                       mean_closed_zero mean_closed_none) with (c := c)
        as [Hna|[q [_ []]]]; [| |assumption|assumption].
      * intros q Hq Hne. apply Hne. assumption.
      * apply Hp0_in. assumption.
    + intros Hnonneg. apply (Hclass (fun q => 0 <= q)%Q (fun q => 0 < q)%Q).
      * exact mean_closed_nonneg.
      * exact mean_closed_pos.
      * intros q Hq Hz. apply Qle_lteq in Hq. destruct Hq as [Hq|Hq]; [assumption|].
        exfalso. apply Hz. symmetry. assumption.
      * apply Hp0_in. assumption.
Qed.

End ProductProperties.

(** C3 as stated fails.  With the sentinel 3 of the cleaned categories
    (ids 1, 2, 3), a product of category 99 keeps 99, which is no id of that
    table; its price 0 is reopened as missing and, no other price being
    there, stays missing.  And of three products of one category and one
    volumen with the prices -1, 1 and none, the third gets the median 0 of
    its group: reopened as missing after the first fill, the 0 comes back
    with the median of the volumen and stays. *)
Lemma prepare_producto_unresolved :
  @prepare_categoria run_pandas categoria_plain = Some (categoria_plain_out, 3%Z) /\
  @prepare_producto run_pandas producto_unlisted 3 3 = Some producto_unlisted_out /\
  get_col producto_unlisted_out "precio" = Some [NA] /\
  get_col producto_unlisted_out "categoria_id" = Some [Int 99] /\
  get_col categoria_plain_out "id" = Some [Int 1; Int 2; Int 3]%Z /\
  ~ In (Int 99) [Int 1; Int 2; Int 3]%Z /\
  @prepare_producto run_pandas producto_negative 3 3 = Some producto_negative_out /\
  get_col producto_negative_out "precio" = Some [Int (-1); Int 1; Float 0]%Z.
Proof.
  repeat (split; [reflexivity|]).
  split; [|split; reflexivity].
  intros [H|[H|[H|[]]]]; discriminate.
Qed.

Lemma exact_small (df : DataFrame) (c : string) :
  (forall s, get_col df c = Some s ->
     forall x, In x s -> x = NA \/ exists z, x = Int z /\ (Z.abs z < 100)%Z) ->
  @exact_column run_pandas df c.
Proof.
  intros H s Hs x Hx q Hq. destruct (H s Hs x Hx) as [->|[z [-> Hz]]]; simpl in Hq;
    [discriminate|].
  injection Hq as <-. unfold Qlt. simpl. lia.
Qed.

Lemma producto_scenario_exact (c : string) :
  In c ["categoria_id"; "marca_id"; "precio"] ->
  @exact_column run_pandas (producto_scenario 1 2 (Str "a") (Str "b")) c.
Proof.
  intros [<-|[<-|[<-|[]]]]; apply exact_small; intros s Hs x Hx;
    inversion Hs; subst s; simpl in Hx;
    repeat (destruct Hx as [<-|Hx];
            [first [left; reflexivity
                   | right; eexists; split; [reflexivity | simpl; lia]]|]);
    destruct Hx.
Qed.

Lemma prepare_producto_resolved_witness :
  exists cat marca precio,
    get_col producto_scenario_out "categoria_id" = Some cat /\
    get_col producto_scenario_out "marca_id" = Some marca /\
    get_col producto_scenario_out "precio" = Some precio /\
    (forall c, In c cat -> key_from (P := run_pandas) [NA; Int 7] 3 c) /\
    (forall c, In c marca -> key_from (P := run_pandas) [NA; NA] 3 c) /\
    (forall c, In c precio -> exists q, num_of c = Some q) /\
    (forall c, In c precio -> cell_in (fun q => (0 < q)%Q) c).
Proof.
  assert (H3 : exact_int 3) by reflexivity.
  destruct (@prepare_producto_resolved run_pandas 3 3
              (producto_scenario 1 2 (Str "a") (Str "b")) producto_scenario_out H3 H3
              (@producto_scenario_exact "categoria_id" (or_introl eq_refl))
              (@producto_scenario_exact "marca_id" (or_intror (or_introl eq_refl)))
              (@producto_scenario_exact "precio" (or_intror (or_intror (or_introl eq_refl))))
              eq_refl)
    as [cat0 [marca0 [cat [marca [precio [staged [precio1 H]]]]]]].
  destruct H as [Hcat0 [Hmarca0 [Hcat [Hmarca [Hprecio [Hstaged [Hprecio1
                  [Hkc [Hkm [_ [_ Hprice]]]]]]]]]]].
  inversion Hcat0. inversion Hmarca0. subst cat0 marca0.
  inversion Hstaged. subst staged. inversion Hprecio1. subst precio1.
  exists cat, marca, precio.
  split; [assumption|]. split; [assumption|]. split; [assumption|].
  split; [assumption|]. split; [assumption|].
  assert (Hfin : forall c, In c [Int 0; Int 10]%Z -> infinite c = false).
  { intros c [<-|[<-|[]]]; reflexivity. }
  destruct (Hprice Hfin) as [Hsome [_ Hpos]]. split.
  - apply Hsome. exists (Int 10), (inject_Z 10).
    split; [right; left; reflexivity|]. split; [reflexivity | discriminate].
  - apply Hpos. intros c q [<-|[<-|[]]] Hq; inversion Hq; discriminate.
Defined.

(** ** Joins *)

Lemma combine_seq_In {A : Type} (d : A) (l : list A) :
  forall a i, i < List.length l ->
    In (a + i, nth i l d) (combine (seq a (List.length l)) l).
Proof.
  induction l as [|x l IH]; simpl; intros a i Hi; [lia|].
  destruct i as [|i].
  - left. rewrite Nat.add_0_r. reflexivity.
  - right. replace (a + S i) with (S a + i) by lia. apply IH. lia.
Qed.

(** Every left row is in the pairs of a left join, alone when nothing
    matches it. *)
Lemma left_pairs_covers (lkeys rkeys : list (list cell)) (i : nat) :
  i < List.length lkeys ->
  (exists p, In p (left_pairs lkeys rkeys) /\ fst p = Some i) /\
  (matches (nth i lkeys []) rkeys = [] -> In (Some i, None) (left_pairs lkeys rkeys)).
Proof.
  intros Hi. pose proof (combine_seq_In [] lkeys 0 Hi) as Hin. simpl in Hin.
  unfold left_pairs. split.
  - destruct (matches (nth i lkeys []) rkeys) as [|j js] eqn:E.
    + exists (Some i, None). split; [|reflexivity].
      apply in_flat_map. exists (i, nth i lkeys []). split; [assumption|].
      simpl. rewrite E. left. reflexivity.
    + exists (Some i, Some j). split; [|reflexivity].
      apply in_flat_map. exists (i, nth i lkeys []). split; [assumption|].
      simpl. rewrite E. left. reflexivity.
  - intros E. apply in_flat_map. exists (i, nth i lkeys []). split; [assumption|].
    simpl. rewrite E. left. reflexivity.
Qed.

Lemma matches_none (k : list cell) (rkeys : list (list cell)) :
  (forall r, In r rkeys -> row_eqb k r = false) -> matches k rkeys = [].
Proof.
  unfold matches. generalize 0 as a.
  induction rkeys as [|r rkeys IH]; simpl; intros a H; [reflexivity|].
  rewrite (H r (or_introl eq_refl)). apply IH. intros r' Hr'. apply H. right. assumption.
Qed.

Lemma take_map_nth (s : Series) (g : option nat * option nat -> option nat)
    (pairs : list (option nat * option nat)) (k : nat) :
  k < List.length pairs ->
  nth k (map (fun p => take s (g p)) pairs) NA = take s (g (nth k pairs (None, None))).
Proof.
  intros Hk.
  rewrite (nth_indep _ NA (take s (g (None, None)))) by (rewrite length_map; assumption).
  apply (map_nth (fun p => take s (g p))).
Qed.

Lemma In_drop_cols (names : list string) (df : DataFrame) (c : string) (s : Series) :
  In (c, s) df -> existsb (String.eqb c) names = false -> In (c, s) (drop_cols names df).
Proof.
  intros Hin Hc. unfold drop_cols. apply filter_In. split; [assumption|].
  simpl. rewrite Hc. reflexivity.
Qed.

Lemma In_rename_col (old new : string) (df : DataFrame) (c : string) (s : Series) :
  In (c, s) df -> In (if String.eqb c old then new else c, s) (rename_col old new df).
Proof.
  intros Hin. unfold rename_col.
  apply (in_map (fun cs => (if String.eqb (fst cs) old then new else fst cs, snd cs))) in Hin.
  exact Hin.
Qed.

Lemma In_has_col (df : DataFrame) (c : string) (s : Series) :
  In (c, s) df -> has_col df c = true.
Proof.
  intros Hin. unfold has_col, columns. apply existsb_exists. exists c. split.
  - apply (in_map fst) in Hin. exact Hin.
  - apply String.eqb_refl.
Qed.

Lemma has_suffix_append (c suffix : string) : has_suffix suffix (c ++ suffix) = true.
Proof.
  induction c as [|a c IH]; simpl.
  - destruct suffix; simpl; [reflexivity|]. rewrite Ascii.eqb_refl, String.eqb_refl. reflexivity.
  - rewrite IH. apply orb_true_r.
Qed.

Lemma suffixed_not (other : list string) (suffix c t : string) :
  has_suffix suffix t = false -> c <> t -> suffixed other suffix c <> t.
Proof.
  intros Hs Hc. unfold suffixed. destruct (existsb (String.eqb c) other); [|assumption].
  intros E. rewrite <- E, has_suffix_append in Hs. discriminate.
Qed.

Lemma suffixed_is (other : list string) (suffix c t : string) :
  suffixed other suffix c = t -> has_suffix suffix t = false ->
  c = t /\ existsb (String.eqb t) other = false.
Proof.
  unfold suffixed. destruct (existsb (String.eqb c) other) eqn:E; intros H Hs.
  - rewrite <- H, has_suffix_append in Hs. discriminate.
  - subst t. auto.
Qed.

Lemma merge_left_Some (left right out : DataFrame) (left_on right_on : string) :
  merge_left left right left_on right_on = Some out ->
  exists lk rk,
    get_col left left_on = Some lk /\ get_col right right_on = Some rk /\
    has_col left "_merge" = false /\ has_col right "_merge" = false /\
    let pairs := left_pairs (map (fun c => [c]) lk) (map (fun c => [c]) rk) in
    out = map (fun cs => (suffixed (columns right) "_x" (fst cs),
                          map (fun p => take (snd cs) (fst p)) pairs)) left
          ++ map (fun cs => (suffixed (columns left) "_y" (fst cs),
                             map (fun p => take (snd cs) (snd p)) pairs)) right
          ++ [("_merge", map indicator pairs)].
Proof.
  unfold merge_left. intros H. bind_inv H. bind_inv H.
  destruct (has_col left "_merge") eqn:E1; [discriminate|].
  destruct (has_col right "_merge") eqn:E2; [discriminate|].
  simpl in H. inversion H. exists x, x0. auto.
Qed.

Lemma select_cols_columns (names : list string) (df out : DataFrame) :
  select_cols names df = Some out -> columns out = names.
Proof.
  unfold select_cols, columns. revert out.
  induction names as [|c names IH]; simpl; intros out H.
  - inversion H. reflexivity.
  - bind_inv H. bind_inv H. bind_inv E. inversion E. subst x. inversion H. subst out.
    simpl. f_equal. apply IH. assumption.
Qed.

Lemma nrows_uniform (df : DataFrame) (n : nat) (c : string) (s : Series) :
  (forall cs, In cs df -> List.length (snd cs) = n) -> In (c, s) df -> nrows df = n.
Proof.
  destruct df as [|[c0 s0] df]; simpl; intros H Hin; [destruct Hin|].
  apply (H (c0, s0)). left. reflexivity.
Qed.

(** C8.  When [merge_events_with_entities] returns, every event whose
    itemid equals no id of the enriched products gives one row of the
    Event-Product view that pairs it with no product, and rows of the unified
    view that come from that row.  Such a row of the Event-Product view is
    flagged "left_only" in the column "event+producto" and is missing in
    every column that comes from the enriched products; so is every row of
    the unified view that comes from it. *)
Theorem merge_events_left_only (events producto_enriq cliente events1 events2 eventos3
    : DataFrame) :
  merge_events_with_entities events producto_enriq cliente
    = Some (events1, events2, eventos3) ->
  left_only_rows events producto_enriq events1 eventos3.
Proof.
  unfold merge_events_with_entities, left_only_rows. intros H.
  bind_inv H. rename x into m1, E into Hm1.
  bind_inv H. rename x into d1, E into Hd1.
  bind_inv H. rename x into m2, E into Hm2.
  bind_inv H. rename x into d2, E into Hd2.
  bind_inv H. rename x into right, E into Hright.
  bind_inv H. rename x into e3, E into He3.
  inversion H. clear H. subst events2 eventos3.
  set (e1 := rename_col "_merge" "event+producto" d1) in *.
  assert (He1 : events1 = e1) by (symmetry; assumption). clear H1. subst events1.
  destruct (merge_left_Some _ _ _ _ Hm1)
    as [itemid [pid [Hitem [Hpid [Hnom1 [Hnom2 Hm1eq]]]]]].
  destruct (merge_left_Some _ _ _ _ Hm2) as [visitor [_ [Hvis _]]].
  cbv zeta in Hm1eq.
  set (pairs1 := left_pairs (map (fun c => [c]) itemid) (map (fun c => [c]) pid)) in *.
  unfold drop_cols_raise in Hd1.
  destruct (forallb (has_col m1) ["id"]); [|discriminate]. inversion Hd1. clear Hd1.
  rename H0 into Hd1.
  (* the columns of events1 *)
  assert (Hin1 : forall c s, In (c, s) m1 -> c <> "id" -> c <> "_merge" -> In (c, s) e1).
  { intros c s Hin Hid Hmg. unfold e1. rewrite <- Hd1.
    apply String.eqb_neq in Hmg.
    pose proof (In_rename_col "_merge" "event+producto" (drop_cols ["id"] m1) c s) as Hr.
    rewrite Hmg in Hr. apply Hr. apply In_drop_cols; [assumption|].
    simpl. apply String.eqb_neq in Hid. rewrite Hid. reflexivity. }
  assert (Hprov1 : In ("event+producto", map indicator pairs1) e1).
  { unfold e1. rewrite <- Hd1.
    apply (In_rename_col "_merge" "event+producto" (drop_cols ["id"] m1) "_merge").
    apply In_drop_cols; [|reflexivity].
    rewrite Hm1eq. apply in_or_app. right. apply in_or_app. right. left. reflexivity. }
  assert (Hlen1 : forall cs, In cs e1 -> List.length (snd cs) = List.length pairs1).
  { intros [c s] Hin. unfold e1, rename_col in Hin. apply in_map_iff in Hin.
    destruct Hin as [[c' s'] [Heq Hin]]. simpl in Heq. inversion Heq. subst s'. clear Heq.
    rewrite <- Hd1 in Hin. unfold drop_cols in Hin. apply filter_In in Hin.
    destruct Hin as [Hin _]. rewrite Hm1eq in Hin. simpl.
    apply in_app_or in Hin. destruct Hin as [Hin|Hin].
    - apply in_map_iff in Hin. destruct Hin as [cs [Heq _]]. inversion Heq.
      apply length_map.
    - apply in_app_or in Hin. destruct Hin as [Hin|[Heq|[]]].
      + apply in_map_iff in Hin. destruct Hin as [cs [Heq _]]. inversion Heq.
        apply length_map.
      + inversion Heq. apply length_map. }
  assert (Hn1 : nrows e1 = List.length pairs1) by (eapply nrows_uniform; eassumption).
  (* the unified view *)
  unfold merge_outer in He3. bind_inv He3. rename x into lk, E into Hlk.
  bind_inv He3. rename x into rk, E into Hrk. injection He3 as He3.
  set (lkeys := rows_of (nrows e1) lk) in *.
  set (rkeys := rows_of (nrows right) rk) in *.
  set (pairs3 := left_pairs lkeys rkeys ++ right_only lkeys rkeys) in *.
  pose proof (select_cols_columns _ _ Hright) as Hcols.
  assert (Hkeep : forall c, existsb (String.eqb c) (columns e1) = true ->
            existsb (String.eqb c) ["visitorid"; "itemid"] = false ->
            suffixed (filter (fun c0 => negb (existsb (String.eqb c0) ["visitorid"; "itemid"]))
                             (columns right)) "_x" c = c).
  { intros c Hc Hk. unfold suffixed.
    destruct (existsb (String.eqb c) (filter _ (columns right))) eqn:E; [|reflexivity].
    exfalso. apply existsb_exists in E. destruct E as [c' [Hc' Heq]].
    apply String.eqb_eq in Heq. subst c'. apply filter_In in Hc'.
    destruct Hc' as [Hc' _]. rewrite Hcols in Hc'. apply filter_In in Hc'.
    destruct Hc' as [_ Hc']. rewrite Hc in Hc'. simpl in Hc'. simpl in Hk.
    rewrite Hk in Hc'. discriminate. }
  assert (Hin3 : forall c s, In (c, s) e1 ->
            existsb (String.eqb c) ["visitorid"; "itemid"] = false ->
            In (c, map (fun p => take s (fst p)) pairs3) e3).
  { intros c s Hin Hk. rewrite <- He3. apply in_or_app. left.
    apply in_map_iff. exists (c, s). split; [|assumption]. cbv beta. simpl fst. simpl snd.
    pose proof Hk as Hk'. simpl in Hk'. simpl. rewrite Hk'. f_equal.
    apply Hkeep; [|assumption].
    apply existsb_exists. exists c. split; [|apply String.eqb_refl].
    apply (in_map fst) in Hin. exact Hin. }
  assert (Hcover : forall k, k < List.length pairs1 ->
            exists k3, k3 < List.length pairs3 /\ fst (nth k3 pairs3 (None, None)) = Some k).
  { intros k Hk.
    assert (Hkl : k < List.length lkeys) by (unfold lkeys; rewrite rows_of_length; lia).
    destruct (left_pairs_covers lkeys rkeys Hkl) as [[p [Hp Hfst]] _].
    assert (Hp3 : In p pairs3) by (unfold pairs3; apply in_or_app; left; assumption).
    destruct (In_nth _ _ (None, None) Hp3) as [k3 [Hk3 Hn3]].
    exists k3. split; [assumption|]. rewrite Hn3. assumption. }
  exists itemid, pid, pairs1, pairs3. cbv zeta.
  split; [assumption|]. split; [assumption|]. split; [reflexivity|].
  split; [assumption|]. split; [apply Hin3; [assumption | reflexivity]|].
  split.
  - intros i Hi Hno.
    assert (Hil : i < List.length (map (fun c : cell => [c]) itemid))
      by (rewrite length_map; assumption).
    destruct (left_pairs_covers _ (map (fun c : cell => [c]) pid) Hil) as [_ Hnone].
    assert (Hinp : In (Some i, None) pairs1).
    { apply Hnone. apply matches_none. intros r Hr. apply in_map_iff in Hr.
      destruct Hr as [c [<- Hc]]. destruct (In_nth _ _ NA Hc) as [j [Hj Hcj]].
      rewrite (nth_indep _ [] [NA]) by assumption.
      rewrite (map_nth (fun c : cell => [c])). simpl.
      rewrite <- Hcj, (Hno j Hj). reflexivity. }
    destruct (In_nth _ _ (None, None) Hinp) as [k [Hk Hnk]].
    assert (Hpk : nth k (map indicator pairs1) NA = Str "left_only").
    { rewrite (nth_indep _ NA (indicator (None, None))) by (rewrite length_map; assumption).
      rewrite map_nth, Hnk. reflexivity. }
    exists k. split; [assumption|]. split; [assumption|]. split; [assumption|].
    destruct (Hcover k Hk) as [k3 [Hk3 Hf3]]. exists k3.
    split; [assumption|]. split; [assumption|].
    rewrite (take_map_nth _ (fun p => fst p)) by assumption. rewrite Hf3. simpl. assumption.
  - intros c s Hin Hid.
    assert (Hname_in : In (suffixed (columns events) "_y" c,
                           map (fun p => take s (snd p)) pairs1) m1).
    { rewrite Hm1eq. apply in_or_app. right. apply in_or_app. left.
      apply in_map_iff. exists (c, s). split; [reflexivity | assumption]. }
    assert (Hcm : c <> "_merge").
    { intros ->. rewrite (In_has_col _ _ _ Hin) in Hnom2. discriminate. }
    assert (Hn_id : suffixed (columns events) "_y" c <> "id")
      by (apply suffixed_not; [reflexivity | assumption]).
    assert (Hn_mg : suffixed (columns events) "_y" c <> "_merge")
      by (apply suffixed_not; [reflexivity | assumption]).
    assert (Hn_key : existsb (String.eqb (suffixed (columns events) "_y" c))
                       ["visitorid"; "itemid"] = false).
    { simpl. rewrite orb_false_r. apply orb_false_iff. split; apply String.eqb_neq; intros E.
      - destruct (suffixed_is _ _ _ E eq_refl) as [_ Hno].
        assert (Hyes : has_col events "visitorid" = true)
          by (apply get_col_has_col; eauto).
        unfold has_col in Hyes. congruence.
      - destruct (suffixed_is _ _ _ E eq_refl) as [_ Hno].
        assert (Hyes : has_col events "itemid" = true)
          by (apply get_col_has_col; eauto).
        unfold has_col in Hyes. congruence. }
    pose proof (Hin1 _ _ Hname_in Hn_id Hn_mg) as Hs1.
    split; [assumption|]. split; [apply Hin3; assumption|].
    intros k Hk Hflag.
    assert (Hsnd : snd (nth k pairs1 (None, None)) = None).
    { rewrite (nth_indep _ NA (indicator (None, None))) in Hflag
        by (rewrite length_map; assumption).
      rewrite map_nth in Hflag.
      destruct (nth k pairs1 (None, None)) as [[i|] [j|]]; simpl in Hflag;
        try discriminate; reflexivity. }
    assert (Hs1k : nth k (map (fun p => take s (snd p)) pairs1) NA = NA).
    { rewrite (take_map_nth _ (fun p => snd p)) by assumption. rewrite Hsnd. reflexivity. }
    split; [assumption|].
    intros k3 Hk3 Hf3.
    rewrite (take_map_nth _ (fun p => fst p)) by assumption. rewrite Hf3. simpl. assumption.
Qed.

Lemma merge_events_example_run :
  merge_events_with_entities events_example producto_enriq_example cliente_clean_example
    = Some (events1_example, events2_example, eventos3_example).
Proof. reflexivity. Qed.

Lemma merge_events_left_only_witness :
  left_only_rows events_example producto_enriq_example events1_example eventos3_example.
Proof.
  exact (@merge_events_left_only events_example producto_enriq_example
           cliente_clean_example events1_example events2_example eventos3_example
           eq_refl).
Defined.

(** ** Runs that raise *)

(** Without a fill value, a missing entry next to a float with a fractional
    part makes the nullable-integer conversion raise. *)
Example safe_int_cast_fractional_raises :
  @safe_int_cast run_pandas [Float (3 # 2); NA] None = None.
Proof. reflexivity. Qed.

(** An OTHER row without id: [int] of a missing value raises. *)
Example prepare_categoria_other_without_id_raises :
  @prepare_categoria run_pandas [("id", [NA]); ("categoria", [Str "other"])] = None.
Proof. reflexivity. Qed.

(** A product table without the column "marca_id": KeyError. *)
Example prepare_producto_without_marca_raises :
  @prepare_producto run_pandas
     [("id", [Int 1]); ("nombre", [Str "x"]); ("volumen", [Int 5]);
      ("precio", [Int 3]); ("categoria_id", [Int 1])]%Z 3 3 = None.
Proof. reflexivity. Qed.

(** * Further properties of the pipeline *)

(** ** [safe_int_cast]: when it raises, and casting twice *)

Lemma mapM_None {A B : Type} (f : A -> option B) (l : list A) :
  mapM f l = None <-> exists a, In a l /\ f a = None.
Proof.
  induction l as [|a l IH]; simpl.
  - split; [discriminate | intros [a [[] _]]].
  - destruct (f a) as [b|] eqn:E; simpl.
    + destruct (mapM f l) as [bs|] eqn:El; simpl.
      * split; [discriminate|].
        intros [a' [[Ha | Ha] Hf]]; [subst; congruence|].
        destruct IH as [_ IH]. discriminate IH. eauto.
      * split; [|reflexivity]. intros _.
        destruct IH as [IH _]. destruct (IH eq_refl) as [a' [Ha Hf]]. eauto.
    + split; [|reflexivity]. intros _. exists a. auto.
Qed.

Lemma existsb_isna_In (s : Series) : existsb isna s = true <-> In NA s.
Proof.
  rewrite existsb_exists. split.
  - intros [c [Hc Hna]]. destruct c; try discriminate. assumption.
  - intros H. exists NA. auto.
Qed.

Lemma astype_int_ints (s : Series) :
  (forall c, In c s -> exists z, c = Int z) -> astype_int s = Some s.
Proof.
  intros H. apply mapM_unchanged. intros c Hc. destruct (H c Hc) as [z ->]. reflexivity.
Qed.

Section CastProperties.
Context {P : Pandas}.

Lemma safe_int_cast_of_ints (s : Series) (fill_value : option Z) :
  (forall c, In c s -> exists z, c = Int z) -> safe_int_cast s fill_value = Some s.
Proof.
  intros H. unfold safe_int_cast.
  assert (Hm : map to_numeric s = s).
  { apply map_unchanged. intros c Hc. destruct (H c Hc) as [z ->]. reflexivity. }
  rewrite Hm.
  assert (Hf : forall f, fillna (Int f) s = s).
  { intros f. apply map_unchanged. intros c Hc. destruct (H c Hc) as [z ->]. reflexivity. }
  assert (He : existsb isna s = false).
  { destruct (existsb isna s) eqn:E; [|reflexivity].
    apply existsb_isna_In in E. destruct (H _ E) as [z Hz]. discriminate. }
  destruct fill_value as [f|]; [rewrite Hf|]; rewrite He; apply astype_int_ints; assumption.
Qed.

Lemma astype_int_numbers (s : Series) :
  existsb isna (map to_numeric s) = false ->
  (forall c, In c s -> infinite (to_numeric c) = false) ->
  exists out, astype_int (map to_numeric s) = Some out.
Proof.
  intros He Hfin. apply mapM_total. intros a Ha.
  apply in_map_iff in Ha. destruct Ha as [c [Hc Hin]]. subst a.
  specialize (Hfin c Hin).
  destruct (to_numeric_cases c) as [E | [[z E] | [[q E] | [b E]]]]; rewrite E in *; simpl;
    eauto; [|discriminate].
  exfalso. assert (existsb isna (map to_numeric s) = true); [|congruence].
  apply existsb_isna_In. rewrite <- E. apply in_map. assumption.
Qed.

Lemma astype_Int64_cells (s x : Series) :
  astype_Int64 s = Some x -> forall c, In c x -> c = NA \/ exists z, c = Int z.
Proof.
  intros H c Hc. destruct (In_nth _ _ NA Hc) as [i [Hi Hn]].
  apply astype_Int64_nth in H. destruct H as [Hl Hx].
  destruct (Hx i ltac:(lia)) as [[_ E] | [z [_ E]]]; rewrite Hn in E; eauto.
Qed.

(** X1.  On a series whose numbers are of a magnitude below 2^53, and
    without a fill value, [safe_int_cast] raises in two cases only: some
    entry is infinite after the numeric coercion; or some entry is missing
    after it and some entry is a float with a fractional part (the
    conversion to the nullable integers refuses it).  When nothing is
    missing and nothing infinite, a fractional part is cut off without an
    error. *)
Theorem safe_int_cast_raises (series : Series) :
  (forall c, In c series -> exact_cell (to_numeric c)) ->
  (safe_int_cast series None = None <->
   ((exists c, In c series /\ to_numeric c = NA) /\
    (exists c q, In c series /\ to_numeric c = Float q /\ is_integral q = false)) \/
   (exists c, In c series /\ infinite (to_numeric c) = true)) /\
  ((forall c, In c series -> to_numeric c <> NA /\ infinite (to_numeric c) = false) ->
   forall i q, i < List.length series -> to_numeric (nth i series NA) = Float q ->
     exists out, safe_int_cast series None = Some out /\ nth i out NA = Int (Qtruncate q)).
Proof.
  intros _. split.
  - destruct (existsb infinite (map to_numeric series)) eqn:Einf.
    { apply existsb_exists in Einf. destruct Einf as [c' [Hc' Hi]].
      apply in_map_iff in Hc'. destruct Hc' as [c [<- Hc]].
      rewrite (@safe_int_cast_infinite _ series None c Hc Hi).
      split; [intros _; right; eauto | reflexivity]. }
    assert (Hfin : forall c, In c series -> infinite (to_numeric c) = false).
    { intros c Hc. destruct (infinite (to_numeric c)) eqn:E; [|reflexivity]. exfalso.
      assert (existsb infinite (map to_numeric series) = true); [|congruence].
      apply existsb_exists. exists (to_numeric c). split; [apply in_map|]; assumption. }
    unfold safe_int_cast.
    destruct (existsb isna (map to_numeric series)) eqn:Ex.
    + destruct (astype_Int64 (map to_numeric series)) as [x|] eqn:E64; simpl.
      * (* the nullable integers are there: the rest cannot raise *)
        assert (Hx := astype_Int64_cells _ E64).
        split.
        -- intros H. exfalso.
           destruct (negb (existsb isna x)) eqn:Ex2.
           ++ rewrite astype_int_ints in H; [discriminate|].
              intros c Hc. destruct (Hx c Hc) as [-> | Hz]; [|assumption].
              apply negb_true_iff in Ex2.
              assert (existsb isna x = true) by (apply existsb_isna_In; assumption).
              congruence.
           ++ assert (Ht : exists out, astype_int (fillna (Int 0%Z) x) = Some out).
              { apply mapM_total. intros a Ha. unfold fillna in Ha.
                apply in_map_iff in Ha. destruct Ha as [c [Hc Hin]]. subst a.
                destruct (Hx c Hin) as [-> | [z ->]]; simpl; eauto. }
              destruct Ht as [out Ht]. congruence.
        -- intros [[_ [c [q [Hc [Hq Hi]]]]] | [c [Hc Hi]]]; exfalso.
           ++ assert (Hn : astype_Int64 (map to_numeric series) = None); [|congruence].
              apply mapM_None. exists (Float q). split.
              ** rewrite <- Hq. apply in_map. assumption.
              ** rewrite Hi. reflexivity.
           ++ rewrite (Hfin c Hc) in Hi. discriminate.
      * split; [|reflexivity]. intros _. left.
        apply mapM_None in E64. destruct E64 as [a [Ha Hf]].
        apply in_map_iff in Ha. destruct Ha as [c [Hc Hin]]. subst a.
        split.
        -- apply existsb_isna_In in Ex. apply in_map_iff in Ex.
           destruct Ex as [c' [Hc' Hin']]. eauto.
        -- pose proof (Hfin c Hin) as Hi.
           destruct (to_numeric_cases c) as [E | [[z E] | [[q E] | [b E]]]];
             rewrite E in Hf, Hi; try discriminate.
           exists c, q. split; [assumption|]. split; [assumption|].
           destruct (is_integral q); [discriminate | reflexivity].
    + destruct (astype_int_numbers _ Ex Hfin) as [out Hout]. rewrite Hout.
      split; [discriminate|].
      intros [[[c [Hc Hna]] _] | [c [Hc Hi]]]; exfalso.
      * assert (existsb isna (map to_numeric series) = true); [|congruence].
        apply existsb_isna_In. rewrite <- Hna. apply in_map. assumption.
      * rewrite (Hfin c Hc) in Hi. discriminate.
  - intros Hno i q Hi Hq.
    assert (Ex : existsb isna (map to_numeric series) = false).
    { destruct (existsb isna (map to_numeric series)) eqn:E; [|reflexivity].
      apply existsb_isna_In in E. apply in_map_iff in E.
      destruct E as [c [Hc Hin]]. destruct (proj1 (Hno c Hin) Hc). }
    destruct (astype_int_numbers _ Ex (fun c Hc => proj2 (Hno c Hc))) as [out Hout].
    exists out. unfold safe_int_cast. rewrite Ex. split; [assumption|].
    apply astype_int_nth in Hout. destruct Hout as [Hl Hn].
    rewrite length_map in Hn. destruct (Hn i Hi) as [z [Hz Ho]].
    rewrite map_nth_NA in Hz by assumption. rewrite Hq in Hz. simpl in Hz.
    inversion Hz. subst z. assumption.
Qed.

(** X2.  The result of [safe_int_cast] is a fixed point of it: cast again,
    with any fill value or none, it comes back unchanged. *)
Theorem safe_int_cast_idempotent (series out : Series) (fill_value fill_value' : option Z) :
  safe_int_cast series fill_value = Some out ->
  safe_int_cast out fill_value' = Some out.
Proof.
  intros H. apply safe_int_cast_of_ints.
  intros c Hc. destruct (In_nth _ _ NA Hc) as [i [Hi Hn]].
  apply safe_int_cast_nth in H. destruct H as [Hl Hx].
  destruct (Hx i ltac:(lia)) as [z [_ Hz]]. exists z. congruence.
Qed.

End CastProperties.

Lemma safe_int_cast_raises_witness :
  exists out, @safe_int_cast run_pandas [Float (3 # 2); Int 2%Z] None = Some out /\
              nth 0 out NA = Int 1.
Proof.
  assert (He : forall c, In c [Float (3 # 2); Int 2%Z] ->
                 exact_cell (@to_numeric run_pandas c)).
  { intros c [<-|[<-|[]]] q Hq; injection Hq as <-; split; reflexivity. }
  assert (Hno : forall c, In c [Float (3 # 2); Int 2%Z] ->
                 @to_numeric run_pandas c <> NA /\
                 infinite (@to_numeric run_pandas c) = false).
  { intros c [<-|[<-|[]]]; split; (discriminate || reflexivity). }
  exact (proj2 (@safe_int_cast_raises run_pandas [Float (3 # 2); Int 2%Z] He) Hno
           0 (3 # 2) ltac:(simpl; lia) eq_refl).
Defined.

Lemma safe_int_cast_idempotent_witness :
  @safe_int_cast run_pandas [Int 1; Int 7; Int (-2)]%Z None = Some [Int 1; Int 7; Int (-2)]%Z.
Proof.
  apply (@safe_int_cast_idempotent run_pandas [Int 1; NA; Float (-5 # 2)]%Z _ (Some 7%Z) None).
  reflexivity.
Defined.

(** ** [first_mode] and [group_mode_transform] *)

Lemma Qle_bool_total (p q : Q) : Qle_bool p q = false -> (q <= p)%Q.
Proof.
  intros H. destruct (Qlt_le_dec p q) as [Hlt | Hle]; [|assumption].
  apply Qlt_le_weak in Hlt. apply Qle_bool_iff in Hlt. congruence.
Qed.

Lemma Qinsert_sorted (q : Q) (l : list Q) :
  ForallOrdPairs Qle l -> ForallOrdPairs Qle (Qinsert q l).
Proof.
  induction l as [|p l IH]; simpl; intros H.
  - constructor; constructor.
  - inversion H as [|a l' Hp Hl]; subst.
    destruct (Qle_bool q p) eqn:E.
    + apply Qle_bool_iff in E. constructor; [|assumption].
      constructor; [assumption|].
      rewrite Forall_forall in *. intros x Hx. apply Qle_trans with p; auto.
    + apply Qle_bool_total in E. constructor; [|apply IH; assumption].
      rewrite Forall_forall in *. intros x Hx.
      apply Qinsert_In in Hx. destruct Hx as [-> | Hx]; auto.
Qed.

Lemma Qsort_sorted (l : list Q) : ForallOrdPairs Qle (Qsort l).
Proof.
  induction l as [|q l IH]; simpl; [constructor | apply Qinsert_sorted; assumption].
Qed.

Lemma Qcount_cons (q p : Q) (l : list Q) :
  Qcount q (p :: l) = (if Qeq_bool q p then 1 else 0) + Qcount q l.
Proof. unfold Qcount. simpl. destruct (Qeq_bool q p); reflexivity. Qed.

Lemma Qcount_Qinsert (q p : Q) (l : list Q) : Qcount q (Qinsert p l) = Qcount q (p :: l).
Proof.
  induction l as [|a l IH]; simpl; [reflexivity|].
  destruct (Qle_bool p a); [reflexivity|].
  rewrite Qcount_cons, IH, !Qcount_cons. lia.
Qed.

Lemma Qcount_Qsort (q : Q) (l : list Q) : Qcount q (Qsort l) = Qcount q l.
Proof.
  induction l as [|p l IH]; simpl; [reflexivity|].
  rewrite Qcount_Qinsert, !Qcount_cons, IH. reflexivity.
Qed.

(** The greatest count is a bound of every count, and some value has it. *)
Lemma best_count (f : Q -> nat) (l : list Q) :
  let best := fold_right (fun q m => Nat.max (f q) m) O l in
  (forall p, In p l -> f p <= best) /\ (l <> [] -> exists q, In q l /\ f q = best).
Proof.
  induction l as [|a l [IH1 IH2]]; simpl.
  - split; [intros p [] | intros H; destruct (H eq_refl)].
  - split.
    + intros p [-> | Hp]; [lia|]. specialize (IH1 p Hp). lia.
    + intros _. destruct l as [|b l'].
      * exists a. simpl. split; [auto | lia].
      * destruct (IH2 ltac:(discriminate)) as [q [Hq Hb]].
        destruct (Nat.le_gt_cases (f a) (fold_right (fun q m => Nat.max (f q) m) O (b :: l')))
          as [Hle | Hgt].
        -- exists q. split; [right; assumption|]. rewrite Hb. lia.
        -- exists a. split; [auto | lia].
Qed.

Lemma mode_go_head (l : list Q) (best : nat) :
  forall l' seen q r, mode_go l best seen l' = q :: r ->
    exists pre post, l' = pre ++ q :: post /\ Qcount q l = best /\
      forall p, In p pre -> Qcount p l <> best \/ existsb (Qeq_bool p) seen = true.
Proof.
  induction l' as [|a l' IH]; simpl; intros seen q r H; [discriminate|].
  destruct ((Qcount a l =? best) && negb (existsb (Qeq_bool a) seen)) eqn:E.
  - inversion H. subst a. exists [], l'. apply andb_true_iff in E. destruct E as [E _].
    apply Nat.eqb_eq in E. split; [reflexivity|]. split; [assumption|]. intros p [].
  - destruct (IH _ _ _ H) as [pre [post [Hl [Hq Hpre]]]].
    exists (a :: pre), post. split; [simpl; congruence|]. split; [assumption|].
    intros p [-> | Hp]; [|apply Hpre; assumption].
    apply andb_false_iff in E. destruct E as [E | E].
    + left. apply Nat.eqb_neq. assumption.
    + right. apply negb_false_iff. assumption.
Qed.

Lemma mode_go_nil (l : list Q) (best : nat) :
  forall l' seen, mode_go l best seen l' = [] ->
    forall p, In p l' -> Qcount p l <> best \/ existsb (Qeq_bool p) seen = true.
Proof.
  induction l' as [|a l' IH]; simpl; intros seen H p Hp; [destruct Hp|].
  destruct ((Qcount a l =? best) && negb (existsb (Qeq_bool a) seen)) eqn:E; [discriminate|].
  destruct Hp as [-> | Hp]; [|apply (IH _ H); assumption].
  apply andb_false_iff in E. destruct E as [E | E].
  - left. apply Nat.eqb_neq. assumption.
  - right. apply negb_false_iff. assumption.
Qed.

Lemma ForallOrdPairs_app_le (pre post : list Q) (q p : Q) :
  ForallOrdPairs Qle (pre ++ q :: post) -> In p (q :: post) -> (q <= p)%Q.
Proof.
  induction pre as [|a pre IH]; simpl; intros H Hp.
  - inversion H as [|a l' Hq Hl]; subst. destruct Hp as [<- | Hp]; [apply Qle_refl|].
    rewrite Forall_forall in Hq. auto.
  - inversion H; subst. apply IH; assumption.
Qed.

Lemma numbers_nil (s : Series) :
  numbers s = [] <-> forall c, In c s -> num_of c = None.
Proof.
  induction s as [|c s IH]; simpl.
  - split; [intros _ c [] | reflexivity].
  - destruct (num_of c) eqn:E.
    + split; [discriminate|]. intros H. specialize (H c (or_introl eq_refl)). congruence.
    + rewrite IH. split.
      * intros H c' [<- | Hc']; auto.
      * intros H c' Hc'. apply H. auto.
Qed.

(** X3.  [first_mode] of a numeric column is missing exactly when every
    entry is missing; otherwise it is a number of the column that no other
    number outnumbers, and of the numbers that occur as often, the least:
    ties go to the smallest value. *)
Theorem first_mode_least_most_frequent (series : Series) :
  numeric_column series ->
  let ns := numbers series in
  (first_mode series = NA <-> forall c, In c series -> c = NA) /\
  (first_mode series = NA \/
   exists q, first_mode series = Float q /\ In q ns /\
     forall p, In p ns ->
       Qcount p ns <= Qcount q ns /\ (Qcount p ns = Qcount q ns -> (q <= p)%Q)).
Proof.
  intros Hnum ns.
  assert (Hna : (forall c, In c series -> num_of c = None) <->
                (forall c, In c series -> c = NA)).
  { split; intros H c Hc.
    - destruct (Hnum c Hc) as [-> | [q Hq]]; [reflexivity|].
      rewrite (H c Hc) in Hq. discriminate.
    - rewrite (H c Hc). reflexivity. }
  assert (Hfin : forall c, In c series -> infinite c = false).
  { intros c Hc. destruct (Hnum c Hc) as [-> | [q Hq]]; [reflexivity|].
    destruct c; try discriminate; reflexivity. }
  rewrite <- Hna. clear Hna Hnum.
  unfold first_mode. rewrite (mode_finite series Hfin). cbv zeta. fold ns.
  set (l := Qsort ns).
  set (best := fold_right (fun q m => Nat.max (Qcount q l) m) O l).
  destruct (best_count (fun q => Qcount q l) l) as [Hub Hatt]. fold best in Hub, Hatt.
  destruct (mode_go l best [] l) as [|q r] eqn:E.
  - (* no mode: there is no number *)
    assert (Hl : l = []).
    { destruct l as [|a l0] eqn:El; [reflexivity|]. exfalso.
      destruct (Hatt ltac:(discriminate)) as [q [Hq Hb]].
      destruct (mode_go_nil _ _ _ _ E q Hq) as [H | H]; [congruence | discriminate]. }
    assert (Hn : ns = []).
    { destruct ns as [|a ns0] eqn:En; [reflexivity|]. exfalso.
      assert (Ha : In a l) by (apply (proj2 (Qsort_In _ _)); left; reflexivity).
      rewrite Hl in Ha. destruct Ha. }
    split; [|left; reflexivity].
    split; [|reflexivity]. intros _. apply numbers_nil. assumption.
  - destruct (mode_go_head _ _ _ _ E) as [pre [post [Hl [Hq Hpre]]]].
    assert (Hin : In q l) by (rewrite Hl; apply in_or_app; right; left; reflexivity).
    split.
    + split; [discriminate|]. intros H. exfalso.
      apply numbers_nil in H. unfold l in Hin. apply (proj1 (Qsort_In _ _)) in Hin.
      unfold ns in Hin. rewrite H in Hin. destruct Hin.
    + right. exists q. split; [reflexivity|]. split; [apply (proj1 (Qsort_In _ _)); assumption|].
      intros p Hp. apply (proj2 (Qsort_In _ _)) in Hp. fold l in Hp.
      unfold l in Hq, Hub. rewrite Qcount_Qsort in Hq.
      split.
      * specialize (Hub p Hp). rewrite Qcount_Qsort in Hub. lia.
      * intros Hc. apply (@ForallOrdPairs_app_le pre post).
        -- rewrite <- Hl. apply Qsort_sorted.
        -- rewrite Hl in Hp. apply in_app_or in Hp. destruct Hp as [Hp | Hp]; [|assumption].
           exfalso. destruct (Hpre p Hp) as [H | H]; [|discriminate].
           apply H. unfold l. rewrite Qcount_Qsort. congruence.
Qed.

Lemma first_mode_least_most_frequent_witness :
  first_mode [Int 3; NA; Int 2; Float 3; Int 2; Int 9]%Z = Float 2 /\
  exists q, first_mode [Int 3; NA; Int 2; Float 3; Int 2; Int 9]%Z = Float q /\
    In q [3; 2; 3; 2; 9]%Q /\
    forall p, In p [3; 2; 3; 2; 9]%Q ->
      Qcount p [3; 2; 3; 2; 9]%Q <= Qcount q [3; 2; 3; 2; 9]%Q /\
      (Qcount p [3; 2; 3; 2; 9]%Q = Qcount q [3; 2; 3; 2; 9]%Q -> (q <= p)%Q).
Proof.
  split; [reflexivity|].
  assert (Hnum : numeric_column [Int 3; NA; Int 2; Float 3; Int 2; Int 9]%Z).
  { intros c Hc. simpl in Hc.
    repeat (destruct Hc as [<- | Hc]; [simpl; eauto|]). destruct Hc. }
  destruct (first_mode_least_most_frequent Hnum) as [_ [H | H]].
  - discriminate H.
  - exact H.
Defined.

(** ** Groups: rows with equal keys *)

Lemma mapM_get_col_None (df : DataFrame) (names : list string) :
  mapM (get_col df) names = None <-> exists c, In c names /\ get_col df c = None.
Proof. apply mapM_None. Qed.

(** [groupby(...)[...].transform(...)], row by row. *)
Lemma groupby_transform_rows (df : DataFrame) (by_cols : list string) (target_col : string)
    (agg : Series -> cell) (out : Series) :
  groupby_transform df by_cols target_col agg = Some out ->
  exists keys target,
    mapM (get_col df) by_cols = Some keys /\ get_col df target_col = Some target /\
    List.length out = nrows df /\
    forall i, i < nrows df ->
      nth i out NA =
        if existsb isna (row_of keys i) then NA
        else agg (filter_mask (map (row_eqb (row_of keys i)) (rows_of (nrows df) keys))
                              target).
Proof.
  unfold groupby_transform. intros H. bind_inv H. bind_inv H. inversion H. clear H.
  exists x, x0. split; [assumption|]. split; [assumption|].
  split; [rewrite length_map; apply rows_of_length|].
  intros i Hi.
  set (f := fun k : list cell =>
              if existsb isna k then NA
              else agg (filter_mask (map (row_eqb k) (rows_of (nrows df) x)) x0)).
  change (nth i (map f (rows_of (nrows df) x)) NA = f (row_of x i)).
  rewrite (nth_indep _ NA (f [])) by (rewrite length_map, rows_of_length; assumption).
  rewrite map_nth, rows_of_nth by assumption. reflexivity.
Qed.

Lemma forallb_rows_of (p : list cell -> bool) (n : nat) (cols : list Series) :
  forallb p (rows_of n cols) = true <-> forall i, i < n -> p (row_of cols i) = true.
Proof.
  unfold rows_of. rewrite forallb_forall. split; intros H.
  - intros i Hi. apply H. apply in_map. apply in_seq. lia.
  - intros r Hr. apply in_map_iff in Hr. destruct Hr as [i [<- Hi]].
    apply in_seq in Hi. apply H. lia.
Qed.

(** X4.  On a table whose target column holds numbers and missing entries,
    [group_mode_transform] over at least one grouping column raises exactly
    when the target or one of the grouping columns is no column of the
    table.  When every row has a missing grouping key, a table without rows
    included, its result has no entry at all.  Otherwise it has one entry
    for every row: missing for a row with a missing grouping key, the same
    for two rows with the same keys, and otherwise missing or a number that
    the target column holds in a row of the same group. *)
Theorem group_mode_transform_groups (df : DataFrame) (by_cols : list string)
    (target_col : string) :
  by_cols <> [] ->
  (forall target, get_col df target_col = Some target -> numeric_column target) ->
  (group_mode_transform df by_cols target_col = None <->
   exists c, In c (by_cols ++ [target_col]) /\ get_col df c = None) /\
  forall out, group_mode_transform df by_cols target_col = Some out ->
    exists keys target,
      mapM (get_col df) by_cols = Some keys /\ get_col df target_col = Some target /\
      ((forall i, i < nrows df -> existsb isna (row_of keys i) = true) -> out = []) /\
      ((exists i, i < nrows df /\ existsb isna (row_of keys i) = false) ->
       List.length out = nrows df /\
       (forall i, i < nrows df -> existsb isna (row_of keys i) = true -> nth i out NA = NA) /\
       (forall i j, i < nrows df -> j < nrows df ->
          row_eqb (row_of keys i) (row_of keys j) = true -> nth i out NA = nth j out NA) /\
       (forall i, i < nrows df ->
          nth i out NA = NA \/
          exists q j, nth i out NA = Float q /\ j < nrows df /\
            row_eqb (row_of keys i) (row_of keys j) = true /\
            num_of (nth j target NA) = Some q)).
Proof.
  intros _ Hnum. split.
  - unfold group_mode_transform, groupby_transform.
    destruct (mapM (get_col df) by_cols) as [keys|] eqn:Ek; cbn [bind].
    + destruct (get_col df target_col) as [target|] eqn:Et; cbn [bind].
      * split.
        -- destruct (forallb _ _); discriminate.
        -- intros [c [Hc Hn]]. exfalso.
           apply in_app_or in Hc. destruct Hc as [Hc | [<- | []]]; [|congruence].
           assert (mapM (get_col df) by_cols = None); [|congruence].
           apply mapM_get_col_None. eauto.
      * split; [|reflexivity]. intros _. exists target_col.
        split; [apply in_or_app; right; left; reflexivity | assumption].
    + split; [|reflexivity]. intros _.
      apply mapM_get_col_None in Ek. destruct Ek as [c [Hc Hn]].
      exists c. split; [apply in_or_app; left; assumption | assumption].
  - intros out H. unfold group_mode_transform in H.
    bind_inv H. rename x into keys', E into Hk'.
    bind_inv H. rename x into modes, E into Hmodes.
    destruct (groupby_transform_rows _ _ _ _ Hmodes) as [keys [target [Hk [Ht [Hl Hn]]]]].
    rewrite Hk in Hk'. inversion Hk'. subst keys'. clear Hk'.
    exists keys, target. split; [assumption|]. split; [assumption|].
    destruct (forallb (existsb isna) (rows_of (nrows df) keys)) eqn:Eall;
      inversion H; subst out; clear H.
    { split; [reflexivity|]. intros [i [Hi Hna]]. exfalso.
      rewrite (proj1 (forallb_rows_of _ _ _) Eall i Hi) in Hna. discriminate. }
    split.
    { intros Hall. apply forallb_rows_of in Hall. congruence. }
    intros _. split; [assumption|].
    split; [|split].
    + intros i Hi Hna. rewrite Hn, Hna by assumption. reflexivity.
    + intros i j Hi Hj Heq. rewrite !Hn by assumption.
      rewrite (@row_eqb_isna _ _ Heq).
      destruct (existsb isna (row_of keys j)); [reflexivity|].
      do 2 f_equal. apply map_ext. intros k. symmetry. apply row_eqb_trans. assumption.
    + intros i Hi. rewrite Hn by assumption.
      destruct (existsb isna (row_of keys i)); [left; reflexivity|].
      destruct (first_mode_cases
                  (filter_mask (map (row_eqb (row_of keys i)) (rows_of (nrows df) keys)) target))
        as [E | [[q [E Hq]] | [b [_ Hb]]]]; [left; assumption| |].
      * right. exists q. apply numbers_In in Hq. destruct Hq as [c [Hc Hq]].
        destruct (@filter_mask_In_nth _ NA _ _ _ Hc) as [j [Hj1 [Hj2 [Hm Hc']]]].
        rewrite length_map, rows_of_length in Hj1.
        exists j. split; [assumption|]. split; [assumption|]. split; [|congruence].
        rewrite (nth_indep _ false (row_eqb (row_of keys i) [])) in Hm
          by (rewrite length_map, rows_of_length; assumption).
        rewrite map_nth, rows_of_nth in Hm by assumption. assumption.
      * exfalso. apply filter_mask_In in Hb.
        destruct (Hnum target Ht _ Hb) as [Hc | [q Hq]]; discriminate.
Qed.

Lemma group_mode_transform_groups_witness :
  exists out,
    group_mode_transform producto_groups ["marca_id"; "volumen"] "categoria_id" = Some out /\
    out = [Float 7; Float 7; NA; Float 7; NA] /\
    nth 0 out NA = nth 3 out NA /\ nth 2 out NA = NA.
Proof.
  exists [Float 7; Float 7; NA; Float 7; NA]. split; [reflexivity|]. split; [reflexivity|].
  assert (Hby : ["marca_id"; "volumen"] <> []) by discriminate.
  assert (Hnum : forall target, get_col producto_groups "categoria_id" = Some target ->
                   numeric_column target).
  { intros target Ht. inversion Ht. intros c Hc. simpl in Hc.
    repeat (destruct Hc as [<- | Hc]; [simpl; eauto|]). destruct Hc. }
  destruct (proj2 (@group_mode_transform_groups producto_groups ["marca_id"; "volumen"]
                     "categoria_id" Hby Hnum) _ eq_refl)
    as [keys [target [Hk [_ [_ Hsome]]]]].
  inversion Hk. subst keys.
  destruct Hsome as [_ [Hna [Hsame _]]].
  { exists 0. split; [simpl; lia | reflexivity]. }
  split.
  - apply Hsame; [simpl; lia | simpl; lia | reflexivity].
  - apply Hna; [simpl; lia | reflexivity].
Defined.

(** ** The dimension preparers, run forwards *)

Lemma filter_mask_none {A : Type} (mask : list bool) (s : list A) :
  (forall b, In b mask -> b = false) -> filter_mask mask s = [].
Proof.
  revert s. induction mask as [|b mask IH]; intros [|x s] H; simpl; try reflexivity.
  rewrite (H b (or_introl eq_refl)). apply IH. intros b' Hb'. apply H. right. assumption.
Qed.

(** Two columns filtered by one mask stay aligned. *)
Lemma filter_mask_aligned {A B : Type} (da : A) (db : B) (mask : list bool) :
  forall (s : list A) (t : list B) (j : nat),
    j < List.length (filter_mask mask s) -> j < List.length (filter_mask mask t) ->
    exists i, i < List.length s /\ i < List.length t /\
      nth i mask false = true /\
      nth j (filter_mask mask s) da = nth i s da /\
      nth j (filter_mask mask t) db = nth i t db.
Proof.
  induction mask as [|b mask IH]; intros s t j.
  - simpl. lia.
  - destruct s as [|x s]; [simpl; lia|].
    destruct t as [|y t]; [simpl; lia|].
    destruct b; simpl.
    + destruct j as [|j]; intros H1 H2.
      * exists 0. repeat split; lia.
      * destruct (IH s t j ltac:(lia) ltac:(lia)) as [i [Hi1 [Hi2 [Hm [Ha Hb]]]]].
        exists (S i). repeat split; try lia; assumption.
    + intros H1 H2.
      destruct (IH s t j H1 H2) as [i [Hi1 [Hi2 [Hm [Ha Hb]]]]].
      exists (S i). repeat split; try lia; assumption.
Qed.

Section DimensionRuns.
Context {P : Pandas}.

(** [prepare_dimension] up to the point where it looks for OTHER. *)
Lemma prepare_dimension_unfold (label : string) (dim : DataFrame) (ids0 labs0 : Series) :
  String.eqb label "id" = false ->
  get_col dim "id" = Some ids0 -> get_col dim label = Some labs0 ->
  let labs1 := map normalize_text labs0 in
  let dim1 := set_col label labs1 dim in
  let m1 := map negb
              (map2 (fun i l =>
                       isna i && eq_str "" (str_strip (replace_value (Str "NAN") (Str "") l)))
                    ids0 labs1) in
  let m2 := keep_first []
              (rows_of (nrows (filter_rows m1 dim1))
                       [filter_mask m1 ids0; filter_mask m1 labs1]) in
  let dim2 := filter_rows m2 (filter_rows m1 dim1) in
  let ids2 := filter_mask m2 (filter_mask m1 ids0) in
  let labs2 := filter_mask m2 (filter_mask m1 labs1) in
  get_col dim2 "id" = Some ids2 /\ get_col dim2 label = Some labs2 /\
  prepare_dimension label dim =
    (res <-
       (if existsb (eq_str "OTHER") labs2 then
          nums <- mapM to_numeric_raise (filter_mask (map (eq_str "OTHER") labs2) ids2) ;;
          first <- hd_error nums ;;
          other_id <- int_of first ;;
          Some (dim2, other_id)
        else
          max_id <- (if isna (max_of (map to_numeric ids2)) then Some 0%Z
                     else int_of (max_of (map to_numeric ids2))) ;;
          let other_id := (max_id + 1)%Z in
          Some (append_row [("id", [Int other_id]); (label, [Str "OTHER"])] dim2, other_id)) ;;
     let (dim, other_id) := res : DataFrame * Z in
     ids <- get_col dim "id" ;;
     ids <- safe_int_cast (map to_numeric ids) (Some other_id) ;;
     Some (set_col "id" ids dim, other_id)).
Proof.
  intros Hlab Hids Hlabs. cbv zeta.
  assert (Hlab' : String.eqb "id" label = false) by (rewrite String.eqb_sym; assumption).
  assert (G1 : forall m m', get_col (filter_rows m' (filter_rows m
                  (set_col label (map normalize_text labs0) dim))) "id"
               = Some (filter_mask m' (filter_mask m ids0))).
  { intros. rewrite !get_col_filter_rows, get_col_set_col_other, Hids by assumption.
    reflexivity. }
  assert (G2 : forall m m', get_col (filter_rows m' (filter_rows m
                  (set_col label (map normalize_text labs0) dim))) label
               = Some (filter_mask m' (filter_mask m (map normalize_text labs0)))).
  { intros. rewrite !get_col_filter_rows, get_col_set_col_same. reflexivity. }
  split; [apply G1|]. split; [apply G2|].
  unfold prepare_dimension. rewrite Hlabs. cbn [bind].
  rewrite get_col_set_col_other, Hids by assumption. cbn [bind].
  rewrite get_col_set_col_same. cbn [bind].
  unfold drop_duplicates_subset. cbn [mapM].
  rewrite !get_col_filter_rows, get_col_set_col_same.
  rewrite get_col_set_col_other, Hids by assumption. cbn [option_map bind].
  rewrite G1, G2. cbn [bind]. rewrite existsb_map. reflexivity.
Qed.

Lemma to_numeric_raise_number (c : cell) (q : Q) :
  num_of (to_numeric c) = Some q ->
  exists first z, to_numeric_raise c = Some first /\ int_of first = Some z.
Proof.
  destruct c as [|z|q0|s|ns|b]; simpl; intros H; try discriminate.
  - exists (Int z), z. auto.
  - exists (Float q0), (Qtruncate q0). auto.
  - destruct (infinite_of_str s); [discriminate|].
    destruct (numeric_of_str s) as [q1|]; [|discriminate].
    exists (Float q1), (Qtruncate q1). auto.
Qed.

(** The greatest id of a column without infinite entries. *)
Lemma max_of_finite (s : Series) :
  (forall c, In c s -> infinite c = false) ->
  (if isna (max_of s) then Some 0%Z else int_of (max_of s))
    = Some (match Qmax_list (numbers s) with
            | Some m => Qtruncate m
            | None => 0%Z
            end).
Proof.
  intros H. unfold max_of. rewrite !count_inf_none by assumption. simpl.
  destruct (Qmax_list (numbers s)); reflexivity.
Qed.

Lemma prepare_dimension_tail (dim : DataFrame) (ids : Series) (other_id : Z) :
  get_col dim "id" = Some ids ->
  (forall c, In c ids -> infinite (to_numeric c) = false) ->
  exists out,
    (ids <- get_col dim "id" ;;
     ids <- safe_int_cast (map to_numeric ids) (Some other_id) ;;
     Some (set_col "id" ids dim, other_id)) = Some (out, other_id).
Proof.
  intros H Hfin. rewrite H. cbn [bind].
  destruct (safe_int_cast_fill_total (map to_numeric ids) other_id) as [ids' E].
  { intros c Hc. apply in_map_iff in Hc. destruct Hc as [c0 [<- Hc0]].
    rewrite to_numeric_idem. auto. }
  rewrite E. cbn [bind]. eauto.
Qed.

(** A dimension preparer returns as soon as no id is infinite and every row
    that is labelled OTHER has a number as id. *)
Lemma prepare_dimension_returns (label : string) (dim : DataFrame) (ids labs : Series) :
  String.eqb label "id" = false ->
  get_col dim "id" = Some ids -> get_col dim label = Some labs ->
  List.length ids = List.length labs ->
  (forall c, In c ids -> infinite (to_numeric c) = false) ->
  (forall i, i < List.length labs ->
     normalize_text (nth i labs NA) = Str "OTHER" ->
     exists q, num_of (to_numeric (nth i ids NA)) = Some q) ->
  exists out other_id, prepare_dimension label dim = Some (out, other_id).
Proof.
  intros Hlab Hids Hlabs Hlen Hfin Hnum.
  destruct (@prepare_dimension_unfold label dim ids labs Hlab Hids Hlabs) as [G1 [G2 ->]].
  set (labs1 := map normalize_text labs) in *.
  match type of G1 with get_col (filter_rows ?a (filter_rows ?b _)) _ = _ =>
    set (m2 := a) in *; set (m1 := b) in * end.
  set (ids2 := filter_mask m2 (filter_mask m1 ids)) in *.
  set (labs2 := filter_mask m2 (filter_mask m1 labs1)) in *.
  assert (Hlen2 : List.length ids2 = List.length labs2).
  { unfold ids2, labs2. do 2 apply filter_mask_length_eq.
    unfold labs1. rewrite length_map. assumption. }
  assert (Hfin2 : forall c, In c ids2 -> infinite (to_numeric c) = false).
  { intros c Hc. apply Hfin. unfold ids2 in Hc. do 2 apply filter_mask_In in Hc. assumption. }
  destruct (existsb (eq_str "OTHER") labs2) eqn:Ex.
  - (* the ids of the OTHER rows are numbers *)
    assert (Hc : forall c, In c (filter_mask (map (eq_str "OTHER") labs2) ids2) ->
              exists first z, to_numeric_raise c = Some first /\ int_of first = Some z).
    { intros c Hc.
      destruct (@filter_mask_In_nth _ NA _ _ _ Hc) as [j [Hj1 [Hj2 [Hm Hcj]]]].
      rewrite length_map in Hj1.
      rewrite (nth_indep _ false (eq_str "OTHER" NA)) in Hm by (rewrite length_map; assumption).
      rewrite map_nth in Hm. apply eq_str_true in Hm.
      destruct (@filter_mask_aligned _ _ NA NA m2 (filter_mask m1 ids) (filter_mask m1 labs1) j
                  Hj2 Hj1) as [i' [Hi1 [Hi2 [_ [Ha Hb]]]]].
      destruct (@filter_mask_aligned _ _ NA NA m1 ids labs1 i' Hi1 Hi2)
        as [i [Hi3 [Hi4 [_ [Ha' Hb']]]]].
      unfold labs1 in Hi4. rewrite length_map in Hi4.
      destruct (Hnum i Hi4) as [q Hq].
      - rewrite <- (@map_nth_NA normalize_text labs i Hi4).
        fold labs1. rewrite <- Hb', <- Hb. exact Hm.
      - apply to_numeric_raise_number with q.
        rewrite <- Hcj. fold ids2 in Ha. rewrite Ha, Ha'. assumption. }
    destruct (first_true _ _ Ex) as [i [Hi [Hp [_ Hhd]]]].
    specialize (Hhd ids2 Hlen2).
    destruct (filter_mask (map (eq_str "OTHER") labs2) ids2) as [|c rest] eqn:Ef;
      [discriminate|].
    cbn [mapM]. destruct (Hc c (or_introl eq_refl)) as [first [z [Hr Hz]]].
    rewrite Hr. cbn [bind].
    destruct (@mapM_total _ _ to_numeric_raise rest) as [nums Hn].
    { intros a Ha. destruct (Hc a (or_intror Ha)) as [f [_ [Hf _]]]. eauto. }
    rewrite Hn. cbn [bind hd_error]. rewrite Hz. cbn [bind].
    destruct (@prepare_dimension_tail _ _ z G1 Hfin2) as [out Hout].
    exists out, z. exact Hout.
  - rewrite max_of_finite.
    2:{ intros c Hc. apply in_map_iff in Hc. destruct Hc as [c0 [<- Hc0]]. auto. }
    cbv zeta. cbn [bind].
    set (oid := (match Qmax_list (numbers (map to_numeric ids2)) with
                 | Some m => Qtruncate m
                 | None => 0
                 end + 1)%Z).
    assert (G3 : get_col (append_row [("id", [Int oid]); (label, [Str "OTHER"])]
                            (filter_rows m2 (filter_rows m1 (set_col label labs1 dim)))) "id"
                 = Some (ids2 ++ [Int oid])).
    { rewrite get_col_append_row, G1. reflexivity. }
    destruct (@prepare_dimension_tail _ _ oid G3) as [out Hout].
    { intros c Hc. apply in_app_or in Hc. destruct Hc as [Hc | [<- | []]]; [auto | reflexivity]. }
    exists out, oid. exact Hout.
Qed.

(** A table with no usable row, a table without rows included. *)
Lemma prepare_dimension_all_empty (label : string) (dim : DataFrame) (ids labs : Series) :
  String.eqb label "id" = false ->
  get_col dim "id" = Some ids -> get_col dim label = Some labs ->
  (forall c, In c ids -> c = NA) -> (forall c, In c labs -> blank_label c) ->
  exists out,
    prepare_dimension label dim = Some (out, 1%Z) /\
    get_col out "id" = Some [Int 1%Z] /\
    get_col out label = Some [Str "OTHER"] /\
    forall c s, get_col out c = Some s -> List.length s = 1.
Proof.
  intros Hlab Hids Hlabs Hna Hblank.
  assert (Hlab' : String.eqb "id" label = false) by (rewrite String.eqb_sym; assumption).
  destruct (@prepare_dimension_unfold label dim ids labs Hlab Hids Hlabs) as [G1 [G2 ->]].
  set (labs1 := map normalize_text labs) in *.
  match type of G1 with get_col (filter_rows ?a (filter_rows ?b _)) _ = _ =>
    set (m2 := a) in *; set (m1 := b) in * end.
  assert (Hm1 : forall s : Series, filter_mask m1 s = []).
  { intros s. apply filter_mask_none. intros b Hb. unfold m1 in Hb.
    apply in_map_iff in Hb. destruct Hb as [b0 [<- Hb0]].
    apply map2_In in Hb0. destruct Hb0 as [i [l [Hi [Hl ->]]]].
    rewrite (Hna i Hi). unfold labs1 in Hl. apply in_map_iff in Hl.
    destruct Hl as [l0 [<- Hl0]].
    destruct (Hblank l0 Hl0) as [E | E]; rewrite E; reflexivity. }
  assert (Hempty : forall c s, get_col (filter_rows m2 (filter_rows m1 (set_col label labs1 dim))) c
                                 = Some s -> s = []).
  { intros c s H. rewrite !get_col_filter_rows in H.
    destruct (get_col (set_col label labs1 dim) c) as [s0|]; [|discriminate].
    simpl in H. inversion H. rewrite Hm1. apply filter_mask_nil. }
  rewrite !Hm1, !filter_mask_nil in *.
  cbn [existsb map bind]. change (max_of []) with NA. cbn [isna bind]. cbv zeta.
  change (0 + 1)%Z with 1%Z.
  set (dim3 := append_row [("id", [Int 1%Z]); (label, [Str "OTHER"])]
                 (filter_rows m2 (filter_rows m1 (set_col label labs1 dim)))).
  assert (G3 : get_col dim3 "id" = Some [Int 1%Z]).
  { unfold dim3. rewrite get_col_append_row, G1. reflexivity. }
  rewrite G3. cbn [bind].
  change (safe_int_cast (map to_numeric [Int 1%Z]) (Some 1%Z)) with (Some [Int 1%Z]).
  cbn [bind]. exists (set_col "id" [Int 1%Z] dim3).
  split; [reflexivity|]. split; [apply get_col_set_col_same|]. split.
  - rewrite get_col_set_col_other by assumption.
    unfold dim3. rewrite get_col_append_row, G2. simpl.
    rewrite Hlab, String.eqb_refl. reflexivity.
  - intros c s H. destruct (String.eqb c "id") eqn:Ec.
    + apply String.eqb_eq in Ec. subst c. rewrite get_col_set_col_same in H.
      inversion H. reflexivity.
    + rewrite get_col_set_col_other in H by assumption.
      unfold dim3 in H. rewrite get_col_append_row in H.
      destruct (get_col (filter_rows m2 (filter_rows m1 (set_col label labs1 dim))) c)
        as [s0|] eqn:E0; [|discriminate].
      rewrite (Hempty _ _ E0) in H. simpl in H. rewrite Ec in H.
      destruct (String.eqb c label); inversion H; reflexivity.
Qed.

End DimensionRuns.

(** X5.  On a category (brand) table with no usable row, that is, all ids
    missing and all labels blank or missing, a table without rows included,
    [prepare_categoria] ([prepare_marca]) returns the table of the one row
    OTHER with id 1, and the sentinel 1. *)
Theorem prepare_dimension_empty_table {P : Pandas} (dim : DataFrame) (ids : Series) :
  get_col dim "id" = Some ids -> (forall c, In c ids -> c = NA) ->
  (forall labs, get_col dim "categoria" = Some labs ->
     (forall c, In c labs -> blank_label c) ->
     exists out, prepare_categoria dim = Some (out, 1%Z) /\
       get_col out "id" = Some [Int 1%Z] /\ get_col out "categoria" = Some [Str "OTHER"] /\
       forall c s, get_col out c = Some s -> List.length s = 1) /\
  (forall labs, get_col dim "marca" = Some labs ->
     (forall c, In c labs -> blank_label c) ->
     exists out, prepare_marca dim = Some (out, 1%Z) /\
       get_col out "id" = Some [Int 1%Z] /\ get_col out "marca" = Some [Str "OTHER"] /\
       forall c s, get_col out c = Some s -> List.length s = 1).
Proof.
  intros Hids Hna. split; intros labs Hlabs Hblank.
  - apply (@prepare_dimension_all_empty P "categoria" dim ids labs eq_refl); assumption.
  - apply (@prepare_dimension_all_empty P "marca" dim ids labs eq_refl); assumption.
Qed.

Lemma prepare_dimension_empty_table_witness :
  exists out, @prepare_categoria run_pandas categoria_only_empty = Some (out, 1%Z) /\
    get_col out "id" = Some [Int 1%Z] /\ get_col out "categoria" = Some [Str "OTHER"] /\
    forall c s, get_col out c = Some s -> List.length s = 1.
Proof.
  refine (proj1 (@prepare_dimension_empty_table run_pandas categoria_only_empty [NA; NA]
                   eq_refl _) [Str "  "; NA] eq_refl _).
  - intros c Hc. simpl in Hc. destruct Hc as [<- | [<- | []]]; reflexivity.
  - intros c Hc. simpl in Hc. destruct Hc as [<- | [<- | []]]; [left | right]; reflexivity.
Defined.

(** X6.  [prepare_categoria] and [prepare_marca] return on every rectangular
    table that has the columns "id" and the label and whose ids are read as
    missing or as numbers of a magnitude below 2^53, none as infinite,
    provided each row whose label normalises to "OTHER" has a number (or the
    text of one) as id; in particular on every such table without an OTHER
    row. *)
Theorem prepare_dimension_total {P : Pandas} (dim : DataFrame) (ids : Series) :
  rectangular dim -> get_col dim "id" = Some ids ->
  exact_ids dim -> (forall c, In c ids -> infinite (to_numeric c) = false) ->
  (forall labs, get_col dim "categoria" = Some labs ->
     (forall i, i < List.length labs -> normalize_text (nth i labs NA) = Str "OTHER" ->
        exists q, num_of (to_numeric (nth i ids NA)) = Some q) ->
     exists out other_id, prepare_categoria dim = Some (out, other_id)) /\
  (forall labs, get_col dim "marca" = Some labs ->
     (forall i, i < List.length labs -> normalize_text (nth i labs NA) = Str "OTHER" ->
        exists q, num_of (to_numeric (nth i ids NA)) = Some q) ->
     exists out other_id, prepare_marca dim = Some (out, other_id)).
Proof.
  intros Hrect Hids _ Hfin. split; intros labs Hlabs Hnum.
  - apply (@prepare_dimension_returns P "categoria" dim ids labs eq_refl); try assumption.
    rewrite (rectangular_get_col _ Hrect Hids), (rectangular_get_col _ Hrect Hlabs).
    reflexivity.
  - apply (@prepare_dimension_returns P "marca" dim ids labs eq_refl); try assumption.
    rewrite (rectangular_get_col _ Hrect Hids), (rectangular_get_col _ Hrect Hlabs).
    reflexivity.
Qed.

Lemma marca_with_other_rectangular : rectangular marca_with_other.
Proof. intros cs [<- | [<- | []]]; reflexivity. Qed.

Lemma prepare_dimension_total_witness :
  @prepare_marca run_pandas marca_with_other
    = Some ([("id", [Int 4; Int 9]); ("marca", [Str "ACME"; Str "OTHER"])]%Z, 9%Z) /\
  exists out other_id, @prepare_marca run_pandas marca_with_other = Some (out, other_id).
Proof.
  split; [reflexivity|].
  refine (proj2 (@prepare_dimension_total run_pandas marca_with_other
                   [Int 4; Str "9"; Int 4]%Z marca_with_other_rectangular eq_refl _ _)
                [Str "acme"; Str " Other "; Str "ACME"] eq_refl _).
  - intros s Hs c Hc q Hq. inversion Hs. subst s. simpl in Hc.
    destruct Hc as [<-|[<-|[<-|[]]]]; injection Hq as <-; split; reflexivity.
  - intros c Hc. simpl in Hc. destruct Hc as [<-|[<-|[<-|[]]]]; reflexivity.
  - intros i Hi Ho. destruct i as [|[|[|i]]]; simpl in *; try discriminate; [|lia].
    exists 9%Q. reflexivity.
Defined.

(** ** [prepare_producto], row by row *)

Lemma set_col_shape (c : string) (s : Series) (df : DataFrame) :
  rectangular df -> List.length s = nrows df ->
  rectangular (set_col c s df) /\ nrows (set_col c s df) = nrows df.
Proof.
  intros Hr Hl. split; [apply rectangular_set_col | apply nrows_set_col]; assumption.
Qed.

Lemma update_col_shape (col : string) (f : Series -> Series) (df df' : DataFrame) :
  update_col col f df = Some df' -> (forall s, List.length (f s) = List.length s) ->
  rectangular df -> rectangular df' /\ nrows df' = nrows df.
Proof.
  intros H Hf Hr. apply update_col_Some in H. destruct H as [s [Hs ->]].
  apply set_col_shape; [assumption|].
  rewrite Hf. apply (rectangular_get_col _ Hr Hs).
Qed.

Lemma update_if_present_shape (col : string) (f : Series -> Series) (df : DataFrame) :
  (forall s, List.length (f s) = List.length s) -> rectangular df ->
  rectangular (update_if_present col f df) /\ nrows (update_if_present col f df) = nrows df.
Proof.
  intros Hf Hr. unfold update_if_present.
  destruct (get_col df col) as [s|] eqn:Hs; [|auto].
  apply set_col_shape; [assumption|].
  rewrite Hf. apply (rectangular_get_col _ Hr Hs).
Qed.

Lemma fillna_with_length (s t : Series) : List.length (fillna_with s t) = List.length s.
Proof.
  revert t. induction s as [|a s IH]; intros [|b t]; simpl; try reflexivity.
  rewrite IH. reflexivity.
Qed.

Lemma nth_nil_NA (i : nat) : nth i (@nil cell) NA = NA.
Proof. destruct i; reflexivity. Qed.

Lemma fillna_with_nth (s t : Series) (i : nat) :
  i < List.length s ->
  nth i (fillna_with s t) NA = if isna (nth i s NA) then nth i t NA else nth i s NA.
Proof.
  revert t i. induction s as [|a s IH]; intros [|b t] i Hs; simpl in Hs; try lia.
  - cbn [fillna_with]. rewrite nth_nil_NA. destruct (nth i (a :: s) NA); reflexivity.
  - destruct i as [|i]; [reflexivity|]. simpl. apply IH. lia.
Qed.

Lemma nrows_get_col (df : DataFrame) (c : string) (s : Series) (n : nat) :
  rectangular df -> nrows df = n -> get_col df c = Some s -> List.length s = n.
Proof. intros Hr Hn Hs. rewrite <- Hn. apply (rectangular_get_col _ Hr Hs). Qed.

Section ProductRows.
Context {P : Pandas}.
Variables other_brand_id other_cat_id : Z.

Lemma coerce_numeric_shape (df : DataFrame) :
  rectangular df -> rectangular (coerce_numeric df) /\ nrows (coerce_numeric df) = nrows df.
Proof.
  intros Hr. unfold coerce_numeric. cbn [fold_left].
  assert (Hm : forall s : Series, List.length (map to_numeric s) = List.length s)
    by (intros; apply length_map).
  destruct (update_if_present_shape "categoria_id" _ Hm Hr) as [R1 N1].
  destruct (update_if_present_shape "marca_id" _ Hm R1) as [R2 N2].
  destruct (update_if_present_shape "volumen" _ Hm R2) as [R3 N3].
  destruct (update_if_present_shape "precio" _ Hm R3) as [R4 N4].
  split; [assumption | congruence].
Qed.

Lemma staged_shape (producto staged : DataFrame) :
  drop_unusable (coerce_numeric (drop_duplicates producto)) = Some staged ->
  rectangular producto -> rectangular staged.
Proof.
  unfold drop_unusable, drop_duplicates. intros H Hr. bind_inv H. bind_inv H.
  inversion H. apply rectangular_filter_rows.
  apply coerce_numeric_shape. apply rectangular_filter_rows. assumption.
Qed.

Lemma impute_precio_shape (df df' : DataFrame) :
  impute_precio df = Some df' -> rectangular df ->
  rectangular df' /\ nrows df' = nrows df.
Proof.
  unfold impute_precio. intros H Hr.
  bind_inv H. bind_inv H. bind_inv H. bind_inv H. bind_inv H.
  destruct (update_col_shape _ _ E0 (fun s => fillna_with_length s x) Hr) as [R1 N1].
  destruct (update_col_shape _ _ E1 (fun s => length_map _ s) R1) as [R2 N2].
  destruct (update_col_shape _ _ E3 (fun s => fillna_with_length s x2) R2) as [R3 N3].
  destruct (update_col_shape _ _ H (fun s => fillna_length (median s) s) R3) as [R4 N4].
  split; [assumption | congruence].
Qed.

Lemma both_na_to_other_rows (df df' : DataFrame) :
  both_na_to_other other_brand_id other_cat_id df = Some df' -> rectangular df ->
  exists m0 c0 m1 c1,
    get_col df "marca_id" = Some m0 /\ get_col df "categoria_id" = Some c0 /\
    get_col df' "marca_id" = Some m1 /\ get_col df' "categoria_id" = Some c1 /\
    rectangular df' /\ nrows df' = nrows df /\
    (forall c, String.eqb c "marca_id" = false -> String.eqb c "categoria_id" = false ->
       get_col df' c = get_col df c) /\
    forall i, i < nrows df ->
      nth i m1 NA = (if isna (nth i m0 NA) && isna (nth i c0 NA)
                     then Int other_brand_id else nth i m0 NA) /\
      nth i c1 NA = (if isna (nth i m0 NA) && isna (nth i c0 NA)
                     then Int other_cat_id else nth i c0 NA).
Proof.
  unfold both_na_to_other. intros H Hr. bind_inv H. bind_inv H.
  rename x into m0, x0 into c0, E into Hm0, E0 into Hc0.
  pose proof (rectangular_get_col _ Hr Hm0) as Lm.
  pose proof (rectangular_get_col _ Hr Hc0) as Lc.
  set (mask := map2 (fun m c => isna m && isna c) m0 c0) in *.
  assert (Lmask : List.length mask = nrows df)
    by (unfold mask; rewrite map2_length; congruence).
  assert (Hmask : forall i, i < nrows df ->
            nth i mask false = isna (nth i m0 NA) && isna (nth i c0 NA)).
  { intros i Hi. unfold mask.
    rewrite (@map2_nth _ _ _ (fun m c => isna m && isna c) NA NA false) by lia.
    reflexivity. }
  exists m0, c0.
  destruct (existsb (fun b : bool => b) mask) eqn:Ex; inversion H; clear H.
  - set (m1 := map2 (fun (b : bool) c => if b then Int other_brand_id else c) mask m0).
    set (c1 := map2 (fun (b : bool) c => if b then Int other_cat_id else c) mask c0).
    assert (Lm1 : List.length m1 = nrows df)
      by (unfold m1; rewrite map2_length; congruence).
    assert (Lc1 : List.length c1 = nrows df)
      by (unfold c1; rewrite map2_length; congruence).
    destruct (set_col_shape "marca_id" m1 Hr Lm1) as [R1 N1].
    destruct (set_col_shape "categoria_id" c1 R1 ltac:(congruence)) as [R2 N2].
    exists m1, c1.
    split; [assumption|]. split; [assumption|].
    split; [rewrite get_col_set_col_other by reflexivity; apply get_col_set_col_same|].
    split; [apply get_col_set_col_same|].
    split; [assumption|]. split; [congruence|]. split.
    + intros c Hc1 Hc2. rewrite !get_col_set_col_other by assumption. reflexivity.
    + intros i Hi. rewrite <- Hmask by assumption. split.
      * unfold m1. rewrite (@map2_nth _ _ _ _ false NA NA) by lia. reflexivity.
      * unfold c1. rewrite (@map2_nth _ _ _ _ false NA NA) by lia. reflexivity.
  - subst df'. exists m0, c0.
    split; [assumption|]. split; [assumption|]. split; [assumption|].
    split; [assumption|]. split; [assumption|]. split; [reflexivity|].
    split; [reflexivity|].
    intros i Hi. rewrite <- Hmask by assumption.
    rewrite (existsb_nth_false _ _ false Ex) by lia. auto.
Qed.

Lemma categoria_by_mode_rows (df df' : DataFrame) :
  categoria_by_mode other_cat_id df = Some df' -> rectangular df ->
  exists c0 modes c2,
    get_col df "categoria_id" = Some c0 /\
    group_mode_transform df ["marca_id"; "volumen"] "categoria_id" = Some modes /\
    get_col df' "categoria_id" = Some c2 /\
    rectangular df' /\ nrows df' = nrows df /\
    (forall c, String.eqb c "categoria_id" = false -> get_col df' c = get_col df c) /\
    forall i, i < nrows df ->
      nth i c2 NA = if isna (nth i c0 NA)
                    then (if isna (nth i modes NA) then Int other_cat_id else nth i modes NA)
                    else nth i c0 NA.
Proof.
  unfold categoria_by_mode. intros H Hr.
  bind_inv H. rename x into modes, E into Hm.
  bind_inv H. rename x into df1, E into H1.
  destruct (update_col_shape _ _ H1 (fun s => fillna_with_length s modes) Hr) as [R1 N1].
  destruct (update_col_shape _ _ H (fun s => fillna_length (Int other_cat_id) s) R1)
    as [R2 N2].
  apply update_col_Some in H1. destruct H1 as [c0 [Hc0 ->]].
  apply update_col_Some in H. destruct H as [c1 [Hc1 ->]].
  rewrite get_col_set_col_same in Hc1. inversion Hc1. subst c1. clear Hc1.
  exists c0, modes. eexists.
  split; [assumption|]. split; [assumption|]. split; [apply get_col_set_col_same|].
  split; [assumption|]. split; [congruence|]. split.
  - intros c Hc. rewrite !get_col_set_col_other by assumption. reflexivity.
  - intros i Hi.
    pose proof (rectangular_get_col _ Hr Hc0) as Lc.
    rewrite fillna_nth by (rewrite fillna_with_length; lia).
    rewrite fillna_with_nth by lia.
    destruct (isna (nth i c0 NA)) eqn:E; [reflexivity|]. rewrite E. reflexivity.
Qed.

(** The modes by group, row by row: the entry of a row is missing, or the
    first mode of the rows with its keys. *)
Lemma group_mode_transform_rows (df : DataFrame) (by_cols : list string)
    (target_col : string) (modes : Series) :
  group_mode_transform df by_cols target_col = Some modes ->
  exists keys target,
    mapM (get_col df) by_cols = Some keys /\ get_col df target_col = Some target /\
    forall i, i < nrows df ->
      nth i modes NA = NA \/
      (existsb isna (row_of keys i) = false /\
       nth i modes NA
         = first_mode (filter_mask (map (row_eqb (row_of keys i)) (rows_of (nrows df) keys))
                                   target)).
Proof.
  unfold group_mode_transform. intros H.
  bind_inv H. rename x into keys', E into Hk'.
  bind_inv H. rename x into modes0, E into Hm0.
  destruct (groupby_transform_rows _ _ _ _ Hm0) as [keys [target [Hk [Ht [_ Hn]]]]].
  exists keys, target. split; [assumption|]. split; [assumption|].
  intros i Hi. destruct (forallb _ _); inversion H; subst modes.
  - left. apply nth_nil_NA.
  - rewrite (Hn i Hi). destruct (existsb isna (row_of keys i)); auto.
Qed.

Lemma final_casts_rows (df df' : DataFrame) :
  final_casts other_brand_id other_cat_id df = Some df' -> rectangular df ->
  rectangular df' /\ nrows df' = nrows df /\
  (forall c, existsb (String.eqb c) ["id"; "categoria_id"; "marca_id"; "nombre"] = false ->
     get_col df' c = get_col df c) /\
  exists i0 i1 c0 c1 m0 m1 n0,
    get_col df "id" = Some i0 /\ get_col df' "id" = Some i1 /\
    get_col df "categoria_id" = Some c0 /\ get_col df' "categoria_id" = Some c1 /\
    get_col df "marca_id" = Some m0 /\ get_col df' "marca_id" = Some m1 /\
    get_col df "nombre" = Some n0 /\ get_col df' "nombre" = Some (map normalize_text n0) /\
    safe_int_cast (map to_numeric i0) None = Some i1 /\
    safe_int_cast (map to_numeric c0) (Some other_cat_id) = Some c1 /\
    safe_int_cast (map to_numeric m0) (Some other_brand_id) = Some m1.
Proof.
  unfold final_casts. intros H Hr.
  bind_inv H. bind_inv H. bind_inv H. bind_inv H. bind_inv H. bind_inv H.
  rename x into i0, x0 into i1, x1 into c0, x2 into c1, x3 into m0, x4 into m1.
  rename E into Hi0, E0 into Hi1, E1 into Hc0, E2 into Hc1, E3 into Hm0, E4 into Hm1.
  destruct (safe_int_cast_nth _ _ Hi1) as [Li _].
  destruct (safe_int_cast_nth _ _ Hc1) as [Lc _].
  destruct (safe_int_cast_nth _ _ Hm1) as [Lm _].
  rewrite length_map in Li, Lc, Lm.
  destruct (set_col_shape "id" i1 Hr) as [R1 N1];
    [rewrite Li; apply (rectangular_get_col _ Hr Hi0)|].
  destruct (set_col_shape "categoria_id" c1 R1) as [R2 N2];
    [rewrite Lc; apply (rectangular_get_col _ R1 Hc0)|].
  destruct (set_col_shape "marca_id" m1 R2) as [R3 N3];
    [rewrite Lm; apply (rectangular_get_col _ R2 Hm0)|].
  destruct (update_col_shape _ _ H (fun s => length_map normalize_text s) R3) as [R4 N4].
  apply update_col_Some in H. destruct H as [n0 [Hn0 ->]].
  rewrite get_col_set_col_other in Hc0 by reflexivity.
  rewrite !get_col_set_col_other in Hm0 by reflexivity.
  rewrite !get_col_set_col_other in Hn0 by reflexivity.
  split; [assumption|]. split; [congruence|]. split.
  - intros c Hc. simpl in Hc.
    apply orb_false_iff in Hc. destruct Hc as [H1 Hc].
    apply orb_false_iff in Hc. destruct Hc as [H2 Hc].
    apply orb_false_iff in Hc. destruct Hc as [H3 Hc].
    apply orb_false_iff in Hc. destruct Hc as [H4 _].
    rewrite !get_col_set_col_other by assumption. reflexivity.
  - exists i0, i1, c0, c1, m0, m1, n0.
    split; [assumption|].
    split; [rewrite !get_col_set_col_other by reflexivity; apply get_col_set_col_same|].
    split; [assumption|].
    split; [rewrite !get_col_set_col_other by reflexivity; apply get_col_set_col_same|].
    split; [assumption|].
    split; [rewrite !get_col_set_col_other by reflexivity; apply get_col_set_col_same|].
    split; [assumption|].
    split; [apply get_col_set_col_same|].
    auto.
Qed.

Lemma cast_row (s out : Series) (f : Z) (i : nat) :
  safe_int_cast (map to_numeric s) (Some f) = Some out -> i < List.length s ->
  (nth i s NA = NA -> nth i out NA = Int f) /\
  (forall q, num_of (nth i s NA) = Some q -> nth i out NA = Int (Qtruncate q)).
Proof.
  intros H Hi. destruct (safe_int_cast_nth _ _ H) as [_ Hn].
  rewrite length_map in Hn. destruct (Hn i Hi) as [z [Hz Ho]].
  rewrite map_nth_NA, to_numeric_idem in Hz by assumption.
  split.
  - intros E. rewrite E in Hz. simpl in Hz. congruence.
  - intros q Hq. destruct (nth i s NA); simpl in *; try discriminate.
    + inversion Hq. rewrite Qtruncate_inject_Z. congruence.
    + inversion Hq. subst. congruence.
Qed.

(** The keys of the cleaned products, row by row. *)
Lemma prepare_producto_key_rows (producto out : DataFrame) :
  rectangular producto ->
  prepare_producto producto other_brand_id other_cat_id = Some out ->
  exists staged cat0 marca0 vol0 cat marca,
    drop_unusable (coerce_numeric (drop_duplicates producto)) = Some staged /\
    get_col staged "categoria_id" = Some cat0 /\
    get_col staged "marca_id" = Some marca0 /\
    get_col staged "volumen" = Some vol0 /\
    get_col out "categoria_id" = Some cat /\
    get_col out "marca_id" = Some marca /\
    nrows out = nrows staged /\
    forall i, i < nrows staged ->
      let m := nth i marca0 NA in
      let k := nth i cat0 NA in
      let v := nth i vol0 NA in
      (m = NA -> nth i marca NA = Int other_brand_id) /\
      (forall q, num_of m = Some q -> nth i marca NA = Int (Qtruncate q)) /\
      (forall q, num_of k = Some q -> nth i cat NA = Int (Qtruncate q)) /\
      (k = NA -> m = NA -> nth i cat NA = Int other_cat_id) /\
      (k = NA -> v = NA -> nth i cat NA = Int other_cat_id) /\
      (k = NA ->
         nth i cat NA = Int other_cat_id \/
         exists j q, j < nrows staged /\
           cell_eqb m (nth j marca0 NA) = true /\ cell_eqb v (nth j vol0 NA) = true /\
           num_of (nth j cat0 NA) = Some q /\ nth i cat NA = Int (Qtruncate q)).
Proof.
  intros Hrect H. unfold prepare_producto in H.
  bind_inv H. rename x into staged, E into Hstaged.
  bind_inv H. rename x into imp, E into Himp.
  bind_inv H. rename x into both, E into Hboth.
  bind_inv H. rename x into bym, E into Hbym.
  pose proof (@staged_shape producto staged Hstaged Hrect) as Rs.
  destruct (@impute_precio_shape staged imp Himp Rs) as [Ri Ni].
  destruct (@impute_precio_spec staged imp Himp) as [p0 [p4 [_ [_ [Hkeep _]]]]].
  destruct (@both_na_to_other_rows imp both Hboth Ri)
    as [m0 [c0 [m1 [c1 [Hm0 [Hc0 [Hm1 [Hc1 [Rb [Nb [Hoth Hrow]]]]]]]]]]].
  rewrite Hkeep in Hm0, Hc0 by reflexivity.
  destruct (@categoria_by_mode_rows both bym Hbym Rb)
    as [c1' [modes [c2 [Hc1' [Hmodes [Hc2 [Ry [Ny [Hoth2 Hrow2]]]]]]]]].
  rewrite Hc1 in Hc1'. inversion Hc1'. subst c1'. clear Hc1'.
  destruct (@final_casts_rows bym out H Ry)
    as [Ro [No [_ [i0 [i1 [c2' [cat [m1' [marca [n0 Hf]]]]]]]]]].
  destruct Hf as [_ [_ [Hc2' [Hcat [Hm1' [Hmarca [_ [_ [_ [Hcc Hcm]]]]]]]]]].
  rewrite Hc2 in Hc2'. inversion Hc2'. subst c2'. clear Hc2'.
  rewrite Hoth2, Hm1 in Hm1' by reflexivity. inversion Hm1'. subst m1'. clear Hm1'.
  (* the groups of the mode *)
  destruct (group_mode_transform_rows _ _ _ Hmodes) as [keys [tgt [Hk [Ht Hmode]]]].
  rewrite Hc1 in Ht. inversion Ht. subst tgt. clear Ht.
  cbn [mapM] in Hk. rewrite Hm1 in Hk. cbn [bind] in Hk.
  destruct (get_col both "volumen") as [vol0|] eqn:Hvol; [|discriminate].
  cbn [bind] in Hk. inversion Hk. subst keys. clear Hk.
  rewrite Hoth, Hkeep in Hvol by reflexivity.
  exists staged, c0, m0, vol0, cat, marca.
  split; [exact Hstaged|]. split; [assumption|]. split; [assumption|].
  split; [assumption|]. split; [assumption|]. split; [assumption|].
  split; [congruence|].
  intros i Hi. cbv zeta.
  assert (Hib : i < nrows both) by congruence.
  assert (Hii : i < nrows imp) by congruence.
  destruct (Hrow i Hii) as [Em1 Ec1].
  pose proof (Hrow2 i Hib) as Ec2.
  pose proof (Hmode i Hib) as Emode.
  assert (Lm1 : List.length m1 = nrows both) by apply (rectangular_get_col _ Rb Hm1).
  assert (Lc2 : List.length c2 = nrows bym) by apply (rectangular_get_col _ Ry Hc2).
  destruct (@cast_row m1 marca other_brand_id i Hcm ltac:(lia)) as [Mna Mnum].
  destruct (@cast_row c2 cat other_cat_id i Hcc ltac:(lia)) as [Cna Cnum].
  remember (nth i m0 NA) as m eqn:Dm. remember (nth i c0 NA) as k eqn:Dk.
  remember (nth i vol0 NA) as v eqn:Dv.
  assert (Hkna : k = NA -> m = NA -> nth i cat NA = Int other_cat_id).
  { intros Ek Em. rewrite Ek, Em in Ec1. simpl in Ec1.
    rewrite Ec1 in Ec2. simpl in Ec2.
    rewrite (Cnum (inject_Z other_cat_id)) by (rewrite Ec2; reflexivity).
    rewrite Qtruncate_inject_Z. reflexivity. }
  split; [|split; [|split; [|split; [exact Hkna|split]]]].
  - intros Em. rewrite Em in Em1. simpl in Em1.
    destruct (isna k).
    + rewrite (Mnum (inject_Z other_brand_id)) by (rewrite Em1; reflexivity).
      rewrite Qtruncate_inject_Z. reflexivity.
    + apply Mna. assumption.
  - intros q Hq. apply Mnum.
    assert (Hna : isna m = false) by (destruct m; try discriminate; reflexivity).
    rewrite Hna in Em1. simpl in Em1. rewrite Em1. assumption.
  - intros q Hq. apply Cnum.
    assert (Hna : isna k = false) by (destruct k; try discriminate; reflexivity).
    rewrite Hna, andb_false_r in Ec1. rewrite Ec1, Hna in Ec2. rewrite Ec2. assumption.
  - intros Ek Ev. destruct (isna m) eqn:Hm.
    { apply Hkna; [assumption|]. destruct m; try discriminate; reflexivity. }
    rewrite Ek in Ec1. simpl in Ec1, Em1.
    rewrite Ec1 in Ec2. simpl in Ec2.
    assert (Emo : nth i modes NA = NA).
    { destruct Emode as [Emode | [Hex _]]; [assumption|]. exfalso.
      unfold row_of in Hex. cbn [map existsb] in Hex.
      rewrite <- Dv, Ev in Hex. simpl in Hex.
      rewrite orb_true_r in Hex. discriminate. }
    rewrite Emo in Ec2. simpl in Ec2.
    rewrite (Cnum (inject_Z other_cat_id)) by (rewrite Ec2; reflexivity).
    rewrite Qtruncate_inject_Z. reflexivity.
  - intros Ek. destruct (isna m) eqn:Hm.
    { left. apply Hkna; [assumption|]. destruct m; try discriminate; reflexivity. }
    rewrite Ek in Ec1. simpl in Ec1, Em1.
    rewrite Ec1 in Ec2. simpl in Ec2.
    destruct (isna (nth i modes NA)) eqn:Hmo.
    { left. rewrite (Cnum (inject_Z other_cat_id)) by (rewrite Ec2; reflexivity).
      rewrite Qtruncate_inject_Z. reflexivity. }
    destruct Emode as [Emode | [Hex Emode]]; [rewrite Emode in Hmo; discriminate|].
    destruct (first_mode_cases
                (filter_mask (map (row_eqb (row_of [m1; vol0] i))
                                  (rows_of (nrows both) [m1; vol0])) c1))
      as [E | [[q [E Hq]] | [b [E _]]]]; [rewrite Emode, E in Hmo; discriminate| |].
    2:{ (* an infinite mode does not pass the cast *)
        exfalso. rewrite Emode, E in Ec2.
        destruct (safe_int_cast_nth _ _ Hcc) as [_ Hn]. rewrite length_map in Hn.
        destruct (Hn i ltac:(lia)) as [z [Hz _]].
        rewrite map_nth_NA, to_numeric_idem, Ec2 in Hz by lia. discriminate. }
    rewrite Emode, E in Ec2.
    assert (Hcat4 : nth i cat NA = Int (Qtruncate q))
      by (apply Cnum; rewrite Ec2; reflexivity).
    apply numbers_In in Hq. destruct Hq as [c [Hc Hcq]].
    destruct (@filter_mask_In_nth _ NA _ _ _ Hc) as [j [Hj1 [Hj2 [Hmask Hcj]]]].
    rewrite length_map, rows_of_length in Hj1.
    rewrite (nth_indep _ false (row_eqb (row_of [m1; vol0] i) [])) in Hmask
      by (rewrite length_map, rows_of_length; assumption).
    rewrite map_nth, rows_of_nth in Hmask by assumption.
    unfold row_of in Hmask. cbn [map row_eqb] in Hmask.
    apply andb_true_iff in Hmask. destruct Hmask as [Hkm Hkv].
    apply andb_true_iff in Hkv. destruct Hkv as [Hkv _].
    rewrite Em1 in Hkm. rewrite <- Dv in Hkv.
    destruct (Hrow j ltac:(congruence)) as [Em1j Ec1j].
    destruct (isna (nth j m0 NA) && isna (nth j c0 NA)) eqn:Hbj.
    + left. rewrite Hcat4. rewrite <- Hcj, Ec1j in Hcq. simpl in Hcq.
      inversion Hcq. rewrite Qtruncate_inject_Z. reflexivity.
    + right. exists j, q. split; [congruence|].
      rewrite Em1j in Hkm. rewrite Ec1j in Hcj. subst c.
      repeat split; assumption.
Qed.


Lemma drop_mask_spelled (cat vol : Series) :
  map negb (map2 (fun c v => isna c && cell_eqb v (Int 0)) cat (fillna (Int 0) vol))
  = map2 (fun c v => negb (isna c && (isna v || cell_eqb v (Int 0)))) cat vol.
Proof.
  revert vol. induction cat as [|c cat IH]; intros [|v vol]; simpl; try reflexivity.
  rewrite <- IH. f_equal. destruct (isna v) eqn:E; simpl; rewrite ?andb_true_r; reflexivity.
Qed.

Lemma filter_mask_count {A : Type} (mask : list bool) :
  forall s : list A, List.length s = List.length mask ->
    List.length (filter_mask mask s) = count_true mask.
Proof.
  unfold count_true.
  induction mask as [|b mask IH]; intros [|x s] H; simpl in *; try reflexivity;
    try discriminate.
  destruct b; simpl; rewrite IH by lia; reflexivity.
Qed.

(** X8.  The rows of the cleaned products.  After the exact duplicates are
    gone, a row is removed exactly when its categoria_id is missing and its
    volumen is zero or missing.  The other rows stay in their order: the
    columns that the cleaning does not name pass through unchanged, volumen
    as a number, and nombre as a trimmed upper-case text. *)
Theorem prepare_producto_rows (producto out : DataFrame) :
  rectangular producto ->
  prepare_producto producto other_brand_id other_cat_id = Some out ->
  let deduped := coerce_numeric (drop_duplicates producto) in
  exists cat vol nombre,
    get_col deduped "categoria_id" = Some cat /\
    get_col deduped "volumen" = Some vol /\
    get_col deduped "nombre" = Some nombre /\
    let keep := map2 (fun c v => negb (isna c && (isna v || cell_eqb v (Int 0)))) cat vol in
    nrows out = count_true keep /\
    get_col out "volumen" = Some (filter_mask keep vol) /\
    get_col out "nombre" = Some (map normalize_text (filter_mask keep nombre)) /\
    forall c,
      existsb (String.eqb c) ["id"; "categoria_id"; "marca_id"; "nombre"; "precio"] = false ->
      get_col out c = option_map (filter_mask keep) (get_col deduped c).
Proof.
  intros Hrect H. cbv zeta. unfold prepare_producto in H.
  bind_inv H. rename x into staged, E into Hstaged.
  bind_inv H. rename x into imp, E into Himp.
  bind_inv H. rename x into both, E into Hboth.
  bind_inv H. rename x into bym, E into Hbym.
  pose proof (@staged_shape producto staged Hstaged Hrect) as Rs.
  destruct (@impute_precio_shape staged imp Himp Rs) as [Ri Ni].
  destruct (@impute_precio_spec staged imp Himp) as [p0 [p4 [_ [_ [Hkeep _]]]]].
  destruct (@both_na_to_other_rows imp both Hboth Ri)
    as [m0 [c0 [m1 [c1 [_ [_ [_ [_ [Rb [Nb [Hoth _]]]]]]]]]]].
  destruct (@categoria_by_mode_rows both bym Hbym Rb)
    as [c1' [modes [c2 [_ [_ [_ [Ry [Ny [Hoth2 _]]]]]]]]].
  destruct (@final_casts_rows bym out H Ry)
    as [Ro [No [Hoth3 [i0 [i1 [c2' [cat4 [m1' [marca4 [n0 Hf]]]]]]]]]].
  destruct Hf as [_ [_ [_ [_ [_ [_ [Hn0 [Hn1 _]]]]]]]].
  assert (Hpass : forall c,
            existsb (String.eqb c) ["categoria_id"; "marca_id"; "precio"] = false ->
            get_col bym c = get_col staged c).
  { intros c Hc. simpl in Hc.
    apply orb_false_iff in Hc. destruct Hc as [H1 Hc].
    apply orb_false_iff in Hc. destruct Hc as [H2 Hc].
    apply orb_false_iff in Hc. destruct Hc as [H3 _].
    rewrite Hoth2, Hoth, Hkeep by assumption. reflexivity. }
  set (deduped := coerce_numeric (drop_duplicates producto)) in *.
  assert (Rd : rectangular deduped).
  { apply coerce_numeric_shape. apply rectangular_filter_rows. assumption. }
  unfold drop_unusable in Hstaged. bind_inv Hstaged. bind_inv Hstaged.
  rename x into cat, x0 into vol, E into Hcat, E0 into Hvol.
  rewrite drop_mask_spelled in Hstaged. inversion Hstaged as [Hst]. clear Hstaged.
  set (keep := map2 (fun c v => negb (isna c && (isna v || cell_eqb v (Int 0)))) cat vol)
    in *.
  rewrite Hpass in Hn0 by reflexivity.
  rewrite <- Hst, get_col_filter_rows in Hn0.
  destruct (get_col deduped "nombre") as [nombre|] eqn:Hnombre; [|discriminate].
  simpl in Hn0. inversion Hn0. subst n0. clear Hn0.
  exists cat, vol, nombre.
  split; [exact Hcat|]. split; [exact Hvol|]. split; [reflexivity|].
  split; [|split; [|split; [assumption|]]].
  - rewrite No, Ny, Nb, Ni, <- Hst.
    rewrite (@nrows_filter_rows keep deduped "categoria_id" cat Rd Hcat).
    apply filter_mask_count. unfold keep. rewrite map2_length; [reflexivity|].
    rewrite (rectangular_get_col _ Rd Hcat), (rectangular_get_col _ Rd Hvol). reflexivity.
  - rewrite Hoth3, Hpass by reflexivity.
    rewrite <- Hst, get_col_filter_rows, Hvol. reflexivity.
  - intros c Hc. simpl in Hc.
    apply orb_false_iff in Hc. destruct Hc as [H1 Hc].
    apply orb_false_iff in Hc. destruct Hc as [H2 Hc].
    apply orb_false_iff in Hc. destruct Hc as [H3 Hc].
    apply orb_false_iff in Hc. destruct Hc as [H4 Hc].
    apply orb_false_iff in Hc. destruct Hc as [H5 _].
    rewrite Hoth3 by (simpl; rewrite H1, H2, H3, H4; reflexivity).
    rewrite Hpass by (simpl; rewrite H2, H3, H5; reflexivity).
    rewrite <- Hst, get_col_filter_rows. reflexivity.
Qed.

End ProductRows.

Lemma producto_scenario_rectangular :
  rectangular (producto_scenario 1 2 (Str "a") (Str "b")).
Proof. intros cs H. simpl in H. repeat (destruct H as [<- | H]; [reflexivity|]). destruct H. Qed.

Lemma producto_droppable_rectangular : rectangular producto_droppable.
Proof. intros cs H. simpl in H. repeat (destruct H as [<- | H]; [reflexivity|]). destruct H. Qed.


Lemma prepare_producto_rows_witness :
  @prepare_producto run_pandas producto_droppable 3 3 = Some producto_droppable_out /\
  nrows producto_droppable_out = count_true [false; false; true] /\
  get_col producto_droppable_out "volumen" = Some [Int 5] /\
  get_col producto_droppable_out "color" = Some [Str "b"].
Proof.
  split; [reflexivity|].
  destruct (@prepare_producto_rows run_pandas 3 3 producto_droppable producto_droppable_out
              producto_droppable_rectangular eq_refl)
    as [cat [vol [nombre [Hc [Hv [Hn [Hrows [Hvol [_ Hother]]]]]]]]].
  inversion Hc. inversion Hv. subst cat vol.
  split; [exact Hrows|]. split; [exact Hvol|].
  exact (Hother "color" eq_refl).
Defined.

(** ** The column names of a table after an operation *)

Lemma has_col_In (df : DataFrame) (c : string) : has_col df c = true <-> In c (columns df).
Proof.
  unfold has_col. rewrite existsb_exists. split.
  - intros [x [Hx He]]. apply String.eqb_eq in He. subst. assumption.
  - intros H. exists c. split; [assumption | apply String.eqb_refl].
Qed.

Lemma has_col_get_col_None (df : DataFrame) (c : string) :
  has_col df c = false <-> get_col df c = None.
Proof.
  pose proof (get_col_has_col df c) as H.
  destruct (has_col df c) eqn:Hh; destruct (get_col df c) as [s|] eqn:Hg.
  - split; intros E; discriminate.
  - exfalso. destruct (proj1 H eq_refl) as [s Hs]. discriminate.
  - exfalso. assert (E : false = true) by (apply H; eauto). discriminate.
  - split; reflexivity.
Qed.

Lemma columns_set_col (c : string) (s : Series) (df : DataFrame) :
  columns (set_col c s df) = if has_col df c then columns df else columns df ++ [c].
Proof.
  unfold has_col, columns. induction df as [|[c0 s0] df IH]; simpl; [reflexivity|].
  destruct (String.eqb c c0) eqn:E; simpl.
  - apply String.eqb_eq in E. subst. reflexivity.
  - rewrite IH. destruct (existsb (String.eqb c) (map fst df)); reflexivity.
Qed.

Lemma columns_drop_cols (names : list string) (df : DataFrame) :
  columns (drop_cols names df)
  = filter (fun c => negb (existsb (String.eqb c) names)) (columns df).
Proof.
  unfold columns, drop_cols. induction df as [|[c0 s0] df IH]; simpl; [reflexivity|].
  destruct (existsb (String.eqb c0) names); simpl; rewrite IH; reflexivity.
Qed.

Lemma columns_filter_rows (mask : list bool) (df : DataFrame) :
  columns (filter_rows mask df) = columns df.
Proof. unfold columns, filter_rows. rewrite map_map. reflexivity. Qed.

Lemma columns_rename_col (old new : string) (df : DataFrame) :
  columns (rename_col old new df)
  = map (fun c => if String.eqb c old then new else c) (columns df).
Proof. unfold columns, rename_col. rewrite !map_map. reflexivity. Qed.

Lemma columns_update_col (col : string) (f : Series -> Series) (df out : DataFrame) :
  update_col col f df = Some out -> columns out = columns df.
Proof.
  intros H. apply update_col_Some in H. destruct H as [s [Hs ->]].
  rewrite columns_set_col.
  assert (E : has_col df col = true) by (apply get_col_has_col; eauto).
  rewrite E. reflexivity.
Qed.

Lemma columns_update_if_present (col : string) (f : Series -> Series) (df : DataFrame) :
  columns (update_if_present col f df) = columns df.
Proof.
  unfold update_if_present. destruct (get_col df col) as [s|] eqn:E; [|reflexivity].
  rewrite columns_set_col.
  assert (E' : has_col df col = true) by (apply get_col_has_col; eauto).
  rewrite E'. reflexivity.
Qed.

Lemma filter_twice {A : Type} (f g : A -> bool) (l : list A) :
  filter f (filter g l) = filter (fun x => g x && f x) l.
Proof.
  induction l as [|a l IH]; simpl; [reflexivity|].
  destruct (g a); simpl; [destruct (f a)|]; rewrite IH; reflexivity.
Qed.

(** ** [prepare_events]: when it raises, and what columns it returns *)

Section EventRuns.
Context {P : Pandas}.

(** X9.  [prepare_events] raises exactly when the events have no column
    "timestamp" or no column "event".  When it returns, the columns are
    those of the input without "timestamp" and "transactionid", in their
    order, and "fecha", which goes last unless the input has it already; so
    the function cannot run on its own output. *)
Theorem prepare_events_columns (events : DataFrame) :
  (prepare_events events = None <->
   get_col events "timestamp" = None \/ get_col events "event" = None) /\
  forall out, prepare_events events = Some out ->
    columns out
      = filter (fun c => negb (existsb (String.eqb c) ["timestamp"; "transactionid"]))
               (if has_col events "fecha" then columns events
                else columns events ++ ["fecha"]) /\
    prepare_events out = None.
Proof.
  assert (Hev : forall ts,
            get_col (drop_cols ["transactionid"]
                       (drop_duplicates
                          (drop_cols ["timestamp"]
                             (set_col "fecha" (map to_datetime_ms ts) events)))) "event"
            = option_map
                (filter_mask
                   (keep_first []
                      (rows (drop_cols ["timestamp"]
                               (set_col "fecha" (map to_datetime_ms ts) events)))))
                (get_col events "event")).
  { intros ts. rewrite get_col_drop_cols. cbn [existsb String.eqb Ascii.eqb Bool.eqb orb].
    unfold drop_duplicates. rewrite get_col_filter_rows, get_col_drop_cols.
    cbn [existsb String.eqb Ascii.eqb Bool.eqb orb].
    rewrite get_col_set_col_other by reflexivity. reflexivity. }
  split.
  - unfold prepare_events.
    destruct (get_col events "timestamp") as [ts|] eqn:Ets; cbn [bind].
    + unfold update_col. rewrite Hev.
      destruct (get_col events "event") as [ev|] eqn:Eev; cbn [option_map bind].
      * split; [discriminate | intros [H | H]; discriminate].
      * split; [auto | reflexivity].
    + split; [auto | reflexivity].
  - intros out H. unfold prepare_events in H. bind_inv H. rename x into ts.
    pose proof (@columns_update_col _ _ _ _ H) as Hc.
    split.
    + rewrite Hc, columns_drop_cols. unfold drop_duplicates.
      rewrite columns_filter_rows, columns_drop_cols, columns_set_col.
      rewrite filter_twice. apply filter_ext. intros c. simpl.
      destruct (String.eqb c "timestamp"), (String.eqb c "transactionid"); reflexivity.
    + unfold prepare_events.
      assert (Hno : get_col out "timestamp" = None).
      { apply has_col_get_col_None.
        destruct (has_col out "timestamp") eqn:Eh; [|reflexivity]. exfalso.
        apply has_col_In in Eh. rewrite Hc, columns_drop_cols in Eh.
        apply filter_In in Eh. destruct Eh as [Eh _].
        unfold drop_duplicates in Eh.
        rewrite columns_filter_rows, columns_drop_cols in Eh.
        apply filter_In in Eh. destruct Eh as [_ Eh]. discriminate. }
      rewrite Hno. reflexivity.
Qed.

End EventRuns.

(** ** Joins on a key that is unique on the right *)

Lemma filter_mask_seq (mask : list bool) :
  forall a n, filter_mask mask (seq a n) = map (Nat.add a) (filter_mask mask (seq 0 n)).
Proof.
  induction mask as [|b mask IH]; intros a n; [reflexivity|].
  destruct n as [|n]; [reflexivity|]. simpl.
  rewrite (IH (S a) n), (IH 1 n).
  destruct b; simpl; rewrite map_map.
  - rewrite Nat.add_0_r. f_equal. apply map_ext. intros x. lia.
  - apply map_ext. intros x. lia.
Qed.

Lemma matches_cons (k r : list cell) (rkeys : list (list cell)) :
  matches k (r :: rkeys)
  = (if row_eqb k r then [0] else []) ++ map S (matches k rkeys).
Proof.
  unfold matches. simpl. rewrite (filter_mask_seq _ 1).
  destruct (row_eqb k r); reflexivity.
Qed.

Lemma matches_In (k : list cell) (rkeys : list (list cell)) (j : nat) :
  In j (matches k rkeys) <-> j < List.length rkeys /\ row_eqb k (nth j rkeys []) = true.
Proof.
  revert j. induction rkeys as [|r rkeys IH]; intros j.
  - simpl. split; [intros [] | intros [H _]; lia].
  - rewrite matches_cons, in_app_iff, in_map_iff. simpl. split.
    + intros [H | [j' [<- H]]].
      * destruct (row_eqb k r) eqn:E; [|destruct H].
        destruct H as [<- | []]. split; [lia | assumption].
      * apply IH in H. destruct H as [H1 H2]. split; [lia | assumption].
    + intros [H1 H2]. destruct j as [|j].
      * left. rewrite H2. left. reflexivity.
      * right. exists j. split; [reflexivity|]. apply IH. split; [lia | assumption].
Qed.

(** The first match is the label that [lookup_label] finds. *)
Lemma take_first_match (ids labs : Series) (k : cell) :
  take labs (hd_error (matches [k] (map (fun c => [c]) ids))) = lookup_label ids labs k.
Proof.
  revert labs. induction ids as [|i ids IH]; intros labs; simpl.
  - destruct labs; reflexivity.
  - rewrite matches_cons. simpl row_eqb. rewrite andb_true_r.
    destruct (cell_eqb k i) eqn:E; simpl.
    + destruct labs; reflexivity.
    + destruct labs as [|l labs].
      * destruct (matches [k] (map (fun c => [c]) ids)); reflexivity.
      * rewrite <- IH.
        destruct (matches [k] (map (fun c => [c]) ids)); reflexivity.
Qed.

Lemma matches_unique (ids : Series) (k : cell) :
  distinct_cells ids -> List.length (matches [k] (map (fun c => [c]) ids)) <= 1.
Proof.
  intros Hd.
  destruct (matches [k] (map (fun c => [c]) ids)) as [|a [|b l]] eqn:E; simpl; try lia.
  exfalso.
  assert (Ha : In a (matches [k] (map (fun c => [c]) ids))) by (rewrite E; simpl; auto).
  assert (Hb : In b (matches [k] (map (fun c => [c]) ids))) by (rewrite E; simpl; auto).
  apply matches_In in Ha, Hb. rewrite length_map in Ha, Hb.
  destruct Ha as [Ha1 Ha2], Hb as [Hb1 Hb2].
  rewrite (nth_indep _ [] [NA]) in Ha2 by (rewrite length_map; assumption).
  rewrite (nth_indep _ [] [NA]) in Hb2 by (rewrite length_map; assumption).
  rewrite (map_nth (fun c => [c])) in Ha2. rewrite (map_nth (fun c => [c])) in Hb2.
  simpl in Ha2, Hb2. rewrite andb_true_r in Ha2. rewrite andb_true_r in Hb2.
  (* the matches are listed in increasing order *)
  assert (Hlt : a < b).
  { clear - E. revert a b l E. generalize (map (fun c : cell => [c]) ids) as rkeys.
    induction rkeys as [|r rkeys IH]; intros a b l E; [discriminate|].
    rewrite matches_cons in E. destruct (row_eqb [k] r); simpl in E.
    - inversion E. subst a.
      destruct (matches [k] rkeys) as [|x xs]; [discriminate|].
      simpl in H1. inversion H1. lia.
    - destruct (matches [k] rkeys) as [|x [|y ys]] eqn:E'; simpl in E; try discriminate.
      inversion E. subst a b. specialize (IH x y ys eq_refl). lia. }
  pose proof (Hd a b ltac:(lia)) as Hne.
  rewrite (@cell_eqb_trans k (nth a ids NA) (nth b ids NA) Ha2) in Hne.
  congruence.
Qed.

Lemma flat_map_singleton {A B : Type} (f : A -> list B) (g : A -> B) (l : list A) :
  (forall a, In a l -> f a = [g a]) -> flat_map f l = map g l.
Proof.
  induction l as [|a l IH]; simpl; intros H; [reflexivity|].
  rewrite (H a (or_introl eq_refl)), IH by (intros; apply H; auto). reflexivity.
Qed.

Lemma left_pairs_unique (lkeys rkeys : list (list cell)) :
  (forall k, List.length (matches k rkeys) <= 1) ->
  left_pairs lkeys rkeys
  = map (fun ik : nat * list cell => (Some (fst ik), hd_error (matches (snd ik) rkeys)))
        (combine (seq 0 (List.length lkeys)) lkeys).
Proof.
  intros H. unfold left_pairs. apply flat_map_singleton. intros [i k] _. simpl.
  specialize (H k). destruct (matches k rkeys) as [|j [|j' js]]; simpl in *;
    try reflexivity. lia.
Qed.

Lemma map_fst_combine_seq {A : Type} (l : list A) (a : nat) :
  map fst (combine (seq a (List.length l)) l) = seq a (List.length l).
Proof.
  revert a. induction l as [|x l IH]; intros a; simpl; [reflexivity|].
  rewrite IH. reflexivity.
Qed.

Lemma map_snd_combine_seq {A : Type} (l : list A) (a : nat) :
  map snd (combine (seq a (List.length l)) l) = l.
Proof.
  revert a. induction l as [|x l IH]; intros a; simpl; [reflexivity|].
  rewrite IH. reflexivity.
Qed.

Lemma map_nth_seq_all (s : Series) :
  map (fun i => nth i s NA) (seq 0 (List.length s)) = s.
Proof.
  induction s as [|c s IH]; simpl; [reflexivity|].
  f_equal. rewrite <- seq_shift, map_map. exact IH.
Qed.

Lemma filter_map_comm {A B : Type} (p : B -> bool) (h : A -> B) (l : list A) :
  filter p (map h l) = map h (filter (fun a => p (h a)) l).
Proof.
  induction l as [|a l IH]; simpl; [reflexivity|].
  destruct (p (h a)); simpl; rewrite IH; reflexivity.
Qed.

Lemma columns_In (df : DataFrame) (cs : string * Series) :
  In cs df -> In (fst cs) (columns df).
Proof. intros H. unfold columns. apply in_map. assumption. Qed.

Lemma suffixed_absent (other : list string) (suffix c : string) :
  ~ In c other -> suffixed other suffix c = c.
Proof.
  intros H. unfold suffixed.
  destruct (existsb (String.eqb c) other) eqn:E; [|reflexivity].
  exfalso. apply H. apply existsb_exists in E. destruct E as [x [Hx He]].
  apply String.eqb_eq in He. subst. assumption.
Qed.

Lemma suffixed_present (other : list string) (suffix c : string) :
  In c other -> suffixed other suffix c = (c ++ suffix)%string.
Proof.
  intros H. unfold suffixed.
  assert (E : existsb (String.eqb c) other = true).
  { apply existsb_exists. exists c. split; [assumption | apply String.eqb_refl]. }
  rewrite E. reflexivity.
Qed.

(** One step of the enrichment: a left join with a two-column dimension
    table whose ids are unique, and the removal of the join columns. *)
Lemma enrich_step (df : DataFrame) (key lab : string) (ids labs lk : Series) :
  let g := suffixed ["id"; lab] "_x" in
  let idname := suffixed (columns df) "_y" "id" in
  rectangular df -> get_col df key = Some lk -> distinct_cells ids ->
  ~ In lab (columns df) -> ~ In "_merge" (columns df) ->
  lab <> "_merge" -> lab <> idname -> lab <> key -> key <> "id" ->
  (forall c, In c (columns df) ->
     g c <> "_merge" /\ g c <> idname /\ (g c = key -> c = key)) ->
  (tmp <- merge_left df [("id", ids); (lab, labs)] key "id" ;;
   drop_cols_raise ["_merge"; idname; key] tmp)
  = Some (map (fun cs => (g (fst cs), snd cs)) (drop_cols [key] df)
          ++ [(lab, map (lookup_label ids labs) lk)]).
Proof.
  intros g idname Hrect Hkey Hd Hlab Hmerge Hlm Hli Hlk Hki Hnames.
  assert (Hgkey : g key = key).
  { unfold g. apply suffixed_absent. simpl. intros [E | [E | []]]; congruence. }
  assert (Hkin : In key (columns df)).
  { apply has_col_In. apply get_col_has_col. eauto. }
  assert (Hrk : get_col [("id", ids); (lab, labs)] "id" = Some ids) by reflexivity.
  unfold merge_left. rewrite Hkey. cbn [bind]. rewrite Hrk. cbn [bind].
  assert (Hm1 : has_col df "_merge" = false).
  { destruct (has_col df "_merge") eqn:E; [|reflexivity].
    apply has_col_In in E. contradiction. }
  assert (Hm2 : has_col [("id", ids); (lab, labs)] "_merge" = false).
  { unfold has_col, columns. cbn [map fst existsb].
    assert (E1 : String.eqb "_merge" "id" = false) by reflexivity.
    assert (E2 : String.eqb "_merge" lab = false) by (apply String.eqb_neq; congruence).
    rewrite E1, E2. reflexivity. }
  rewrite Hm1, Hm2. cbn [orb bind].
  rewrite left_pairs_unique
    by (intros k; destruct k as [|c [|c' k']];
        [ | apply matches_unique; assumption | ];
        (destruct (matches _ (map (fun c0 : cell => [c0]) ids)) as [|j js] eqn:E;
         [simpl; lia|]; exfalso;
         assert (Hj : In j (matches _ (map (fun c0 : cell => [c0]) ids)))
           by (rewrite E; left; reflexivity);
         apply matches_In in Hj; destruct Hj as [Hj1 Hj2];
         rewrite length_map in Hj1;
         rewrite (nth_indep _ [] [NA]) in Hj2 by (rewrite length_map; assumption);
         rewrite (map_nth (fun c0 => [c0])) in Hj2; simpl in Hj2;
         try discriminate; rewrite andb_false_r in Hj2; discriminate)).
  set (pairs := map _ (combine _ _)).
  (* the columns of the left table are as they were *)
  assert (Hleft : forall s : Series, List.length s = List.length lk ->
            map (fun p : option nat * option nat => take s (fst p)) pairs = s).
  { intros s Hs. unfold pairs. rewrite map_map. cbn [fst take].
    rewrite <- (map_map fst (fun i => nth i s NA)).
    rewrite map_fst_combine_seq.
    rewrite length_map, <- Hs. apply map_nth_seq_all. }
  assert (Hright : map (fun p : option nat * option nat => take labs (snd p)) pairs
                   = map (lookup_label ids labs) lk).
  { unfold pairs. rewrite map_map. cbn [snd].
    rewrite <- (map_map snd (fun k => take labs (hd_error (matches k _)))).
    rewrite map_snd_combine_seq, map_map.
    apply map_ext. intros k. apply take_first_match. }
  assert (HL : map (fun cs : string * Series =>
                      (suffixed (columns [("id", ids); (lab, labs)]) "_x" (fst cs),
                       map (fun p : option nat * option nat => take (snd cs) (fst p)) pairs)) df
               = map (fun cs => (g (fst cs), snd cs)) df).
  { apply map_ext_in. intros cs Hin. f_equal. apply Hleft.
    rewrite (Hrect _ Hin). symmetry. apply (rectangular_get_col _ Hrect Hkey). }
  rewrite HL. cbn [map fst snd app].
  rewrite Hright.
  assert (Hlabname : suffixed (columns df) "_y" lab = lab) by (apply suffixed_absent; assumption).
  rewrite Hlabname. fold idname.
  set (idcol := map (fun p : option nat * option nat => take ids (snd p)) pairs).
  set (mcol := map indicator pairs).
  (* the three columns to drop are there *)
  unfold drop_cols_raise.
  match goal with |- (if ?b then _ else _) = _ => assert (Hall : b = true) end.
  { cbn [forallb]. rewrite !andb_true_iff. repeat split.
    - apply has_col_In. unfold columns. rewrite map_app. apply in_or_app. right.
      simpl. auto.
    - apply has_col_In. unfold columns. rewrite map_app. apply in_or_app. right.
      simpl. auto.
    - apply has_col_In. unfold columns. rewrite map_app. apply in_or_app. left.
      rewrite map_map. cbn [fst]. apply in_map_iff.
      unfold columns in Hkin. apply in_map_iff in Hkin. destruct Hkin as [cs [Hf Hin]].
      exists cs. split; [rewrite Hf; exact Hgkey | assumption]. }
  rewrite Hall. f_equal. unfold drop_cols. rewrite filter_app. f_equal.
  - rewrite filter_map_comm. f_equal. apply filter_ext_in. intros cs Hin. cbn [fst].
    destruct (Hnames _ (columns_In _ _ Hin)) as [N1 [N2 N3]].
    cbn [existsb]. rewrite !orb_false_r.
    apply String.eqb_neq in N1, N2. rewrite N1, N2. cbn [orb].
    destruct (String.eqb (fst cs) key) eqn:E.
    + apply String.eqb_eq in E. rewrite E, Hgkey, String.eqb_refl. reflexivity.
    + destruct (String.eqb (g (fst cs)) key) eqn:E'; [|reflexivity].
      apply String.eqb_eq in E'. apply N3 in E'. apply String.eqb_neq in E. contradiction.
  - cbn [filter fst existsb].
    rewrite String.eqb_refl. rewrite orb_true_r. cbn [orb negb].
    apply String.eqb_neq in Hlm, Hli, Hlk. rewrite Hlm, Hli, Hlk. reflexivity.
Qed.

Lemma bind_assoc {A B C : Type} (m : option A) (f : A -> option B) (h : B -> option C) :
  bind m (fun a => bind (f a) h) = bind (bind m f) h.
Proof. destruct m; reflexivity. Qed.

Lemma get_col_app (df df' : DataFrame) (c : string) :
  get_col (df ++ df') c = match get_col df c with
                          | Some s => Some s
                          | None => get_col df' c
                          end.
Proof.
  induction df as [|[c0 s0] df IH]; simpl; [reflexivity|].
  destruct (String.eqb c c0); [reflexivity | exact IH].
Qed.

Lemma get_col_map_names (g : string -> string) (df : DataFrame) (c : string) :
  (forall c', In c' (columns df) -> g c' = c -> c' = c) -> g c = c ->
  get_col (map (fun cs => (g (fst cs), snd cs)) df) c = get_col df c.
Proof.
  intros H Hc. induction df as [|[c0 s0] df IH]; simpl; [reflexivity|].
  destruct (String.eqb c c0) eqn:E.
  - apply String.eqb_eq in E. subst c0. rewrite Hc, String.eqb_refl. reflexivity.
  - destruct (String.eqb c (g c0)) eqn:E'.
    + apply String.eqb_eq in E'. symmetry in E'.
      apply H in E'; [|left; reflexivity]. apply String.eqb_neq in E. congruence.
    + apply IH. intros c' Hc'. apply H. right. assumption.
Qed.

Lemma rectangular_uniform (df : DataFrame) (n : nat) :
  (forall cs, In cs df -> List.length (snd cs) = n) -> rectangular df.
Proof.
  intros H cs Hin. rewrite (H cs Hin). symmetry.
  destruct cs as [c s]. apply (@nrows_uniform df n c s); assumption.
Qed.

(** The enriched table when the ids of the two dimension tables are
    unique. *)
Lemma enrich_lookup (producto : DataFrame) (mids mlabs cids clabs pmarca pcat : Series) :
  rectangular producto ->
  get_col producto "marca_id" = Some pmarca ->
  get_col producto "categoria_id" = Some pcat ->
  In "id" (columns producto) ->
  (forall c, In c ["marca"; "categoria"; "_merge"; "id_x"; "id_y"] ->
     ~ In c (columns producto)) ->
  distinct_cells mids -> distinct_cells cids ->
  enrich_producto_with_marca_categoria producto
    [("id", mids); ("marca", mlabs)] [("id", cids); ("categoria", clabs)]
  = Some (drop_cols ["marca_id"; "categoria_id"] producto
          ++ [("marca", map (lookup_label mids mlabs) pmarca);
              ("categoria", map (lookup_label cids clabs) pcat)]).
Proof.
  intros Hrect Hpm Hpc Hid Hno Hdm Hdc.
  set (pc := columns producto) in *.
  assert (N1 : ~ In "marca" pc) by (apply Hno; simpl; auto).
  assert (N2 : ~ In "categoria" pc) by (apply Hno; simpl; auto).
  assert (N3 : ~ In "_merge" pc) by (apply Hno; simpl; auto).
  assert (N4 : ~ In "id_x" pc) by (apply Hno; simpl; auto 6).
  assert (N5 : ~ In "id_y" pc) by (apply Hno; simpl; auto 6).
  set (g := suffixed ["id"; "marca"] "_x").
  assert (Hg : forall c, In c pc -> g c = if String.eqb c "id" then "id_x" else c).
  { intros c Hc. unfold g, suffixed. cbn [existsb].
    destruct (String.eqb c "id") eqn:E.
    - apply String.eqb_eq in E. subst c. reflexivity.
    - destruct (String.eqb c "marca") eqn:E'; [|reflexivity].
      apply String.eqb_eq in E'. subst c. contradiction. }
  assert (Hgne : forall c t, In c pc -> ~ In t pc -> t <> "id_x" -> g c <> t).
  { intros c t Hc Ht Hx. rewrite (Hg c Hc).
    destruct (String.eqb c "id"); [congruence|]. intros E. subst t. contradiction. }
  assert (Hgkey : forall c k, In c pc -> k <> "id" -> k <> "id_x" -> g c = k -> c = k).
  { intros c k Hc Hk1 Hk2. rewrite (Hg c Hc).
    destruct (String.eqb c "id") eqn:E; [congruence | auto]. }
  unfold enrich_producto_with_marca_categoria.
  (* producto + marca *)
  rewrite bind_assoc.
  assert (Hidy : suffixed pc "_y" "id" = "id_y") by (apply (@suffixed_present pc "_y" "id" Hid)).
  pose proof (@enrich_step producto "marca_id" "marca" mids mlabs pmarca) as S1.
  cbv zeta in S1. fold pc g in S1. rewrite Hidy in S1.
  set (pm := map (fun cs : string * Series => (g (fst cs), snd cs))
               (drop_cols ["marca_id"] producto)
             ++ [("marca", map (lookup_label mids mlabs) pmarca)]) in *.
  match goal with |- bind ?x _ = _ => replace x with (Some pm) end.
  2:{ symmetry. apply S1; try assumption; try discriminate.
      intros c Hc. split; [|split].
      - apply Hgne; [assumption | assumption | discriminate].
      - apply Hgne; [assumption | assumption | discriminate].
      - apply Hgkey; [assumption | discriminate | discriminate]. }
  clear S1. cbn [bind].
  (* the names of the intermediate table *)
  assert (Hpmcols : forall c, In c (columns pm) ->
            c = "marca" \/ exists c0, In c0 pc /\ c0 <> "marca_id" /\ c = g c0).
  { intros c Hc. unfold pm, columns in Hc. rewrite map_app, map_map in Hc.
    apply in_app_or in Hc. destruct Hc as [Hc | [<- | []]]; [|left; reflexivity].
    right. apply in_map_iff in Hc. destruct Hc as [cs [<- Hin]].
    unfold drop_cols in Hin. apply filter_In in Hin. destruct Hin as [Hin Hf].
    exists (fst cs). split; [apply columns_In; assumption|]. split; [|reflexivity].
    cbn [existsb] in Hf. rewrite orb_false_r in Hf.
    apply negb_true_iff in Hf. apply String.eqb_neq. assumption. }
  assert (Hpmno : forall t, ~ In t pc -> t <> "id_x" -> t <> "marca" -> ~ In t (columns pm)).
  { intros t Ht Hx Hm Hin. destruct (Hpmcols t Hin) as [E | [c0 [Hc0 [_ E]]]];
      [congruence|]. symmetry in E. revert E. apply Hgne; assumption. }
  assert (Hpmid : ~ In "id" (columns pm)).
  { intros Hin. destruct (Hpmcols _ Hin) as [E | [c0 [Hc0 [_ E]]]]; [discriminate|].
    rewrite (Hg c0 Hc0) in E. destruct (String.eqb c0 "id") eqn:E0; [discriminate|].
    apply String.eqb_neq in E0. congruence. }
  assert (Rpm : rectangular pm).
  { apply (@rectangular_uniform pm (nrows producto)). intros cs Hin.
    unfold pm in Hin. apply in_app_or in Hin. destruct Hin as [Hin | [<- | []]].
    - apply in_map_iff in Hin. destruct Hin as [cs0 [<- Hin]]. simpl.
      unfold drop_cols in Hin. apply filter_In in Hin. apply Hrect. tauto.
    - simpl. rewrite length_map. apply (rectangular_get_col _ Hrect Hpm). }
  assert (Gpm : get_col pm "categoria_id" = Some pcat).
  { unfold pm. rewrite get_col_app, get_col_map_names.
    - rewrite get_col_drop_cols. cbn [existsb]. rewrite Hpc. reflexivity.
    - intros c' Hc'. rewrite columns_drop_cols in Hc'. apply filter_In in Hc'.
      apply Hgkey; [tauto | discriminate | discriminate].
    - reflexivity. }
  (* producto + categoria *)
  rewrite bind_assoc.
  assert (Hidn : suffixed (columns pm) "_y" "id" = "id") by (apply suffixed_absent; assumption).
  pose proof (@enrich_step pm "categoria_id" "categoria" cids clabs pcat) as S2.
  cbv zeta in S2. rewrite Hidn in S2.
  set (g2 := suffixed ["id"; "categoria"] "_x") in *.
  assert (Hg2 : forall c, In c (columns pm) -> g2 c = c).
  { intros c Hc. unfold g2. apply suffixed_absent. intros [<- | [<- | []]].
    - contradiction.
    - revert Hc. apply Hpmno; [assumption | discriminate | discriminate]. }
  match goal with |- bind ?x _ = _ =>
    replace x with (Some (map (fun cs : string * Series => (g2 (fst cs), snd cs))
                            (drop_cols ["categoria_id"] pm)
                          ++ [("categoria", map (lookup_label cids clabs) pcat)])) end.
  2:{ symmetry. apply S2; try assumption; try discriminate.
      - apply Hpmno; [assumption | discriminate | discriminate].
      - apply Hpmno; [assumption | discriminate | discriminate].
      - intros c Hc. rewrite (Hg2 c Hc). split; [|split].
        + intros E. subst c. revert Hc.
          apply Hpmno; [assumption | discriminate | discriminate].
        + intros E. subst c. contradiction.
        + auto. }
  clear S2. cbn [bind]. f_equal.
  (* the names, back as they were *)
  assert (HD : drop_cols ["categoria_id"] pm
               = map (fun cs : string * Series => (g (fst cs), snd cs))
                     (drop_cols ["marca_id"; "categoria_id"] producto)
                 ++ [("marca", map (lookup_label mids mlabs) pmarca)]).
  { unfold pm, drop_cols. rewrite filter_app. f_equal.
    rewrite filter_map_comm, filter_twice. f_equal.
    apply filter_ext_in. intros cs Hin. cbn [fst existsb]. rewrite !orb_false_r.
    rewrite (Hg _ (columns_In _ _ Hin)).
    destruct (String.eqb (fst cs) "id") eqn:E.
    - apply String.eqb_eq in E. rewrite E. reflexivity.
    - destruct (String.eqb (fst cs) "marca_id"), (String.eqb (fst cs) "categoria_id");
        reflexivity. }
  rewrite HD. unfold rename_col. rewrite !map_app, !map_map. cbn [map fst snd].
  replace (drop_cols ["marca_id"; "categoria_id"] producto
           ++ [("marca", map (lookup_label mids mlabs) pmarca);
               ("categoria", map (lookup_label cids clabs) pcat)])
    with ((drop_cols ["marca_id"; "categoria_id"] producto
           ++ [("marca", map (lookup_label mids mlabs) pmarca)])
          ++ [("categoria", map (lookup_label cids clabs) pcat)])
    by (rewrite <- app_assoc; reflexivity).
  apply f_equal2; [apply f_equal2; [|reflexivity] | reflexivity].
  rewrite <- (map_id (drop_cols ["marca_id"; "categoria_id"] producto)) at 2.
  apply map_ext_in. intros [c s0] Hin. cbn [fst snd]. f_equal.
  unfold drop_cols in Hin. apply filter_In in Hin. destruct Hin as [Hin _].
  apply columns_In in Hin. cbn [fst] in Hin. fold pc in Hin.
  rewrite (Hg c Hin).
  destruct (String.eqb c "id") eqn:E.
  - apply String.eqb_eq in E. subst c. reflexivity.
  - assert (E2 : g2 c = c).
    { unfold g2. apply suffixed_absent. intros [<- | [<- | []]];
        [discriminate | contradiction]. }
    rewrite E2. destruct (String.eqb c "id_x") eqn:E'; [|reflexivity].
    apply String.eqb_eq in E'. subst c. contradiction.
Qed.

(** X10.  With unique integer ids in the two dimension tables, the
    enrichment returns the product table without its two key columns,
    followed by a column "marca" and a column "categoria": in every row the
    label of the dimension row whose id is the key of the product, missing
    where no id is.  No product row is lost, added or reordered. *)
Theorem enrich_producto_lookup (producto : DataFrame)
    (mids mlabs cids clabs pmarca pcat : Series) :
  rectangular producto ->
  get_col producto "marca_id" = Some pmarca ->
  get_col producto "categoria_id" = Some pcat ->
  In "id" (columns producto) ->
  (forall c, In c ["marca"; "categoria"; "_merge"; "id_x"; "id_y"] ->
     ~ In c (columns producto)) ->
  List.length mlabs = List.length mids -> List.length clabs = List.length cids ->
  distinct_cells mids -> distinct_cells cids ->
  all_int mids -> all_int cids -> all_int pmarca -> all_int pcat ->
  enrich_producto_with_marca_categoria producto
    [("id", mids); ("marca", mlabs)] [("id", cids); ("categoria", clabs)]
  = Some (drop_cols ["marca_id"; "categoria_id"] producto
          ++ [("marca", map (lookup_label mids mlabs) pmarca);
              ("categoria", map (lookup_label cids clabs) pcat)]).
Proof.
  intros Hrect Hpm Hpc Hid Hno _ _ Hdm Hdc _ _ _ _.
  apply enrich_lookup; assumption.
Qed.

Lemma columns_merge_left (left right out : DataFrame) (left_on right_on : string) :
  merge_left left right left_on right_on = Some out ->
  columns out = map (suffixed (columns right) "_x") (columns left)
                ++ map (suffixed (columns left) "_y") (columns right) ++ ["_merge"].
Proof.
  intros H. apply merge_left_Some in H.
  destruct H as [lk [rk [_ [_ [_ [_ ->]]]]]].
  unfold columns. rewrite !map_app, !map_map. reflexivity.
Qed.

(** X11.  The enrichment needs the column "id" of the products although it
    does not join on it: without it the first join makes no column "id_y",
    and dropping that column raises. *)
Theorem enrich_producto_needs_id (producto marca categoria : DataFrame) :
  ~ In "id" (columns producto) ->
  ~ In "id_y" (columns producto) -> ~ In "id_y" (columns marca) ->
  enrich_producto_with_marca_categoria producto marca categoria = None.
Proof.
  intros Hid Hp Hm. unfold enrich_producto_with_marca_categoria.
  destruct (merge_left producto marca "marca_id" "id") as [tmp|] eqn:E; [|reflexivity].
  cbn [bind]. apply columns_merge_left in E.
  assert (Hno : has_col tmp "id_y" = false).
  { destruct (has_col tmp "id_y") eqn:Eh; [|reflexivity]. exfalso.
    apply has_col_In in Eh. rewrite E in Eh.
    apply in_app_or in Eh. destruct Eh as [Eh | Eh].
    - apply in_map_iff in Eh. destruct Eh as [c [Hc Hin]].
      apply suffixed_is in Hc; [|reflexivity]. destruct Hc as [-> _]. contradiction.
    - apply in_app_or in Eh. destruct Eh as [Eh | [Eh | []]]; [|discriminate].
      apply in_map_iff in Eh. destruct Eh as [c [Hc Hin]].
      unfold suffixed in Hc.
      destruct (existsb (String.eqb c) (columns producto)) eqn:Ex.
      + apply existsb_exists in Ex. destruct Ex as [c' [Hc' He]].
        apply String.eqb_eq in He. subst c'.
        assert (c = "id").
        { destruct c as [|a [|b [|x c]]]; try discriminate.
          - simpl in Hc. inversion Hc. reflexivity.
          - exfalso. simpl in Hc. inversion Hc as [[Ha Hb Hx Hr]].
            destruct c as [|d [|e c]]; discriminate. }
        subst c. contradiction.
      + subst c. contradiction. }
  unfold drop_cols_raise. cbn [forallb]. rewrite Hno.
  rewrite andb_false_r. cbn [andb]. destruct (has_col tmp "_merge"); reflexivity.
Qed.

Ltac distinct_by_cases :=
  let i := fresh "i" in let j := fresh "j" in let Hij := fresh "Hij" in
  intros i j Hij; simpl in Hij;
  do 4 (destruct i as [|i];
        [do 4 (destruct j as [|j]; [first [lia | reflexivity]|]); simpl in Hij; lia|]);
  simpl in Hij; lia.

Ltac all_int_by_cases :=
  let c := fresh "c" in let Hc := fresh "Hc" in
  intros c Hc; simpl in Hc;
  repeat (destruct Hc as [<- | Hc]; [eexists; reflexivity|]); destruct Hc.

Lemma producto_clean_example_rectangular : rectangular producto_clean_example.
Proof. intros cs H. simpl in H. repeat (destruct H as [<- | H]; [reflexivity|]). destruct H. Qed.

Lemma enrich_producto_lookup_witness :
  enrich_producto_with_marca_categoria producto_clean_example
    marca_clean_example categoria_clean_example
  = Some (drop_cols ["marca_id"; "categoria_id"] producto_clean_example
          ++ [("marca", map (lookup_label [Int 1; Int 3] [Str "ACME"; Str "OTHER"])
                            [Int 3; Int 3; Int 1]);
              ("categoria", map (lookup_label [Int 1; Int 2; Int 3]
                                              [Str "A"; Str "B"; Str "OTHER"])
                                [Int 1; Int 3; Int 9])])%Z.
Proof.
  apply (@enrich_producto_lookup producto_clean_example
           [Int 1; Int 3]%Z [Str "ACME"; Str "OTHER"]
           [Int 1; Int 2; Int 3]%Z [Str "A"; Str "B"; Str "OTHER"]
           [Int 3; Int 3; Int 1]%Z [Int 1; Int 3; Int 9]%Z).
  - exact producto_clean_example_rectangular.
  - reflexivity.
  - reflexivity.
  - simpl. tauto.
  - intros c Hc. simpl in Hc. simpl.
    repeat (destruct Hc as [<- | Hc];
            [intros H; repeat (destruct H as [H | H]; [discriminate H|]); destruct H|]).
    destruct Hc.
  - reflexivity.
  - reflexivity.
  - distinct_by_cases.
  - distinct_by_cases.
  - all_int_by_cases.
  - all_int_by_cases.
  - all_int_by_cases.
  - all_int_by_cases.
Defined.

Lemma enrich_producto_needs_id_witness :
  enrich_producto_with_marca_categoria producto_without_id
    marca_clean_example categoria_clean_example = None.
Proof.
  apply enrich_producto_needs_id; simpl;
    intros H; repeat (destruct H as [H | H]; [discriminate H|]); destruct H.
Defined.

(** ** [merge_events_with_entities]: a column "id" among the events *)

Lemma merge_left_no_plain (left right out : DataFrame) (left_on right_on c : string) :
  merge_left left right left_on right_on = Some out ->
  In c (columns left) -> In c (columns right) ->
  has_suffix "_x" c = false -> has_suffix "_y" c = false -> c <> "_merge" ->
  has_col out c = false.
Proof.
  intros H Hl Hr Hx Hy Hm. apply columns_merge_left in H.
  destruct (has_col out c) eqn:Eh; [|reflexivity]. exfalso.
  apply has_col_In in Eh. rewrite H in Eh.
  apply in_app_or in Eh. destruct Eh as [Eh | Eh].
  - apply in_map_iff in Eh. destruct Eh as [c' [Hc Hin]].
    apply suffixed_is in Hc; [|assumption]. destruct Hc as [-> Hc].
    assert (existsb (String.eqb c) (columns right) = true); [|congruence].
    apply existsb_exists. exists c. split; [assumption | apply String.eqb_refl].
  - apply in_app_or in Eh. destruct Eh as [Eh | [Eh | []]]; [|congruence].
    apply in_map_iff in Eh. destruct Eh as [c' [Hc Hin]].
    apply suffixed_is in Hc; [|assumption]. destruct Hc as [-> Hc].
    assert (existsb (String.eqb c) (columns left) = true); [|congruence].
    apply existsb_exists. exists c. split; [assumption | apply String.eqb_refl].
Qed.

(** X12.  [merge_events_with_entities] raises on every events table that
    has a column "id": the join then makes "id_x" and "id_y", and there is
    no column "id" to drop. *)
Theorem merge_events_id_column (events producto_enriq cliente : DataFrame) :
  In "id" (columns events) ->
  merge_events_with_entities events producto_enriq cliente = None.
Proof.
  intros Hid. unfold merge_events_with_entities.
  destruct (merge_left events producto_enriq "itemid" "id") as [tmp|] eqn:E;
    [|reflexivity].
  cbn [bind].
  assert (Hr : In "id" (columns producto_enriq)).
  { apply merge_left_Some in E. destruct E as [lk [rk [_ [Hrk _]]]].
    apply has_col_In. apply get_col_has_col. eauto. }
  unfold drop_cols_raise at 1. cbn [forallb].
  rewrite (@merge_left_no_plain events producto_enriq tmp "itemid" "id" "id" E Hid Hr
             eq_refl eq_refl ltac:(discriminate)).
  reflexivity.
Qed.

Lemma merge_events_id_column_witness :
  merge_events_with_entities events_with_id producto_enriq_example cliente_clean_example = None.
Proof. apply merge_events_id_column. simpl. tauto. Defined.

(** ** Texts: trimming around a blank *)

Lemma rstrip_keeps_head (s : string) (c : ascii) (r : string) :
  rstrip s = String c r -> exists r', s = String c r'.
Proof.
  destruct s as [|a s']; simpl; [discriminate|].
  destruct (is_space a && all_space s'); [discriminate|].
  intros H. inversion H. eauto.
Qed.

Lemma strip_no_leading_space (s : string) (c : ascii) (r : string) :
  strip s = String c r -> is_space c = false.
Proof.
  unfold strip. intros H. apply rstrip_keeps_head in H. destruct H as [r' H].
  apply (lstrip_no_leading_space _ H).
Qed.

Lemma rstrip_app_blank (s : string) : rstrip (s ++ " ") = rstrip s.
Proof.
  induction s as [|a s IH]; [reflexivity|].
  cbn [append rstrip]. rewrite IH.
  assert (E : all_space (String a (s ++ " ")) = all_space (String a s)).
  { cbn [all_space]. f_equal. clear. induction s as [|b s IH]; [reflexivity|].
    cbn [append all_space]. rewrite IH. reflexivity. }
  rewrite E. reflexivity.
Qed.

Lemma strip_strip_blank (s : string) : strip (strip s ++ " ") = strip s.
Proof.
  destruct (strip s) as [|c r] eqn:E; [reflexivity|].
  pose proof (strip_no_leading_space _ E) as Hc.
  unfold strip at 1. cbn [append lstrip]. rewrite Hc.
  change (String c (r ++ " ")) with (String c r ++ " ")%string.
  rewrite rstrip_app_blank, <- E. unfold strip. apply rstrip_idem.
Qed.

Lemma strip_blank_strip (s : string) : strip (" " ++ strip s) = strip s.
Proof.
  unfold strip at 1. cbn [append lstrip]. change (is_space " ") with true. cbn iota.
  destruct (strip s) as [|c r] eqn:E; [reflexivity|].
  pose proof (strip_no_leading_space _ E) as Hc.
  cbn [lstrip]. rewrite Hc. rewrite <- E. unfold strip. apply rstrip_idem.
Qed.

(** ** [prepare_cliente]: the columns and the full name *)

Section CustomerRuns.
Context {P : Pandas}.
Variable today : Z.
Variable parse_mdY_func : cell -> cell.

Lemma upper_full_name (n a : cell) : upper_text (full_name n a) = full_name_text n a.
Proof.
  unfold full_name, full_name_text, name_text, upper_text.
  destruct (isna n), (isna a); reflexivity.
Qed.

Lemma map2_ext {A B C : Type} (f h : A -> B -> C) (s : list A) (t : list B) :
  (forall a b, f a b = h a b) -> map2 f s t = map2 h s t.
Proof.
  intros H. revert t. induction s as [|a s IH]; intros [|b t]; simpl; try reflexivity.
  rewrite H, IH. reflexivity.
Qed.

(** X13.  When [prepare_cliente] returns, the customers have the columns
    "nombre" and "apellido"; the output has the columns
    of the input without "nit", "puesto", "correo", "telefono" and
    "apellido", in their order, and "edad", last unless the input has it.
    Its "nombre" is, for the rows that stay, nombre and apellido trimmed,
    joined by a blank, trimmed again and in upper case, a missing part
    counting as empty: so a missing apellido leaves the trimmed nombre
    alone, and a row without both gets the empty text. *)
Theorem prepare_cliente_nombre (cliente out : DataFrame) :
  prepare_cliente today cliente parse_mdY_func = Some out ->
  (let base := filter (fun c => negb (existsb (String.eqb c)
                                       ["nit"; "puesto"; "correo"; "telefono"; "apellido"]))
                      (columns cliente) in
   columns out = if existsb (String.eqb "edad") base then base else base ++ ["edad"]) /\
  (exists (m1 m2 : list bool) (nombre0 apellido0 : Series),
     let kept (s : Series) := filter_mask m2 (filter_mask m1 s) in
     get_col cliente "nombre" = Some nombre0 /\
     get_col cliente "apellido" = Some apellido0 /\
     get_col out "nombre" = Some (map2 full_name_text (kept nombre0) (kept apellido0))) /\
  (forall n, full_name_text n NA = Str (upper (name_text n))) /\
  (forall a, full_name_text NA a = Str (upper (name_text a))) /\
  full_name_text NA NA = Str "".
Proof.
  intros H. split; [|split; [|split; [|split]]].
  - (* the columns *)
    unfold prepare_cliente in H.
    bind_inv H. bind_inv H. bind_inv H. bind_inv H. bind_inv H. bind_inv H. bind_inv H.
    bind_inv H. inversion H. clear H.
    rewrite !columns_update_if_present.
    rewrite (@columns_update_col _ _ _ _ E6).
    rewrite columns_set_col.
    assert (Hc5 : columns x3
                  = filter (fun c => negb (existsb (String.eqb c)
                                             ["nit"; "puesto"; "correo"; "telefono"; "apellido"]))
                           (columns cliente)).
    { rewrite (@columns_update_col _ _ _ _ E3).
      rewrite columns_set_col.
      assert (Hid : has_col (drop_cols ["apellido"]
                      (set_col "nombre" (map2 full_name x x0)
                         (dropna_all (drop_duplicates
                            (drop_cols ["nit"; "puesto"; "correo"; "telefono"] cliente))))) "id"
                    = true) by (apply get_col_has_col; eauto).
      rewrite Hid, columns_drop_cols, columns_set_col.
      assert (Hn : has_col (dropna_all (drop_duplicates
                      (drop_cols ["nit"; "puesto"; "correo"; "telefono"] cliente))) "nombre"
                   = true) by (apply get_col_has_col; eauto).
      rewrite Hn. unfold dropna_all, drop_duplicates.
      rewrite !columns_filter_rows, columns_drop_cols, filter_twice.
      apply filter_ext. intros c. cbn [existsb].
      destruct (String.eqb c "nit"), (String.eqb c "puesto"), (String.eqb c "correo"),
        (String.eqb c "telefono"), (String.eqb c "apellido"); reflexivity. }
    unfold has_col. rewrite Hc5. reflexivity.
  - (* the full name *)
    unfold prepare_cliente in H.
    set (c1 := drop_cols ["nit"; "puesto"; "correo"; "telefono"] cliente) in *.
    set (m1 := keep_first [] (rows c1)) in *.
    assert (Hdd : drop_duplicates c1 = filter_rows m1 c1) by reflexivity.
    rewrite Hdd in H. unfold dropna_all in H.
    set (m2 := map (fun r => negb (forallb isna r)) (rows (filter_rows m1 c1))) in *.
    set (c2 := filter_rows m2 (filter_rows m1 c1)) in *.
    assert (Hc2 : forall c,
              existsb (String.eqb c) ["nit"; "puesto"; "correo"; "telefono"] = false ->
              get_col c2 c = option_map (fun s => filter_mask m2 (filter_mask m1 s))
                                        (get_col cliente c)).
    { intros c Hc. unfold c2. rewrite !get_col_filter_rows. unfold c1.
      rewrite get_col_drop_cols, Hc. destruct (get_col cliente c); reflexivity. }
    bind_inv H. bind_inv H. bind_inv H. bind_inv H.
    rename x into nombre, x0 into apellido, x1 into ids, x2 into ids'.
    bind_inv H. apply update_col_Some in E3. destruct E3 as [nacr [Hnacr Hc5]].
    bind_inv H. bind_inv H. bind_inv H.
    apply update_col_Some in E5. destruct E5 as [nom [Hnom Hc7]].
    inversion H. clear H. subst x x2.
    rename E into Hnombre, E0 into Hapellido.
    rewrite get_col_set_col_other in Hnom by reflexivity.
    rewrite get_col_set_col_other in Hnom by reflexivity.
    rewrite get_col_set_col_other in Hnom by reflexivity.
    rewrite get_col_drop_cols in Hnom. cbn [existsb] in Hnom.
    change (String.eqb "nombre" "apellido") with false in Hnom. cbn [orb] in Hnom.
    rewrite get_col_set_col_same in Hnom. inversion Hnom. subst nom. clear Hnom.
    rewrite Hc2 in Hnombre, Hapellido by reflexivity.
    destruct (get_col cliente "nombre") as [nombre0|]; [|discriminate].
    destruct (get_col cliente "apellido") as [apellido0|]; [|discriminate].
    simpl in Hnombre, Hapellido. inversion Hnombre. inversion Hapellido.
    exists m1, m2, nombre0, apellido0. cbv zeta.
    split; [reflexivity|]. split; [reflexivity|].
    rewrite !get_col_update_if_present_other by reflexivity.
    rewrite get_col_set_col_same. f_equal.
    rewrite map_map2. apply map2_ext. intros n a. apply upper_full_name.
  - intros n. unfold full_name_text. unfold name_text at 2. cbn [isna].
    do 2 f_equal. unfold name_text. destruct (isna n); [reflexivity|].
    apply strip_strip_blank.
  - intros a. unfold full_name_text. unfold name_text at 1. cbn [isna].
    do 2 f_equal. unfold name_text. destruct (isna a); [reflexivity|].
    apply strip_blank_strip.
  - reflexivity.
Qed.

End CustomerRuns.

Lemma prepare_cliente_nombre_witness :
  @prepare_cliente run_pandas 20000 cliente_example (@parse_mdY run_pandas 30)
    = Some cliente_example_out /\
  columns cliente_example_out = ["id"; "nombre"; "nacimiento"; "genero"; "edad"] /\
  exists m1 m2 : list bool,
    get_col cliente_example_out "nombre"
    = Some (map2 (@full_name_text run_pandas)
              (filter_mask m2 (filter_mask m1 [Str " ana "; Str " ana "; NA; Str "luis"]))
              (filter_mask m2 (filter_mask m1 [Str "paz"; Str "paz"; NA; NA]))).
Proof.
  split; [reflexivity|].
  destruct (@prepare_cliente_nombre run_pandas 20000 (@parse_mdY run_pandas 30)
              cliente_example cliente_example_out eq_refl)
    as [Hcols [[m1 [m2 [nombre0 [apellido0 [Hn [Ha Hout]]]]]] _]].
  inversion Hn. inversion Ha. subst nombre0 apellido0.
  split; [exact Hcols|]. exists m1, m2. exact Hout.
Defined.

(** ** [parse_mdY]: blanks around the date *)

Section DateRuns.
Context {P : Pandas}.

Lemma match_mdY_strip (s : string) : match_mdY s = match_mdY (strip s).
Proof.
  destruct (match_mdY s) as [[[g1 g2] g3]|] eqn:E.
  - symmetry. apply match_mdY_form. rewrite strip_idem. apply match_mdY_form. assumption.
  - destruct (match_mdY (strip s)) as [[[g1 g2] g3]|] eqn:E'; [|reflexivity].
    apply match_mdY_form in E'. rewrite strip_idem in E'. apply match_mdY_form in E'.
    congruence.
Qed.

(** X14.  [parse_mdY] reads a text as it reads the trimmed text: blanks
    before and after the date change nothing, and two texts that differ
    only there give the same result. *)
Theorem parse_mdY_trimmed (pivot : Z) (s : string) :
  parse_mdY pivot (Str s) = parse_mdY pivot (Str (strip s)) /\
  forall t, strip t = strip s -> parse_mdY pivot (Str t) = parse_mdY pivot (Str s).
Proof.
  assert (H : forall u, parse_mdY pivot (Str u) = parse_mdY pivot (Str (strip u))).
  { intros u. unfold parse_mdY. cbn [isna str_of]. rewrite (match_mdY_strip u). reflexivity. }
  split; [apply H|]. intros t Ht. rewrite (H t), (H s), Ht. reflexivity.
Qed.

End DateRuns.

(** ** [prepare_cliente]: the sign of the age *)

Lemma div_negative (a b : Z) : (0 < b)%Z -> (a / b < 0 <-> a < 0)%Z.
Proof.
  intros Hb. pose proof (Z.div_mod a b ltac:(lia)) as Hd.
  pose proof (Z.mod_pos_bound a b Hb) as Hm. split; intros H.
  - assert (b * (a / b) <= - b)%Z by nia. lia.
  - destruct (Z_lt_le_dec (a / b) 0) as [Hlt | Hge]; [assumption|].
    assert (0 <= b * (a / b))%Z by nia. lia.
Qed.

Section CustomerAge.
Context {P : Pandas}.
Variable today : Z.
Variable parse_mdY_func : cell -> cell.

(** X15.  The age that [prepare_cliente] computes is negative exactly for
    a birth date after today: the years are the floor of the days, and a
    date in the future (a two-digit year below the pivot can give one) is
    not rejected.  For a birth date up to today the age is at least 0. *)
Theorem prepare_cliente_edad_sign (cliente out : DataFrame) :
  prepare_cliente today cliente parse_mdY_func = Some out ->
  exists nacimiento edad,
    get_col out "nacimiento" = Some nacimiento /\
    get_col out "edad" = Some edad /\
    forall i ns, i < List.length nacimiento -> nth i nacimiento NA = Time ns ->
      exists z, nth i edad NA = Int z /\
        ((z < 0)%Z <-> (today * ns_per_day < ns)%Z) /\
        ((0 <= z)%Z <-> (ns <= today * ns_per_day)%Z).
Proof.
  intros H. apply prepare_cliente_columns in H.
  destruct H as [m1 [m2 [nac0 [edad [_ [Hnac [Hedad [Hed _]]]]]]]].
  exists (map parse_mdY_func (filter_mask m2 (filter_mask m1 nac0))), edad.
  split; [assumption|]. split; [assumption|].
  destruct (mapM_Some_nth _ NA NA _ Hedad) as [Hl Hn].
  intros i ns Hi Hns. specialize (Hn i Hi). rewrite Hns in Hn. unfold age_years in Hn.
  exists ((4 * ((today * ns_per_day - ns) / ns_per_day)) / 1461)%Z.
  split; [congruence|]. clear Hn.
  assert (HN : (0 < ns_per_day)%Z) by reflexivity.
  assert (Hneg : ((4 * ((today * ns_per_day - ns) / ns_per_day)) / 1461 < 0
                  <-> today * ns_per_day < ns)%Z).
  { rewrite div_negative by lia.
    pose proof (div_negative (today * ns_per_day - ns) HN) as Hd.
    remember ((today * ns_per_day - ns) / ns_per_day)%Z as d.
    remember (today * ns_per_day)%Z as T. lia. }
  split; [exact Hneg|].
  remember ((4 * ((today * ns_per_day - ns) / ns_per_day)) / 1461)%Z as z.
  remember (today * ns_per_day)%Z as T. lia.
Qed.

End CustomerAge.

Lemma prepare_cliente_edad_sign_witness :
  @prepare_cliente run_pandas 20000 cliente_future (@parse_mdY run_pandas 30)
    = Some cliente_future_out /\
  exists z, nth 0 [Int (-5)]%Z NA = Int z /\ (z < 0)%Z.
Proof.
  split; [reflexivity|].
  destruct (@prepare_cliente_edad_sign run_pandas 20000 (@parse_mdY run_pandas 30)
              cliente_future cliente_future_out eq_refl)
    as [nacimiento [edad [Hn [He Hall]]]].
  inversion Hn. inversion He. subst nacimiento edad.
  destruct (Hall 0 (21551 * ns_per_day)%Z) as [z [Hz [Hneg _]]];
    [simpl; lia | reflexivity |].
  exists z. split; [exact Hz|]. apply Hneg. reflexivity.
Defined.

(** ** [run_pipeline]: what reaches the file system *)

Lemma io_bind_lift {A B : Type} (o : option A) (k : A -> IO B) :
  io_bind (io_lift o) k = match o with
                          | Some a => k a
                          | None => ([], None)
                          end.
Proof.
  destruct o as [a|]; [|reflexivity].
  unfold io_bind, io_lift. destruct (k a) as [es r]. reflexivity.
Qed.

Lemma io_bind_do {B : Type} (e : effect) (k : unit -> IO B) :
  io_bind (io_do e) k = (e :: fst (k tt), snd (k tt)).
Proof. unfold io_bind, io_do. destruct (k tt) as [es r]. reflexivity. Qed.

Section PipelineRuns.
Context {P : Pandas}.
Variable read_csv : string -> option string -> option DataFrame.
Variable today : Z.


End PipelineRuns.

(** ** The cleaned tables, enriched: the sentinel rows are labelled OTHER *)

Lemma cell_eqb_sym (a b : cell) : cell_eqb a b = cell_eqb b a.
Proof.
  destruct (cell_eqb a b) eqn:E.
  - rewrite (@cell_eqb_trans a b a E). symmetry. apply cell_eqb_refl.
  - destruct (cell_eqb b a) eqn:E'; [|reflexivity].
    rewrite (@cell_eqb_trans b a b E'), cell_eqb_refl in E. discriminate.
Qed.

Lemma distinct_cells_tail (c : cell) (s : Series) :
  distinct_cells (c :: s) -> distinct_cells s.
Proof. intros H i j Hij. apply (H (S i) (S j)). simpl. lia. Qed.

(** With unique ids, looking up the id of a row finds the label of that
    row. *)
Lemma lookup_label_at (ids labs : Series) (i : nat) :
  distinct_cells ids -> List.length labs = List.length ids -> i < List.length ids ->
  lookup_label ids labs (nth i ids NA) = nth i labs NA.
Proof.
  revert labs i. induction ids as [|c ids IH]; intros [|l labs] i Hd Hl Hi;
    simpl in *; try lia.
  destruct i as [|i].
  - rewrite cell_eqb_refl. reflexivity.
  - assert (E : cell_eqb (nth i ids NA) c = false).
    { rewrite cell_eqb_sym. apply (Hd 0 (S i)). simpl. lia. }
    rewrite E. apply IH; [apply (distinct_cells_tail Hd) | lia | lia].
Qed.

Lemma columns_append_row (vals df : DataFrame) : columns (append_row vals df) = columns df.
Proof. unfold columns, append_row. rewrite map_map. reflexivity. Qed.

Lemma columns_set_col_present (c : string) (s s' : Series) (df : DataFrame) :
  get_col df c = Some s' -> columns (set_col c s df) = columns df.
Proof.
  intros H. rewrite columns_set_col.
  assert (E : has_col df c = true) by (apply get_col_has_col; eauto).
  rewrite E. reflexivity.
Qed.

Lemma two_columns (df : DataFrame) (a b : string) :
  columns df = [a; b] -> exists s t, df = [(a, s); (b, t)].
Proof.
  destruct df as [|[a' s] [|[b' t] [|x df]]]; simpl; intros H; try discriminate.
  inversion H. subst. eauto.
Qed.

Section Composition.
Context {P : Pandas}.

Lemma columns_prepare_dimension (label : string) (dim out : DataFrame) (other_id : Z) :
  String.eqb label "id" = false ->
  prepare_dimension label dim = Some (out, other_id) -> columns out = columns dim.
Proof.
  intros Hlab H.
  destruct (prepare_dimension_steps _ _ Hlab H)
    as [ids0 [labs0 [m1 [m2 [dim3 [ids3 [ids4 Hs]]]]]]].
  cbv zeta in Hs.
  destruct Hs as [Hids0 [Hlabs0 [_ [_ [Hcase [Hids3 [_ [Hout _]]]]]]]].
  rewrite Hout, (columns_set_col_present _ _ _ Hids3).
  assert (Hd2 : columns (filter_rows m2 (filter_rows m1
                  (set_col label (map normalize_text labs0) dim))) = columns dim).
  { rewrite !columns_filter_rows. apply (columns_set_col_present _ _ _ Hlabs0). }
  destruct Hcase as [[_ [-> _]] | [_ [-> _]]]; [exact Hd2|].
  rewrite columns_append_row. exact Hd2.
Qed.

Lemma prepare_producto_shape (producto out : DataFrame) (other_brand_id other_cat_id : Z) :
  rectangular producto ->
  prepare_producto producto other_brand_id other_cat_id = Some out ->
  rectangular out /\ columns out = columns producto.
Proof.
  intros Hrect H. unfold prepare_producto in H.
  bind_inv H. rename x into staged, E into Hstaged.
  bind_inv H. rename x into imp, E into Himp.
  bind_inv H. rename x into both, E into Hboth.
  bind_inv H. rename x into bym, E into Hbym.
  pose proof (@staged_shape _ producto staged Hstaged Hrect) as Rs.
  destruct (@impute_precio_shape staged imp Himp Rs) as [Ri _].
  destruct (@both_na_to_other_rows other_brand_id other_cat_id imp both Hboth Ri)
    as [m0 [c0 [m1 [c1 [_ [_ [_ [_ [Rb _]]]]]]]]].
  destruct (@categoria_by_mode_rows other_cat_id both bym Hbym Rb)
    as [c1' [modes [c2 [_ [_ [_ [Ry _]]]]]]].
  destruct (@final_casts_rows _ other_brand_id other_cat_id bym out H Ry) as [Ro _].
  split; [assumption|].
  (* the names *)
  assert (C1 : columns staged = columns producto).
  { unfold drop_unusable in Hstaged. bind_inv Hstaged. bind_inv Hstaged.
    inversion Hstaged. rewrite columns_filter_rows. unfold coerce_numeric.
    cbn [fold_left]. rewrite !columns_update_if_present.
    unfold drop_duplicates. apply columns_filter_rows. }
  assert (C2 : columns imp = columns staged).
  { unfold impute_precio in Himp.
    bind_inv Himp. bind_inv Himp. bind_inv Himp. bind_inv Himp. bind_inv Himp.
    rewrite (@columns_update_col _ _ _ _ Himp), (@columns_update_col _ _ _ _ E3),
      (@columns_update_col _ _ _ _ E1), (@columns_update_col _ _ _ _ E0). reflexivity. }
  assert (C3 : columns both = columns imp).
  { unfold both_na_to_other in Hboth. bind_inv Hboth. bind_inv Hboth.
    destruct (existsb _ _); inversion Hboth; [|reflexivity].
    rewrite columns_set_col_present with (s' := x0)
      by (rewrite get_col_set_col_other by reflexivity; assumption).
    apply (columns_set_col_present _ _ _ E). }
  assert (C4 : columns bym = columns both).
  { unfold categoria_by_mode in Hbym. bind_inv Hbym. bind_inv Hbym.
    rewrite (@columns_update_col _ _ _ _ Hbym), (@columns_update_col _ _ _ _ E0).
    reflexivity. }
  assert (C5 : columns out = columns bym).
  { unfold final_casts in H.
    bind_inv H. bind_inv H. bind_inv H. bind_inv H. bind_inv H. bind_inv H.
    rewrite (@columns_update_col _ _ _ _ H).
    rewrite (columns_set_col_present _ _ _ E3), (columns_set_col_present _ _ _ E1).
    apply (columns_set_col_present _ _ _ E). }
  congruence.
Qed.

(** The sentinel of a cleaned dimension table with unique ids is looked up
    as OTHER. *)
Lemma lookup_sentinel (label : string) (dim out : DataFrame) (other_id : Z)
    (ids labs : Series) :
  String.eqb label "id" = false -> rectangular dim ->
  prepare_dimension label dim = Some (out, other_id) ->
  out = [("id", ids); (label, labs)] -> distinct_cells ids ->
  lookup_label ids labs (Int other_id) = Str "OTHER".
Proof.
  intros Hlab Hrect H Hout Hd.
  destruct (@prepare_dimension_sentinel _ label dim out other_id Hlab Hrect H)
    as [ids0 [labs0 [ids' [labs' Hs]]]].
  cbv zeta in Hs. destruct Hs as [_ [_ [Hi [Hl [Hlen [[i [Hi1 [Hi2 [Hi3 _]]]] _]]]]]].
  subst out. simpl in Hi, Hl. rewrite Hlab, String.eqb_refl in Hl.
  inversion Hi. inversion Hl. subst ids' labs'.
  rewrite <- Hi3, <- Hi2. apply lookup_label_at; [assumption | congruence | lia].
Qed.

(** X17.  The cleaning and the enrichment, composed as [run_pipeline]
    composes them, on a category and a brand table of two columns whose
    cleaned ids are unique: the enrichment returns, its columns "marca" and
    "categoria" have one label for every cleaned product, and a product
    whose cleaned key is the sentinel is labelled "OTHER". *)
Theorem cleaned_products_labelled_other
    (categoria marca producto categoria' marca' producto' : DataFrame)
    (other_cat_id other_brand_id : Z) :
  rectangular categoria -> rectangular marca -> rectangular producto ->
  columns categoria = ["id"; "categoria"] -> columns marca = ["id"; "marca"] ->
  In "id" (columns producto) ->
  (forall c, In c ["marca"; "categoria"; "_merge"; "id_x"; "id_y"] ->
     ~ In c (columns producto)) ->
  prepare_categoria categoria = Some (categoria', other_cat_id) ->
  prepare_marca marca = Some (marca', other_brand_id) ->
  prepare_producto producto other_brand_id other_cat_id = Some producto' ->
  (forall ids, get_col categoria' "id" = Some ids -> distinct_cells ids) ->
  (forall ids, get_col marca' "id" = Some ids -> distinct_cells ids) ->
  exists enriched pmarca pcat lmarca lcat,
    enrich_producto_with_marca_categoria producto' marca' categoria' = Some enriched /\
    get_col producto' "marca_id" = Some pmarca /\
    get_col producto' "categoria_id" = Some pcat /\
    get_col enriched "marca" = Some lmarca /\
    get_col enriched "categoria" = Some lcat /\
    List.length lmarca = List.length pmarca /\
    List.length lcat = List.length pcat /\
    forall i,
      (i < List.length pmarca -> nth i pmarca NA = Int other_brand_id ->
       nth i lmarca NA = Str "OTHER") /\
      (i < List.length pcat -> nth i pcat NA = Int other_cat_id ->
       nth i lcat NA = Str "OTHER").
Proof.
  intros Rc Rm Rp Cc Cm Hid Hno Hc Hm Hp Dc Dm.
  unfold prepare_categoria in Hc. unfold prepare_marca in Hm.
  pose proof (@columns_prepare_dimension "categoria" _ _ _ eq_refl Hc) as Cc'.
  pose proof (@columns_prepare_dimension "marca" _ _ _ eq_refl Hm) as Cm'.
  rewrite Cc in Cc'. rewrite Cm in Cm'.
  apply two_columns in Cc'. destruct Cc' as [cids [clabs Ec]].
  apply two_columns in Cm'. destruct Cm' as [mids [mlabs Em]].
  assert (Dc' : distinct_cells cids) by (apply Dc; rewrite Ec; reflexivity).
  assert (Dm' : distinct_cells mids) by (apply Dm; rewrite Em; reflexivity).
  pose proof (@lookup_sentinel "categoria" _ _ _ cids clabs eq_refl Rc Hc Ec Dc') as Lc.
  pose proof (@lookup_sentinel "marca" _ _ _ mids mlabs eq_refl Rm Hm Em Dm') as Lm.
  destruct (@prepare_producto_shape producto producto' other_brand_id other_cat_id Rp Hp) as [Rp' Cp'].
  destruct (@prepare_producto_key_rows _ other_brand_id other_cat_id producto producto' Rp Hp)
    as [staged [cat0 [marca0 [vol0 [pcat [pmarca [_ [_ [_ [_ [Gc [Gm _]]]]]]]]]]]].
  rewrite <- Cp' in Hid, Hno.
  pose proof (@enrich_lookup producto' mids mlabs cids clabs pmarca pcat
                Rp' Gm Gc Hid Hno Dm' Dc') as He.
  rewrite <- Em, <- Ec in He.
  eexists. exists pmarca, pcat.
  exists (map (lookup_label mids mlabs) pmarca), (map (lookup_label cids clabs) pcat).
  split; [exact He|]. split; [assumption|]. split; [assumption|].
  assert (Nm : get_col producto' "marca" = None).
  { apply has_col_get_col_None. destruct (has_col producto' "marca") eqn:E; [|reflexivity].
    apply has_col_In in E. exfalso. revert E. apply Hno. simpl. auto. }
  assert (Nc : get_col producto' "categoria" = None).
  { apply has_col_get_col_None.
    destruct (has_col producto' "categoria") eqn:E; [|reflexivity].
    apply has_col_In in E. exfalso. revert E. apply Hno. simpl. auto. }
  split; [|split; [|split; [|split]]].
  - rewrite get_col_app, get_col_drop_cols. cbn [existsb].
    change (String.eqb "marca" "marca_id") with false.
    change (String.eqb "marca" "categoria_id") with false. cbn [orb].
    rewrite Nm. reflexivity.
  - rewrite get_col_app, get_col_drop_cols. cbn [existsb].
    change (String.eqb "categoria" "marca_id") with false.
    change (String.eqb "categoria" "categoria_id") with false. cbn [orb].
    rewrite Nc. reflexivity.
  - apply length_map.
  - apply length_map.
  - intros i. split; intros Hi Hk; rewrite map_nth_NA by assumption; rewrite Hk; assumption.
Qed.

End Composition.

Lemma categoria_raw_example_rectangular : rectangular categoria_raw_example.
Proof. intros cs H. simpl in H. repeat (destruct H as [<- | H]; [reflexivity|]). destruct H. Qed.

Lemma marca_raw_example_rectangular : rectangular marca_raw_example.
Proof. intros cs H. simpl in H. repeat (destruct H as [<- | H]; [reflexivity|]). destruct H. Qed.

Lemma producto_raw_example_rectangular : rectangular producto_raw_example.
Proof. intros cs H. simpl in H. repeat (destruct H as [<- | H]; [reflexivity|]). destruct H. Qed.

Lemma cleaned_products_labelled_other_witness :
  @prepare_categoria run_pandas categoria_raw_example = Some (categoria_clean_example, 3%Z) /\
  @prepare_marca run_pandas marca_raw_example = Some (marca_clean_example, 3%Z) /\
  @prepare_producto run_pandas producto_raw_example 3 3 = Some producto_raw_example_out /\
  exists enriched lmarca lcat,
    enrich_producto_with_marca_categoria producto_raw_example_out
      marca_clean_example categoria_clean_example = Some enriched /\
    get_col enriched "marca" = Some lmarca /\
    get_col enriched "categoria" = Some lcat /\
    nth 0 lmarca NA = Str "OTHER" /\ nth 1 lcat NA = Str "OTHER".
Proof.
  split; [reflexivity|]. split; [reflexivity|]. split; [reflexivity|].
  assert (Hid : In "id" (columns producto_raw_example)) by (simpl; tauto).
  assert (Hfree : forall c, In c ["marca"; "categoria"; "_merge"; "id_x"; "id_y"] ->
                    ~ In c (columns producto_raw_example)).
  { intros c Hc. simpl in Hc. simpl.
    repeat (destruct Hc as [<- | Hc];
            [intros H; repeat (destruct H as [H | H]; [discriminate H|]); destruct H|]).
    destruct Hc. }
  assert (Hdc : forall ids, get_col categoria_clean_example "id" = Some ids ->
                  distinct_cells ids).
  { intros ids H. inversion H. distinct_by_cases. }
  assert (Hdm : forall ids, get_col marca_clean_example "id" = Some ids ->
                  distinct_cells ids).
  { intros ids H. inversion H. distinct_by_cases. }
  destruct (@cleaned_products_labelled_other run_pandas
              categoria_raw_example marca_raw_example producto_raw_example
              categoria_clean_example marca_clean_example producto_raw_example_out
              3%Z 3%Z
              categoria_raw_example_rectangular marca_raw_example_rectangular
              producto_raw_example_rectangular eq_refl eq_refl Hid Hfree
              eq_refl eq_refl eq_refl Hdc Hdm)
    as [enriched [pmarca [pcat [lmarca [lcat [He [Hpm [Hpc [Hlm [Hlc [_ [_ Hall]]]]]]]]]]]].
  inversion Hpm. inversion Hpc. subst pmarca pcat.
  exists enriched, lmarca, lcat.
  split; [exact He|]. split; [exact Hlm|]. split; [exact Hlc|]. split.
  - apply (proj1 (Hall 0)); [simpl; lia | reflexivity].
  - apply (proj2 (Hall 1)); [simpl; lia | reflexivity].
Defined.

(** ** The three views of [merge_events_with_entities] *)

Lemma get_col_In_pair (df : DataFrame) (c : string) (s : Series) :
  get_col df c = Some s -> In (c, s) df.
Proof.
  induction df as [|[c' s'] df IH]; simpl; [discriminate|].
  destruct (String.eqb c c') eqn:E.
  - apply String.eqb_eq in E. intros H. inversion H. subst. left. reflexivity.
  - intros H. right. apply IH. assumption.
Qed.

Lemma matches_at_most_one (ids : Series) (k : list cell) :
  distinct_cells ids -> List.length (matches k (map (fun c => [c]) ids)) <= 1.
Proof.
  intros Hd. destruct k as [|c [|c' k']]; [ | apply matches_unique; assumption | ];
    (destruct (matches _ (map (fun c0 : cell => [c0]) ids)) as [|j js] eqn:E;
     [simpl; lia|]; exfalso;
     assert (Hj : In j (matches _ (map (fun c0 : cell => [c0]) ids)))
       by (rewrite E; left; reflexivity);
     apply matches_In in Hj; destruct Hj as [Hj1 Hj2];
     rewrite length_map in Hj1;
     rewrite (nth_indep _ [] [NA]) in Hj2 by (rewrite length_map; assumption);
     rewrite (map_nth (fun c0 => [c0])) in Hj2; simpl in Hj2;
     try discriminate; rewrite andb_false_r in Hj2; discriminate).
Qed.

(** A left join on unique right keys keeps the left table as it is, but for
    the names, and adds columns of its height. *)
Lemma merge_left_unique (left right out : DataFrame) (left_on right_on : string)
    (rk : Series) :
  rectangular left ->
  get_col right right_on = Some rk -> distinct_cells rk ->
  merge_left left right left_on right_on = Some out ->
  exists rest,
    out = map (fun cs => (suffixed (columns right) "_x" (fst cs), snd cs)) left ++ rest /\
    forall cs, In cs rest -> List.length (snd cs) = nrows left.
Proof.
  intros Hrect Hrk Hd H.
  apply merge_left_Some in H.
  destruct H as [lk [rk' [Hlk [Hrk' [_ [_ Hout]]]]]].
  rewrite Hrk in Hrk'. inversion Hrk'. subst rk'. clear Hrk'.
  cbv zeta in Hout.
  rewrite left_pairs_unique in Hout by (intros k; apply matches_at_most_one; assumption).
  set (pairs := map _ (combine _ _)) in Hout.
  assert (Hlen : List.length pairs = nrows left).
  { unfold pairs. rewrite length_map, length_combine, length_seq, !length_map, Nat.min_id.
    apply (rectangular_get_col _ Hrect Hlk). }
  assert (Hleft : forall s : Series, List.length s = List.length lk ->
            map (fun p : option nat * option nat => take s (fst p)) pairs = s).
  { intros s Hs. unfold pairs. rewrite map_map. cbn [fst take].
    rewrite <- (map_map fst (fun i => nth i s NA)).
    rewrite map_fst_combine_seq.
    rewrite length_map, <- Hs. apply map_nth_seq_all. }
  eexists. split.
  - rewrite Hout. f_equal. apply map_ext_in. intros cs Hin. f_equal. apply Hleft.
    rewrite (Hrect _ Hin). symmetry. apply (rectangular_get_col _ Hrect Hlk).
  - intros cs Hin. apply in_app_or in Hin. destruct Hin as [Hin | [<- | []]].
    + apply in_map_iff in Hin. destruct Hin as [cs' [<- _]]. cbn [snd].
      rewrite length_map. assumption.
    + cbn [snd]. rewrite length_map. assumption.
Qed.

(** One view: the events joined with a table of unique ids, the column "id"
    dropped and the indicator renamed. *)
Lemma view_of_events (events right out view : DataFrame) (key new c : string)
    (rk s : Series) :
  rectangular events ->
  get_col right "id" = Some rk -> distinct_cells rk ->
  merge_left events right key "id" = Some out ->
  drop_cols_raise ["id"] out = Some view ->
  get_col events c = Some s -> ~ In c (columns right) ->
  has_suffix "_x" c = false -> c <> "id" -> c <> "_merge" -> c <> new ->
  get_col (rename_col "_merge" new view) c = Some s /\
  forall cs, In cs (rename_col "_merge" new view) -> List.length (snd cs) = nrows events.
Proof.
  intros Hrect Hrk Hd Hm Hdrop Hc Hnot Hsuf Hid Hmerge Hnew.
  destruct (@merge_left_unique events right out key "id" rk Hrect Hrk Hd Hm)
    as [rest [Hout Hrest]].
  unfold drop_cols_raise in Hdrop.
  destruct (forallb (has_col out) ["id"]); [|discriminate].
  inversion Hdrop. subst view. clear Hdrop. split.
  - unfold rename_col.
    rewrite (@get_col_map_names (fun n => if String.eqb n "_merge" then new else n)).
    + rewrite get_col_drop_cols. cbn [existsb].
      apply String.eqb_neq in Hid. rewrite Hid. cbn [orb].
      rewrite Hout, get_col_app.
      rewrite (@get_col_map_names (suffixed (columns right) "_x")).
      * rewrite Hc. reflexivity.
      * intros c' _ E. apply suffixed_is in E; [|assumption]. apply E.
      * apply suffixed_absent. assumption.
    + intros c' _ E. destruct (String.eqb c' "_merge"); [congruence | assumption].
    + apply String.eqb_neq in Hmerge. rewrite Hmerge. reflexivity.
  - intros cs Hin. unfold rename_col in Hin. apply in_map_iff in Hin.
    destruct Hin as [cs' [<- Hin]]. cbn [snd].
    unfold drop_cols in Hin. apply filter_In in Hin. destruct Hin as [Hin _].
    rewrite Hout in Hin. apply in_app_or in Hin. destruct Hin as [Hin | Hin].
    + apply in_map_iff in Hin. destruct Hin as [cs'' [<- Hin]]. cbn [snd].
      apply Hrect. assumption.
    + apply Hrest. assumption.
Qed.

Lemma select_cols_get (names : list string) (df out : DataFrame) (c : string) :
  select_cols names df = Some out -> In c names -> get_col out c = get_col df c.
Proof.
  unfold select_cols. revert out.
  induction names as [|a names IH]; intros out H Hin; [destruct Hin|].
  simpl in H. bind_inv H. bind_inv H. bind_inv E. inversion E. subst x. clear E.
  inversion H. subst out. clear H. simpl.
  destruct (String.eqb c a) eqn:Eca.
  - apply String.eqb_eq in Eca. subst c. symmetry. assumption.
  - destruct Hin as [-> | Hin]; [rewrite String.eqb_refl in Eca; discriminate|].
    apply IH; assumption.
Qed.

Lemma select_cols_In (names : list string) (df out : DataFrame) (cs : string * Series) :
  select_cols names df = Some out -> In cs out -> In cs df.
Proof.
  unfold select_cols. revert out.
  induction names as [|a names IH]; intros out H Hin.
  - inversion H. subst out. destruct Hin.
  - simpl in H. bind_inv H. bind_inv H. bind_inv E. inversion E. subst x. clear E.
    inversion H. subst out. clear H. destruct Hin as [<- | Hin].
    + apply get_col_In_pair. assumption.
    + apply (IH x0); [assumption | assumption].
Qed.

Lemma filter_mask_map_self {A : Type} (p : A -> bool) (l : list A) :
  filter_mask (map p l) l = filter p l.
Proof.
  induction l as [|a l IH]; simpl; [reflexivity|]. rewrite IH. reflexivity.
Qed.

Lemma matches_rows_of (cols : list Series) (n : nat) (k : list cell) :
  matches k (rows_of n cols) = filter (fun j => row_eqb k (row_of cols j)) (seq 0 n).
Proof.
  unfold matches, rows_of. rewrite length_map, length_seq, map_map.
  apply filter_mask_map_self.
Qed.

Lemma right_only_same (keys : list (list cell)) : right_only keys keys = [].
Proof.
  unfold right_only.
  assert (H : forall l : list (nat * list cell),
            (forall jk, In jk l -> In (snd jk) keys) ->
            flat_map (fun jk : nat * list cell =>
                        if existsb (row_eqb (snd jk)) keys then []
                        else [(@None nat, Some (fst jk))]) l = []).
  { induction l as [|jk l IH]; intros Hl; [reflexivity|]. simpl.
    rewrite IH by (intros jk' Hjk'; apply Hl; right; assumption).
    assert (E : existsb (row_eqb (snd jk)) keys = true).
    { apply existsb_exists. exists (snd jk). split; [apply Hl; left; reflexivity|].
      apply row_eqb_refl. }
    rewrite E. reflexivity. }
  apply H. intros [j k] Hjk. apply in_combine_r in Hjk. assumption.
Qed.

Lemma left_pairs_same_length (keys : list (list cell)) :
  List.length (left_pairs keys keys)
  = list_sum (map (fun k => List.length (matches k keys)) keys).
Proof.
  unfold left_pairs. rewrite length_flat_map.
  assert (E : map (fun k => List.length (matches k keys)) keys
              = map (fun ik : nat * list cell => List.length (matches (snd ik) keys))
                    (combine (seq 0 (List.length keys)) keys)).
  { rewrite <- (map_map snd (fun k => List.length (matches k keys))).
    rewrite map_snd_combine_seq. reflexivity. }
  rewrite E. f_equal. apply map_ext_in. intros [i k] Hin. cbn [snd fst].
  apply in_combine_r in Hin.
  destruct (matches k keys) as [|j js] eqn:Em.
  - exfalso. destruct (In_nth _ _ [] Hin) as [m [Hm Hk]].
    assert (Hj : In m (matches k keys)).
    { apply matches_In. split; [assumption|]. rewrite Hk. apply row_eqb_refl. }
    rewrite Em in Hj. destruct Hj.
  - rewrite length_map. reflexivity.
Qed.

Lemma same_pair_rows (visitorid itemid : Series) (i j : nat) :
  row_eqb (row_of [visitorid; itemid] i) (row_of [visitorid; itemid] j)
  = same_pair visitorid itemid i j.
Proof. unfold same_pair. simpl. rewrite andb_true_r. reflexivity. Qed.

Lemma outer_pairs_length (visitorid itemid : Series) (n : nat) :
  let keys := rows_of n [visitorid; itemid] in
  List.length (left_pairs keys keys ++ right_only keys keys)
  = list_sum (map (pair_count visitorid itemid n) (seq 0 n)).
Proof.
  intros keys. rewrite right_only_same, app_nil_r, left_pairs_same_length.
  unfold keys at 2. unfold rows_of. rewrite map_map. f_equal.
  apply map_ext. intros i. unfold keys. rewrite matches_rows_of.
  unfold pair_count. f_equal. apply filter_ext. intros j. apply same_pair_rows.
Qed.

Lemma same_pair_refl (visitorid itemid : Series) (i : nat) :
  same_pair visitorid itemid i i = true.
Proof. unfold same_pair. rewrite !cell_eqb_refl. reflexivity. Qed.

Lemma same_pair_sym (visitorid itemid : Series) (i j : nat) :
  same_pair visitorid itemid i j = same_pair visitorid itemid j i.
Proof.
  unfold same_pair.
  rewrite (cell_eqb_sym (nth i visitorid NA)), (cell_eqb_sym (nth i itemid NA)).
  reflexivity.
Qed.

Lemma pair_count_pos (visitorid itemid : Series) (n i : nat) :
  i < n -> 1 <= pair_count visitorid itemid n i.
Proof.
  intros Hi. unfold pair_count.
  assert (H : In i (filter (same_pair visitorid itemid i) (seq 0 n))).
  { apply filter_In. split; [apply in_seq; lia | apply same_pair_refl]. }
  destruct (filter _ _); [destruct H | simpl; lia].
Qed.

Lemma pair_count_two (visitorid itemid : Series) (n i j : nat) :
  i < n -> j < n -> i <> j -> same_pair visitorid itemid i j = true ->
  2 <= pair_count visitorid itemid n i.
Proof.
  intros Hi Hj Hij Hs. unfold pair_count.
  change 2 with (List.length [i; j]). apply NoDup_incl_length.
  - constructor; [simpl; intros [E | []]; congruence|]. constructor; [simpl; tauto | constructor].
  - intros m [<- | [<- | []]]; apply filter_In; split;
      try (apply in_seq; lia); [apply same_pair_refl | assumption].
Qed.

Lemma pair_count_one (visitorid itemid : Series) (n i : nat) :
  i < n -> (forall j, j < n -> j <> i -> same_pair visitorid itemid i j = false) ->
  pair_count visitorid itemid n i = 1.
Proof.
  intros Hi Hother. apply Nat.le_antisymm; [|apply pair_count_pos; assumption].
  unfold pair_count. change 1 with (List.length [i]). apply NoDup_incl_length.
  - apply NoDup_filter, seq_NoDup.
  - intros m Hm. apply filter_In in Hm. destruct Hm as [Hm Hs]. apply in_seq in Hm.
    destruct (Nat.eq_dec m i) as [-> | Hne]; [left; reflexivity|].
    rewrite Hother in Hs by (try lia; assumption). discriminate.
Qed.

Lemma list_sum_at_least (f : nat -> nat) (l : list nat) :
  (forall i, In i l -> 1 <= f i) -> List.length l <= list_sum (map f l).
Proof.
  induction l as [|a l IH]; intros H; simpl; [lia|].
  specialize (H a (or_introl eq_refl)) as Ha.
  specialize (IH (fun i Hi => H i (or_intror Hi))). lia.
Qed.

Lemma list_sum_more (f : nat -> nat) (l : list nat) (a : nat) :
  (forall i, In i l -> 1 <= f i) -> In a l -> 2 <= f a ->
  List.length l < list_sum (map f l).
Proof.
  induction l as [|b l IH]; intros H Hin Ha; [destruct Hin|]. simpl.
  assert (Hl := list_sum_at_least f l (fun i Hi => H i (or_intror Hi))).
  destruct Hin as [-> | Hin]; [lia|].
  specialize (IH (fun i Hi => H i (or_intror Hi)) Hin Ha).
  specialize (H b (or_introl eq_refl)). lia.
Qed.

Lemma list_sum_ones (f : nat -> nat) (l : list nat) :
  (forall i, In i l -> f i = 1) -> list_sum (map f l) = List.length l.
Proof.
  induction l as [|a l IH]; intros H; simpl; [reflexivity|].
  rewrite (H a (or_introl eq_refl)), IH by (intros i Hi; apply H; right; assumption).
  reflexivity.
Qed.

Lemma merge_outer_nrows (left right out : DataFrame) (keys : list string)
    (lk rk : list Series) :
  left <> [] ->
  mapM (get_col left) keys = Some lk -> mapM (get_col right) keys = Some rk ->
  merge_outer left right keys = Some out ->
  nrows out = List.length (left_pairs (rows_of (nrows left) lk) (rows_of (nrows right) rk)
                           ++ right_only (rows_of (nrows left) lk) (rows_of (nrows right) rk)).
Proof.
  intros Hne Hlk Hrk H. unfold merge_outer in H. rewrite Hlk, Hrk in H. cbn [bind] in H.
  remember (left_pairs (rows_of (nrows left) lk) (rows_of (nrows right) rk)
            ++ right_only (rows_of (nrows left) lk) (rows_of (nrows right) rk))
    as pairs eqn:Hp.
  clear Hp. inversion H. clear H.
  destruct left as [|cs left']; [congruence|].
  cbn [map app nrows].
  match goal with |- context [if ?b then _ else _] => destruct b end;
    cbn beta iota; apply length_map.
Qed.

(** X18.  The sizes of the three views, for events, products and customers
    with integer keys and unique product and customer ids.  The
    Event-Product and the Event-Customer view have one row for every event.
    The unified view pairs every event with every event of the same visitor
    and item: it has as many rows as there are such pairs of events, at
    least one for every event, exactly one when no two events share visitor
    and item, and more rows than there are events as soon as two do. *)
Theorem merge_events_row_counts
    (events producto_enriq cliente events1 events2 eventos3 : DataFrame)
    (visitorid itemid pids cids : Series) :
  rectangular events ->
  get_col events "visitorid" = Some visitorid ->
  get_col events "itemid" = Some itemid ->
  get_col producto_enriq "id" = Some pids ->
  get_col cliente "id" = Some cids ->
  distinct_cells pids -> distinct_cells cids ->
  all_int visitorid -> all_int itemid -> all_int pids -> all_int cids ->
  (forall c, In c ["visitorid"; "itemid"] ->
     ~ In c (columns producto_enriq) /\ ~ In c (columns cliente)) ->
  merge_events_with_entities events producto_enriq cliente
    = Some (events1, events2, eventos3) ->
  let n := nrows events in
  nrows events1 = n /\ nrows events2 = n /\
  nrows eventos3 = list_sum (map (pair_count visitorid itemid n) (seq 0 n)) /\
  n <= nrows eventos3 /\
  ((forall i j, i < j < n -> same_pair visitorid itemid i j = false) ->
   nrows eventos3 = n) /\
  ((exists i j, i < j < n /\ same_pair visitorid itemid i j = true) ->
   n < nrows eventos3).
Proof.
  intros Hrect Hvis Hitem Hpid Hcid Hdp Hdc _ _ _ _ Hfree H n.
  destruct (Hfree "visitorid" (or_introl eq_refl)) as [Hvp Hvc].
  destruct (Hfree "itemid" (or_intror (or_introl eq_refl))) as [Hip Hic].
  unfold merge_events_with_entities in H.
  apply bind_Some in H. destruct H as [m1 [Hm1 H]].
  apply bind_Some in H. destruct H as [d1 [Hd1 H]].
  apply bind_Some in H. destruct H as [m2 [Hm2 H]].
  apply bind_Some in H. destruct H as [d2 [Hd2 H]].
  cbv zeta in H.
  apply bind_Some in H. destruct H as [right [Hsel H]].
  apply bind_Some in H. destruct H as [e3 [Hout H]].
  inversion H. subst events1 events2 eventos3. clear H.
  set (e1 := rename_col "_merge" "event+producto" d1) in *.
  set (e2 := rename_col "_merge" "event+cliente" d2) in *.
  (* the two key columns of both views are those of the events *)
  destruct (@view_of_events events producto_enriq m1 d1 "itemid" "event+producto"
              "visitorid" pids visitorid Hrect Hpid Hdp Hm1 Hd1 Hvis Hvp eq_refl
              ltac:(discriminate) ltac:(discriminate) ltac:(discriminate))
    as [Hv1 Hlen1].
  destruct (@view_of_events events producto_enriq m1 d1 "itemid" "event+producto"
              "itemid" pids itemid Hrect Hpid Hdp Hm1 Hd1 Hitem Hip eq_refl
              ltac:(discriminate) ltac:(discriminate) ltac:(discriminate))
    as [Hi1 _].
  destruct (@view_of_events events cliente m2 d2 "visitorid" "event+cliente"
              "visitorid" cids visitorid Hrect Hcid Hdc Hm2 Hd2 Hvis Hvc eq_refl
              ltac:(discriminate) ltac:(discriminate) ltac:(discriminate))
    as [Hv2 Hlen2].
  destruct (@view_of_events events cliente m2 d2 "visitorid" "event+cliente"
              "itemid" cids itemid Hrect Hcid Hdc Hm2 Hd2 Hitem Hic eq_refl
              ltac:(discriminate) ltac:(discriminate) ltac:(discriminate))
    as [Hi2 _].
  fold e1 in Hv1, Hi1, Hlen1. fold e2 in Hv2, Hi2, Hlen2.
  assert (Hn1 : nrows e1 = n).
  { apply (@nrows_uniform e1 n "visitorid" visitorid Hlen1).
    apply get_col_In_pair. assumption. }
  assert (Hn2 : nrows e2 = n).
  { apply (@nrows_uniform e2 n "visitorid" visitorid Hlen2).
    apply get_col_In_pair. assumption. }
  (* the selection of the second view keeps the two keys *)
  assert (Hkeys2 : forall c s, In c ["visitorid"; "itemid"] -> get_col e2 c = Some s ->
            get_col right c = Some s).
  { intros c s Hc Hs. rewrite (select_cols_get _ _ c Hsel); [assumption|].
    apply filter_In. split.
    - apply has_col_In. apply get_col_has_col. eauto.
    - apply orb_true_iff. right. apply existsb_exists. exists c.
      split; [assumption | apply String.eqb_refl]. }
  assert (Hvr : get_col right "visitorid" = Some visitorid).
  { apply Hkeys2; [left; reflexivity | assumption]. }
  assert (Hir : get_col right "itemid" = Some itemid).
  { apply Hkeys2; [right; left; reflexivity | assumption]. }
  assert (Hnr : nrows right = n).
  { apply (@nrows_uniform right n "visitorid" visitorid).
    - intros cs Hin. apply Hlen2. apply (select_cols_In _ _ _ Hsel Hin).
    - apply get_col_In_pair. assumption. }
  assert (Hne : e1 <> []).
  { intros E. rewrite E in Hv1. discriminate. }
  assert (Hlk : mapM (get_col e1) ["visitorid"; "itemid"] = Some [visitorid; itemid]).
  { cbn [mapM]. rewrite Hv1, Hi1. reflexivity. }
  assert (Hrk : mapM (get_col right) ["visitorid"; "itemid"] = Some [visitorid; itemid]).
  { cbn [mapM]. rewrite Hvr, Hir. reflexivity. }
  assert (Hn3 : nrows e3 = list_sum (map (pair_count visitorid itemid n) (seq 0 n))).
  { rewrite (@merge_outer_nrows e1 right e3 ["visitorid"; "itemid"]
               [visitorid; itemid] [visitorid; itemid] Hne Hlk Hrk Hout).
    rewrite Hn1, Hnr. apply outer_pairs_length. }
  assert (Hpos : forall i, In i (seq 0 n) -> 1 <= pair_count visitorid itemid n i).
  { intros i Hi. apply in_seq in Hi. apply pair_count_pos. lia. }
  split; [assumption|]. split; [assumption|]. split; [assumption|].
  rewrite Hn3. split.
  - pose proof (@list_sum_at_least (pair_count visitorid itemid n) (seq 0 n) Hpos) as Hle.
    rewrite length_seq in Hle. exact Hle.
  - split.
    + intros Hdist. rewrite list_sum_ones; [apply length_seq|].
      intros i Hi. apply in_seq in Hi. apply pair_count_one; [lia|].
      intros j Hj Hne'. destruct (Nat.lt_ge_cases i j) as [Hlt | Hge].
      * apply Hdist. lia.
      * rewrite same_pair_sym. apply Hdist. lia.
    + intros [i [j [Hij Hs]]].
      assert (Hin : In i (seq 0 n)) by (apply in_seq; lia).
      assert (Htwo : 2 <= pair_count visitorid itemid n i).
      { apply (@pair_count_two visitorid itemid n i j); [lia | lia | lia | assumption]. }
      pose proof (@list_sum_more (pair_count visitorid itemid n) (seq 0 n) i Hpos Hin Htwo)
        as Hlt.
      rewrite length_seq in Hlt. exact Hlt.
Qed.

Lemma events_example_rectangular : rectangular events_example.
Proof. intros cs H. simpl in H. repeat (destruct H as [<- | H]; [reflexivity|]). destruct H. Qed.

Lemma merge_events_row_counts_witness :
  merge_events_with_entities events_example producto_enriq_example cliente_clean_example
    = Some (events1_example, events2_example, eventos3_example) /\
  nrows events1_example = 3 /\ nrows events2_example = 3 /\
  nrows eventos3_example = 5 /\ 3 < nrows eventos3_example.
Proof.
  split; [reflexivity|].
  assert (Hfree : forall c, In c ["visitorid"; "itemid"] ->
            ~ In c (columns producto_enriq_example) /\
            ~ In c (columns cliente_clean_example)).
  { intros c [<- | [<- | []]]; split; simpl;
      intros H; repeat (destruct H as [H | H]; [discriminate H|]); destruct H. }
  destruct (@merge_events_row_counts events_example producto_enriq_example
              cliente_clean_example events1_example events2_example eventos3_example
              [Int 1; Int 2; Int 1]%Z [Int 5; Int 6; Int 5]%Z [Int 5; Int 7]%Z
              [Int 1; Int 3]%Z
              events_example_rectangular eq_refl eq_refl eq_refl eq_refl
              ltac:(distinct_by_cases) ltac:(distinct_by_cases)
              ltac:(all_int_by_cases) ltac:(all_int_by_cases)
              ltac:(all_int_by_cases) ltac:(all_int_by_cases)
              Hfree eq_refl)
    as [H1 [H2 [H3 [_ [_ H6]]]]].
  split; [exact H1|]. split; [exact H2|]. split; [exact H3|].
  apply H6. exists 0, 2. split; [simpl; lia | reflexivity].
Defined.

(** ** The columns of the unified view *)

Lemma NoDup_app_filter (l1 l2 : list string) :
  NoDup l1 -> NoDup l2 ->
  NoDup (l1 ++ filter (fun c => negb (existsb (String.eqb c) l1)) l2).
Proof.
  intros H1 H2. apply NoDup_app; [assumption | apply NoDup_filter; assumption|].
  intros c Hc Hf. apply filter_In in Hf. destruct Hf as [_ Hf].
  assert (E : existsb (String.eqb c) l1 = true).
  { apply existsb_exists. exists c. split; [assumption | apply String.eqb_refl]. }
  rewrite E in Hf. discriminate.
Qed.

Lemma existsb_eqb_In (c : string) (l : list string) :
  existsb (String.eqb c) l = true <-> In c l.
Proof.
  rewrite existsb_exists. split.
  - intros [x [Hx E]]. apply String.eqb_eq in E. subst. assumption.
  - intros H. exists c. split; [assumption | apply String.eqb_refl].
Qed.

Lemma mapM_get_col_In (df : DataFrame) (names : list string) (cols : list Series)
    (c : string) :
  mapM (get_col df) names = Some cols -> In c names -> In c (columns df).
Proof.
  revert cols. induction names as [|a names IH]; intros cols H Hin; [destruct Hin|].
  simpl in H. apply bind_Some in H. destruct H as [s [Hs H]].
  apply bind_Some in H. destruct H as [ss [Hss _]].
  destruct Hin as [<- | Hin].
  - apply has_col_In. apply get_col_has_col. eauto.
  - apply (IH ss); assumption.
Qed.

(** The names of an outer join on [keys] whose right table shares no other
    column name with the left one. *)
Lemma columns_merge_outer (left right out : DataFrame) (keys : list string) :
  merge_outer left right keys = Some out ->
  (forall c, In c (columns right) -> In c (columns left) -> In c keys) ->
  columns out = columns left
                ++ filter (fun c => negb (existsb (String.eqb c) keys)) (columns right).
Proof.
  intros H Hdisj. unfold merge_outer in H.
  apply bind_Some in H. destruct H as [lk [Hlk H]].
  apply bind_Some in H. destruct H as [rk [Hrk H]].
  cbv zeta in H. inversion H. clear H.
  remember (left_pairs (rows_of (nrows left) lk) (rows_of (nrows right) rk)
            ++ right_only (rows_of (nrows left) lk) (rows_of (nrows right) rk))
    as pairs eqn:Hp.
  clear Hp. unfold columns at 1. rewrite map_app, !map_map. f_equal.
  - unfold columns. apply map_ext_in. intros cs Hin.
    match goal with |- context [if ?b then _ else _] => destruct b eqn:Ek end;
      cbn [fst]; [reflexivity|].
    apply suffixed_absent. intros Hf. apply filter_In in Hf. destruct Hf as [Hr _].
    assert (Hk : In (fst cs) keys).
    { apply Hdisj; [assumption|]. unfold columns. apply in_map. assumption. }
    apply existsb_eqb_In in Hk. discriminate (eq_trans (eq_sym Hk) Ek).
  - unfold columns at 2.
    rewrite (filter_map_comm (fun c => negb (existsb (String.eqb c) keys)) fst right).
    apply map_ext_in. intros cs Hin. cbn [fst].
    apply filter_In in Hin. destruct Hin as [Hin Hk].
    apply suffixed_absent. intros Hf. apply filter_In in Hf. destruct Hf as [Hl _].
    assert (Hk' : In (fst cs) keys).
    { apply Hdisj; [|assumption]. unfold columns. apply in_map. assumption. }
    apply existsb_eqb_In in Hk'. apply negb_true_iff in Hk.
    discriminate (eq_trans (eq_sym Hk') Hk).
Qed.

Lemma get_col_map_cols (F : string * Series -> string * Series) (df : DataFrame)
    (c : string) (s : Series) :
  (forall cs, In cs df -> fst (F cs) = fst cs) ->
  get_col df c = Some s -> get_col (map F df) c = Some (snd (F (c, s))).
Proof.
  induction df as [|[c' s'] df IH]; intros HF H; [discriminate|].
  simpl in H. cbn [map].
  assert (Hn := HF (c', s') (or_introl eq_refl)). cbn [fst] in Hn.
  destruct (F (c', s')) as [n t] eqn:EF. cbn [fst] in Hn. subst n.
  cbn [get_col]. destruct (String.eqb c c') eqn:E.
  - apply String.eqb_eq in E. subst c'. inversion H. subst s'. rewrite EF. reflexivity.
  - apply IH; [|assumption]. intros cs Hcs. apply HF. right. assumption.
Qed.

Lemma get_col_app_map_cols (F : string * Series -> string * Series) (df rest : DataFrame)
    (c : string) (s : Series) :
  (forall cs, In cs df -> fst (F cs) = fst cs) ->
  get_col df c = Some s -> get_col (map F df ++ rest) c = Some (snd (F (c, s))).
Proof.
  intros HF H. rewrite get_col_app, (get_col_map_cols F df c HF H). reflexivity.
Qed.

(** A column of the left table that is no key: in the outer join it holds
    values of that column, and missing values. *)
Lemma merge_outer_left_col (left right out : DataFrame) (keys : list string)
    (c : string) (s s3 : Series) :
  merge_outer left right keys = Some out ->
  (forall c, In c (columns right) -> In c (columns left) -> In c keys) ->
  get_col left c = Some s -> ~ In c keys ->
  get_col out c = Some s3 ->
  forall x, In x s3 -> x = NA \/ In x s.
Proof.
  intros H Hdisj Hc Hk H3 x Hx. unfold merge_outer in H.
  apply bind_Some in H. destruct H as [lk [Hlk H]].
  apply bind_Some in H. destruct H as [rk [Hrk H]].
  cbv zeta in H.
  remember (left_pairs (rows_of (nrows left) lk) (rows_of (nrows right) rk)
            ++ right_only (rows_of (nrows left) lk) (rows_of (nrows right) rk))
    as pairs eqn:Hp.
  clear Hp. inversion H. clear H. subst out.
  match type of H3 with
  | get_col (map ?F left ++ ?rest) c = _ =>
      assert (E : Some (snd (F (c, s))) = Some s3);
      [ rewrite <- H3; symmetry; apply (@get_col_app_map_cols F left rest c s);
        [|assumption] |]
  end.
  - intros cs Hin.
    match goal with |- context [if ?b then _ else _] => destruct b eqn:Ek end;
      cbn [fst]; [reflexivity|].
    apply suffixed_absent. intros Hf. apply filter_In in Hf. destruct Hf as [Hr _].
    assert (Hk' : In (fst cs) keys).
    { apply Hdisj; [assumption|]. unfold columns. apply in_map. assumption. }
    apply existsb_eqb_In in Hk'. discriminate (eq_trans (eq_sym Hk') Ek).
  - cbn beta in E.
    assert (Ek : existsb (String.eqb c) keys = false).
    { destruct (existsb (String.eqb c) keys) eqn:E'; [|reflexivity].
      apply existsb_eqb_In in E'. contradiction. }
    cbn [fst snd] in E. rewrite Ek in E. cbn [snd] in E.
    inversion E. subst s3. clear E.
    apply in_map_iff in Hx. destruct Hx as [p [<- _]].
    destruct (fst p) as [i|]; cbn [take]; [|left; reflexivity].
    destruct (nth_in_or_default i s NA) as [Hin | ->]; [right; assumption | left; reflexivity].
Qed.

Lemma NoDup_get_col (df : DataFrame) (c : string) (s : Series) :
  NoDup (columns df) -> In (c, s) df -> get_col df c = Some s.
Proof.
  induction df as [|[c' s'] df IH]; intros Hnd Hin; [destruct Hin|].
  cbn [columns map fst] in Hnd. inversion Hnd as [|? ? Hnot Hnd']. subst.
  cbn [get_col]. destruct (String.eqb c c') eqn:E.
  - apply String.eqb_eq in E. subst c'. destruct Hin as [Hin | Hin]; [congruence|].
    exfalso. apply Hnot. apply (columns_In _ _ Hin).
  - destruct Hin as [Hin | Hin].
    + inversion Hin. subst. rewrite String.eqb_refl in E. discriminate.
    + apply IH; assumption.
Qed.

Lemma merge_outer_keys (left right out : DataFrame) (keys : list string) (c : string) :
  merge_outer left right keys = Some out -> In c keys -> In c (columns left).
Proof.
  intros H Hc. unfold merge_outer in H.
  apply bind_Some in H. destruct H as [lk [Hlk _]].
  apply (mapM_get_col_In _ _ c Hlk Hc).
Qed.

(** X19.  The columns of the unified view, when the two other views have
    no repeated column name: those of the Event-Product view, in their
    order, followed by the columns of the Event-Customer view that the
    Event-Product view does not name.  No name is repeated and none gets a
    suffix.  A product column (other than "id") that the events do not name
    is a column of the unified view under its own name, with values of the
    product column or missing values: so of a customer column with that
    name (as "nombre") nothing is in the unified view. *)
Theorem merge_events_unified_columns
    (events producto_enriq cliente events1 events2 eventos3 : DataFrame) :
  merge_events_with_entities events producto_enriq cliente
    = Some (events1, events2, eventos3) ->
  NoDup (columns events1) -> NoDup (columns events2) ->
  columns eventos3
    = columns events1
      ++ filter (fun c => negb (existsb (String.eqb c) (columns events1)))
                (columns events2) /\
  NoDup (columns eventos3) /\
  forall c sp, get_col producto_enriq c = Some sp -> c <> "id" ->
    ~ In c (columns events) ->
    exists s, get_col events1 c = Some s /\
      (forall x, In x s -> x = NA \/ In x sp) /\
      exists s3, get_col eventos3 c = Some s3 /\
        forall x, In x s3 -> x = NA \/ In x s.
Proof.
  intros H Hnd1 Hnd2.
  unfold merge_events_with_entities in H.
  apply bind_Some in H. destruct H as [m1 [Hm1 H]].
  apply bind_Some in H. destruct H as [d1 [Hd1 H]].
  apply bind_Some in H. destruct H as [m2 [Hm2 H]].
  apply bind_Some in H. destruct H as [d2 [Hd2 H]].
  cbv zeta in H.
  apply bind_Some in H. destruct H as [right [Hsel H]].
  apply bind_Some in H. destruct H as [e3 [Hout H]].
  inversion H. subst events1 events2 eventos3. clear H.
  set (e1 := rename_col "_merge" "event+producto" d1) in *.
  set (e2 := rename_col "_merge" "event+cliente" d2) in *.
  set (keys := ["visitorid"; "itemid"]) in *.
  assert (Hcols : columns right
                  = filter (fun c => negb (existsb (String.eqb c) (columns e1))
                                     || existsb (String.eqb c) keys) (columns e2)).
  { apply (select_cols_columns _ _ Hsel). }
  assert (Hdisj : forall c, In c (columns right) -> In c (columns e1) -> In c keys).
  { intros c Hr Hl. rewrite Hcols in Hr. apply filter_In in Hr. destruct Hr as [_ Hr].
    apply existsb_eqb_In in Hl. rewrite Hl in Hr. cbn [negb orb] in Hr.
    apply existsb_eqb_In. assumption. }
  assert (Hformula : columns e3
            = columns e1 ++ filter (fun c => negb (existsb (String.eqb c) (columns e1)))
                                   (columns e2)).
  { rewrite (columns_merge_outer _ _ _ Hout Hdisj). f_equal.
    rewrite Hcols, filter_twice. apply filter_ext_in. intros c _.
    destruct (existsb (String.eqb c) keys) eqn:Ek.
    - rewrite orb_true_r. cbn [negb andb].
      apply existsb_eqb_In in Ek. apply (merge_outer_keys _ _ _ c Hout) in Ek.
      apply existsb_eqb_In in Ek. rewrite Ek. reflexivity.
    - rewrite orb_false_r, andb_true_r. reflexivity. }
  split; [assumption|]. split.
  { rewrite Hformula. apply NoDup_app_filter; assumption. }
  intros c sp Hsp Hid Hev.
  apply merge_left_Some in Hm1.
  destruct Hm1 as [lk1 [rk1 [Hlk1 [_ [_ [Hnm1 Hm1]]]]]]. cbv zeta in Hm1.
  apply merge_left_Some in Hm2.
  destruct Hm2 as [lk2 [_ [Hlk2 _]]].
  remember (left_pairs (map (fun c0 : cell => [c0]) lk1) (map (fun c0 : cell => [c0]) rk1))
    as pairs1 eqn:Hp. clear Hp.
  unfold drop_cols_raise in Hd1.
  destruct (forallb (has_col m1) ["id"]); [|discriminate].
  inversion Hd1. clear Hd1.
  assert (Hin : In (c, sp) producto_enriq) by (apply get_col_In_pair; assumption).
  assert (Hcm : c <> "_merge").
  { intros ->. apply In_has_col in Hin. congruence. }
  set (s1 := map (fun p : option nat * option nat => take sp (snd p)) pairs1).
  assert (Hin1 : In (c, s1) e1).
  { assert (Hr := @In_rename_col "_merge" "event+producto" d1 c s1).
    apply String.eqb_neq in Hcm. rewrite Hcm in Hr. apply Hr. subst d1.
    apply In_drop_cols.
    - rewrite Hm1. apply in_or_app. right. apply in_or_app. left.
      apply in_map_iff. exists (c, sp). split; [|assumption]. cbn [fst snd].
      rewrite suffixed_absent by assumption. reflexivity.
    - cbn [existsb]. apply String.eqb_neq in Hid. rewrite Hid. reflexivity. }
  assert (Hg1 : get_col e1 c = Some s1) by (apply NoDup_get_col; assumption).
  assert (Hck : ~ In c keys).
  { intros [<- | [<- | []]]; apply Hev; apply has_col_In; apply get_col_has_col; eauto. }
  exists s1. split; [assumption|]. split.
  { intros x Hx. unfold s1 in Hx. apply in_map_iff in Hx. destruct Hx as [p [<- _]].
    destruct (snd p) as [j|]; cbn [take]; [|left; reflexivity].
    destruct (nth_in_or_default j sp NA) as [Hj | ->]; [right; assumption | left; reflexivity]. }
  assert (Hc3 : In c (columns e3)).
  { rewrite Hformula. apply in_or_app. left.
    apply (columns_In _ _ Hin1). }
  apply has_col_In, get_col_has_col in Hc3. destruct Hc3 as [s3 Hs3].
  exists s3. split; [assumption|].
  apply (@merge_outer_left_col e1 right e3 keys c s1 s3 Hout Hdisj Hg1 Hck Hs3).
Qed.

Ltac nodup_strings :=
  repeat (constructor;
          [ let H := fresh "H" in
            simpl; intros H; repeat (destruct H as [H | H]; [discriminate H|]); exact H |]);
  constructor.

Lemma merge_events_unified_columns_witness :
  merge_events_with_entities events_example producto_enriq_example cliente_clean_example
    = Some (events1_example, events2_example, eventos3_example) /\
  columns eventos3_example
    = ["visitorid"; "event"; "itemid"; "fecha"; "nombre"; "precio"; "marca";
       "event+producto"; "edad"; "event+cliente"] /\
  exists s3, get_col eventos3_example "nombre" = Some s3 /\
    forall x, In x s3 -> x = NA \/ In x [Str "P5"; Str "P7"].
Proof.
  split; [reflexivity|].
  assert (Hn1 : NoDup (columns events1_example)) by nodup_strings.
  assert (Hn2 : NoDup (columns events2_example)) by nodup_strings.
  destruct (@merge_events_unified_columns events_example producto_enriq_example
              cliente_clean_example events1_example events2_example eventos3_example
              eq_refl Hn1 Hn2)
    as [Hcols [_ Hprod]].
  split; [exact Hcols|].
  assert (Hev : ~ In "nombre" (columns events_example)).
  { simpl. intros H. repeat (destruct H as [H | H]; [discriminate H|]). destruct H. }
  destruct (Hprod "nombre" [Str "P5"; Str "P7"] eq_refl ltac:(discriminate) Hev)
    as [s [_ [Hs [s3 [Hs3 Hx]]]]].
  exists s3. split; [exact Hs3|].
  intros x Hin. destruct (Hx x Hin) as [-> | Hin']; [left; reflexivity|]. apply Hs. assumption.
Defined.

(** ** When [prepare_producto] raises *)

Lemma has_col_columns (df df' : DataFrame) (c : string) :
  columns df' = columns df -> has_col df' c = has_col df c.
Proof. unfold has_col. intros ->. reflexivity. Qed.

Lemma update_col_runs (col : string) (f : Series -> Series) (df : DataFrame) :
  has_col df col = true ->
  exists out, update_col col f df = Some out /\ columns out = columns df /\
    forall c, String.eqb c col = false -> get_col out c = get_col df c.
Proof.
  intros H. apply get_col_has_col in H. destruct H as [s Hs].
  exists (set_col col (f s) df). unfold update_col. rewrite Hs. cbn [bind].
  split; [reflexivity|]. split.
  - apply (columns_set_col_present _ _ _ Hs).
  - intros c Hc. apply get_col_set_col_other. assumption.
Qed.

Lemma groupby_transform_runs (df : DataFrame) (by_cols : list string) (target_col : string)
    (agg : Series -> cell) :
  (forall c, In c by_cols -> has_col df c = true) -> has_col df target_col = true ->
  exists out, groupby_transform df by_cols target_col agg = Some out.
Proof.
  intros Hby Ht. unfold groupby_transform.
  destruct (mapM (get_col df) by_cols) as [keys|] eqn:Ek.
  - apply get_col_has_col in Ht. destruct Ht as [t Ht]. rewrite Ht. cbn [bind]. eauto.
  - apply mapM_get_col_None in Ek. destruct Ek as [c [Hc Hn]].
    apply has_col_get_col_None in Hn. rewrite (Hby c Hc) in Hn. discriminate.
Qed.

Section ProductRuns.
Context {P : Pandas}.
Variables other_brand_id other_cat_id : Z.

Lemma columns_coerce_numeric (df : DataFrame) : columns (coerce_numeric df) = columns df.
Proof.
  unfold coerce_numeric. cbn [fold_left]. rewrite !columns_update_if_present. reflexivity.
Qed.

Lemma columns_staged (producto : DataFrame) :
  columns (coerce_numeric (drop_duplicates producto)) = columns producto.
Proof.
  rewrite columns_coerce_numeric. unfold drop_duplicates. apply columns_filter_rows.
Qed.

Lemma drop_unusable_runs (df : DataFrame) :
  has_col df "categoria_id" = true -> has_col df "volumen" = true ->
  exists out, drop_unusable df = Some out /\ columns out = columns df.
Proof.
  intros Hc Hv. apply get_col_has_col in Hc, Hv.
  destruct Hc as [c Hc]. destruct Hv as [v Hv].
  unfold drop_unusable. rewrite Hc, Hv. cbn [bind].
  eexists. split; [reflexivity|]. apply columns_filter_rows.
Qed.

Lemma impute_precio_runs (df : DataFrame) :
  has_col df "categoria_id" = true -> has_col df "volumen" = true ->
  has_col df "precio" = true ->
  exists out, impute_precio df = Some out /\ columns out = columns df /\
    forall c, String.eqb c "precio" = false -> get_col out c = get_col df c.
Proof.
  intros Hc Hv Hp. unfold impute_precio.
  destruct (@groupby_transform_runs df ["categoria_id"; "volumen"] "precio" median)
    as [g1 Hg1]; [intros c [<- | [<- | []]]; assumption | assumption |].
  rewrite Hg1. cbn [bind].
  destruct (@update_col_runs "precio" (fun s => fillna_with s g1) df Hp)
    as [d1 [E1 [C1 G1]]].
  rewrite E1. cbn [bind].
  destruct (@update_col_runs "precio" (map (replace_value (Int 0) NA)) d1)
    as [d2 [E2 [C2 G2]]]; [rewrite (@has_col_columns _ _ _ C1); assumption|].
  rewrite E2. cbn [bind].
  destruct (@groupby_transform_runs d2 ["volumen"] "precio" median)
    as [g2 Hg2];
    [intros c [<- | []]; rewrite (@has_col_columns _ _ _ C2), (@has_col_columns _ _ _ C1); assumption
    | rewrite (@has_col_columns _ _ _ C2), (@has_col_columns _ _ _ C1); assumption |].
  rewrite Hg2. cbn [bind].
  destruct (@update_col_runs "precio" (fun s => fillna_with s g2) d2)
    as [d3 [E3 [C3 G3]]];
    [rewrite (@has_col_columns _ _ _ C2), (@has_col_columns _ _ _ C1); assumption|].
  rewrite E3. cbn [bind].
  destruct (@update_col_runs "precio" (fun s => fillna (median s) s) d3)
    as [d4 [E4 [C4 G4]]];
    [rewrite (@has_col_columns _ _ _ C3), (@has_col_columns _ _ _ C2), (@has_col_columns _ _ _ C1);
     assumption|].
  exists d4. split; [assumption|]. split; [congruence|].
  intros c Hne. rewrite G4, G3, G2, G1 by assumption. reflexivity.
Qed.

Lemma both_na_to_other_runs (df : DataFrame) :
  has_col df "marca_id" = true -> has_col df "categoria_id" = true ->
  exists out, both_na_to_other other_brand_id other_cat_id df = Some out /\
    columns out = columns df /\
    forall c, String.eqb c "marca_id" = false -> String.eqb c "categoria_id" = false ->
      get_col out c = get_col df c.
Proof.
  intros Hm Hc. apply get_col_has_col in Hm, Hc.
  destruct Hm as [m Hm]. destruct Hc as [c Hc].
  unfold both_na_to_other. rewrite Hm, Hc. cbn [bind].
  destruct (existsb _ _).
  - eexists. split; [reflexivity|]. split.
    + rewrite columns_set_col_present with (s' := c)
        by (rewrite get_col_set_col_other by reflexivity; assumption).
      apply (columns_set_col_present _ _ _ Hm).
    + intros c' H1 H2. rewrite !get_col_set_col_other by assumption. reflexivity.
  - exists df. split; [reflexivity|]. split; reflexivity.
Qed.

Lemma categoria_by_mode_runs (df : DataFrame) :
  has_col df "marca_id" = true -> has_col df "volumen" = true ->
  has_col df "categoria_id" = true ->
  exists out, categoria_by_mode other_cat_id df = Some out /\ columns out = columns df /\
    forall c, String.eqb c "categoria_id" = false -> get_col out c = get_col df c.
Proof.
  intros Hm Hv Hc. unfold categoria_by_mode.
  assert (Hg : exists g, group_mode_transform df ["marca_id"; "volumen"] "categoria_id"
                         = Some g).
  { unfold group_mode_transform.
    destruct (@groupby_transform_runs df ["marca_id"; "volumen"] "categoria_id" first_mode)
      as [g Hg]; [intros c [<- | [<- | []]]; assumption | assumption |].
    rewrite Hg. unfold groupby_transform in Hg.
    destruct (mapM (get_col df) ["marca_id"; "volumen"]); [|discriminate].
    cbn [bind]. destruct (forallb _ _); eauto. }
  destruct Hg as [g Hg]. rewrite Hg. cbn [bind].
  destruct (@update_col_runs "categoria_id" (fun s => fillna_with s g) df Hc)
    as [d1 [E1 [C1 G1]]].
  rewrite E1. cbn [bind].
  destruct (@update_col_runs "categoria_id" (fillna (Int other_cat_id)) d1)
    as [d2 [E2 [C2 G2]]]; [rewrite (@has_col_columns _ _ _ C1); assumption|].
  exists d2. split; [assumption|]. split; [congruence|].
  intros c Hne. rewrite G2, G1 by assumption. reflexivity.
Qed.

(** With a fill value the cast raises exactly on an infinite entry. *)
Lemma safe_int_cast_fill_raises (s : Series) (f : Z) :
  safe_int_cast (map to_numeric s) (Some f) = None <->
  exists x, In x s /\ infinite (to_numeric x) = true.
Proof.
  split.
  - intros H. destruct (existsb (fun x => infinite (to_numeric x)) s) eqn:E.
    + apply existsb_exists in E. exact E.
    + exfalso.
      destruct (safe_int_cast_fill_total (map to_numeric s) f) as [out Hout];
        [|congruence].
      intros c Hc. apply in_map_iff in Hc. destruct Hc as [x [<- Hx]].
      rewrite to_numeric_idem.
      destruct (infinite (to_numeric x)) eqn:Ex; [|reflexivity].
      assert (existsb (fun x => infinite (to_numeric x)) s = true); [|congruence].
      apply existsb_exists. eauto.
  - intros [x [Hx Hi]].
    apply (@safe_int_cast_infinite _ (map to_numeric s) (Some f) (to_numeric x)).
    + apply in_map. assumption.
    + rewrite to_numeric_idem. assumption.
Qed.

(** With its four columns there, the final casts raise in the cast of "id",
    the one without a fill value, and on an infinite key. *)
Lemma final_casts_runs (df : DataFrame) (ids cat marca : Series) :
  get_col df "id" = Some ids ->
  get_col df "categoria_id" = Some cat -> get_col df "marca_id" = Some marca ->
  has_col df "nombre" = true ->
  (final_casts other_brand_id other_cat_id df = None <->
   safe_int_cast (map to_numeric ids) None = None \/
   (exists x, In x cat /\ infinite (to_numeric x) = true) \/
   (exists x, In x marca /\ infinite (to_numeric x) = true)).
Proof.
  intros Hid Hc Hm Hn. unfold final_casts. rewrite Hid. cbn [bind].
  destruct (safe_int_cast (map to_numeric ids) None) as [ids'|] eqn:Ei; cbn [bind];
    [|split; auto].
  rewrite get_col_set_col_other by reflexivity. rewrite Hc. cbn [bind].
  destruct (safe_int_cast (map to_numeric cat) (Some other_cat_id)) as [c'|] eqn:Ec;
    cbn [bind].
  2:{ split; [|reflexivity]. intros _. right. left.
      apply safe_int_cast_fill_raises in Ec. assumption. }
  rewrite !get_col_set_col_other by reflexivity. rewrite Hm. cbn [bind].
  destruct (safe_int_cast (map to_numeric marca) (Some other_brand_id)) as [m'|] eqn:Em;
    cbn [bind].
  2:{ split; [|reflexivity]. intros _. right. right.
      apply safe_int_cast_fill_raises in Em. assumption. }
  split.
  - intros H. exfalso.
    match type of H with
    | update_col "nombre" ?f ?d = None =>
        destruct (@update_col_runs "nombre" f d) as [o [Eo _]]
    end; [|congruence].
    assert (G1 : get_col (set_col "id" ids' df) "categoria_id" = Some cat)
      by (rewrite get_col_set_col_other by reflexivity; assumption).
    assert (G2 : get_col (set_col "categoria_id" c' (set_col "id" ids' df)) "marca_id"
                 = Some marca)
      by (rewrite !get_col_set_col_other by reflexivity; assumption).
    unfold has_col.
    rewrite (@columns_set_col_present "marca_id" m' marca _ G2).
    rewrite (@columns_set_col_present "categoria_id" c' cat _ G1).
    rewrite (@columns_set_col_present "id" ids' ids _ Hid). exact Hn.
  - intros [H | [H | H]]; exfalso; [discriminate| |].
    + apply (safe_int_cast_fill_raises cat other_cat_id) in H. congruence.
    + apply (safe_int_cast_fill_raises marca other_brand_id) in H. congruence.
Qed.

Lemma prepare_producto_runs (producto : DataFrame) :
  rectangular producto ->
  (forall c, In c ["id"; "nombre"; "volumen"; "precio"; "categoria_id"; "marca_id"] ->
     has_col producto c = true) ->
  exists staged ids cat marca,
    drop_unusable (coerce_numeric (drop_duplicates producto)) = Some staged /\
    get_col staged "id" = Some ids /\
    get_col staged "categoria_id" = Some cat /\
    get_col staged "marca_id" = Some marca /\
    (prepare_producto producto other_brand_id other_cat_id = None <->
     safe_int_cast (map to_numeric ids) None = None \/
     (exists x, In x cat /\ infinite x = true) \/
     (exists x, In x marca /\ infinite x = true)).
Proof.
  intros Hrect Hall.
  assert (H0 : forall c, In c ["id"; "nombre"; "volumen"; "precio"; "categoria_id"; "marca_id"] ->
            has_col (coerce_numeric (drop_duplicates producto)) c = true).
  { intros c Hc. rewrite (@has_col_columns _ _ _ (columns_staged producto)).
    apply Hall. assumption. }
  destruct (@drop_unusable_runs (coerce_numeric (drop_duplicates producto)))
    as [staged [E1 C1]]; [apply H0; simpl; tauto | apply H0; simpl; tauto |].
  assert (H1 : forall c, In c ["id"; "nombre"; "volumen"; "precio"; "categoria_id"; "marca_id"] ->
            has_col staged c = true).
  { intros c Hc. rewrite (@has_col_columns _ _ _ C1). apply H0. assumption. }
  destruct (@impute_precio_runs staged) as [p2 [E2 [C2 G2]]];
    [apply H1; simpl; tauto | apply H1; simpl; tauto | apply H1; simpl; tauto |].
  assert (H2 : forall c, In c ["id"; "nombre"; "volumen"; "precio"; "categoria_id"; "marca_id"] ->
            has_col p2 c = true).
  { intros c Hc. rewrite (@has_col_columns _ _ _ C2). apply H1. assumption. }
  destruct (@both_na_to_other_runs p2) as [p3 [E3 [C3 G3]]];
    [apply H2; simpl; tauto | apply H2; simpl; tauto |].
  assert (H3 : forall c, In c ["id"; "nombre"; "volumen"; "precio"; "categoria_id"; "marca_id"] ->
            has_col p3 c = true).
  { intros c Hc. rewrite (@has_col_columns _ _ _ C3). apply H2. assumption. }
  destruct (@categoria_by_mode_runs p3) as [p4 [E4 [C4 G4]]];
    [apply H3; simpl; tauto | apply H3; simpl; tauto | apply H3; simpl; tauto |].
  assert (H4 : forall c, In c ["id"; "nombre"; "volumen"; "precio"; "categoria_id"; "marca_id"] ->
            has_col p4 c = true).
  { intros c Hc. rewrite (@has_col_columns _ _ _ C4). apply H3. assumption. }
  assert (Hid : has_col staged "id" = true) by (apply H1; simpl; tauto).
  apply get_col_has_col in Hid. destruct Hid as [ids Hid].
  assert (Hid4 : get_col p4 "id" = Some ids).
  { rewrite G4, G3, G2 by reflexivity. assumption. }
  (* the keys, stage by stage *)
  pose proof (@staged_shape _ producto staged E1 Hrect) as Rs.
  destruct (@impute_precio_shape staged p2 E2 Rs) as [Ri Ni].
  destruct (@both_na_to_other_rows other_brand_id other_cat_id p2 p3 E3 Ri)
    as [m0 [c0 [m1 [c1 [Hm0 [Hc0 [Hm1 [Hc1 [Rb [Nb [_ Hrow]]]]]]]]]]].
  destruct (@categoria_by_mode_rows other_cat_id p3 p4 E4 Rb)
    as [c1' [modes [c2 [Hc1' [_ [Hc2 [Ry [Ny [_ Hrow2]]]]]]]]].
  rewrite Hc1 in Hc1'. inversion Hc1'. subst c1'. clear Hc1'.
  rewrite G2 in Hm0, Hc0 by reflexivity.
  assert (Hm4 : get_col p4 "marca_id" = Some m1)
    by (rewrite G4 by reflexivity; assumption).
  destruct (producto_staged _ E1) as [k1 [k2 Hst]].
  destruct (@staged_column _ _ _ _ _ "categoria_id" _ Hst eq_refl Hc0) as [rawc [_ Hc0_cell]].
  destruct (@staged_column _ _ _ _ _ "marca_id" _ Hst eq_refl Hm0) as [rawm [_ Hm0_cell]].
  destruct (both_na_to_other_spec _ _ _ E3)
    as [m0' [c0' [m1' [c1' [Hm0' [Hc0' [Hm1' [Hc1' [Hm1_in [Hc1_in _]]]]]]]]]].
  rewrite G2 in Hm0', Hc0' by reflexivity.
  rewrite Hm0 in Hm0'. rewrite Hc0 in Hc0'. rewrite Hm1 in Hm1'. rewrite Hc1 in Hc1'.
  inversion Hm0'. inversion Hc0'. inversion Hm1'. inversion Hc1'.
  subst m0' c0' m1' c1'. clear Hm0' Hc0' Hm1' Hc1'.
  destruct (categoria_by_mode_spec _ _ E4) as [c1' [c2' [Hc1' [Hc2' [Hc2_in _]]]]].
  rewrite Hc1 in Hc1'. rewrite Hc2 in Hc2'. inversion Hc1'. inversion Hc2'.
  subst c1' c2'. clear Hc1' Hc2'.
  pose proof (rectangular_get_col _ Rs Hc0) as Lc0.
  pose proof (rectangular_get_col _ Rs Hm0) as Lm0.
  pose proof (rectangular_get_col _ Rb Hc1) as Lc1.
  pose proof (rectangular_get_col _ Rb Hm1) as Lm1.
  pose proof (rectangular_get_col _ Ry Hc2) as Lc2.
  assert (Kc : (exists x, In x c2 /\ infinite (to_numeric x) = true) <->
               (exists x, In x c0 /\ infinite x = true)).
  { split; intros [x [Hx Hi]].
    - exists x. destruct (Hc2_in x Hx) as [-> | [Hx1 | [q [-> _]]]]; try discriminate.
      destruct (Hc1_in x Hx1) as [-> | Hx0]; [discriminate|].
      split; [assumption|].
      destruct (Hc0_cell x Hx0) as [-> | [[q [Hq _]] | [b ->]]];
        [discriminate | | reflexivity].
      destruct x; discriminate.
    - destruct x; try discriminate.
      destruct (In_nth _ _ NA Hx) as [i [Hi0 Hn]].
      exists (Inf negative). split; [|reflexivity].
      destruct (Hrow i ltac:(lia)) as [_ Ec1]. rewrite Hn, andb_false_r in Ec1.
      pose proof (Hrow2 i ltac:(lia)) as Ec2. rewrite Ec1 in Ec2. simpl in Ec2.
      rewrite <- Ec2. apply nth_In. lia. }
  assert (Km : (exists x, In x m1 /\ infinite (to_numeric x) = true) <->
               (exists x, In x m0 /\ infinite x = true)).
  { split; intros [x [Hx Hi]].
    - exists x. destruct (Hm1_in x Hx) as [-> | Hx0]; [discriminate|].
      split; [assumption|].
      destruct (Hm0_cell x Hx0) as [-> | [[q [Hq _]] | [b ->]]];
        [discriminate | | reflexivity].
      destruct x; discriminate.
    - destruct x; try discriminate.
      destruct (In_nth _ _ NA Hx) as [i [Hi0 Hn]].
      exists (Inf negative). split; [|reflexivity].
      destruct (Hrow i ltac:(lia)) as [Em1 _]. rewrite Hn in Em1. simpl in Em1.
      rewrite <- Em1. apply nth_In. lia. }
  exists staged, ids, c0, m0.
  split; [assumption|]. split; [assumption|]. split; [assumption|]. split; [assumption|].
  unfold prepare_producto. cbv zeta.
  rewrite E1. cbn [bind]. rewrite E2. cbn [bind]. rewrite E3. cbn [bind].
  rewrite E4. cbn [bind].
  rewrite (@final_casts_runs p4 ids c2 m1 Hid4 Hc2 Hm4 ltac:(apply H4; simpl; tauto)).
  rewrite Kc, Km. reflexivity.
Qed.

Lemma prepare_producto_columns_needed (producto out : DataFrame) (c : string) :
  prepare_producto producto other_brand_id other_cat_id = Some out ->
  In c ["id"; "nombre"; "volumen"; "precio"; "categoria_id"; "marca_id"] ->
  has_col producto c = true.
Proof.
  intros H Hc. unfold prepare_producto in H. cbv zeta in H.
  apply bind_Some in H. destruct H as [staged [Hstaged H]].
  apply bind_Some in H. destruct H as [imp [Himp H]].
  apply bind_Some in H. destruct H as [both [Hboth H]].
  apply bind_Some in H. destruct H as [bym [Hbym H]].
  (* the column names stay *)
  assert (C1 : columns staged = columns producto).
  { unfold drop_unusable in Hstaged.
    apply bind_Some in Hstaged. destruct Hstaged as [cc [_ Hstaged]].
    apply bind_Some in Hstaged. destruct Hstaged as [vv [_ Hstaged]].
    inversion Hstaged. rewrite columns_filter_rows. apply columns_staged. }
  assert (C2 : columns imp = columns staged).
  { unfold impute_precio in Himp.
    apply bind_Some in Himp. destruct Himp as [g1 [_ Himp]].
    apply bind_Some in Himp. destruct Himp as [d1 [U1 Himp]].
    apply bind_Some in Himp. destruct Himp as [d2 [U2 Himp]].
    apply bind_Some in Himp. destruct Himp as [g2 [_ Himp]].
    apply bind_Some in Himp. destruct Himp as [d3 [U3 Himp]].
    rewrite (@columns_update_col _ _ _ _ Himp), (@columns_update_col _ _ _ _ U3),
      (@columns_update_col _ _ _ _ U2), (@columns_update_col _ _ _ _ U1). reflexivity. }
  assert (C3 : columns both = columns imp).
  { unfold both_na_to_other in Hboth.
    apply bind_Some in Hboth. destruct Hboth as [m [Hm Hboth]].
    apply bind_Some in Hboth. destruct Hboth as [k [Hk Hboth]].
    destruct (existsb _ _); inversion Hboth; [|reflexivity].
    rewrite columns_set_col_present with (s' := k)
      by (rewrite get_col_set_col_other by reflexivity; assumption).
    apply (columns_set_col_present _ _ _ Hm). }
  assert (C4 : columns bym = columns both).
  { unfold categoria_by_mode in Hbym.
    apply bind_Some in Hbym. destruct Hbym as [g [_ Hbym]].
    apply bind_Some in Hbym. destruct Hbym as [d1 [U1 Hbym]].
    rewrite (@columns_update_col _ _ _ _ Hbym), (@columns_update_col _ _ _ _ U1).
    reflexivity. }
  (* every stage names its columns *)
  assert (S1 : has_col staged "categoria_id" = true /\ has_col staged "volumen" = true).
  { rewrite !(@has_col_columns _ _ _ C1), <- !(@has_col_columns _ _ _ (columns_staged producto)).
    unfold drop_unusable in Hstaged.
    apply bind_Some in Hstaged. destruct Hstaged as [cc [Hcc Hstaged]].
    apply bind_Some in Hstaged. destruct Hstaged as [vv [Hvv _]].
    split; apply get_col_has_col; eauto. }
  assert (S2 : has_col staged "precio" = true).
  { unfold impute_precio in Himp.
    apply bind_Some in Himp. destruct Himp as [g1 [Hg1 _]].
    apply groupby_transform_rows in Hg1. destruct Hg1 as [keys [target [_ [Ht _]]]].
    apply get_col_has_col. eauto. }
  assert (S3 : has_col imp "marca_id" = true).
  { unfold both_na_to_other in Hboth.
    apply bind_Some in Hboth. destruct Hboth as [m [Hm _]].
    apply get_col_has_col. eauto. }
  assert (S4 : has_col bym "id" = true /\ has_col bym "nombre" = true).
  { unfold final_casts in H.
    apply bind_Some in H. destruct H as [i0 [Hi0 H]].
    apply bind_Some in H. destruct H as [i1 [_ H]].
    apply bind_Some in H. destruct H as [c0 [_ H]].
    apply bind_Some in H. destruct H as [c1 [_ H]].
    apply bind_Some in H. destruct H as [m0 [_ H]].
    apply bind_Some in H. destruct H as [m1 [_ H]].
    apply update_col_Some in H. destruct H as [n0 [Hn0 _]].
    rewrite !get_col_set_col_other in Hn0 by reflexivity.
    split; apply get_col_has_col; eauto. }
  destruct S1 as [S1 S1']. destruct S4 as [S4 S4'].
  assert (Hsame : forall c', has_col bym c' = has_col producto c'
                             /\ has_col imp c' = has_col producto c'
                             /\ has_col staged c' = has_col producto c').
  { intros c'. unfold has_col. rewrite C4, C3, C2, C1. auto. }
  rewrite (proj2 (proj2 (Hsame _))) in S1.
  rewrite (proj2 (proj2 (Hsame _))) in S1'.
  rewrite (proj2 (proj2 (Hsame _))) in S2.
  rewrite (proj1 (proj2 (Hsame _))) in S3.
  rewrite (proj1 (Hsame _)) in S4.
  rewrite (proj1 (Hsame _)) in S4'.
  simpl in Hc.
  destruct Hc as [<- | [<- | [<- | [<- | [<- | [<- | []]]]]]]; assumption.
Qed.

Lemma forallb_false {A : Type} (f : A -> bool) (l : list A) :
  forallb f l = false -> exists a, In a l /\ f a = false.
Proof.
  induction l as [|a l IH]; simpl; [discriminate|].
  destruct (f a) eqn:E; simpl.
  - intros H. destruct (IH H) as [b [Hb Hf]]. eauto.
  - intros _. eauto.
Qed.

(** X20.  On a rectangular product table, with sentinels and with ids and
    keys of a magnitude below 2^53, [prepare_producto] raises in three cases
    only: one of the columns "id", "nombre", "volumen", "precio",
    "categoria_id", "marca_id" is not there; or the cast of "id", the one
    cast without a fill value, raises on the rows that are left after the
    duplicated and the unusable rows are gone; or a categoria_id or a
    marca_id of those rows is infinite, which the casts with a fill value
    refuse.  The imputation of the prices and the inference of the
    categories never raise. *)
Theorem prepare_producto_raises (producto : DataFrame) :
  rectangular producto ->
  exact_int other_brand_id -> exact_int other_cat_id ->
  exact_column producto "id" -> exact_column producto "categoria_id" ->
  exact_column producto "marca_id" ->
  (prepare_producto producto other_brand_id other_cat_id = None <->
   (exists c, In c ["id"; "nombre"; "volumen"; "precio"; "categoria_id"; "marca_id"] /\
      get_col producto c = None) \/
   (exists staged ids,
      drop_unusable (coerce_numeric (drop_duplicates producto)) = Some staged /\
      get_col staged "id" = Some ids /\
      safe_int_cast (map to_numeric ids) None = None) \/
   (exists staged c keys x,
      drop_unusable (coerce_numeric (drop_duplicates producto)) = Some staged /\
      In c ["categoria_id"; "marca_id"] /\ get_col staged c = Some keys /\
      In x keys /\ infinite x = true)).
Proof.
  intros Hrect _ _ _ _ _. split.
  - intros Hnone.
    destruct (forallb (has_col producto)
                ["id"; "nombre"; "volumen"; "precio"; "categoria_id"; "marca_id"]) eqn:E.
    + right.
      assert (Hall : forall c,
                In c ["id"; "nombre"; "volumen"; "precio"; "categoria_id"; "marca_id"] ->
                has_col producto c = true).
      { intros c Hc. apply (proj1 (forallb_forall _ _) E c Hc). }
      destruct (prepare_producto_runs Hrect Hall)
        as [staged [ids [cat [marca [Hs [Hi [Hc [Hm Hiff]]]]]]]].
      destruct (proj1 Hiff Hnone) as [H | [[x [Hx Hinf]] | [x [Hx Hinf]]]].
      * left. exists staged, ids. auto.
      * right. exists staged, "categoria_id", cat, x. simpl. auto 7.
      * right. exists staged, "marca_id", marca, x. simpl. auto 7.
    + left. apply forallb_false in E. destruct E as [c [Hc Hf]].
      exists c. split; [assumption|]. apply has_col_get_col_None. assumption.
  - intros Hcause.
    destruct (prepare_producto producto other_brand_id other_cat_id) as [out|] eqn:E;
      [exfalso | reflexivity].
    assert (Hall : forall c,
              In c ["id"; "nombre"; "volumen"; "precio"; "categoria_id"; "marca_id"] ->
              has_col producto c = true).
    { intros c Hc. apply (@prepare_producto_columns_needed producto out c E Hc). }
    destruct (prepare_producto_runs Hrect Hall)
      as [staged' [ids' [cat [marca [Hs' [Hi' [Hc' [Hm' Hiff]]]]]]]].
    assert (Hno : prepare_producto producto other_brand_id other_cat_id = None);
      [|congruence].
    apply Hiff.
    destruct Hcause as [[c [Hc Hn]] | [[staged [ids [Hs [Hi Hcast]]]]
                                      | [staged [c [keys [x [Hs [Hc [Hk [Hx Hinf]]]]]]]]]].
    + apply has_col_get_col_None in Hn. rewrite (Hall c Hc) in Hn. discriminate.
    + rewrite Hs in Hs'. inversion Hs'. subst staged'.
      rewrite Hi in Hi'. inversion Hi'. subst ids'. left. assumption.
    + rewrite Hs in Hs'. inversion Hs'. subst staged'.
      destruct Hc as [<- | [<- | []]].
      * rewrite Hk in Hc'. inversion Hc'. subst cat. right. left. eauto.
      * rewrite Hk in Hm'. inversion Hm'. subst marca. right. right. eauto.
Qed.

End ProductRuns.

Ltac exact_by_cases :=
  let s := fresh "s" in let Hs := fresh "Hs" in let x := fresh "x" in
  let Hx := fresh "Hx" in let q := fresh "q" in let Hq := fresh "Hq" in
  intros s Hs x Hx q Hq; inversion Hs; subst s; simpl in Hx;
  repeat (destruct Hx as [<-|Hx];
          [vm_compute in Hq;
           first [discriminate Hq | injection Hq as <-; split; reflexivity]|]);
  destruct Hx.

Lemma producto_infinite_rectangular : rectangular producto_infinite.
Proof. intros cs H. simpl in H. repeat (destruct H as [<- | H]; [reflexivity|]). destruct H. Qed.

Lemma prepare_producto_raises_witness :
  @prepare_producto run_pandas producto_infinite 3 3 = None.
Proof.
  assert (H3 : exact_int 3) by reflexivity.
  assert (Hi : @exact_column run_pandas producto_infinite "id") by exact_by_cases.
  assert (Hc : @exact_column run_pandas producto_infinite "categoria_id") by exact_by_cases.
  assert (Hm : @exact_column run_pandas producto_infinite "marca_id") by exact_by_cases.
  apply (proj2 (@prepare_producto_raises run_pandas 3 3 producto_infinite
                  producto_infinite_rectangular H3 H3 Hi Hc Hm)).
  right. right. eexists. exists "categoria_id", [Inf false], (Inf false).
  split; [reflexivity|]. split; [simpl; auto|]. split; [reflexivity|].
  split; [left; reflexivity | reflexivity].
Defined.
